(** * UK bookkeeping engine: ledger, invoice posting and tax calculators

    A shallow embedding of the Python sources

      - [src/data/database.py]    (the JSON-backed store),
      - [src/core/ledger.py]      (the dict-based posting engine),
      - [src/core/account.py]     (the [Account] class),
      - [src/core/transaction.py] ([Transaction], [TransactionManager]),
      - [src/core/invoice.py]     ([InvoiceItem], [Invoice], [InvoiceManager]),
      - [src/core/tax.py]         ([IncomeTaxReturn], [TaxManager]),
      - [src/hmrc/corporate_tax.py], [src/hmrc/income_tax.py],

    followed by the properties established about them.

    Conventions of the embedding.

    - A Python number ([int] or [float]) is an exact rational of [Q]; the
      binary rounding of [float] arithmetic is not modelled.  Equalities
      between amounts are therefore stated with [==].
    - A [Decimal] that has been through [quantize(Decimal('0.01'),
      ROUND_HALF_UP)] is held as its integer number of hundredths, in [Z].
    - A Python [dict] with a fixed set of keys is a record of [option]
      fields; [None] means that the key is absent.
    - The transaction dicts kept by the store are Python objects: the store
      keeps references to them, so they live in an explicit [heap] and the
      transaction list holds addresses.
    - An exception is an [outcome]; the state reached when it is raised is
      kept, as in Python. *)

From Stdlib Require Import ZArith QArith Qround Qabs List String Ascii Bool Lia Lqa.
From Stdlib Require Import Setoid Morphisms DecimalString.
Import ListNotations.

Open Scope Q_scope.

(* ================================================================== *)
(** * Python values shared by all modules                              *)
(* ================================================================== *)

(** Exceptions raised by the modelled code. *)
Inductive exn : Type :=
| ValueError (msg : string)
| KeyError (key : string).

Inductive outcome (A : Type) : Type :=
| Return (a : A)
| Raise (e : exn).
Arguments Return {A} a.
Arguments Raise {A} e.

(** The value stored under the key ["id"]: the store hands out integers,
    [Transaction] objects carry uuid strings, and [dict.get] yields [None]
    for a missing key. *)
Inductive pyid : Type :=
| IdNone
| IdInt (n : Z)
| IdStr (s : string).

Definition pyid_eqb (a b : pyid) : bool :=
  match a, b with
  | IdNone, IdNone => true
  | IdInt n, IdInt m => Z.eqb n m
  | IdStr s, IdStr t => String.eqb s t
  | _, _ => false
  end.

(** [x > 0], [x == 0] and [x <= y] on Python numbers. *)
Definition Qpos_b (x : Q) : bool := negb (Qle_bool x 0).
Definition Qzero_b (x : Q) : bool := Qeq_bool x 0.
Definition Qlt_b (x y : Q) : bool := negb (Qle_bool y x).

(** [max(a, b)] and [min(a, b)] of Python: the first argument wins a tie. *)
Definition py_max (a b : Q) : Q := if Qlt_b a b then b else a.
Definition py_min (a b : Q) : Q := if Qlt_b b a then b else a.

(** [round(x)] to the nearest integer, ties to the even neighbour. *)
Definition round_half_even (x : Q) : Z :=
  let f := Qfloor x in
  match Qcompare (x - inject_Z f) (1 # 2) with
  | Lt => f
  | Gt => (f + 1)%Z
  | Eq => if Z.even f then f else (f + 1)%Z
  end.

(** [round(x, 2)] of Python on a number. *)
Definition py_round2 (x : Q) : Q := inject_Z (round_half_even (x * 100)) / 100.

(** [Decimal.quantize(Decimal('1'), rounding=ROUND_HALF_UP)]: nearest
    integer, ties away from zero. *)
Definition round_half_up (x : Q) : Z :=
  if Qle_bool 0 x then Qfloor (x + (1 # 2)) else Qceiling (x - (1 # 2)).

(** [Decimal(str(x)).quantize(Decimal('0.01'), rounding=ROUND_HALF_UP)],
    as a number of hundredths. *)
Definition quantize (x : Q) : Z := round_half_up (x * 100).

(** [float(d)] of a quantized [Decimal] [d]. *)
Definition of_cents (c : Z) : Q := inject_Z c / 100.

(** [not s] on a string. *)
Definition str_is_empty (s : string) : bool :=
  match s with EmptyString => true | _ => false end.

(** [s.startswith(p)]. *)
Definition startswith (p s : string) : bool := String.prefix p s.

(** Replace the element at position [i]; nothing happens out of range
    (the modelled code only writes at positions it has just found). *)
Fixpoint set_nth {A : Type} (i : nat) (x : A) (l : list A) : list A :=
  match l, i with
  | [], _ => []
  | _ :: tl, O => x :: tl
  | hd :: tl, S j => hd :: set_nth j x tl
  end.

(** [del l[i]]. *)
Fixpoint del_nth {A : Type} (i : nat) (l : list A) : list A :=
  match l, i with
  | [], _ => []
  | _ :: tl, O => tl
  | hd :: tl, S j => hd :: del_nth j tl
  end.

(** Position of the first element satisfying [p]
    ([for i, x in enumerate(l): if p(x): ...]). *)
Fixpoint find_index {A : Type} (p : A -> bool) (l : list A) : option nat :=
  match l with
  | [] => None
  | x :: tl => if p x then Some O else option_map S (find_index p tl)
  end.

(** [sum(l)] of Python numbers. *)
Definition Qsum (l : list Q) : Q := fold_left Qplus l 0.
Definition Zsum (l : list Z) : Z := fold_left Z.add l 0%Z.

(* ================================================================== *)
(** * The records kept by the store                                    *)
(* ================================================================== *)

(** One element of the list under the key ["entries"] of a transaction
    dict, as the reports of [Database] and the corporation-tax calculator
    read it. *)
Record entry : Type := mk_entry {
  e_account_code : option string;
  e_type : option string;
  e_amount : option Q
}.

(** A transaction dict, with the keys the engine reads or writes. *)
Record tdict : Type := mk_tdict {
  t_id : option pyid;
  t_date : option string;
  t_account : option string;
  t_debit : option Q;
  t_credit : option Q;
  t_vat : option Q;
  t_document_number : option string;
  t_description : option string;
  t_transaction_type : option string;
  t_status : option string;
  t_notes : option string;
  t_entries : option (list entry)
}.

(** The empty dict [{}]. *)
Definition empty_tdict : tdict :=
  mk_tdict None None None None None None None None None None None None.

(** [d[k] = v] for each key. *)
Definition set_id (v : pyid) (t : tdict) : tdict :=
  mk_tdict (Some v) (t_date t) (t_account t) (t_debit t) (t_credit t) (t_vat t)
    (t_document_number t) (t_description t) (t_transaction_type t) (t_status t) (t_notes t)
    (t_entries t).
Definition set_date (v : string) (t : tdict) : tdict :=
  mk_tdict (t_id t) (Some v) (t_account t) (t_debit t) (t_credit t) (t_vat t)
    (t_document_number t) (t_description t) (t_transaction_type t) (t_status t) (t_notes t)
    (t_entries t).
Definition set_account (v : string) (t : tdict) : tdict :=
  mk_tdict (t_id t) (t_date t) (Some v) (t_debit t) (t_credit t) (t_vat t)
    (t_document_number t) (t_description t) (t_transaction_type t) (t_status t) (t_notes t)
    (t_entries t).
Definition set_debit (v : Q) (t : tdict) : tdict :=
  mk_tdict (t_id t) (t_date t) (t_account t) (Some v) (t_credit t) (t_vat t)
    (t_document_number t) (t_description t) (t_transaction_type t) (t_status t) (t_notes t)
    (t_entries t).
Definition set_credit (v : Q) (t : tdict) : tdict :=
  mk_tdict (t_id t) (t_date t) (t_account t) (t_debit t) (Some v) (t_vat t)
    (t_document_number t) (t_description t) (t_transaction_type t) (t_status t) (t_notes t)
    (t_entries t).
Definition set_vat (v : Q) (t : tdict) : tdict :=
  mk_tdict (t_id t) (t_date t) (t_account t) (t_debit t) (t_credit t) (Some v)
    (t_document_number t) (t_description t) (t_transaction_type t) (t_status t) (t_notes t)
    (t_entries t).

(** [d.get(k, default)]. *)
Definition get_id (t : tdict) : pyid :=
  match t_id t with Some v => v | None => IdNone end.
Definition get_debit (t : tdict) : Q :=
  match t_debit t with Some v => v | None => 0 end.
Definition get_credit (t : tdict) : Q :=
  match t_credit t with Some v => v | None => 0 end.
Definition get_vat (t : tdict) : Q :=
  match t_vat t with Some v => v | None => 0 end.
Definition get_account (t : tdict) : string :=
  match t_account t with Some v => v | None => EmptyString end.
Definition get_date (t : tdict) : string :=
  match t_date t with Some v => v | None => EmptyString end.

Definition is_some {A : Type} (o : option A) : bool :=
  match o with Some _ => true | None => false end.

(** Truth value of a dict ([if not d]): only the empty dict is false. *)
Definition truthy (t : tdict) : bool :=
  is_some (t_id t) || is_some (t_date t) || is_some (t_account t)
  || is_some (t_debit t) || is_some (t_credit t) || is_some (t_vat t)
  || is_some (t_document_number t) || is_some (t_description t)
  || is_some (t_transaction_type t) || is_some (t_status t) || is_some (t_notes t)
  || is_some (t_entries t).

(** [t.get("debit", 0) - t.get("credit", 0)]. *)
Definition delta (t : tdict) : Q := get_debit t - get_credit t.

(** An account dict of the chart of accounts.  [Database.add_account]
    refuses a dict without ["code"], so the code is always there; the
    balance is read with [account.get("balance", 0)] and the key
    ["trading"], which the default chart does not set, with
    [account.get("trading", True)]. *)
Record adict : Type := mk_adict {
  a_code : string;
  a_name : string;
  a_type : string;
  a_category : string;
  a_vat_rate : Q;
  a_balance : option Q;
  a_trading : option bool
}.

Definition set_balance (v : Q) (a : adict) : adict :=
  mk_adict (a_code a) (a_name a) (a_type a) (a_category a) (a_vat_rate a) (Some v)
    (a_trading a).
Definition set_code (v : string) (a : adict) : adict :=
  mk_adict v (a_name a) (a_type a) (a_category a) (a_vat_rate a) (a_balance a)
    (a_trading a).
Definition get_balance (a : adict) : Q :=
  match a_balance a with Some v => v | None => 0 end.

(** The Python heap of transaction dicts together with the two lists of
    [Database.data] the engine works on.  [transactions] holds addresses
    into [heap]: appending a dict to the list does not copy it.  Account
    dicts are only ever changed through the entry that every lookup
    returns (the first one carrying the code), and are held by value. *)
Record world : Type := mk_world {
  heap : list tdict;
  transactions : list nat;
  chart_of_accounts : list adict
}.

Definition deref (w : world) (r : nat) : tdict := nth r (heap w) empty_tdict.

(** In-place update of the object at address [r]. *)
Definition store (r : nat) (t : tdict) (w : world) : world :=
  mk_world (set_nth r t (heap w)) (transactions w) (chart_of_accounts w).

(** The caller builds a new dict: it gets the next free address. *)
Definition alloc (t : tdict) (w : world) : world * nat :=
  (mk_world (heap w ++ [t]) (transactions w) (chart_of_accounts w), List.length (heap w)).

(** The transaction log as the list of dicts it currently designates. *)
Definition log (w : world) : list tdict := map (deref w) (transactions w).

(* ================================================================== *)
(** * [src/data/database.py]: class [Database]                         *)
(* ================================================================== *)

(** [Database.save] rewrites the JSON file from [self.data] and changes
    nothing in memory: it does not appear below. *)
Module Database.

Section Store.

(** [datetime.now().strftime("%Y-%m-%d")]. *)
Variable today : string.

(** [get_all_transactions]: the list itself, not a copy. *)
Definition get_all_transactions (w : world) : list nat := transactions w.

(** The loop of [add_transaction] looking for the highest integer id. *)
Definition max_id (w : world) : Z :=
  fold_left
    (fun m r =>
       match t_id (deref w r) with
       | Some (IdInt n) => if (n >? m)%Z then n else m
       | _ => m
       end)
    (transactions w) 0%Z.

(** [add_transaction(transaction)]: the argument is the address [r] of the
    caller's dict.  The dict is completed in place and its address is
    appended to the list. *)
Definition add_transaction (r : nat) (w : world) : world * pyid :=
  let t0 := deref w r in
  let t1 := match t_id t0 with
            | None => set_id (IdInt (max_id w + 1)) t0
            | Some _ => t0
            end in
  let t2 := match t_date t1 with
            | None => set_date today t1
            | Some _ => t1
            end in
  (mk_world (set_nth r t2 (heap w)) (transactions w ++ [r]) (chart_of_accounts w),
   get_id t2).

(** [update_transaction(transaction_id, updated_data)]. *)
Definition update_transaction (transaction_id : pyid) (r : nat) (w : world)
  : world * bool :=
  match find_index (fun r' => pyid_eqb (get_id (deref w r')) transaction_id)
                   (transactions w) with
  | Some i =>
      (mk_world (set_nth r (set_id transaction_id (deref w r)) (heap w))
                (set_nth i r (transactions w))
                (chart_of_accounts w),
       true)
  | None => (w, false)
  end.

(** [delete_transaction(transaction_id)]. *)
Definition delete_transaction (transaction_id : pyid) (w : world) : world * bool :=
  match find_index (fun r' => pyid_eqb (get_id (deref w r')) transaction_id)
                   (transactions w) with
  | Some i => (mk_world (heap w) (del_nth i (transactions w)) (chart_of_accounts w), true)
  | None => (w, false)
  end.

(** [get_chart_of_accounts]. *)
Definition get_chart_of_accounts (w : world) : list adict := chart_of_accounts w.

(** The list part of [update_account(account_code, updated_data)]. *)
Definition update_account_list (account_code : string) (updated_data : adict)
           (accs : list adict) : list adict * bool :=
  match find_index (fun a => String.eqb (a_code a) account_code) accs with
  | Some i => (set_nth i (set_code account_code updated_data) accs, true)
  | None => (accs, false)
  end.

Definition update_account (account_code : string) (updated_data : adict)
           (w : world) : world * bool :=
  let (accs, ok) := update_account_list account_code updated_data (chart_of_accounts w) in
  (mk_world (heap w) (transactions w) accs, ok).


(** [get_account_by_code(account_code)]. *)
Definition get_account_by_code (account_code : string) (w : world) : option adict :=
  find (fun a => String.eqb (a_code a) account_code) (chart_of_accounts w).

(** [filter_transactions(start_date, end_date)], the two filters on the
    date; the bounds are strings and are compared as such. *)
Definition filter_transactions (start_date end_date : string) (w : world)
  : list tdict :=
  let l0 := map (deref w) (transactions w) in
  let l1 := if str_is_empty start_date then l0
            else filter (fun t => String.leb start_date (get_date t)) l0 in
  if str_is_empty end_date then l1
  else filter (fun t => String.leb (get_date t) end_date) l1.

(** [delete_account(account_code)]. *)
Definition delete_account (account_code : string) (w : world) : world * bool :=
  match find_index (fun a => String.eqb (a_code a) account_code) (chart_of_accounts w) with
  | Some i => (mk_world (heap w) (transactions w) (del_nth i (chart_of_accounts w)), true)
  | None => (w, false)
  end.

(** [get_transaction_by_id(transaction_id)]. *)
Definition get_transaction_by_id (transaction_id : pyid) (w : world) : option tdict :=
  find (fun t => pyid_eqb (get_id t) transaction_id) (map (deref w) (transactions w)).

End Store.

(** One value of the dict [account_balances] of [generate_trial_balance]. *)
Record tb_row : Type := mk_tb_row {
  tb_code : string;
  tb_name : string;
  tb_type : string;
  tb_debit_total : Q;
  tb_credit_total : Q;
  tb_balance : Q
}.

(** [d[key] = row] on a dict, which keeps the order of insertion: a key
    that is already there keeps its place. *)
Fixpoint dict_set (key : string) (row : tb_row) (d : list (string * tb_row))
  : list (string * tb_row) :=
  match d with
  | [] => [(key, row)]
  | (k, v) :: tl =>
      if String.eqb k key then (k, row) :: tl else (k, v) :: dict_set key row tl
  end.

(** [key in d]. *)
Definition dict_has (key : string) (d : list (string * tb_row)) : bool :=
  existsb (fun kv => String.eqb (fst kv) key) d.

(** [d[key][field] += amount]: the row under [key] is changed in place. *)
Fixpoint dict_update (key : string) (f : tb_row -> tb_row)
         (d : list (string * tb_row)) : list (string * tb_row) :=
  match d with
  | [] => []
  | (k, v) :: tl =>
      if String.eqb k key then (k, f v) :: tl else (k, v) :: dict_update key f tl
  end.

Definition add_debit_total (amount : Q) (r : tb_row) : tb_row :=
  mk_tb_row (tb_code r) (tb_name r) (tb_type r)
    (tb_debit_total r + amount) (tb_credit_total r) (tb_balance r).

Definition add_credit_total (amount : Q) (r : tb_row) : tb_row :=
  mk_tb_row (tb_code r) (tb_name r) (tb_type r)
    (tb_debit_total r) (tb_credit_total r + amount) (tb_balance r).

(** [entry.get("type") == "debit"]. *)
Definition is_debit (e : entry) : bool :=
  match e_type e with Some v => String.eqb v "debit" | None => false end.

(** [entry.get("amount", 0)]. *)
Definition amount_of (e : entry) : Q :=
  match e_amount e with Some v => v | None => 0 end.

(** Body of [for entry in transaction.get("entries", [])] in
    [generate_trial_balance].  The keys of [account_balances] are the
    codes of the chart, which are strings: [None] is not one of them. *)
Definition trial_balance_step (account_balances : list (string * tb_row)) (e : entry)
  : list (string * tb_row) :=
  match e_account_code e with
  | None => account_balances
  | Some account_code =>
      if dict_has account_code account_balances then
        if is_debit e
        then dict_update account_code (add_debit_total (amount_of e)) account_balances
        else dict_update account_code (add_credit_total (amount_of e)) account_balances
      else account_balances
  end.

(** [transaction.get("entries", [])]. *)
Definition entries_of (t : tdict) : list entry :=
  match t_entries t with Some l => l | None => [] end.

(** The transactions that [generate_trial_balance] looks at. *)
Definition as_of (as_of_date : option string) (w : world) : list tdict :=
  let transactions := map (deref w) (transactions w) in
  match as_of_date with
  | Some d =>
      if str_is_empty d then transactions
      else filter (fun t => String.leb (get_date t) d) transactions
  | None => transactions
  end.

(** [generate_trial_balance(as_of_date)]. *)
Definition generate_trial_balance (as_of_date : option string) (w : world)
  : list tb_row :=
  let accounts := chart_of_accounts w in
  let transactions := as_of as_of_date w in
  let account_balances :=
    fold_left
      (fun d account =>
         dict_set (a_code account)
                  (mk_tb_row (a_code account) (a_name account) (a_type account) 0 0 0) d)
      accounts [] in
  let account_balances :=
    fold_left
      (fun d transaction => fold_left trial_balance_step (entries_of transaction) d)
      transactions account_balances in
  map (fun kv =>
         let account := snd kv in
         mk_tb_row (tb_code account) (tb_name account) (tb_type account)
           (tb_debit_total account) (tb_credit_total account)
           (tb_debit_total account - tb_credit_total account))
      account_balances.

End Database.

(* ================================================================== *)
(** * [src/core/ledger.py]: class [Ledger], postings and balances      *)
(* ================================================================== *)

Module Ledger.

Section Postings.

Variable today : string.

(** [get_account_by_code(code)]: the first account carrying the code. *)
Definition get_account_by_code (code : string) (w : world) : option adict :=
  find (fun a => String.eqb (a_code a) code) (Database.get_chart_of_accounts w).

(** [_update_account_balance(account_code, amount_change)]. *)
Definition _update_account_balance (account_code : string) (amount_change : Q)
           (w : world) : world * bool :=
  match get_account_by_code account_code w with
  | None => (w, false)
  | Some account =>
      let current_balance := get_balance account in
      let updated_balance := current_balance + amount_change in
      Database.update_account account_code (set_balance updated_balance account) w
  end.

(** [add_transaction(transaction_data)], on the address of the dict. *)
Definition add_transaction (r : nat) (w : world) : world * outcome pyid :=
  match t_account (deref w r) with
  | None => (w, Raise (ValueError "İşlem için hesap kodu gereklidir"))
  | Some code =>
      match get_account_by_code code w with
      | None => (w, Raise (ValueError ("Hesap bulunamadı: " ++ code)))
      | Some _ =>
          let (w1, trans_id) := Database.add_transaction today r w in
          let t := deref w1 r in
          let (w2, _) := _update_account_balance (get_account t) (delta t) w1 in
          (w2, Return trans_id)
      end
  end.

(** The search loop shared by [update_transaction] and
    [delete_transaction]: the first dict of the list whose id matches. *)
Definition find_transaction (transaction_id : pyid) (w : world) : option nat :=
  find (fun r' => pyid_eqb (get_id (deref w r')) transaction_id)
       (Database.get_all_transactions w).

(** [update_transaction(transaction_id, transaction_data)].  The old dict
    is read after the store has been updated, as in the source. *)
Definition update_transaction (transaction_id : pyid) (r : nat) (w : world)
  : world * outcome bool :=
  match find_transaction transaction_id w with
  | None => (w, Raise (ValueError "İşlem bulunamadı"))
  | Some r_old =>
      if negb (truthy (deref w r_old))
      then (w, Raise (ValueError "İşlem bulunamadı"))
      else
        let (w1, success) := Database.update_transaction transaction_id r w in
        if success then
          let old_transaction := deref w1 r_old in
          let w2 := match t_account old_transaction with
                    | Some code =>
                        fst (_update_account_balance code (- delta old_transaction) w1)
                    | None => w1
                    end in
          let transaction_data := deref w2 r in
          let w3 := match t_account transaction_data with
                    | Some code =>
                        fst (_update_account_balance code (delta transaction_data) w2)
                    | None => w2
                    end in
          (w3, Return true)
        else (w1, Return false)
  end.

(** [delete_transaction(transaction_id)]. *)
Definition delete_transaction (transaction_id : pyid) (w : world)
  : world * outcome bool :=
  match find_transaction transaction_id w with
  | None => (w, Raise (ValueError "İşlem bulunamadı"))
  | Some r_old =>
      if negb (truthy (deref w r_old))
      then (w, Raise (ValueError "İşlem bulunamadı"))
      else
        let (w1, success) := Database.delete_transaction transaction_id w in
        let transaction := deref w1 r_old in
        if success && is_some (t_account transaction) then
          (fst (_update_account_balance (get_account transaction)
                                        (- delta transaction) w1),
           Return success)
        else (w1, Return success)
  end.

(** First loop of [refresh], one account of the list: its balance is set
    to zero in place and [Database.update_account] is called on it. *)
Definition refresh_zero_step (w : world) (j : nat) : world :=
  match nth_error (chart_of_accounts w) j with
  | None => w
  | Some account =>
      let account0 := set_balance 0 account in
      fst (Database.update_account (a_code account0) account0
             (mk_world (heap w) (transactions w)
                       (set_nth j account0 (chart_of_accounts w))))
  end.

(** Second loop of [refresh], one transaction. *)
Definition refresh_replay_step (w : world) (r : nat) : world :=
  let trans := deref w r in
  match t_account trans with
  | Some code => fst (_update_account_balance code (delta trans) w)
  | None => w
  end.

(** [refresh()]: zero every balance, then replay the stored transactions
    in storage order. *)
Definition refresh (w : world) : world * bool :=
  let w1 := fold_left refresh_zero_step
                      (seq 0 (List.length (chart_of_accounts w))) w in
  let w2 := fold_left refresh_replay_step (Database.get_all_transactions w1) w1 in
  (w2, true).

(** The balance that [get_account_by_code(code)] shows, [0] when there is
    no such account ([account.get("balance", 0)]). *)
Definition balance (code : string) (w : world) : Q :=
  match get_account_by_code code w with
  | Some a => get_balance a
  | None => 0
  end.

(** An invoice dict as [Ledger.add_invoice] receives it. *)
Record idict : Type := mk_idict {
  i_type : option string;
  i_entity_name : option string;
  i_amount : option Q;
  i_vat : option Q;
  i_date : option string;
  i_invoice_number : option string;
  i_notes : option string
}.

(** One leg of a posting recipe: the four assignments
    [transaction["account"] = ...], [["debit"]], [["credit"]], [["vat"]]
    on the dict at address [r], then [self.add_transaction(transaction)]
    on that same dict. *)
Definition post_leg (r : nat) (account : string) (debit credit vat : Q)
           (w : world) : world * outcome pyid :=
  let t := set_vat vat (set_credit credit (set_debit debit
             (set_account account (deref w r)))) in
  add_transaction r (store r t w).

(** Sequencing of calls that may raise. *)
Definition and_then {A B : Type} (c : world * outcome A)
           (k : world -> world * outcome B) : world * outcome B :=
  match c with
  | (w, Return _) => k w
  | (w, Raise e) => (w, Raise e)
  end.

(** [_create_invoice_transaction(invoice_data)].  A single dict is built
    and handed to [add_transaction] once per leg. *)
Definition _create_invoice_transaction (invoice_data : idict) (w : world)
  : world * outcome unit :=
  match i_type invoice_data with
  | None => (w, Raise (KeyError "type"))
  | Some invoice_type =>
  match i_amount invoice_data with
  | None => (w, Raise (KeyError "amount"))
  | Some amount =>
  let vat := match i_vat invoice_data with Some v => v | None => 0 end in
  let total := amount + vat in
  match i_date invoice_data with
  | None => (w, Raise (KeyError "date"))
  | Some date =>
  match i_invoice_number invoice_data with
  | None => (w, Raise (KeyError "invoice_number"))
  | Some invoice_number =>
  match i_entity_name invoice_data with
  | None => (w, Raise (KeyError "entity_name"))
  | Some entity_name =>
  let transaction :=
    mk_tdict None (Some date) None None None None
      (Some invoice_number)
      (Some ((if String.eqb invoice_type "sales" then "Satış" else "Alış")
               ++ " Faturası - " ++ entity_name)%string)
      (Some "invoice"%string) (Some "unreconciled"%string)
      (Some (match i_notes invoice_data with Some n => n | None => EmptyString end))
      None in
  let (w0, r) := alloc transaction w in
  if String.eqb invoice_type "sales" then
    and_then (post_leg r "1200" total 0 0 w0) (fun w1 =>
    and_then (post_leg r "4000" 0 amount 0 w1) (fun w2 =>
    if Qpos_b vat then
      and_then (post_leg r "2100" 0 vat vat w2) (fun w3 => (w3, Return tt))
    else (w2, Return tt)))
  else if String.eqb invoice_type "purchase" then
    and_then (post_leg r "5000" amount 0 0 w0) (fun w1 =>
    and_then (if Qpos_b vat then post_leg r "2200" vat 0 vat w1
              else (w1, Return IdNone)) (fun w2 =>
    and_then (post_leg r "2000" 0 total 0 w2) (fun w3 => (w3, Return tt))))
  else (w0, Return tt)
  end end end end end.

(** The accounts seeded by [_setup_default_chart_of_accounts]. *)
Definition default_accounts : list adict :=
  [ mk_adict "1000" "Kasa" "asset" "current_asset" 0 (Some 0) None;
    mk_adict "1100" "Banka" "asset" "current_asset" 0 (Some 0) None;
    mk_adict "1200" "Alacak Hesapları" "asset" "current_asset" 0 (Some 0) None;
    mk_adict "1300" "Stoklar" "asset" "current_asset" 0 (Some 0) None;
    mk_adict "1400" "Peşin Ödenmiş Giderler" "asset" "current_asset" 0 (Some 0) None;
    mk_adict "1500" "Sabit Varlıklar" "asset" "fixed_asset" 0 (Some 0) None;
    mk_adict "1600" "Birikmiş Amortisman" "asset" "fixed_asset" 0 (Some 0) None;
    mk_adict "2000" "Borç Hesapları" "liability" "current_liability" 0 (Some 0) None;
    mk_adict "2100" "Ödenecek KDV" "liability" "current_liability" 0 (Some 0) None;
    mk_adict "2200" "İndirilecek KDV" "liability" "current_liability" 0 (Some 0) None;
    mk_adict "2300" "Ödenecek Vergiler" "liability" "current_liability" 0 (Some 0) None;
    mk_adict "2400" "Uzun Vadeli Borçlar" "liability" "long_term_liability" 0 (Some 0) None;
    mk_adict "3000" "Sermaye" "equity" "equity" 0 (Some 0) None;
    mk_adict "3100" "Geçmiş Dönem Kar/Zarar" "equity" "equity" 0 (Some 0) None;
    mk_adict "3200" "Dönem Net Kar/Zarar" "equity" "equity" 0 (Some 0) None;
    mk_adict "4000" "Satış Gelirleri" "income" "revenue" 20 (Some 0) None;
    mk_adict "4100" "Hizmet Gelirleri" "income" "revenue" 20 (Some 0) None;
    mk_adict "4200" "İndirim ve İadeler (-)" "income" "revenue" 20 (Some 0) None;
    mk_adict "4300" "Diğer Gelirler" "income" "other_income" 0 (Some 0) None;
    mk_adict "5000" "Mal ve Hizmet Alımları" "expense" "cost_of_sales" 20 (Some 0) None;
    mk_adict "5100" "Personel Giderleri" "expense" "operating_expense" 0 (Some 0) None;
    mk_adict "5200" "Kira Giderleri" "expense" "operating_expense" 20 (Some 0) None;
    mk_adict "5300" "Ofis Giderleri" "expense" "operating_expense" 20 (Some 0) None;
    mk_adict "5400" "Amortisman Giderleri" "expense" "operating_expense" 0 (Some 0) None;
    mk_adict "5500" "Pazarlama ve Reklam" "expense" "operating_expense" 20 (Some 0) None;
    mk_adict "5600" "İletişim ve Internet" "expense" "operating_expense" 20 (Some 0) None;
    mk_adict "5700" "Seyahat ve Konaklama" "expense" "operating_expense" 20 (Some 0) None;
    mk_adict "5800" "Profesyonel Hizmetler" "expense" "operating_expense" 20 (Some 0) None;
    mk_adict "5900" "Banka ve Finansman Giderleri" "expense" "financial_expense" 0 (Some 0) None ]%string.

(** A new company: the default chart, no transaction, no dict yet. *)
Definition fresh_ledger : world := mk_world [] [] default_accounts.

(** [get_transactions_by_account(account_code)]. *)
Definition get_transactions_by_account (account_code : string) (w : world)
  : list tdict :=
  filter (fun trans => match t_account trans with
                       | Some a => String.eqb a account_code
                       | None => false
                       end)
         (map (deref w) (Database.get_all_transactions w)).

(** [_create_payment_transaction(invoice)].  [payment_date] is the value
    under the key ["payment_date"] of the invoice dict, which [idict] does
    not carry ([None]: the key is absent and today's date is used). *)
Definition _create_payment_transaction (payment_date : option string)
           (invoice : idict) (w : world) : world * outcome unit :=
  match i_type invoice with
  | None => (w, Raise (KeyError "type"))
  | Some invoice_type =>
  match i_amount invoice with
  | None => (w, Raise (KeyError "amount"))
  | Some amount =>
  let total := amount + match i_vat invoice with Some v => v | None => 0 end in
  match i_invoice_number invoice with
  | None => (w, Raise (KeyError "invoice_number"))
  | Some invoice_number =>
  match i_entity_name invoice with
  | None => (w, Raise (KeyError "entity_name"))
  | Some entity_name =>
  let transaction :=
    mk_tdict None
      (Some (match payment_date with Some d => d | None => today end))
      None None None None
      (Some ("PMT-" ++ invoice_number)%string)
      (Some ((if String.eqb invoice_type "sales" then "Satış" else "Alış")
               ++ " Faturası Ödemesi - " ++ entity_name)%string)
      (Some "payment"%string) (Some "unreconciled"%string)
      (Some ("Fatura Ödemesi: " ++ invoice_number)%string)
      None in
  let (w0, r) := alloc transaction w in
  if String.eqb invoice_type "sales" then
    and_then (post_leg r "1100" total 0 0 w0) (fun w1 =>
    and_then (post_leg r "1200" 0 total 0 w1) (fun w2 => (w2, Return tt)))
  else if String.eqb invoice_type "purchase" then
    and_then (post_leg r "2000" total 0 0 w0) (fun w1 =>
    and_then (post_leg r "1100" 0 total 0 w1) (fun w2 => (w2, Return tt)))
  else (w0, Return tt)
  end end end end.

(** An expense dict as [Ledger.add_expense] hands it to
    [_create_expense_transaction]. *)
Record edict : Type := mk_edict {
  x_amount : option Q;
  x_vat : option Q;
  x_category : option string;
  x_date : option string;
  x_receipt_number : option string;
  x_description : option string;
  x_notes : option string;
  x_payment_method : option string
}.

(** [category_account_map.get(category, "5000")]. *)
Definition category_account (category : string) : string :=
  if String.eqb category "office" then "5300"
  else if String.eqb category "travel" then "5700"
  else if String.eqb category "marketing" then "5500"
  else if String.eqb category "rent" then "5200"
  else if String.eqb category "utilities" then "5300"
  else if String.eqb category "software" then "5300"
  else if String.eqb category "professional" then "5800"
  else if String.eqb category "salary" then "5100"
  else if String.eqb category "bank" then "5900"
  else if String.eqb category "other" then "5000"
  else "5000".

(** [_create_expense_transaction(expense_data)]. *)
Definition _create_expense_transaction (expense_data : edict) (w : world)
  : world * outcome unit :=
  match x_amount expense_data with
  | None => (w, Raise (KeyError "amount"))
  | Some amount =>
  let vat := match x_vat expense_data with Some v => v | None => 0 end in
  let total := amount + vat in
  match x_category expense_data with
  | None => (w, Raise (KeyError "category"))
  | Some category =>
  let expense_account := category_account category in
  match x_date expense_data with
  | None => (w, Raise (KeyError "date"))
  | Some date =>
  match x_receipt_number expense_data with
  | None => (w, Raise (KeyError "receipt_number"))
  | Some receipt_number =>
  match x_description expense_data with
  | None => (w, Raise (KeyError "description"))
  | Some description =>
  let transaction :=
    mk_tdict None (Some date) None None None None
      (Some receipt_number) (Some description)
      (Some "expense"%string) (Some "unreconciled"%string)
      (Some (match x_notes expense_data with Some n => n | None => EmptyString end))
      None in
  let payment_method :=
    match x_payment_method expense_data with Some m => m | None => "cash"%string end in
  let payment_account :=
    if String.eqb payment_method "cash" then "1000"%string else "1100"%string in
  let (w0, r) := alloc transaction w in
  and_then (post_leg r expense_account amount 0 0 w0) (fun w1 =>
  and_then (if Qpos_b vat then post_leg r "2200" vat 0 vat w1
            else (w1, Return IdNone)) (fun w2 =>
  and_then (post_leg r payment_account 0 total 0 w2) (fun w3 => (w3, Return tt))))
  end end end end end.

End Postings.

Section Reports.

(** [datetime.strptime(s, "%Y-%m-%d")] of the standard library: [None]
    stands for [ValueError], and a parsed date is its day number, which
    is all that the comparisons below look at. *)
Variable strptime : string -> option Z.

(** [get_transactions_by_date_range(start_date, end_date)], on parsed
    bounds; a transaction whose date does not parse is skipped. *)
Definition get_transactions_by_date_range (start_date end_date : Z) (w : world)
  : list tdict :=
  filter
    (fun trans =>
       match strptime (get_date trans) with
       | Some trans_date => (start_date <=? trans_date)%Z && (trans_date <=? end_date)%Z
       | None => false
       end)
    (map (deref w) (Database.get_all_transactions w)).

(** The dict built by [calculate_vat_return]. *)
Record vat_return : Type := mk_vat_return {
  period_start : string;
  period_end : string;
  vat_due_sales : Q;              (* Box 1 *)
  vat_due_acquisitions : Q;       (* Box 2 *)
  total_vat_due : Q;              (* Box 3 *)
  vat_reclaimed : Q;              (* Box 4 *)
  net_vat_due : Q;                (* Box 5 *)
  total_sales_ex_vat : Q;         (* Box 6 *)
  total_purchases_ex_vat : Q;     (* Box 7 *)
  total_supplies_ex_vat : Q;      (* Box 8 *)
  total_acquisitions_ex_vat : Q   (* Box 9 *)
}.

(** Body of the loop [for trans in transactions] of
    [calculate_vat_return]. *)
Definition vat_step (v : vat_return) (trans : tdict) : vat_return :=
  let account := get_account trans in
  let debit := get_debit trans in
  let credit := get_credit trans in
  let v1 := if String.eqb account "2100" && Qpos_b credit
            then mk_vat_return (period_start v) (period_end v)
                   (vat_due_sales v + credit) (vat_due_acquisitions v) (total_vat_due v)
                   (vat_reclaimed v) (net_vat_due v) (total_sales_ex_vat v)
                   (total_purchases_ex_vat v) (total_supplies_ex_vat v)
                   (total_acquisitions_ex_vat v)
            else v in
  let v2 := if String.eqb account "2200" && Qpos_b debit
            then mk_vat_return (period_start v1) (period_end v1)
                   (vat_due_sales v1) (vat_due_acquisitions v1) (total_vat_due v1)
                   (vat_reclaimed v1 + debit) (net_vat_due v1) (total_sales_ex_vat v1)
                   (total_purchases_ex_vat v1) (total_supplies_ex_vat v1)
                   (total_acquisitions_ex_vat v1)
            else v1 in
  let v3 := if startswith "4" account && Qpos_b credit
            then mk_vat_return (period_start v2) (period_end v2)
                   (vat_due_sales v2) (vat_due_acquisitions v2) (total_vat_due v2)
                   (vat_reclaimed v2) (net_vat_due v2) (total_sales_ex_vat v2 + credit)
                   (total_purchases_ex_vat v2) (total_supplies_ex_vat v2)
                   (total_acquisitions_ex_vat v2)
            else v2 in
  if startswith "5" account && Qpos_b debit
  then mk_vat_return (period_start v3) (period_end v3)
         (vat_due_sales v3) (vat_due_acquisitions v3) (total_vat_due v3)
         (vat_reclaimed v3) (net_vat_due v3) (total_sales_ex_vat v3)
         (total_purchases_ex_vat v3 + debit) (total_supplies_ex_vat v3)
         (total_acquisitions_ex_vat v3)
  else v3.

(** The two assignments after the loop. *)
Definition vat_totals (v : vat_return) : vat_return :=
  let total := vat_due_sales v + vat_due_acquisitions v in
  mk_vat_return (period_start v) (period_end v)
    (vat_due_sales v) (vat_due_acquisitions v) total
    (vat_reclaimed v) (total - vat_reclaimed v) (total_sales_ex_vat v)
    (total_purchases_ex_vat v) (total_supplies_ex_vat v)
    (total_acquisitions_ex_vat v).

(** The closing loop: every numeric value of the dict goes through
    [round(value, 2)]; the two period strings are left alone. *)
Definition vat_round (v : vat_return) : vat_return :=
  mk_vat_return (period_start v) (period_end v)
    (py_round2 (vat_due_sales v)) (py_round2 (vat_due_acquisitions v))
    (py_round2 (total_vat_due v)) (py_round2 (vat_reclaimed v))
    (py_round2 (net_vat_due v)) (py_round2 (total_sales_ex_vat v))
    (py_round2 (total_purchases_ex_vat v)) (py_round2 (total_supplies_ex_vat v))
    (py_round2 (total_acquisitions_ex_vat v)).

(** [calculate_vat_return(start_date, end_date)]. *)
Definition calculate_vat_return (start_date end_date : string) (w : world)
  : outcome vat_return :=
  match strptime start_date, strptime end_date with
  | Some start, Some end_ =>
      let transactions := get_transactions_by_date_range start end_ w in
      let vat_return0 := mk_vat_return start_date end_date 0 0 0 0 0 0 0 0 0 in
      Return (vat_round (vat_totals (fold_left vat_step transactions vat_return0)))
  | _, _ =>
      Raise (ValueError "Geçersiz tarih formatı. Beklenen format: YYYY-MM-DD")
  end.

End Reports.

End Ledger.

(* ================================================================== *)
(** * [src/core/account.py]: class [Account]                           *)
(* ================================================================== *)

Module Account.

(** An [Account] object; [balance] is a [Decimal] of any precision. *)
Record t : Type := mk {
  code : string;
  name : string;
  account_type : string;
  category : option string;
  vat_rate : Q;
  balance : Q
}.

(** [self.account_type in ["asset", "expense"]]. *)
Definition debit_normal (a : t) : bool :=
  String.eqb (account_type a) "asset" || String.eqb (account_type a) "expense".

Definition with_balance (b : Q) (a : t) : t :=
  mk (code a) (name a) (account_type a) (category a) (vat_rate a) b.

(** [debit(amount)]: the account after the call; the value returned by the
    method is its new balance. *)
Definition debit (amount : Q) (a : t) : t :=
  if debit_normal a then with_balance (balance a + amount) a
  else with_balance (balance a - amount) a.

(** [credit(amount)]. *)
Definition credit (amount : Q) (a : t) : t :=
  if debit_normal a then with_balance (balance a - amount) a
  else with_balance (balance a + amount) a.

(** [reset_balance()]. *)
Definition reset_balance (a : t) : t := with_balance 0 a.

(** [from_dict(data)], for a dict whose type and category are accepted by
    the constructor. *)
Definition from_dict (d : adict) : t :=
  mk (a_code d) (a_name d) (a_type d) (Some (a_category d)) (a_vat_rate d) (get_balance d).

End Account.

(* ================================================================== *)
(** * [src/core/transaction.py]: [Transaction], [TransactionManager]   *)
(* ================================================================== *)

Module Transaction.

(** A [Transaction] object.  The three amounts are [Decimal]s. *)
Record t : Type := mk {
  id : pyid;
  date : string;
  description : string;
  account : string;
  debit : Q;
  credit : Q;
  vat : Q;
  document_number : string;
  status : string;
  transaction_type : string;
  notes : string
}.

(** [Decimal(str(x)).quantize(Decimal('0.01'), rounding=ROUND_HALF_UP)],
    as a number again. *)
Definition quantize2 (x : Q) : Q := of_cents (quantize x).

(** [__init__].  [uuid] is the value of [str(uuid.uuid4())] and [today]
    that of [datetime.now().strftime("%Y-%m-%d")], both used only when the
    corresponding argument is [None]. *)
Definition init (uuid today : string)
           (transaction_id : option pyid) (date : option string)
           (description account : string) (debit credit vat : Q)
           (document_number status transaction_type notes : string) : t :=
  mk (match transaction_id with
      | Some IdNone | None => IdStr uuid
      | Some i => i
      end)
     (match date with Some d => d | None => today end)
     description account
     (quantize2 debit) (quantize2 credit) (quantize2 vat)
     document_number status transaction_type notes.

(** [to_dict()]: a new dict. *)
Definition to_dict (x : t) : tdict :=
  mk_tdict (Some (id x)) (Some (date x)) (Some (account x))
    (Some (debit x)) (Some (credit x)) (Some (vat x))
    (Some (document_number x)) (Some (description x))
    (Some (transaction_type x)) (Some (status x)) (Some (notes x)) None.

Definition or_default {A : Type} (o : option A) (d : A) : A :=
  match o with Some v => v | None => d end.

(** [from_dict(data)]. *)
Definition from_dict (uuid today : string) (data : tdict) : t :=
  init uuid today (t_id data) (t_date data)
    (or_default (t_description data) EmptyString)
    (or_default (t_account data) EmptyString)
    (or_default (t_debit data) 0)
    (or_default (t_credit data) 0)
    (or_default (t_vat data) 0)
    (or_default (t_document_number data) EmptyString)
    (or_default (t_status data) "unreconciled"%string)
    (or_default (t_transaction_type data) "manual"%string)
    (or_default (t_notes data) EmptyString).

(** [not s] on a string. *)
Definition is_empty (s : string) : bool := str_is_empty s.

(** [validate()]: the pair [(is_valid, error)]. *)
Definition validate (x : t) : bool * option string :=
  if is_empty (date x) then (false, Some "Tarih gereklidir"%string)
  else if is_empty (account x) then (false, Some "Hesap kodu gereklidir"%string)
  else if Qzero_b (debit x) && Qzero_b (credit x)
  then (false, Some "Borç veya alacak tutarı sıfırdan büyük olmalıdır"%string)
  else if Qpos_b (debit x) && Qpos_b (credit x)
  then (false, Some "Borç ve alacak tutarları aynı anda pozitif olamaz"%string)
  else (true, None).

End Transaction.

Module TransactionManager.

(** The pair returned by the methods of the manager: [(True, id)] or
    [(False, message)]. *)
Inductive result : Type :=
| Success (transaction_id : pyid)
| Failure (error : string).

Section Manager.

Variable today : string.

(** [add_transaction(transaction)] on a [Transaction] object.  A valid
    transaction is turned into a new dict, which the store appends. *)
Definition add_transaction (transaction : Transaction.t) (w : world)
  : world * result :=
  match Transaction.validate transaction with
  | (false, error) => (w, Failure (Transaction.or_default error EmptyString))
  | (true, _) =>
      let (w0, r) := alloc (Transaction.to_dict transaction) w in
      let (w1, _) := Database.add_transaction today r w0 in
      (w1, Success (Transaction.id transaction))
  end.

(** [add_transaction(transaction)] on a dict: [Transaction.from_dict]
    first.  [uuid] is the identifier drawn if the dict has none. *)
Definition add_transaction_dict (uuid : string) (data : tdict) (w : world)
  : world * result :=
  add_transaction (Transaction.from_dict uuid today data) w.

(** [get_all_transactions()].  Every stored dict has an id and a date by
    then, so no identifier is drawn. *)
Definition get_all_transactions (w : world) : list Transaction.t :=
  map (Transaction.from_dict EmptyString today) (log w).

(** [get_account_balance(account_code)] without an end date. *)
Definition get_account_balance (account_code : string) (w : world) : Q :=
  fold_left
    (fun balance trans => balance + (Transaction.debit trans - Transaction.credit trans))
    (filter (fun trans => String.eqb (Transaction.account trans) account_code)
            (get_all_transactions w))
    0.

(** [get_transaction_by_id(transaction_id)]. *)
Definition get_transaction_by_id (transaction_id : pyid) (w : world)
  : option Transaction.t :=
  find (fun transaction => pyid_eqb (Transaction.id transaction) transaction_id)
       (get_all_transactions w).

(** [str(x)] of an id, as the messages print it. *)
Definition str_of_id (i : pyid) : string :=
  match i with
  | IdNone => "None"
  | IdInt n => DecimalString.NilZero.string_of_int (Z.to_int n)
  | IdStr s => s
  end.

(** The loop of [update_transaction] over [updated_data.items()]:
    [setattr] for every key that is an attribute of the object.  The
    values are stored as they come. *)
Definition set_attributes (updated_data : tdict) (x : Transaction.t) : Transaction.t :=
  Transaction.mk
    (Transaction.or_default (t_id updated_data) (Transaction.id x))
    (Transaction.or_default (t_date updated_data) (Transaction.date x))
    (Transaction.or_default (t_description updated_data) (Transaction.description x))
    (Transaction.or_default (t_account updated_data) (Transaction.account x))
    (Transaction.or_default (t_debit updated_data) (Transaction.debit x))
    (Transaction.or_default (t_credit updated_data) (Transaction.credit x))
    (Transaction.or_default (t_vat updated_data) (Transaction.vat x))
    (Transaction.or_default (t_document_number updated_data)
                            (Transaction.document_number x))
    (Transaction.or_default (t_status updated_data) (Transaction.status x))
    (Transaction.or_default (t_transaction_type updated_data)
                            (Transaction.transaction_type x))
    (Transaction.or_default (t_notes updated_data) (Transaction.notes x)).

(** [update_transaction(transaction_id, updated_data)]: the pair
    [(success, message)].  The result of the store is not looked at. *)
Definition update_transaction (transaction_id : pyid) (updated_data : tdict)
           (w : world) : world * (bool * string) :=
  match get_transaction_by_id transaction_id w with
  | None => (w, (false, "İşlem bulunamadı: " ++ str_of_id transaction_id)%string)
  | Some transaction =>
      let transaction := set_attributes updated_data transaction in
      match Transaction.validate transaction with
      | (false, error) => (w, (false, Transaction.or_default error EmptyString))
      | (true, _) =>
          let (w0, r) := alloc (Transaction.to_dict transaction) w in
          let (w1, _) := Database.update_transaction transaction_id r w0 in
          (w1, (true, "İşlem başarıyla güncellendi"%string))
      end
  end.

(** [delete_transaction(transaction_id)]. *)
Definition delete_transaction (transaction_id : pyid) (w : world)
  : world * (bool * string) :=
  let (w1, deleted) := Database.delete_transaction transaction_id w in
  if deleted then (w1, (true, "İşlem başarıyla silindi"%string))
  else (w1, (false, "İşlem bulunamadı: " ++ str_of_id transaction_id)%string).

(** [get_transactions_by_date_range(start_date, end_date)]: the dates
    are compared as strings. *)
Definition get_transactions_by_date_range (start_date end_date : string) (w : world)
  : list Transaction.t :=
  filter (fun t => String.leb start_date (Transaction.date t)
                   && String.leb (Transaction.date t) end_date)
         (get_all_transactions w).

(** [get_transactions_by_account(account_code)]. *)
Definition get_transactions_by_account (account_code : string) (w : world)
  : list Transaction.t :=
  filter (fun t => String.eqb (Transaction.account t) account_code)
         (get_all_transactions w).

(** [get_transactions_by_document(document_number)]. *)
Definition get_transactions_by_document (document_number : string) (w : world)
  : list Transaction.t :=
  filter (fun t => String.eqb (Transaction.document_number t) document_number)
         (get_all_transactions w).

(** [get_account_balance(account_code, end_date)]; an empty [end_date]
    counts as none. *)
Definition get_account_balance_until (account_code end_date : string) (w : world) : Q :=
  let transactions := get_transactions_by_account account_code w in
  let transactions :=
    if str_is_empty end_date then transactions
    else filter (fun t => String.leb (Transaction.date t) end_date) transactions in
  fold_left
    (fun balance trans => balance + (Transaction.debit trans - Transaction.credit trans))
    transactions 0.

(** One element of the [entries] argument of [create_journal_entry]. *)
Record jentry : Type := mk_jentry {
  j_account : option string;
  j_debit : option Q;
  j_credit : option Q;
  j_vat : option Q
}.

(** The loop of [create_journal_entry] over the entries; [uuids] are the
    identifiers drawn for the transactions, in order.  An entry without
    ["account"] raises [KeyError], which ends the loop. *)
Fixpoint post_entries (uuids : list string) (date description document_number notes : string)
         (entries : list jentry) (w : world) : world * outcome unit :=
  match entries with
  | [] => (w, Return tt)
  | entry :: rest =>
      match j_account entry with
      | None => (w, Raise (KeyError "account"))
      | Some account =>
          let transaction :=
            Transaction.init (hd EmptyString uuids) today None (Some date)
              description account
              (Transaction.or_default (j_debit entry) 0)
              (Transaction.or_default (j_credit entry) 0)
              (Transaction.or_default (j_vat entry) 0)
              document_number "unreconciled" "journal" notes in
          let (w1, _) := add_transaction transaction w in
          post_entries (tl uuids) date description document_number notes rest w1
      end
  end.

(** [create_journal_entry(date, description, entries, document_number,
    notes)] with a document number given by the caller.  An exception
    is caught and reported as [(False, str(e))]; what was stored before
    it stays. *)
Definition create_journal_entry (uuids : list string) (date description : string)
           (entries : list jentry) (document_number notes : string) (w : world)
  : world * (bool * string) :=
  let total_debit := Qsum (map (fun e => Transaction.or_default (j_debit e) 0) entries) in
  let total_credit := Qsum (map (fun e => Transaction.or_default (j_credit e) 0) entries) in
  if negb (Qeq_bool total_debit total_credit)
  then (w, (false, "Borç ve alacak toplamları eşit olmalıdır"%string))
  else
    match post_entries uuids date description document_number notes entries w with
    | (w1, Return _) =>
        (w1, (true, "Yevmiye kaydı başarıyla oluşturuldu: " ++ document_number)%string)
    | (w1, Raise (KeyError key)) => (w1, (false, "'" ++ key ++ "'")%string)
    | (w1, Raise (ValueError msg)) => (w1, (false, msg))
    end.

(** [reconcile_transaction(transaction_id)]. *)
Definition reconcile_transaction (transaction_id : pyid) (w : world)
  : world * (bool * string) :=
  match get_transaction_by_id transaction_id w with
  | None => (w, (false, "İşlem bulunamadı: " ++ str_of_id transaction_id)%string)
  | Some _ =>
      update_transaction transaction_id
        (mk_tdict None None None None None None None None None
                  (Some "reconciled"%string) None None) w
  end.

End Manager.

End TransactionManager.

(* ================================================================== *)
(** * [src/core/invoice.py]: [InvoiceItem], [Invoice], [InvoiceManager] *)
(* ================================================================== *)

Module InvoiceItem.

Record t : Type := mk {
  description : string;
  quantity : Q;
  unit_price : Q;
  vat_rate : Q;
  net_amount : Q;
  vat_amount : Q;
  total : Q
}.

(** [__init__(description, quantity, unit_price, vat_rate, vat_amount,
    total)]; the last two are computed when [None]. *)
Definition init (description : string) (quantity unit_price vat_rate : Q)
           (vat_amount total : option Q) : t :=
  let unit_price' := Transaction.quantize2 unit_price in
  let net := Transaction.quantize2 (quantity * unit_price') in
  let vat := match vat_amount with
             | Some v => Transaction.quantize2 v
             | None => Transaction.quantize2 (net * vat_rate / 100)
             end in
  let tot := match total with
             | Some v => Transaction.quantize2 v
             | None => Transaction.quantize2 (net + vat)
             end in
  mk description quantity unit_price' vat_rate net vat tot.

(** The dict of an item, as [to_dict] writes it and [from_dict] reads
    it. *)
Record dict : Type := mk_dict {
  d_description : option string;
  d_quantity : option Q;
  d_unit_price : option Q;
  d_vat_rate : option Q;
  d_vat_amount : option Q;
  d_total : option Q
}.

(** [to_dict()]; the net amount is not written. *)
Definition to_dict (x : t) : dict :=
  mk_dict (Some (description x)) (Some (quantity x)) (Some (unit_price x))
          (Some (vat_rate x)) (Some (vat_amount x)) (Some (total x)).

(** [from_dict(data)]. *)
Definition from_dict (data : dict) : t :=
  init (Transaction.or_default (d_description data) EmptyString)
       (Transaction.or_default (d_quantity data) 1)
       (Transaction.or_default (d_unit_price data) 0)
       (Transaction.or_default (d_vat_rate data) 20)
       (d_vat_amount data) (d_total data).

End InvoiceItem.

Module Invoice.

Record t : Type := mk {
  id : pyid;
  invoice_number : string;
  type : string;
  date : string;
  due_date : string;
  entity_name : string;
  notes : string;
  payment_status : string;
  auto_post : bool;
  items : list InvoiceItem.t;
  net_amount : Q;
  vat_amount : Q;
  total_amount : Q
}.

(** [__init__], on arguments that are not [None]: the drawing of an id
    and of an invoice number and the defaults of the two dates are left
    to the caller.  The totals come from [_calculate_totals]. *)
Definition init (id : pyid) (invoice_number type date due_date entity_name notes
                 payment_status : string) (auto_post : bool)
           (items : list InvoiceItem.t) : t :=
  mk id invoice_number type date due_date entity_name notes payment_status auto_post
     items
     (Qsum (map InvoiceItem.net_amount items))
     (Qsum (map InvoiceItem.vat_amount items))
     (Qsum (map InvoiceItem.total items)).

(** [validate()]. *)
Definition validate (x : t) : bool * option string :=
  if Transaction.is_empty (invoice_number x)
  then (false, Some "Fatura numarası gereklidir"%string)
  else if Transaction.is_empty (date x)
  then (false, Some "Fatura tarihi gereklidir"%string)
  else if Transaction.is_empty (entity_name x)
  then (false, Some "Müşteri/tedarikçi adı gereklidir"%string)
  else match items x with
       | [] => (false, Some "En az bir fatura kalemi gereklidir"%string)
       | _ :: _ =>
           if String.eqb (type x) "sales" || String.eqb (type x) "purchase"
           then (true, None)
           else (false, Some "Geçersiz fatura tipi"%string)
       end.

(** [_calculate_totals()]. *)
Definition _calculate_totals (x : t) : t :=
  mk (id x) (invoice_number x) (type x) (date x) (due_date x) (entity_name x)
     (notes x) (payment_status x) (auto_post x) (items x)
     (Qsum (map InvoiceItem.net_amount (items x)))
     (Qsum (map InvoiceItem.vat_amount (items x)))
     (Qsum (map InvoiceItem.total (items x))).

Definition with_items (l : list InvoiceItem.t) (x : t) : t :=
  mk (id x) (invoice_number x) (type x) (date x) (due_date x) (entity_name x)
     (notes x) (payment_status x) (auto_post x) l
     (net_amount x) (vat_amount x) (total_amount x).

(** [add_item(item)] on an [InvoiceItem] object. *)
Definition add_item (item : InvoiceItem.t) (x : t) : t :=
  _calculate_totals (with_items (items x ++ [item]) x).

(** [add_item(item)] on a dict. *)
Definition add_item_dict (item : InvoiceItem.dict) (x : t) : t :=
  add_item (InvoiceItem.from_dict item) x.

(** [remove_item(index)]: the invoice left and the answer. *)
Definition remove_item (index : Z) (x : t) : t * bool :=
  if ((0 <=? index) && (index <? Z.of_nat (List.length (items x))))%Z
  then (_calculate_totals (with_items (del_nth (Z.to_nat index) (items x)) x), true)
  else (x, false).

End Invoice.

Module InvoiceManager.

Section Manager.

Variable today : string.

(** The [Transaction(...)] built for one leg of an invoice posting. *)
Definition leg (uuid : string) (invoice : Invoice.t) (prefix account : string)
           (debit credit vat : Q) : Transaction.t :=
  Transaction.init uuid today None (Some (Invoice.date invoice))
    (prefix ++ " - " ++ Invoice.entity_name invoice)%string
    account debit credit vat
    (Invoice.invoice_number invoice) "unreconciled" "invoice"
    (Invoice.notes invoice).

(** [_create_invoice_transactions(invoice)].  [u1], [u2], [u3] are the
    identifiers drawn for the transactions, in order.  The results of the
    calls to [add_transaction] are not looked at. *)
Definition _create_invoice_transactions (u1 u2 u3 : string) (invoice : Invoice.t)
           (w : world) : world * bool :=
  if String.eqb (Invoice.type invoice) "sales" then
    let (w1, _) := TransactionManager.add_transaction today
                     (leg u1 invoice "Satış Faturası" "1200"
                          (Invoice.total_amount invoice) 0 0) w in
    let (w2, _) := TransactionManager.add_transaction today
                     (leg u2 invoice "Satış Faturası" "4000"
                          0 (Invoice.net_amount invoice) 0) w1 in
    if Qpos_b (Invoice.vat_amount invoice) then
      let (w3, _) := TransactionManager.add_transaction today
                       (leg u3 invoice "Satış Faturası" "2100"
                            0 (Invoice.vat_amount invoice) (Invoice.vat_amount invoice)) w2 in
      (w3, true)
    else (w2, true)
  else if String.eqb (Invoice.type invoice) "purchase" then
    let (w1, _) := TransactionManager.add_transaction today
                     (leg u1 invoice "Alış Faturası" "5000"
                          (Invoice.net_amount invoice) 0 0) w in
    let w2 := if Qpos_b (Invoice.vat_amount invoice) then
                fst (TransactionManager.add_transaction today
                       (leg u2 invoice "Alış Faturası" "2200"
                            (Invoice.vat_amount invoice) 0 (Invoice.vat_amount invoice)) w1)
              else w1 in
    let (w3, _) := TransactionManager.add_transaction today
                     (leg u3 invoice "Alış Faturası" "2000"
                          0 (Invoice.total_amount invoice) 0) w2 in
    (w3, true)
  else (w, true).

(** [add_invoice(invoice, create_transactions)] on an [Invoice] object.
    The list of invoices of the store is not part of [world]. *)
Definition add_invoice (u1 u2 u3 : string) (invoice : Invoice.t)
           (create_transactions : bool) (w : world)
  : world * TransactionManager.result :=
  match Invoice.validate invoice with
  | (false, error) =>
      (w, TransactionManager.Failure (Transaction.or_default error EmptyString))
  | (true, _) =>
      let w1 := if create_transactions && Invoice.auto_post invoice
                then fst (_create_invoice_transactions u1 u2 u3 invoice w)
                else w in
      (w1, TransactionManager.Success (Invoice.id invoice))
  end.

(** [_delete_invoice_transactions(invoice)]: the transactions of the
    document are listed first, then deleted one id at a time. *)
Definition _delete_invoice_transactions (invoice : Invoice.t) (w : world)
  : world * bool :=
  let transactions :=
    TransactionManager.get_transactions_by_document today
      (Invoice.invoice_number invoice) w in
  (fold_left
     (fun w' transaction =>
        fst (TransactionManager.delete_transaction (Transaction.id transaction) w'))
     transactions w,
   true).

(** [_update_invoice_transactions(old_invoice, new_invoice)]. *)
Definition _update_invoice_transactions (u1 u2 u3 : string)
           (old_invoice new_invoice : Invoice.t) (w : world) : world * bool :=
  let (w1, _) := _delete_invoice_transactions old_invoice w in
  let (w2, _) := _create_invoice_transactions u1 u2 u3 new_invoice w1 in
  (w2, true).

(** The [Transaction(...)] built for one leg of a payment.
    [payment_date] is the attribute of that name of the invoice, [None]
    when the invoice has none. *)
Definition payment_leg (uuid : string) (payment_date : option string)
           (invoice : Invoice.t) (prefix account : string) (debit credit : Q)
           (transaction_type suffix : string) : Transaction.t :=
  Transaction.init uuid today None payment_date
    (prefix ++ " - " ++ Invoice.entity_name invoice)%string
    account debit credit 0
    ("PMT-" ++ Invoice.invoice_number invoice)%string "unreconciled" transaction_type
    (Invoice.invoice_number invoice ++ suffix)%string.

(** [_create_payment_transactions(invoice)]. *)
Definition _create_payment_transactions (u1 u2 : string) (payment_date : option string)
           (invoice : Invoice.t) (w : world) : world * bool :=
  if String.eqb (Invoice.type invoice) "sales" then
    let (w1, _) := TransactionManager.add_transaction today
                     (payment_leg u1 payment_date invoice "Fatura Tahsilatı" "1100"
                        (Invoice.total_amount invoice) 0
                        "receipt" " nolu fatura tahsilatı") w in
    let (w2, _) := TransactionManager.add_transaction today
                     (payment_leg u2 payment_date invoice "Fatura Tahsilatı" "1200"
                        0 (Invoice.total_amount invoice)
                        "receipt" " nolu fatura tahsilatı") w1 in
    (w2, true)
  else if String.eqb (Invoice.type invoice) "purchase" then
    let (w1, _) := TransactionManager.add_transaction today
                     (payment_leg u1 payment_date invoice "Fatura Ödemesi" "2000"
                        (Invoice.total_amount invoice) 0
                        "payment" " nolu fatura ödemesi") w in
    let (w2, _) := TransactionManager.add_transaction today
                     (payment_leg u2 payment_date invoice "Fatura Ödemesi" "1100"
                        0 (Invoice.total_amount invoice)
                        "payment" " nolu fatura ödemesi") w1 in
    (w2, true)
  else (w, true).

End Manager.

End InvoiceManager.

(* ================================================================== *)
(** * [src/hmrc/corporate_tax.py]: class [CorporateTaxCalculator]      *)
(* ================================================================== *)

Module CorporateTaxCalculator.

(** One entry of [self.tax_rates]. *)
Record rates : Type := mk_rates {
  small_profits_rate : Q;
  main_rate : Q;
  lower_limit : Q;
  upper_limit : Q
}.

Definition rates_2023_24 : rates := mk_rates (19 # 100) (25 # 100) 50000 250000.

(** [self.tax_rates]: a single tax year is known. *)
Definition tax_rates (tax_year : string) : option rates :=
  if String.eqb tax_year "2023-24" then Some rates_2023_24 else None.

(** The four running totals of the loop over the entries. *)
Record totals : Type := mk_totals {
  trading_income : Q;
  trading_expenses : Q;
  non_trading_income : Q;
  non_trading_expenses : Q
}.

Definition str_is (o : option string) (s : string) : bool :=
  match o with Some v => String.eqb v s | None => false end.

(** Body of [for entry in transaction.get("entries", [])]. *)
Definition entry_step (w : world) (acc : totals) (e : entry) : totals :=
  match e_account_code e with
  | None => acc
  | Some account_code =>
      match Database.get_account_by_code account_code w with
      | None => acc
      | Some account =>
          let amount := match e_amount e with Some v => v | None => 0 end in
          let account_type := a_type account in
          let trading := match a_trading account with Some b => b | None => true end in
          if String.eqb account_type "income" && trading then
            mk_totals (if str_is (e_type e) "credit"
                       then trading_income acc + amount
                       else trading_income acc - amount)
                      (trading_expenses acc) (non_trading_income acc)
                      (non_trading_expenses acc)
          else if String.eqb account_type "expense" && trading then
            mk_totals (trading_income acc)
                      (if str_is (e_type e) "debit"
                       then trading_expenses acc + amount
                       else trading_expenses acc - amount)
                      (non_trading_income acc) (non_trading_expenses acc)
          else if String.eqb account_type "income" && negb trading then
            mk_totals (trading_income acc) (trading_expenses acc)
                      (if str_is (e_type e) "credit"
                       then non_trading_income acc + amount
                       else non_trading_income acc - amount)
                      (non_trading_expenses acc)
          else if String.eqb account_type "expense" && negb trading then
            mk_totals (trading_income acc) (trading_expenses acc)
                      (non_trading_income acc)
                      (if str_is (e_type e) "debit"
                       then non_trading_expenses acc + amount
                       else non_trading_expenses acc - amount)
          else acc
      end
  end.

(** The two nested loops over the transactions of the period. *)
Definition aggregate (w : world) (transactions : list tdict) : totals :=
  fold_left
    (fun acc transaction =>
       fold_left (entry_step w) 
                 (match t_entries transaction with Some l => l | None => [] end) acc)
    transactions (mk_totals 0 0 0 0).

(** [taxable_profit = max(0, total_income - total_expenses)]. *)
Definition taxable_profit_of (total_income total_expenses : Q) : Q :=
  py_max 0 (total_income - total_expenses).

(** The [else] branch of the computation of [tax_due]: tax at the main
    rate less the marginal relief. *)
Definition marginal_relief_tax (r : rates) (taxable_profit : Q) : Q :=
  let r_diff := main_rate r - small_profits_rate r in
  let u_l_diff := upper_limit r - lower_limit r in
  let u_p_diff := upper_limit r - taxable_profit in
  let marginal_relief := r_diff * (2 * u_p_diff / u_l_diff) * taxable_profit in
  let tax_at_main_rate := taxable_profit * main_rate r in
  tax_at_main_rate - marginal_relief.

(** The local [tax_due], before it is rounded for the report. *)
Definition tax_due_of (r : rates) (taxable_profit : Q) : Q :=
  if Qle_bool taxable_profit (lower_limit r)
  then taxable_profit * small_profits_rate r
  else if Qle_bool (upper_limit r) taxable_profit
  then taxable_profit * main_rate r
  else marginal_relief_tax r taxable_profit.

(** The expression rounded into ["effective_rate"]. *)
Definition effective_rate_of (tax_due taxable_profit : Q) : Q :=
  if Qpos_b taxable_profit then tax_due / taxable_profit * 100 else 0.

(** The dict returned by [calculate_corporation_tax]. *)
Record result : Type := mk_result {
  res_tax_year : string;
  res_start_date : string;
  res_end_date : string;
  res_length_days : Z;
  res_trading_income : Q;
  res_non_trading_income : Q;
  res_total_income : Q;
  res_trading_expenses : Q;
  res_non_trading_expenses : Q;
  res_total_expenses : Q;
  res_taxable_profit : Q;
  res_tax_rates : rates;
  res_tax_due : Q;
  res_effective_rate : Q
}.

(** [str(n)] of an integer and [s[-2:]]. *)
Definition py_str (n : Z) : string := DecimalString.NilZero.string_of_int (Z.to_int n).
Definition last_two (s : string) : string :=
  String.substring (String.length s - 2) 2 s.

Section Calculator.

(** The standard library: [datetime.strptime(s, "%Y-%m-%d")] as a day
    number ([None] for [ValueError]) and the [year], [month] and [day] of
    the date with a given day number. *)
Variable strptime : string -> option Z.
Variables year_of month_of day_of : Z -> Z.

(** The tax year taken from the middle of the accounting period when the
    caller gives none. *)
Definition default_tax_year (start_date end_date : Z) : string :=
  let mid_date := (start_date + (end_date - start_date) / 2)%Z in
  let tax_year_start := year_of mid_date in
  let tax_year_start :=
    if (month_of mid_date <? 4)%Z
       || ((month_of mid_date =? 4)%Z && (day_of mid_date <? 1)%Z)
    then (tax_year_start - 1)%Z else tax_year_start in
  (py_str tax_year_start ++ "-" ++ last_two (py_str (tax_year_start + 1)))%string.

(** [calculate_corporation_tax(accounting_period_start,
    accounting_period_end, tax_year)]. *)
Definition calculate_corporation_tax
           (accounting_period_start accounting_period_end : string)
           (tax_year : option string) (w : world) : outcome result :=
  match strptime accounting_period_start, strptime accounting_period_end with
  | Some start_date, Some end_date =>
      let tax_year :=
        match tax_year with
        | Some y => if str_is_empty y then default_tax_year start_date end_date else y
        | None => default_tax_year start_date end_date
        end in
      match tax_rates tax_year with
      | None => Raise (ValueError ("Vergi yılı için oranlar bulunamadı: " ++ tax_year))
      | Some rates =>
          let transactions :=
            Database.filter_transactions accounting_period_start
                                         accounting_period_end w in
          let t := aggregate w transactions in
          let total_income := trading_income t + non_trading_income t in
          let total_expenses := trading_expenses t + non_trading_expenses t in
          let taxable_profit := taxable_profit_of total_income total_expenses in
          let tax_due := tax_due_of rates taxable_profit in
          Return
            (mk_result tax_year accounting_period_start accounting_period_end
               (end_date - start_date + 1)%Z
               (py_round2 (trading_income t)) (py_round2 (non_trading_income t))
               (py_round2 total_income)
               (py_round2 (trading_expenses t)) (py_round2 (non_trading_expenses t))
               (py_round2 total_expenses)
               (py_round2 taxable_profit)
               rates
               (py_round2 tax_due)
               (py_round2 (effective_rate_of tax_due taxable_profit)))
      end
  | _, _ => Raise (ValueError "Tarih formatı geçersiz. YYYY-MM-DD kullanın.")
  end.

End Calculator.

End CorporateTaxCalculator.

(* ================================================================== *)
(** * [src/hmrc/income_tax.py]: class [IncomeTaxCalculator]            *)
(* ================================================================== *)

Module IncomeTaxCalculator.

(** One entry of [self.tax_bands]. *)
Record bands : Type := mk_bands {
  personal_allowance : Q;
  basic_threshold : Q;        (* ["basic_rate"]["threshold"] *)
  basic_rate : Q;             (* ["basic_rate"]["rate"] *)
  higher_threshold : Q;       (* ["higher_rate"]["threshold"] *)
  higher_rate : Q;            (* ["higher_rate"]["rate"] *)
  additional_rate : Q         (* ["additional_rate"]["rate"] *)
}.

(** One entry of [self.ni_rates]. *)
Record ni : Type := mk_ni {
  class2_rate : Q;
  class2_threshold : Q;
  class4_lower_threshold : Q;
  class4_upper_threshold : Q;
  class4_lower_rate : Q;
  class4_upper_rate : Q
}.

(** One entry of [self.dividend_rates]. *)
Record dividend : Type := mk_dividend {
  allowance : Q;
  div_basic_rate : Q;
  div_higher_rate : Q;
  div_additional_rate : Q
}.

Definition tax_bands (tax_year : string) : option bands :=
  if String.eqb tax_year "2023-24"
  then Some (mk_bands 12570 50270 (20 # 100) 125140 (40 # 100) (45 # 100))
  else None.

Definition ni_rates (tax_year : string) : option ni :=
  if String.eqb tax_year "2023-24"
  then Some (mk_ni (345 # 100) 12570 12570 50270 (9 # 100) (2 # 100))
  else None.

Definition dividend_rates (tax_year : string) : option dividend :=
  if String.eqb tax_year "2023-24"
  then Some (mk_dividend 1000 (85 # 1000) (3375 # 10000) (3935 # 10000))
  else None.

(** The dict [income_data]; every key is read with [.get(key, 0)]. *)
Record income_data : Type := mk_income_data {
  employment_income : option Q;
  self_employment_income : option Q;
  property_income : option Q;
  dividends : option Q;
  pension_contributions : option Q;
  gift_aid_donations : option Q;
  other_deductions : option Q
}.

Definition get0 (o : option Q) : Q := match o with Some v => v | None => 0 end.

(** The three slices into which [_calculate_dividend_tax] cuts the
    dividend income left after the dividend allowance. *)
Record dividend_split : Type := mk_dividend_split {
  div_basic_band : Q;
  div_higher_band : Q;
  div_additional_band : Q
}.

(** The middle of [_calculate_dividend_tax], from [dividend_allowance] to
    [div_additional_band]. *)
Definition split_dividend (b : bands) (d : dividend)
           (dividend_income other_taxable_income : Q) : dividend_split :=
  let dividend_allowance := allowance d in
  let basic_limit := basic_threshold b - personal_allowance b in
  let higher_limit := higher_threshold b - personal_allowance b in
  let remaining_basic_band := py_max 0 (basic_limit - other_taxable_income) in
  let remaining_higher_band :=
    py_max 0 (higher_limit - py_max 0 (other_taxable_income - basic_limit)) in
  let taxable_dividend := py_max 0 (dividend_income - dividend_allowance) in
  let div_basic := py_min remaining_basic_band taxable_dividend in
  let div_higher := py_min remaining_higher_band (py_max 0 (taxable_dividend - div_basic)) in
  let div_additional := py_max 0 (taxable_dividend - div_basic - div_higher) in
  mk_dividend_split div_basic div_higher div_additional.

(** [_calculate_dividend_tax(tax_year, dividend_income,
    other_taxable_income)]. *)
Definition _calculate_dividend_tax (tax_year : string)
           (dividend_income other_taxable_income : Q) : outcome Q :=
  match dividend_rates tax_year with
  | None => Raise (ValueError ("Temettü oranları bulunamadı: " ++ tax_year))
  | Some div_rates =>
      match tax_bands tax_year with
      | None => Raise (ValueError ("Vergi oranları bulunamadı: " ++ tax_year))
      | Some b =>
          if Qle_bool dividend_income 0 then Return 0
          else
            let s := split_dividend b div_rates dividend_income other_taxable_income in
            let basic_rate_div_tax := div_basic_band s * div_basic_rate div_rates in
            let higher_rate_div_tax := div_higher_band s * div_higher_rate div_rates in
            let additional_rate_div_tax :=
              div_additional_band s * div_additional_rate div_rates in
            Return (basic_rate_div_tax + higher_rate_div_tax + additional_rate_div_tax)
      end
  end.

(** The dict returned by [_calculate_national_insurance]. *)
Record ni_result : Type := mk_ni_result {
  ni_class2 : Q;
  ni_class4 : Q;
  ni_class4_lower : Q;
  ni_class4_upper : Q;
  ni_total : Q
}.

(** [_calculate_national_insurance(tax_year, self_employment_income)]. *)
Definition _calculate_national_insurance (tax_year : string)
           (self_employment_income : Q) : outcome ni_result :=
  match ni_rates tax_year with
  | None => Raise (ValueError ("Ulusal Sigorta oranları bulunamadı: " ++ tax_year))
  | Some r =>
      let class2 := if Qlt_b (class2_threshold r) self_employment_income
                    then class2_rate r * 52 else 0 in
      let class4_lower :=
        if Qlt_b (class4_lower_threshold r) self_employment_income
        then py_min (self_employment_income - class4_lower_threshold r)
                    (class4_upper_threshold r - class4_lower_threshold r)
             * class4_lower_rate r
        else 0 in
      let class4_upper :=
        if Qlt_b (class4_lower_threshold r) self_employment_income
           && Qlt_b (class4_upper_threshold r) self_employment_income
        then (self_employment_income - class4_upper_threshold r) * class4_upper_rate r
        else 0 in
      let class4 :=
        if Qlt_b (class4_lower_threshold r) self_employment_income
        then class4_lower + class4_upper else 0 in
      Return (mk_ni_result (py_round2 class2) (py_round2 class4)
                (py_round2 class4_lower) (py_round2 class4_upper)
                (py_round2 (class2 + class4)))
  end.

(** The band slices of the non-dividend computation of
    [calculate_income_tax]. *)
Record band_split : Type := mk_band_split {
  basic_rate_band : Q;
  higher_rate_band : Q;
  additional_rate_band : Q
}.

Definition split_bands (b : bands) (taxable_after_allowance : Q) : band_split :=
  let basic := py_min (basic_threshold b - personal_allowance b) taxable_after_allowance in
  let higher := py_min (higher_threshold b - basic_threshold b)
                       (py_max 0 (taxable_after_allowance - basic)) in
  let additional := py_max 0 (taxable_after_allowance - basic - higher) in
  mk_band_split basic higher additional.

(** [total_income], [total_deductions], then [taxable_after_allowance]
    with the tapered personal allowance. *)
Definition total_income_of (d : income_data) : Q :=
  Qsum [get0 (employment_income d); get0 (self_employment_income d);
        get0 (property_income d); get0 (dividends d)].

Definition total_deductions_of (d : income_data) : Q :=
  Qsum [get0 (pension_contributions d); get0 (gift_aid_donations d);
        get0 (other_deductions d)].

Definition personal_allowance_of (b : bands) (total_income : Q) : Q :=
  if Qlt_b 100000 total_income
  then personal_allowance b
       - py_min (personal_allowance b) ((total_income - 100000) / 2)
  else personal_allowance b.

Definition taxable_after_allowance_of (b : bands) (d : income_data) : Q :=
  let taxable_income := py_max 0 (total_income_of d - total_deductions_of d) in
  py_max 0 (taxable_income - personal_allowance_of b (total_income_of d)).

(** The dict returned by [calculate_income_tax]. *)
Record result : Type := mk_result {
  res_tax_year : string;
  res_total_income : Q;
  res_total_deductions : Q;
  res_taxable_income : Q;
  res_personal_allowance : Q;
  res_taxable_after_allowance : Q;
  res_basic_amount : Q;
  res_basic_tax : Q;
  res_higher_amount : Q;
  res_higher_tax : Q;
  res_additional_amount : Q;
  res_additional_tax : Q;
  res_income_tax : Q;
  res_dividend_tax : Q;
  res_total_income_tax : Q;
  res_national_insurance : ni_result;
  res_total_tax_and_ni : Q
}.

(** [calculate_income_tax(tax_year, income_data)]. *)
Definition calculate_income_tax (tax_year : string) (d : income_data)
  : outcome result :=
  match tax_bands tax_year with
  | None => Raise (ValueError ("Vergi yılı için oranlar bulunamadı: " ++ tax_year))
  | Some b =>
      let total_income := total_income_of d in
      let total_deductions := total_deductions_of d in
      let taxable_income := py_max 0 (total_income - total_deductions) in
      let personal_allowance := personal_allowance_of b total_income in
      let taxable_after_allowance := py_max 0 (taxable_income - personal_allowance) in
      let s := split_bands b taxable_after_allowance in
      let basic_rate_tax := basic_rate_band s * basic_rate b in
      let higher_rate_tax := higher_rate_band s * higher_rate b in
      let additional_rate_tax := additional_rate_band s * additional_rate b in
      let total_tax := basic_rate_tax + higher_rate_tax + additional_rate_tax in
      match _calculate_dividend_tax tax_year (get0 (dividends d))
              (taxable_after_allowance - get0 (dividends d)) with
      | Raise e => Raise e
      | Return dividend_tax =>
          match _calculate_national_insurance tax_year
                  (get0 (self_employment_income d)) with
          | Raise e => Raise e
          | Return ni_contributions =>
              Return
                (mk_result tax_year
                   (py_round2 total_income) (py_round2 total_deductions)
                   (py_round2 taxable_income) (py_round2 personal_allowance)
                   (py_round2 taxable_after_allowance)
                   (py_round2 (basic_rate_band s)) (py_round2 basic_rate_tax)
                   (py_round2 (higher_rate_band s)) (py_round2 higher_rate_tax)
                   (py_round2 (additional_rate_band s)) (py_round2 additional_rate_tax)
                   (py_round2 total_tax) (py_round2 dividend_tax)
                   (py_round2 (total_tax + dividend_tax))
                   ni_contributions
                   (py_round2 (total_tax + dividend_tax + ni_total ni_contributions)))
          end
      end
  end.

End IncomeTaxCalculator.

(* ================================================================== *)
(** * [src/core/tax.py]: [IncomeTaxReturn] and [TaxManager]            *)
(* ================================================================== *)

(** [s.split(sep)] for a one-character separator: the pieces between the
    occurrences of [sep], at least one piece. *)
Fixpoint split_on (sep : ascii) (s : string) : list string :=
  match s with
  | EmptyString => [EmptyString]
  | String c rest =>
      if Ascii.eqb c sep then EmptyString :: split_on sep rest
      else match split_on sep rest with
           | hd :: tl => String c hd :: tl
           | [] => [String c EmptyString]
           end
  end.

(** A [datetime.date]. *)
Record pydate : Type := mk_date { d_year : Z; d_month : Z; d_day : Z }.

(** [date(year, 4, day)] for a day of April that exists: the constructor
    raises [ValueError] unless [MINYEAR <= year <= MAXYEAR]. *)
Definition april (year day : Z) : option pydate :=
  if (1 <=? year)%Z && (year <=? 9999)%Z then Some (mk_date year 4 day) else None.

Module IncomeTaxReturn.

Record t : Type := mk {
  tax_year : option string;
  period_start : option pydate;
  period_end : option pydate;
  total_income : Q;
  total_expenses : Q;
  net_profit : Q;
  tax_allowance : Q;
  taxable_income : Q;
  tax_due : Q;
  submission_date : option string;
  status : string
}.

Section Dates.

(** [int(s)] of Python, [None] for [ValueError]. *)
Variable py_int : string -> option Z.

(** [_set_tax_year_dates(tax_year)]: the two dates after the call.  Both
    [ValueError] and [IndexError] are caught and logged; what had been
    assigned before the exception stays. *)
Definition _set_tax_year_dates (tax_year : string) : option pydate * option pydate :=
  let parts := split_on "-"%char tax_year in
  match py_int (hd EmptyString parts) with
  | None => (None, None)
  | Some start_year =>
      match april start_year 6 with
      | None => (None, None)
      | Some period_start => (Some period_start, april (start_year + 1) 5)
      end
  end.

(** [__init__(tax_year)]. *)
Definition init (tax_year : option string) : t :=
  let dates :=
    match tax_year with
    | Some y => if str_is_empty y then (None, None) else _set_tax_year_dates y
    | None => (None, None)
    end in
  mk tax_year (fst dates) (snd dates) 0 0 0 0 0 0 None "draft".

End Dates.

(** [_calculate_tax()]: the value assigned to [self.tax_due]. *)
Definition _calculate_tax (taxable_income : Q) : Q :=
  if Qle_bool taxable_income 0 then 0
  else
    let basic_rate_limit := 37700 in
    let higher_rate_limit := 150000 in
    let basic_rate := 20 # 100 in
    let higher_rate := 40 # 100 in
    let additional_rate := 45 # 100 in
    let tax :=
      if Qle_bool taxable_income basic_rate_limit
      then taxable_income * basic_rate
      else
        basic_rate_limit * basic_rate
        + (if Qle_bool taxable_income higher_rate_limit
           then (taxable_income - basic_rate_limit) * higher_rate
           else (higher_rate_limit - basic_rate_limit) * higher_rate
                + (taxable_income - higher_rate_limit) * additional_rate) in
    Transaction.quantize2 tax.

(** [calculate_totals()]. *)
Definition calculate_totals (x : t) : t :=
  let net_profit := total_income x - total_expenses x in
  let taxable_income := py_max 0 (net_profit - tax_allowance x) in
  mk (tax_year x) (period_start x) (period_end x)
     (total_income x) (total_expenses x) net_profit (tax_allowance x)
     taxable_income (_calculate_tax taxable_income)
     (submission_date x) (status x).

(** [validate()]: the pair [(is_valid, error)].  A [date] object is
    always true; [None] and the empty string are not. *)
Definition validate (x : t) : bool * option string :=
  if match tax_year x with Some y => str_is_empty y | None => true end
     || match period_start x with Some _ => false | None => true end
     || match period_end x with Some _ => false | None => true end
  then (false, Some "Vergi yılı ve dönem bilgileri eksik"%string)
  else if Qlt_b (total_income x) 0
  then (false, Some "Toplam gelir negatif olamaz"%string)
  else if Qlt_b (total_expenses x) 0
  then (false, Some "Toplam gider negatif olamaz"%string)
  else if Qlt_b (tax_allowance x) 0
  then (false, Some "Vergi muafiyeti negatif olamaz"%string)
  else
    let expected_net := total_income x - total_expenses x in
    if Qlt_b (1 # 100) (Qabs (net_profit x - expected_net))
    then (false, Some "Net kâr hesaplaması yanlış"%string)
    else
      let expected_taxable := py_max 0 (net_profit x - tax_allowance x) in
      if Qlt_b (1 # 100) (Qabs (taxable_income x - expected_taxable))
      then (false, Some "Vergilendirilecek gelir hesaplaması yanlış"%string)
      else (true, None).

End IncomeTaxReturn.

Module TaxPeriod.

Record t : Type := mk {
  start_date : pydate;
  end_date : pydate;
  period_key : option string;
  status : string
}.

(** [TaxPeriod(start_date, end_date)] on two [date] objects. *)
Definition init (start_date end_date : pydate) : t :=
  mk start_date end_date None "O".

End TaxPeriod.

Module VATReturn.

Record t : Type := mk {
  period : option TaxPeriod.t;
  vat_due_sales : Q;              (* Box 1 *)
  vat_due_acquisitions : Q;       (* Box 2 *)
  total_vat_due : Q;              (* Box 3 *)
  vat_reclaimed : Q;              (* Box 4 *)
  net_vat_due : Q;                (* Box 5 *)
  total_sales_ex_vat : Q;         (* Box 6 *)
  total_purchases_ex_vat : Q;     (* Box 7 *)
  total_supplies_ex_vat : Q;      (* Box 8 *)
  total_acquisitions_ex_vat : Q;  (* Box 9 *)
  submission_date : option string;
  status : string;
  finalised : bool
}.

(** [__init__(period)]. *)
Definition init (period : option TaxPeriod.t) : t :=
  mk period 0 0 0 0 0 0 0 0 0 None "draft" false.

(** [calculate_totals()]. *)
Definition calculate_totals (x : t) : t :=
  let total_vat_due := vat_due_sales x + vat_due_acquisitions x in
  mk (period x) (vat_due_sales x) (vat_due_acquisitions x) total_vat_due
     (vat_reclaimed x) (total_vat_due - vat_reclaimed x)
     (total_sales_ex_vat x) (total_purchases_ex_vat x)
     (total_supplies_ex_vat x) (total_acquisitions_ex_vat x)
     (submission_date x) (status x) (finalised x).

(** [validate()]: the pair [(is_valid, error)].  A [TaxPeriod] object is
    always true. *)
Definition validate (x : t) : bool * option string :=
  match period x with
  | None => (false, Some "Dönem bilgileri eksik"%string)
  | Some _ =>
      if Qlt_b (vat_due_sales x) 0
      then (false, Some "Satışlardan KDV negatif olamaz"%string)
      else if Qlt_b (vat_due_acquisitions x) 0
      then (false, Some "AB Alımlarından KDV negatif olamaz"%string)
      else if Qlt_b (vat_reclaimed x) 0
      then (false, Some "İndirilecek KDV negatif olamaz"%string)
      else if Qlt_b (total_sales_ex_vat x) 0
      then (false, Some "Toplam Satışlar negatif olamaz"%string)
      else if Qlt_b (total_purchases_ex_vat x) 0
      then (false, Some "Toplam Alımlar negatif olamaz"%string)
      else if Qlt_b (total_supplies_ex_vat x) 0
      then (false, Some "AB'ye Mal Teslimleri negatif olamaz"%string)
      else if Qlt_b (total_acquisitions_ex_vat x) 0
      then (false, Some "AB'den Mal Alımları negatif olamaz"%string)
      else
        let expected_total := vat_due_sales x + vat_due_acquisitions x in
        if Qlt_b (1 # 100) (Qabs (total_vat_due x - expected_total))
        then (false, Some "Toplam KDV hesaplaması yanlış"%string)
        else
          let expected_net := total_vat_due x - vat_reclaimed x in
          if Qlt_b (1 # 100) (Qabs (net_vat_due x - expected_net))
          then (false, Some "Net KDV hesaplaması yanlış"%string)
          else (true, None)
  end.

End VATReturn.

Module TaxManager.

(** An element of the list returned by [Ledger.get_income_expenses], with
    the keys that [calculate_income_tax_return] reads. *)
Record ie_item : Type := mk_ie_item {
  ie_date : option string;
  ie_income : option Q;
  ie_expense : option Q
}.

Section Manager.

Variable py_int : string -> option Z.

(** [d.strftime("%Y-%m-%d")]. *)
Variable strftime : pydate -> string.

(** [calculate_income_tax_return(tax_year)]; [income_expenses] is the
    list that [self.ledger.get_income_expenses()] returns.  Nothing in
    the body raises in this model, so the result is always a return. *)
Definition calculate_income_tax_return (tax_year : option string)
           (income_expenses : list ie_item) : outcome IncomeTaxReturn.t :=
  let tax_return := IncomeTaxReturn.init py_int tax_year in
  match IncomeTaxReturn.period_start tax_return,
        IncomeTaxReturn.period_end tax_return with
  | Some period_start, Some period_end =>
      let start_date := strftime period_start in
      let end_date := strftime period_end in
      let period_items :=
        filter (fun ie =>
                  let d := match ie_date ie with Some s => s | None => EmptyString end in
                  String.leb start_date d && String.leb d end_date)
               income_expenses in
      let total_income :=
        fold_left (fun acc item => acc + IncomeTaxCalculator.get0 (ie_income item))
                  period_items (IncomeTaxReturn.total_income tax_return) in
      let total_expenses :=
        fold_left (fun acc item => acc + IncomeTaxCalculator.get0 (ie_expense item))
                  period_items (IncomeTaxReturn.total_expenses tax_return) in
      Return
        (IncomeTaxReturn.calculate_totals
           (IncomeTaxReturn.mk
              (IncomeTaxReturn.tax_year tax_return)
              (IncomeTaxReturn.period_start tax_return)
              (IncomeTaxReturn.period_end tax_return)
              total_income total_expenses
              (IncomeTaxReturn.net_profit tax_return)
              12570
              (IncomeTaxReturn.taxable_income tax_return)
              (IncomeTaxReturn.tax_due tax_return)
              (IncomeTaxReturn.submission_date tax_return)
              (IncomeTaxReturn.status tax_return)))
  | _, _ => Return tax_return
  end.

(** [datetime.strptime(s, "%Y-%m-%d").date()]: [None] stands for
    [ValueError]. *)
Variable strptime : string -> option pydate.

(** [self.ledger.get_transactions_by_date_range(start, end)], for a
    ledger whose method takes the two dates as strings and returns
    [Transaction] objects, as the one of [TransactionManager] does. *)
Variable ledger_get_transactions_by_date_range :
  string -> string -> list Transaction.t.

(** A date argument: a string or a [date] object. *)
Inductive date_arg : Type :=
| DateStr (s : string)
| DateObj (d : pydate).

Definition as_date (d : date_arg) : option pydate :=
  match d with
  | DateStr s => strptime s
  | DateObj d => Some d
  end.

(** The body of the loop of [calculate_vat_return]: four independent
    tests on one transaction. *)
Definition vat_step (v : VATReturn.t) (trans : Transaction.t) : VATReturn.t :=
  let account_code := Transaction.account trans in
  let credited := Qpos_b (Transaction.credit trans) in
  let debited := Qpos_b (Transaction.debit trans) in
  VATReturn.mk
    (VATReturn.period v)
    (if String.eqb account_code "2100" && credited
     then VATReturn.vat_due_sales v + Transaction.credit trans
     else VATReturn.vat_due_sales v)
    (VATReturn.vat_due_acquisitions v)
    (VATReturn.total_vat_due v)
    (if String.eqb account_code "2200" && debited
     then VATReturn.vat_reclaimed v + Transaction.debit trans
     else VATReturn.vat_reclaimed v)
    (VATReturn.net_vat_due v)
    (if startswith "4" account_code && credited
     then VATReturn.total_sales_ex_vat v + Transaction.credit trans
     else VATReturn.total_sales_ex_vat v)
    (if startswith "5" account_code && debited
     then VATReturn.total_purchases_ex_vat v + Transaction.debit trans
     else VATReturn.total_purchases_ex_vat v)
    (VATReturn.total_supplies_ex_vat v)
    (VATReturn.total_acquisitions_ex_vat v)
    (VATReturn.submission_date v) (VATReturn.status v) (VATReturn.finalised v).

(** [calculate_vat_return(start_date, end_date)]: [None] stands for the
    [ValueError] of [strptime], raised before the [try]. *)
Definition calculate_vat_return (start_date end_date : date_arg)
  : option VATReturn.t :=
  match as_date start_date with
  | None => None
  | Some start_date =>
      match as_date end_date with
      | None => None
      | Some end_date =>
          let period := TaxPeriod.init start_date end_date in
          let vat_return := VATReturn.init (Some period) in
          let transactions :=
            ledger_get_transactions_by_date_range
              (strftime start_date) (strftime end_date) in
          Some (VATReturn.calculate_totals
                  (fold_left vat_step transactions vat_return))
      end
  end.

End Manager.

End TaxManager.

(** An instance of [int(s)] for the examples: it reads a non-empty string
    of ASCII digits and rejects every other string.  (Python also accepts
    a sign, surrounding blanks and underscores between digits.) *)
Fixpoint digits_value (acc : Z) (s : string) : option Z :=
  match s with
  | EmptyString => Some acc
  | String c rest =>
      let n := Z.of_nat (nat_of_ascii c) in
      if (48 <=? n)%Z && (n <=? 57)%Z
      then digits_value (acc * 10 + (n - 48))%Z rest
      else None
  end.

Definition digits_int (s : string) : option Z :=
  match s with
  | EmptyString => None
  | _ => digits_value 0%Z s
  end.

(** An instance of [strptime(s, "%Y-%m-%d")] for the examples: the day
    numbers ([date.toordinal()]) of the four dates they use. *)
Definition sample_strptime (s : string) : option Z :=
  if String.eqb s "2024-01-01" then Some 738886%Z
  else if String.eqb s "2024-01-15" then Some 738900%Z
  else if String.eqb s "2024-03-31" then Some 738976%Z
  else if String.eqb s "2024-04-15" then Some 738991%Z
  else None.

(* ================================================================== *)
(** * Properties                                                       *)
(* ================================================================== *)

(** ** Numbers *)

Lemma Qpos_b_true (x : Q) : Qpos_b x = true <-> 0 < x.
Proof.
  unfold Qpos_b. rewrite negb_true_iff.
  destruct (Qle_bool x 0) eqn:E.
  - apply Qle_bool_iff in E. split; [discriminate | intro H; lra].
  - split; [intros _ | reflexivity].
    destruct (Qlt_le_dec 0 x) as [H | H]; [exact H |].
    apply Qle_bool_iff in H. congruence.
Qed.

Lemma Qpos_b_false (x : Q) : Qpos_b x = false <-> x <= 0.
Proof.
  unfold Qpos_b. rewrite negb_false_iff. apply Qle_bool_iff.
Qed.

Lemma Qzero_b_true (x : Q) : Qzero_b x = true <-> x == 0.
Proof. unfold Qzero_b. apply Qeq_bool_iff. Qed.

Lemma Qzero_b_false (x : Q) : Qzero_b x = false <-> ~ x == 0.
Proof.
  unfold Qzero_b. split.
  - apply Qeq_bool_neq.
  - intro H. destruct (Qeq_bool x 0) eqn:E; [| reflexivity].
    apply Qeq_bool_iff in E. contradiction.
Qed.

Lemma Qlt_b_true (x y : Q) : Qlt_b x y = true <-> x < y.
Proof.
  unfold Qlt_b. rewrite negb_true_iff.
  destruct (Qle_bool y x) eqn:E.
  - apply Qle_bool_iff in E. split; [discriminate | intro H; lra].
  - split; [intros _ | reflexivity].
    destruct (Qlt_le_dec x y) as [H | H]; [exact H |].
    apply Qle_bool_iff in H. congruence.
Qed.

Lemma Qlt_b_false (x y : Q) : Qlt_b x y = false <-> y <= x.
Proof. unfold Qlt_b. rewrite negb_false_iff. apply Qle_bool_iff. Qed.

Lemma Qle_bool_false (x y : Q) : Qle_bool x y = false <-> y < x.
Proof.
  split; intro H.
  - destruct (Qlt_le_dec y x) as [L | L]; [exact L |].
    apply Qle_bool_iff in L. congruence.
  - destruct (Qle_bool x y) eqn:E; [| reflexivity].
    apply Qle_bool_iff in E. lra.
Qed.

#[global] Instance Qpos_b_proper : Proper (Qeq ==> eq) Qpos_b.
Proof. intros x y H. unfold Qpos_b. now rewrite H. Qed.

#[global] Instance Qlt_b_proper : Proper (Qeq ==> Qeq ==> eq) Qlt_b.
Proof. intros x y H x' y' H'. unfold Qlt_b. now rewrite H, H'. Qed.

Lemma py_max_spec (a b : Q) :
  (a < b /\ py_max a b = b) \/ (b <= a /\ py_max a b = a).
Proof.
  unfold py_max. destruct (Qlt_b a b) eqn:E.
  - left. split; [now apply Qlt_b_true | reflexivity].
  - right. split; [now apply Qlt_b_false | reflexivity].
Qed.

Lemma py_min_spec (a b : Q) :
  (b < a /\ py_min a b = b) \/ (a <= b /\ py_min a b = a).
Proof.
  unfold py_min. destruct (Qlt_b b a) eqn:E.
  - left. split; [now apply Qlt_b_true | reflexivity].
  - right. split; [now apply Qlt_b_false | reflexivity].
Qed.

#[global] Instance py_max_proper : Proper (Qeq ==> Qeq ==> Qeq) py_max.
Proof.
  intros a a' Ha b b' Hb.
  destruct (py_max_spec a b) as [[L ->] | [L ->]],
           (py_max_spec a' b') as [[L' ->] | [L' ->]]; lra.
Qed.

#[global] Instance py_min_proper : Proper (Qeq ==> Qeq ==> Qeq) py_min.
Proof.
  intros a a' Ha b b' Hb.
  destruct (py_min_spec a b) as [[L ->] | [L ->]],
           (py_min_spec a' b') as [[L' ->] | [L' ->]]; lra.
Qed.

Lemma py_max_0_nonneg (x : Q) : 0 <= py_max 0 x.
Proof. destruct (py_max_spec 0 x) as [[L ->] | [L ->]]; lra. Qed.

Lemma py_max_ge_r (a b : Q) : b <= py_max a b.
Proof. destruct (py_max_spec a b) as [[L ->] | [L ->]]; lra. Qed.

Lemma py_min_le_l (a b : Q) : py_min a b <= a.
Proof. destruct (py_min_spec a b) as [[L ->] | [L ->]]; lra. Qed.

Lemma py_min_le_r (a b : Q) : py_min a b <= b.
Proof. destruct (py_min_spec a b) as [[L ->] | [L ->]]; lra. Qed.

#[global] Instance round_half_even_proper : Proper (Qeq ==> eq) round_half_even.
Proof.
  intros x y H. unfold round_half_even.
  rewrite (Qfloor_comp _ _ H).
  assert (E : x - inject_Z (Qfloor y) == y - inject_Z (Qfloor y)) by (rewrite H; reflexivity).
  now rewrite (Qcompare_comp _ _ E _ _ (Qeq_refl (1 # 2))).
Qed.

#[global] Instance py_round2_proper : Proper (Qeq ==> Qeq) py_round2.
Proof.
  intros x y H. unfold py_round2.
  assert (E : x * 100 == y * 100) by (rewrite H; reflexivity).
  now rewrite (round_half_even_proper _ _ E).
Qed.

(** An integer is its own rounding. *)
Lemma round_half_even_Z (z : Z) : round_half_even (inject_Z z) = z.
Proof.
  unfold round_half_even. rewrite Qfloor_Z.
  assert (E : inject_Z z - inject_Z z == 0) by ring.
  rewrite (Qcompare_comp _ _ E _ _ (Qeq_refl (1 # 2))). reflexivity.
Qed.

(** A whole number of hundredths is left alone by [round(x, 2)]. *)
Lemma py_round2_cents (c : Z) : py_round2 (of_cents c) == of_cents c.
Proof.
  unfold py_round2, of_cents.
  assert (E : inject_Z c / 100 * 100 == inject_Z c) by (field).
  rewrite (round_half_even_proper _ _ E), round_half_even_Z. reflexivity.
Qed.

Lemma Qfloor_unique (x : Q) (z : Z) :
  inject_Z z <= x -> x < inject_Z z + 1 -> Qfloor x = z.
Proof.
  intros L U.
  assert (A := Qfloor_le x). assert (B := Qlt_floor x).
  rewrite inject_Z_plus in B. change (inject_Z 1) with 1 in B.
  assert (H1 : inject_Z (Qfloor x) < inject_Z (z + 1)).
  { rewrite inject_Z_plus. change (inject_Z 1) with 1. lra. }
  assert (H2 : inject_Z z < inject_Z (Qfloor x + 1)).
  { rewrite inject_Z_plus. change (inject_Z 1) with 1. lra. }
  rewrite <- Zlt_Qlt in H1, H2. lia.
Qed.

Lemma round_half_up_Z (z : Z) : round_half_up (inject_Z z) = z.
Proof.
  unfold round_half_up.
  destruct (Qle_bool 0 (inject_Z z)).
  - apply Qfloor_unique; lra.
  - unfold Qceiling.
    rewrite (Qfloor_unique _ (- z)%Z); [lia | |]; rewrite inject_Z_opp; lra.
Qed.

#[global] Instance round_half_up_proper : Proper (Qeq ==> eq) round_half_up.
Proof.
  intros x y H. unfold round_half_up.
  rewrite (Qleb_comp _ _ (Qeq_refl 0) _ _ H).
  assert (E1 : x + (1 # 2) == y + (1 # 2)) by (rewrite H; reflexivity).
  assert (E2 : - (x - (1 # 2)) == - (y - (1 # 2))) by (rewrite H; reflexivity).
  unfold Qceiling.
  now rewrite (Qfloor_comp _ _ E1), (Qfloor_comp _ _ E2).
Qed.

(** Quantizing a whole number of hundredths changes nothing. *)
Lemma quantize_of_cents (c : Z) : quantize (of_cents c) = c.
Proof.
  unfold quantize, of_cents.
  assert (E : inject_Z c / 100 * 100 == inject_Z c) by field.
  rewrite (round_half_up_proper _ _ E). apply round_half_up_Z.
Qed.

Lemma quantize2_idem (x : Q) :
  Transaction.quantize2 (Transaction.quantize2 x) = Transaction.quantize2 x.
Proof. unfold Transaction.quantize2. now rewrite quantize_of_cents. Qed.

(** ** The heap and the lists of the store *)

(** Every address kept in the transaction list designates a dict. *)
Definition wf (w : world) : Prop :=
  Forall (fun r => (r < List.length (heap w))%nat) (transactions w).

Lemma set_nth_length {A : Type} (i : nat) (x : A) (l : list A) :
  List.length (set_nth i x l) = List.length l.
Proof.
  revert i. induction l as [| hd tl IH]; intros [| j]; simpl; auto.
Qed.

Lemma nth_set_nth_same {A : Type} (i : nat) (x d : A) (l : list A) :
  (i < List.length l)%nat -> nth i (set_nth i x l) d = x.
Proof.
  revert i. induction l as [| hd tl IH]; intros [| j] H; simpl in *; try lia; auto.
  apply IH. lia.
Qed.

Lemma nth_set_nth_other {A : Type} (i j : nat) (x d : A) (l : list A) :
  i <> j -> nth j (set_nth i x l) d = nth j l d.
Proof.
  revert i j. induction l as [| hd tl IH]; intros [| i] [| j] H; simpl; auto.
  contradiction.
Qed.

Lemma set_nth_nth {A : Type} (i : nat) (d : A) (l : list A) :
  set_nth i (nth i l d) l = l.
Proof.
  revert i. induction l as [| hd tl IH]; intros [| j]; simpl; auto.
  now rewrite IH.
Qed.

Lemma set_nth_app_new {A : Type} (x y : A) (l : list A) :
  set_nth (List.length l) y (l ++ [x]) = l ++ [y].
Proof. induction l as [| hd tl IH]; simpl; [reflexivity | now rewrite IH]. Qed.

Lemma deref_alloc_old (t : tdict) (w : world) (r : nat) :
  (r < List.length (heap w))%nat -> deref (fst (alloc t w)) r = deref w r.
Proof. intro H. unfold deref, alloc. simpl. now apply app_nth1. Qed.

Lemma deref_alloc_new (t : tdict) (w : world) :
  deref (fst (alloc t w)) (snd (alloc t w)) = t.
Proof.
  unfold deref, alloc. simpl. rewrite app_nth2 by lia.
  now rewrite Nat.sub_diag.
Qed.

Lemma map_deref_ext (w w' : world) (l : list nat) :
  Forall (fun r => deref w' r = deref w r) l -> map (deref w') l = map (deref w) l.
Proof.
  induction 1 as [| r l E _ IH]; simpl; [reflexivity | now rewrite E, IH].
Qed.

(** ** [Transaction.validate] and [TransactionManager.add_transaction] *)

(** A dict made by [to_dict] already has an id and a date: the store
    appends it as it is. *)
Lemma add_transaction_accepts (today : string) (x : Transaction.t) (w : world) :
  wf w ->
  fst (Transaction.validate x) = true ->
  let w' := fst (TransactionManager.add_transaction today x w) in
  log w' = log w ++ [Transaction.to_dict x]
  /\ chart_of_accounts w' = chart_of_accounts w
  /\ wf w'
  /\ snd (TransactionManager.add_transaction today x w)
     = TransactionManager.Success (Transaction.id x).
Proof.
  intros Hwf Hv. unfold TransactionManager.add_transaction.
  destruct (Transaction.validate x) as [[|] err]; simpl in Hv; [| discriminate].
  unfold alloc, Database.add_transaction, deref. simpl.
  rewrite app_nth2 by lia. rewrite Nat.sub_diag. simpl.
  rewrite set_nth_app_new.
  unfold log, deref. simpl. repeat split.
  - rewrite map_app. simpl. rewrite app_nth2 by lia. rewrite Nat.sub_diag. simpl.
    f_equal. apply map_ext_in. intros r Hr.
    unfold wf in Hwf. rewrite Forall_forall in Hwf.
    apply app_nth1. now apply Hwf.
  - unfold wf. simpl. apply Forall_app. split.
    + unfold wf in Hwf. eapply Forall_impl; [| exact Hwf].
      intros r Hr. simpl in Hr. rewrite length_app. simpl. lia.
    + constructor; [| constructor]. rewrite length_app. simpl. lia.
Qed.

Lemma add_transaction_rejects (today : string) (x : Transaction.t) (w : world) :
  fst (Transaction.validate x) = false ->
  TransactionManager.add_transaction today x w
  = (w, TransactionManager.Failure
          (Transaction.or_default (snd (Transaction.validate x)) EmptyString)).
Proof.
  intro Hv. unfold TransactionManager.add_transaction.
  destruct (Transaction.validate x) as [[|] err]; simpl in *; [discriminate | reflexivity].
Qed.

(** [validate] refuses a transaction whose two amounts are both strictly
    positive or both zero, and says why. *)
Lemma validate_refuses_both_or_neither (x : Transaction.t) :
  (0 < Transaction.debit x /\ 0 < Transaction.credit x)
  \/ (Transaction.debit x == 0 /\ Transaction.credit x == 0) ->
  fst (Transaction.validate x) = false
  /\ exists msg, snd (Transaction.validate x) = Some msg.
Proof.
  intro H. unfold Transaction.validate.
  destruct (Transaction.is_empty (Transaction.date x)); [simpl; eauto |].
  destruct (Transaction.is_empty (Transaction.account x)); [simpl; eauto |].
  destruct (Qzero_b (Transaction.debit x) && Qzero_b (Transaction.credit x)) eqn:Z;
    [simpl; eauto |].
  destruct (Qpos_b (Transaction.debit x) && Qpos_b (Transaction.credit x)) eqn:P;
    [simpl; eauto |].
  exfalso. destruct H as [[Hd Hc] | [Hd Hc]].
  - apply Qpos_b_true in Hd, Hc. rewrite Hd, Hc in P. discriminate.
  - apply Qzero_b_true in Hd, Hc. rewrite Hd, Hc in Z. discriminate.
Qed.

(** C8.  Debit/credit exclusivity: a transaction whose debit and credit
    are both strictly positive, or both zero, fails [Transaction.validate]
    with an error message (whatever its date and account code are, so in
    particular when both are non-empty), and
    [TransactionManager.add_transaction] refuses it: the store is left as
    it was and the call returns [(False, message)]. *)
Theorem debit_credit_exclusivity
        (today : string) (x : Transaction.t) (w : world) :
  (0 < Transaction.debit x /\ 0 < Transaction.credit x)
  \/ (Transaction.debit x == 0 /\ Transaction.credit x == 0) ->
  fst (Transaction.validate x) = false
  /\ (exists msg, snd (Transaction.validate x) = Some msg)
  /\ (exists msg, TransactionManager.add_transaction today x w
                  = (w, TransactionManager.Failure msg)).
Proof.
  intro H. destruct (validate_refuses_both_or_neither x H) as [V1 [msg V2]].
  repeat split; eauto.
  exists msg. rewrite add_transaction_rejects by exact V1. now rewrite V2.
Qed.

(** The same through a dict: the check is made on the [Transaction] that
    [from_dict] builds, that is on the quantized amounts. *)
Lemma dict_with_both_or_neither_is_refused
      (today uuid : string) (data : tdict) (w : world) :
  let x := Transaction.from_dict uuid today data in
  (0 < Transaction.debit x /\ 0 < Transaction.credit x)
  \/ (Transaction.debit x == 0 /\ Transaction.credit x == 0) ->
  exists msg, TransactionManager.add_transaction_dict today uuid data w
              = (w, TransactionManager.Failure msg).
Proof.
  intros x H. unfold TransactionManager.add_transaction_dict. fold x.
  destruct (validate_refuses_both_or_neither x H) as [V1 [msg V2]].
  exists msg. rewrite add_transaction_rejects by exact V1. now rewrite V2.
Qed.

(** A transaction with a debit of 5.00 and a credit of 3.00 on account
    1200, and one with neither. *)
Definition both_sides : Transaction.t :=
  Transaction.init "u-1" "2024-01-15" None (Some "2024-01-15"%string)
    "both sides" "1200" 5 3 0 "DOC-1" "unreconciled" "manual" "".

Lemma debit_credit_exclusivity_witness :
  fst (Transaction.validate both_sides) = false
  /\ (exists msg, snd (Transaction.validate both_sides) = Some msg)
  /\ (exists msg, TransactionManager.add_transaction "2024-01-15" both_sides
                    Ledger.fresh_ledger
                  = (Ledger.fresh_ledger, TransactionManager.Failure msg)).
Proof.
  apply (debit_credit_exclusivity "2024-01-15" both_sides Ledger.fresh_ledger).
  left. split; reflexivity.
Defined.

(** C10.  Negative amounts pass validation.  The transaction with debit
    -5, credit 0, a date and an account code is valid for
    [Transaction.validate]; [TransactionManager.add_transaction] stores
    it, and the balance computed from the stored transactions is -5.  A
    posting with debit -5 and credit 20 on account 2100 is accepted in the
    same way, lowers the balance of 2100 to -25 and is counted in Box 1 of
    the VAT return of its period. *)
Theorem negative_amounts_are_accepted :
  let today := "2024-01-15"%string in
  let x := Transaction.init "u-1" today None (Some today)
             "refund" "1200" (-5) 0 0 "DOC-1" "unreconciled" "manual" "" in
  let y := Transaction.init "u-2" today None (Some today)
             "mixed" "2100" (-5) 20 0 "DOC-2" "unreconciled" "manual" "" in
  let w1 := fst (TransactionManager.add_transaction today x Ledger.fresh_ledger) in
  let w2 := fst (TransactionManager.add_transaction today y w1) in
  Transaction.debit x < 0 /\ Transaction.credit x == 0
  /\ Transaction.date x <> EmptyString /\ Transaction.account x <> EmptyString
  /\ Transaction.validate x = (true, None)
  /\ TransactionManager.add_transaction today x Ledger.fresh_ledger
     = (w1, TransactionManager.Success (IdStr "u-1"))
  /\ log w1 = [Transaction.to_dict x]
  /\ TransactionManager.get_account_balance today "1200" w1 == -5
  /\ Transaction.validate y = (true, None)
  /\ log w2 = [Transaction.to_dict x; Transaction.to_dict y]
  /\ TransactionManager.get_account_balance today "2100" w2 == -25
  /\ exists v, Ledger.calculate_vat_return sample_strptime
                 "2024-01-01" "2024-03-31" w2 = Return v
               /\ Ledger.vat_due_sales v == 20.
Proof.
  cbv zeta.
  repeat match goal with |- _ /\ _ => split end;
    try (vm_compute; reflexivity); try (vm_compute; discriminate).
  eexists. split; [reflexivity |]. vm_compute. reflexivity.
Qed.

(** ** Account lists *)

(** The entry that [get_account_by_code] returns, its balance, and the
    list left by [_update_account_balance]. *)
Definition lookup (c : string) (accs : list adict) : option adict :=
  find (fun a => String.eqb (a_code a) c) accs.

Definition bal (c : string) (accs : list adict) : Q :=
  match lookup c accs with Some a => get_balance a | None => 0 end.

Definition apply_delta (code : string) (amount : Q) (accs : list adict) : list adict :=
  match lookup code accs with
  | None => accs
  | Some a => fst (Database.update_account_list code
                     (set_balance (get_balance a + amount) a) accs)
  end.

Lemma update_account_list_cons (code : string) (a' a : adict) (tl : list adict) :
  fst (Database.update_account_list code a' (a :: tl)) =
  if String.eqb (a_code a) code then set_code code a' :: tl
  else a :: fst (Database.update_account_list code a' tl).
Proof.
  unfold Database.update_account_list. simpl.
  destruct (String.eqb (a_code a) code); [reflexivity |].
  destruct (find_index _ tl); reflexivity.
Qed.

Lemma lookup_update (c code : string) (a' : adict) (accs : list adict) :
  lookup c (fst (Database.update_account_list code a' accs)) =
  if String.eqb c code
  then match lookup code accs with Some _ => Some (set_code code a') | None => None end
  else lookup c accs.
Proof.
  induction accs as [| a tl IH].
  - simpl. now destruct (String.eqb c code).
  - rewrite update_account_list_cons. unfold lookup in *. simpl.
    destruct (String.eqb (a_code a) code) eqn:E.
    + apply String.eqb_eq in E. simpl.
      destruct (String.eqb c code) eqn:F.
      * apply String.eqb_eq in F. subst. now rewrite String.eqb_refl.
      * rewrite E. rewrite String.eqb_sym, F. reflexivity.
    + simpl. destruct (String.eqb c code) eqn:F.
      * apply String.eqb_eq in F. subst c. rewrite E. exact IH.
      * destruct (String.eqb (a_code a) c); [reflexivity | exact IH].
Qed.

Lemma lookup_apply_delta (c code : string) (amount : Q) (accs : list adict) :
  lookup c (apply_delta code amount accs) =
  if String.eqb c code
  then match lookup code accs with
       | Some a => Some (set_code code (set_balance (get_balance a + amount) a))
       | None => None
       end
  else lookup c accs.
Proof.
  unfold apply_delta. destruct (lookup code accs) as [a |] eqn:L.
  - rewrite lookup_update, L. reflexivity.
  - destruct (String.eqb c code) eqn:F; [| reflexivity].
    apply String.eqb_eq in F. now subst.
Qed.

Lemma bal_apply_delta (c code : string) (amount : Q) (accs : list adict) :
  bal c (apply_delta code amount accs) ==
  bal c accs + (if String.eqb c code && is_some (lookup code accs) then amount else 0).
Proof.
  unfold bal. rewrite lookup_apply_delta.
  destruct (String.eqb c code) eqn:F.
  - apply String.eqb_eq in F. subst c.
    destruct (lookup code accs) as [a |]; simpl; [| lra].
    unfold get_balance. simpl. lra.
  - simpl. lra.
Qed.

Lemma is_some_lookup_apply_delta (c code : string) (amount : Q) (accs : list adict) :
  is_some (lookup c (apply_delta code amount accs)) = is_some (lookup c accs).
Proof.
  rewrite lookup_apply_delta. destruct (String.eqb c code) eqn:F; [| reflexivity].
  apply String.eqb_eq in F. subst. now destruct (lookup code accs).
Qed.

Lemma update_account_balance_world (code : string) (amount : Q) (w : world) :
  fst (Ledger._update_account_balance code amount w)
  = mk_world (heap w) (transactions w) (apply_delta code amount (chart_of_accounts w)).
Proof.
  unfold Ledger._update_account_balance, apply_delta, lookup,
    Ledger.get_account_by_code, Database.get_chart_of_accounts.
  destruct (find _ (chart_of_accounts w)) as [a |]; [| now destruct w].
  unfold Database.update_account.
  destruct (Database.update_account_list _ _ _). reflexivity.
Qed.

Lemma balance_bal (c : string) (w : world) :
  Ledger.balance c w = bal c (chart_of_accounts w).
Proof. reflexivity. Qed.

Lemma deref_valid (w : world) (r : nat) :
  deref w r <> empty_tdict -> (r < List.length (heap w))%nat.
Proof.
  intro H. destruct (Nat.lt_ge_cases r (List.length (heap w))) as [L | L]; [exact L |].
  exfalso. apply H. unfold deref. now apply nth_overflow.
Qed.

(** What [Database.add_transaction] makes of a dict: an id and a date are
    filled in when missing, nothing else changes. *)
Definition completed (today : string) (next : Z) (t : tdict) : tdict :=
  let t1 := match t_id t with None => set_id (IdInt next) t | Some _ => t end in
  match t_date t1 with None => set_date today t1 | Some _ => t1 end.

Lemma completed_account today next t : t_account (completed today next t) = t_account t.
Proof. destruct t as [i d ? ? ? ? ? ? ? ? ? ?]. destruct i, d; reflexivity. Qed.

Lemma completed_delta today next t : delta (completed today next t) = delta t.
Proof. destruct t as [i d ? ? ? ? ? ? ? ? ? ?]. destruct i, d; reflexivity. Qed.

Lemma ledger_add_transaction_world (today : string) (r : nat) (w : world)
      (code : string) (acc : adict) :
  t_account (deref w r) = Some code ->
  Ledger.get_account_by_code code w = Some acc ->
  let t := completed today (Database.max_id w + 1) (deref w r) in
  Ledger.add_transaction today r w
  = (mk_world (set_nth r t (heap w)) (transactions w ++ [r])
              (apply_delta code (delta (deref w r)) (chart_of_accounts w)),
     Return (get_id t)).
Proof.
  intros Ha Hc t.
  assert (Hr : (r < List.length (heap w))%nat).
  { apply deref_valid. intro E. rewrite E in Ha. discriminate. }
  unfold Ledger.add_transaction. rewrite Ha, Hc.
  unfold Database.add_transaction. fold (completed today (Database.max_id w + 1) (deref w r)).
  fold t.
  assert (D : deref (mk_world (set_nth r t (heap w)) (transactions w ++ [r])
                              (chart_of_accounts w)) r = t).
  { unfold deref. simpl. now apply nth_set_nth_same. }
  rewrite D.
  assert (Hacc : get_account t = code).
  { unfold get_account, t. now rewrite completed_account, Ha. }
  rewrite Hacc.
  destruct (Ledger._update_account_balance code (delta t) _) as [w2 b] eqn:U.
  assert (U' := update_account_balance_world code (delta t)
                  (mk_world (set_nth r t (heap w)) (transactions w ++ [r])
                            (chart_of_accounts w))).
  rewrite U in U'. simpl in U'. subst w2.
  unfold t. rewrite completed_delta. reflexivity.
Qed.

Lemma lookup_get_account_by_code (c : string) (w : world) :
  Ledger.get_account_by_code c w = lookup c (chart_of_accounts w).
Proof. reflexivity. Qed.

(** C2 (as amended).  [Ledger.add_transaction] on a transaction with
    debit [d] and credit [c] for an existing account adds [d - c] to the
    balance of that account, whatever its type, and leaves the other
    balances alone.  For an asset or expense account this is what
    [Account.debit] followed by [Account.credit] gives.  For a liability,
    equity or income account the [Account] convention would give
    [balance - d + c]; the ledger does not apply it. *)
Theorem add_transaction_changes_balance_by_debit_minus_credit
        (today : string) (r : nat) (w : world) (code : string) (acc : adict) :
  t_account (deref w r) = Some code ->
  Ledger.get_account_by_code code w = Some acc ->
  let d := get_debit (deref w r) in
  let c := get_credit (deref w r) in
  let w' := fst (Ledger.add_transaction today r w) in
  let by_convention :=
    Account.balance (Account.credit c (Account.debit d (Account.from_dict acc))) in
  Ledger.balance code w' == get_balance acc + d - c
  /\ (forall other, other <> code -> Ledger.balance other w' == Ledger.balance other w)
  /\ (Account.debit_normal (Account.from_dict acc) = true ->
      Ledger.balance code w' == by_convention)
  /\ (Account.debit_normal (Account.from_dict acc) = false ->
      by_convention == get_balance acc - d + c).
Proof.
  intros Ha Hc d c w' conv.
  unfold w'. rewrite (ledger_add_transaction_world today r w code acc Ha Hc). simpl.
  rewrite lookup_get_account_by_code in Hc.
  assert (B : Ledger.balance code
                (mk_world (set_nth r (completed today (Database.max_id w + 1) (deref w r))
                                   (heap w))
                          (transactions w ++ [r])
                          (apply_delta code (delta (deref w r)) (chart_of_accounts w)))
              == get_balance acc + d - c).
  { rewrite balance_bal. simpl. rewrite bal_apply_delta.
    rewrite String.eqb_refl, Hc. simpl. unfold bal. rewrite Hc.
    unfold delta, d, c. lra. }
  split; [exact B |]. split; [| split].
  - intros other Hne. rewrite !balance_bal. simpl. rewrite bal_apply_delta.
    apply String.eqb_neq in Hne. rewrite Hne. simpl. lra.
  - intro N. rewrite B. unfold conv, Account.credit, Account.debit.
    rewrite N. simpl. 
    replace (Account.debit_normal _) with true by (symmetry; exact N).
    simpl. lra.
  - intro N. unfold conv, Account.credit, Account.debit.
    rewrite N. simpl.
    replace (Account.debit_normal _) with false by (symmetry; exact N).
    simpl. lra.
Qed.

(** ** [Ledger.refresh] *)

(** The part of a dict that a replay adds to the balance of account [c]. *)
Definition contrib (c : string) (t : tdict) : Q :=
  match t_account t with
  | Some a => if String.eqb a c then delta t else 0
  | None => 0
  end.

(** The balance of [c] that a replay of the log [l] from zero gives. *)
Fixpoint sum_delta (c : string) (l : list tdict) : Q :=
  match l with
  | [] => 0
  | t :: tl => contrib c t + sum_delta c tl
  end.

Lemma sum_delta_app c l1 l2 : sum_delta c (l1 ++ l2) == sum_delta c l1 + sum_delta c l2.
Proof. induction l1 as [| t tl IH]; simpl; [lra | rewrite IH; lra]. Qed.

Lemma sum_delta_set_nth c i t l d :
  (i < List.length l)%nat ->
  sum_delta c (set_nth i t l) == sum_delta c l - contrib c (nth i l d) + contrib c t.
Proof.
  revert i. induction l as [| hd tl IH]; intros [| i] H; simpl in *; try lia.
  - lra.
  - rewrite IH by lia. lra.
Qed.

Lemma sum_delta_del_nth c i l d :
  (i < List.length l)%nat ->
  sum_delta c (del_nth i l) == sum_delta c l - contrib c (nth i l d).
Proof.
  revert i. induction l as [| hd tl IH]; intros [| i] H; simpl in *; try lia.
  - lra.
  - rewrite IH by lia. lra.
Qed.

Definition has (c : string) (accs : list adict) : bool := is_some (lookup c accs).

Lemma has_codes (c : string) (l l' : list adict) :
  map a_code l = map a_code l' -> has c l = has c l'.
Proof.
  revert l'. induction l as [| a tl IH]; intros [| a' tl'] E; simpl in E;
    try discriminate; [reflexivity |].
  injection E as E1 E2. unfold has, lookup in *. simpl. rewrite E1.
  destruct (String.eqb (a_code a') c); [reflexivity | now apply IH].
Qed.

Lemma replay_step_world (w : world) (r : nat) :
  Ledger.refresh_replay_step w r
  = mk_world (heap w) (transactions w)
      (match t_account (deref w r) with
       | Some code => apply_delta code (delta (deref w r)) (chart_of_accounts w)
       | None => chart_of_accounts w
       end).
Proof.
  unfold Ledger.refresh_replay_step.
  destruct (t_account (deref w r)); [apply update_account_balance_world | now destruct w].
Qed.

Lemma bal_has_apply_delta (c code : string) (amount : Q) (accs : list adict) :
  has c (apply_delta code amount accs) = has c accs
  /\ bal c (apply_delta code amount accs)
     == bal c accs + (if has c accs then (if String.eqb code c then amount else 0) else 0).
Proof.
  split; [apply is_some_lookup_apply_delta |].
  rewrite bal_apply_delta. unfold has.
  destruct (String.eqb c code) eqn:F.
  - apply String.eqb_eq in F. subst. rewrite String.eqb_refl. simpl.
    destruct (is_some (lookup code accs)); lra.
  - rewrite String.eqb_sym, F. simpl. destruct (is_some (lookup c accs)); lra.
Qed.

Lemma replay_balances (l : list nat) : forall (w : world),
  let w' := fold_left Ledger.refresh_replay_step l w in
  heap w' = heap w /\ transactions w' = transactions w
  /\ forall c, has c (chart_of_accounts w') = has c (chart_of_accounts w)
               /\ bal c (chart_of_accounts w')
                  == bal c (chart_of_accounts w)
                     + (if has c (chart_of_accounts w)
                        then sum_delta c (map (deref w) l) else 0).
Proof.
  induction l as [| r tl IH]; intro w; simpl.
  - repeat split; try reflexivity. destruct (has c _); lra.
  - destruct (IH (Ledger.refresh_replay_step w r)) as [Hh [Ht Hc]].
    rewrite replay_step_world in *. simpl in *.
    split; [exact Hh |]. split; [exact Ht |]. intro c.
    destruct (Hc c) as [H1 H2]. clear Hc IH.
    assert (M : map (deref (mk_world (heap w) (transactions w)
                 match t_account (deref w r) with
                 | Some code => apply_delta code (delta (deref w r)) (chart_of_accounts w)
                 | None => chart_of_accounts w
                 end)) tl = map (deref w) tl) by reflexivity.
    rewrite M in H2. clear M.
    unfold contrib.
    destruct (t_account (deref w r)) as [code |].
    + destruct (bal_has_apply_delta c code (delta (deref w r)) (chart_of_accounts w))
        as [B1 B2].
      split; [now rewrite H1 |].
      rewrite H2, B2, B1. destruct (has c (chart_of_accounts w)); lra.
    + split; [exact H1 |]. rewrite H2. destruct (has c (chart_of_accounts w)); lra.
Qed.

(** The first loop of [refresh] on the list of accounts. *)
Definition zero_step_list (accs : list adict) (j : nat) : list adict :=
  match nth_error accs j with
  | None => accs
  | Some a =>
      fst (Database.update_account_list (a_code a) (set_balance 0 a)
             (set_nth j (set_balance 0 a) accs))
  end.

Lemma zero_step_world (w : world) (j : nat) :
  Ledger.refresh_zero_step w j
  = mk_world (heap w) (transactions w) (zero_step_list (chart_of_accounts w) j).
Proof.
  unfold Ledger.refresh_zero_step, zero_step_list.
  destruct (nth_error (chart_of_accounts w) j) as [a |]; [| now destruct w].
  unfold Database.update_account. simpl.
  destruct (Database.update_account_list _ _ _). reflexivity.
Qed.

Definition zeroed (a : adict) : Prop := a_balance a = Some 0.

Lemma update_list_codes (code : string) (a' : adict) (l : list adict) :
  map a_code (fst (Database.update_account_list code a' l)) = map a_code l.
Proof.
  induction l as [| a tl IH]; [reflexivity |].
  rewrite update_account_list_cons.
  destruct (String.eqb (a_code a) code) eqn:E; simpl.
  - apply String.eqb_eq in E. now rewrite E.
  - now rewrite IH.
Qed.

Lemma update_list_zeroed (code : string) (a' : adict) (l : list adict) (k : nat) :
  zeroed a' -> Forall zeroed (firstn k l) ->
  Forall zeroed (firstn k (fst (Database.update_account_list code a' l))).
Proof.
  intros Z. revert k. induction l as [| a tl IH]; intros k H; [exact H |].
  rewrite update_account_list_cons.
  destruct k as [| k]; [destruct (String.eqb (a_code a) code); constructor |].
  simpl in H. inversion H as [| ? ? H1 H2]; subst.
  destruct (String.eqb (a_code a) code); simpl; constructor; auto.
Qed.

Lemma set_nth_codes (j : nat) (a : adict) (l : list adict) :
  nth_error l j = Some a ->
  map a_code (set_nth j (set_balance 0 a) l) = map a_code l.
Proof.
  revert j. induction l as [| hd tl IH]; intros [| j] H; simpl in *; try discriminate.
  - injection H as ->. reflexivity.
  - now rewrite IH.
Qed.

Lemma set_nth_zeroed (j : nat) (a0 : adict) (l : list adict) :
  zeroed a0 -> (j < List.length l)%nat -> Forall zeroed (firstn j l) ->
  Forall zeroed (firstn (S j) (set_nth j a0 l)).
Proof.
  intro Z. revert j. induction l as [| hd tl IH]; intros [| j] L H; simpl in *; try lia.
  - constructor; [exact Z | constructor].
  - inversion H as [| ? ? H1 H2]; subst. constructor; [exact H1 |].
    apply IH; [lia | exact H2].
Qed.

Lemma zero_step_invariant (accs l : list adict) (j : nat) :
  map a_code l = map a_code accs -> Forall zeroed (firstn j l) ->
  (j < List.length l)%nat ->
  map a_code (zero_step_list l j) = map a_code accs
  /\ Forall zeroed (firstn (S j) (zero_step_list l j)).
Proof.
  intros Hc Hz Hj. unfold zero_step_list.
  destruct (nth_error l j) as [a |] eqn:N.
  - split.
    + rewrite update_list_codes. rewrite (set_nth_codes j a l N). exact Hc.
    + apply update_list_zeroed; [reflexivity |].
      apply set_nth_zeroed; [reflexivity | exact Hj | exact Hz].
  - apply nth_error_None in N. lia.
Qed.

Lemma zero_phase_invariant (accs : list adict) (k : nat) : forall (j : nat) (l : list adict),
  map a_code l = map a_code accs -> Forall zeroed (firstn j l) ->
  (j + k = List.length accs)%nat ->
  let l' := fold_left zero_step_list (seq j k) l in
  map a_code l' = map a_code accs /\ Forall zeroed l'.
Proof.
  induction k as [| k IH]; intros j l Hc Hz Hn; simpl.
  - split; [exact Hc |].
    assert (L : List.length l = List.length accs).
    { rewrite <- (length_map a_code l), Hc. apply length_map. }
    rewrite firstn_all2 in Hz by lia. exact Hz.
  - assert (L : List.length l = List.length accs).
    { rewrite <- (length_map a_code l), Hc. apply length_map. }
    destruct (zero_step_invariant accs l j Hc Hz) as [Hc' Hz']; [lia |].
    apply IH; [exact Hc' | exact Hz' | lia].
Qed.

Lemma zeroed_bal (c : string) (l : list adict) : Forall zeroed l -> bal c l = 0.
Proof.
  intro H. unfold bal, lookup.
  destruct (find _ l) as [a |] eqn:F; [| reflexivity].
  apply find_some in F. destruct F as [F _].
  rewrite Forall_forall in H. specialize (H a F).
  unfold get_balance. now rewrite H.
Qed.

Lemma fold_zero_world (js : list nat) : forall (w : world),
  fold_left Ledger.refresh_zero_step js w
  = mk_world (heap w) (transactions w)
             (fold_left zero_step_list js (chart_of_accounts w)).
Proof.
  induction js as [| j tl IH]; intro w; simpl; [now destruct w |].
  rewrite IH, zero_step_world. reflexivity.
Qed.

(** After [refresh] the balance of an account is the sum of the deltas
    that the stored transactions carry for its code. *)
Lemma refresh_balances (w : world) (c : string) :
  let w' := fst (Ledger.refresh w) in
  heap w' = heap w /\ transactions w' = transactions w
  /\ has c (chart_of_accounts w') = has c (chart_of_accounts w)
  /\ Ledger.balance c w'
     == if has c (chart_of_accounts w) then sum_delta c (log w) else 0.
Proof.
  unfold Ledger.refresh. simpl. rewrite fold_zero_world.
  set (accs := chart_of_accounts w).
  destruct (zero_phase_invariant accs (List.length accs) 0 accs eq_refl)
    as [Hc Hz]; [constructor | reflexivity |].
  set (l0 := fold_left zero_step_list (seq 0 (List.length accs)) accs) in *.
  unfold Database.get_all_transactions. simpl.
  destruct (replay_balances (transactions w) (mk_world (heap w) (transactions w) l0))
    as [Hh [Ht Hb]].
  simpl in *. split; [exact Hh |]. split; [exact Ht |].
  destruct (Hb c) as [H1 H2]. rewrite (has_codes c l0 accs Hc) in *.
  split; [exact H1 |].
  rewrite balance_bal, H2, (zeroed_bal c l0 Hz).
  destruct (has c accs); [| lra].
  assert (E : map (deref (mk_world (heap w) (transactions w) l0)) (transactions w)
              = log w) by reflexivity.
  rewrite E. lra.
Qed.

(** ** Incremental balances against [refresh] *)

(** The three operations, each on a dict that the caller builds for the
    call and does not touch afterwards. *)
Inductive operation : Type :=
| Add (transaction_data : tdict)
| Update (transaction_id : pyid) (transaction_data : tdict)
| Delete (transaction_id : pyid).

Definition exec (today : string) (w : world) (o : operation) : world :=
  match o with
  | Add d => let (w0, r) := alloc d w in fst (Ledger.add_transaction today r w0)
  | Update i d => let (w0, r) := alloc d w in fst (Ledger.update_transaction i r w0)
  | Delete i => fst (Ledger.delete_transaction i w)
  end.

(** The balances agree with a replay of the stored transactions. *)
Definition consistent (w : world) : Prop :=
  wf w
  /\ forall c, bal c (chart_of_accounts w)
               == if has c (chart_of_accounts w) then sum_delta c (log w) else 0.

Lemma find_find_index {A : Type} (p : A -> bool) (l : list A) (d : A) :
  match find p l with
  | Some x => exists i, find_index p l = Some i /\ (i < List.length l)%nat /\ nth i l d = x
  | None => find_index p l = None
  end.
Proof.
  induction l as [| a tl IH]; simpl; [reflexivity |].
  destruct (p a).
  - exists 0%nat. repeat split. lia.
  - destruct (find p tl) as [x |].
    + destruct IH as [i [E [L N]]]. exists (S i). rewrite E. repeat split; [lia | exact N].
    + now rewrite IH.
Qed.

Lemma find_ext_in {A : Type} (p q : A -> bool) (l : list A) :
  (forall x, In x l -> p x = q x) -> find p l = find q l.
Proof.
  induction l as [| a tl IH]; intro H; simpl; [reflexivity |].
  rewrite (H a) by now left. destruct (q a); [reflexivity |].
  apply IH. intros x Hx. apply H. now right.
Qed.

Lemma find_index_ext_in {A : Type} (p q : A -> bool) (l : list A) :
  (forall x, In x l -> p x = q x) -> find_index p l = find_index q l.
Proof.
  induction l as [| a tl IH]; intro H; simpl; [reflexivity |].
  rewrite (H a) by now left. destruct (q a); [reflexivity |].
  f_equal. apply IH. intros x Hx. apply H. now right.
Qed.

Lemma wf_alloc (d : tdict) (w : world) : wf w -> wf (fst (alloc d w)).
Proof.
  unfold wf, alloc. simpl. intro H. eapply Forall_impl; [| exact H].
  intros r Hr. simpl in Hr. rewrite length_app. simpl. lia.
Qed.

Lemma log_alloc (d : tdict) (w : world) : wf w -> log (fst (alloc d w)) = log w.
Proof.
  intro H. unfold log. simpl. apply map_ext_in. intros r Hr.
  unfold wf in H. rewrite Forall_forall in H. apply deref_alloc_old. now apply H.
Qed.

Lemma consistent_alloc (d : tdict) (w : world) :
  consistent w -> consistent (fst (alloc d w)).
Proof.
  intros [Hwf Hb]. split; [now apply wf_alloc |].
  intro c. rewrite log_alloc by exact Hwf. apply Hb.
Qed.

Lemma contrib_completed today next c t : contrib c (completed today next t) = contrib c t.
Proof. unfold contrib. now rewrite completed_account, completed_delta. Qed.

Lemma contrib_set_id c i t : contrib c (set_id i t) = contrib c t.
Proof. reflexivity. Qed.

(** A balance moved by [amount] on [code] follows the log when the log
    moves by the same contribution. *)
Lemma consistent_step (accs : list adict) (code : string) (amount s s' : Q) (c : string) :
  bal c accs == (if has c accs then s else 0) ->
  s' == s + (if String.eqb code c then amount else 0) ->
  bal c (apply_delta code amount accs)
  == (if has c (apply_delta code amount accs) then s' else 0).
Proof.
  intros Hb Hs. destruct (bal_has_apply_delta c code amount accs) as [B1 B2].
  rewrite B1, B2, Hb. destruct (has c accs); [rewrite Hs; lra | lra].
Qed.

Lemma consistent_add (today : string) (d : tdict) (w : world) :
  consistent w -> consistent (exec today w (Add d)).
Proof.
  intro H. unfold exec.
  assert (H0 := consistent_alloc d w H).
  destruct (alloc d w) as [w0 r] eqn:A. cbn [fst] in H0.
  assert (Hr : r = List.length (heap w)) by (unfold alloc in A; now inversion A).
  assert (Hd : deref w0 r = d).
  { replace w0 with (fst (alloc d w)) by now rewrite A.
    replace r with (snd (alloc d w)) by now rewrite A. apply deref_alloc_new. }
  destruct (t_account d) as [code |] eqn:Ha.
  2:{ unfold Ledger.add_transaction. rewrite Hd, Ha. exact H0. }
  destruct (Ledger.get_account_by_code code w0) as [acc |] eqn:Hc.
  2:{ unfold Ledger.add_transaction. rewrite Hd, Ha, Hc. exact H0. }
  rewrite (ledger_add_transaction_world today r w0 code acc); [| now rewrite Hd | exact Hc].
  rewrite Hd. cbn [fst].
  set (t := completed today (Database.max_id w0 + 1) d).
  destruct H0 as [Hwf0 Hb0].
  assert (Hlen : (r < List.length (heap w0))%nat).
  { apply deref_valid. rewrite Hd. intro E. rewrite E in Ha. discriminate. }
  assert (Hold : forall r', In r' (transactions w0) -> (r' < r)%nat).
  { intros r' Hin. destruct H as [Hwf _]. unfold wf in Hwf. rewrite Forall_forall in Hwf.
    replace (transactions w0) with (transactions w) in Hin
      by (unfold alloc in A; now inversion A).
    rewrite Hr. now apply Hwf. }
  assert (Hlog : log (mk_world (set_nth r t (heap w0)) (transactions w0 ++ [r])
                               (apply_delta code (delta d) (chart_of_accounts w0)))
                 = log w0 ++ [t]).
  { unfold log, deref. simpl. rewrite map_app. simpl.
    rewrite nth_set_nth_same by exact Hlen. f_equal.
    apply map_ext_in. intros r' Hin. apply nth_set_nth_other.
    specialize (Hold r' Hin). lia. }
  split.
  - unfold wf. simpl. rewrite set_nth_length. apply Forall_app. split.
    + exact Hwf0.
    + constructor; [exact Hlen | constructor].
  - intro c. simpl. rewrite Hlog.
    apply (consistent_step _ code (delta d) (sum_delta c (log w0))); [apply Hb0 |].
    rewrite sum_delta_app. simpl. unfold t. rewrite contrib_completed.
    unfold contrib. rewrite Ha. lra.
Qed.

Definition apply_opt (o : option string) (amount : Q) (accs : list adict) : list adict :=
  match o with
  | Some code => apply_delta code amount accs
  | None => accs
  end.

Lemma consistent_step_plus (accs : list adict) (t : tdict) (s s' : Q) (c : string) :
  bal c accs == (if has c accs then s else 0) ->
  s' == s + contrib c t ->
  bal c (apply_opt (t_account t) (delta t) accs)
  == (if has c (apply_opt (t_account t) (delta t) accs) then s' else 0).
Proof.
  intros Hb Hs. unfold contrib in Hs. unfold apply_opt.
  destruct (t_account t) as [code |].
  - now apply (consistent_step accs code (delta t) s s' c).
  - rewrite Hb. destruct (has c accs); [rewrite Hs |]; lra.
Qed.

Lemma consistent_step_minus (accs : list adict) (t : tdict) (s s' : Q) (c : string) :
  bal c accs == (if has c accs then s else 0) ->
  s' == s - contrib c t ->
  bal c (apply_opt (t_account t) (- delta t) accs)
  == (if has c (apply_opt (t_account t) (- delta t) accs) then s' else 0).
Proof.
  intros Hb Hs. unfold contrib in Hs. unfold apply_opt.
  destruct (t_account t) as [code |].
  - apply (consistent_step accs code (- delta t) s s' c); [exact Hb |].
    rewrite Hs. destruct (String.eqb code c); lra.
  - rewrite Hb. destruct (has c accs); [rewrite Hs |]; lra.
Qed.

Lemma map_set_nth {A B : Type} (f : A -> B) (k : nat) (x : A) (l : list A) :
  map f (set_nth k x l) = set_nth k (f x) (map f l).
Proof.
  revert k. induction l as [| hd tl IH]; intros [| k]; simpl; auto. now rewrite IH.
Qed.

Lemma map_del_nth {A B : Type} (f : A -> B) (k : nat) (l : list A) :
  map f (del_nth k l) = del_nth k (map f l).
Proof.
  revert k. induction l as [| hd tl IH]; intros [| k]; simpl; auto. now rewrite IH.
Qed.

Lemma Forall_set_nth {A : Type} (P : A -> Prop) (k : nat) (x : A) (l : list A) :
  P x -> Forall P l -> Forall P (set_nth k x l).
Proof.
  intros Hx. revert k. induction l as [| hd tl IH]; intros [| k] H; simpl; auto;
    inversion H; subst; constructor; auto.
Qed.

Lemma Forall_del_nth {A : Type} (P : A -> Prop) (k : nat) (l : list A) :
  Forall P l -> Forall P (del_nth k l).
Proof.
  revert k. induction l as [| hd tl IH]; intros [| k] H; simpl; auto;
    inversion H; subst; auto.
Qed.

Lemma update_opt_world (o : option string) (amount : Q) (w : world) :
  match o with
  | Some code => fst (Ledger._update_account_balance code amount w)
  | None => w
  end
  = mk_world (heap w) (transactions w) (apply_opt o amount (chart_of_accounts w)).
Proof.
  destruct o; simpl; [apply update_account_balance_world | now destruct w].
Qed.

(** [Ledger.update_transaction] on a dict at an address that the list
    does not hold. *)
Lemma ledger_update_transaction_world (i : pyid) (r : nat) (w : world) :
  (r < List.length (heap w))%nat ->
  Forall (fun r' => r' <> r) (transactions w) ->
  fst (Ledger.update_transaction i r w)
  = match find_index (fun r' => pyid_eqb (get_id (deref w r')) i) (transactions w) with
    | Some k =>
        let old := deref w (nth k (transactions w) 0%nat) in
        let new := set_id i (deref w r) in
        if truthy old then
          mk_world (set_nth r new (heap w)) (set_nth k r (transactions w))
            (apply_opt (t_account new) (delta new)
               (apply_opt (t_account old) (- delta old) (chart_of_accounts w)))
        else w
    | None => w
    end.
Proof.
  intros Hr Hfresh. unfold Ledger.update_transaction, Ledger.find_transaction,
    Database.get_all_transactions.
  set (p := fun r' => pyid_eqb (get_id (deref w r')) i).
  assert (F := find_find_index p (transactions w) 0%nat).
  destruct (find p (transactions w)) as [r_old |] eqn:Ef.
  2:{ now rewrite F. }
  destruct F as [k [Ek [Lk Nk]]]. rewrite Ek. rewrite Nk.
  destruct (truthy (deref w r_old)) eqn:T; simpl; [| reflexivity].
  unfold Database.update_transaction. fold p. rewrite Ek.
  assert (Hne : r_old <> r).
  { rewrite Forall_forall in Hfresh. apply Hfresh. rewrite <- Nk. now apply nth_In. }
  set (w1 := mk_world (set_nth r (set_id i (deref w r)) (heap w))
                      (set_nth k r (transactions w)) (chart_of_accounts w)).
  assert (Dold : deref w1 r_old = deref w r_old).
  { unfold deref, w1. simpl. apply nth_set_nth_other. congruence. }
  rewrite Dold.
  rewrite (update_opt_world (t_account (deref w r_old)) (- delta (deref w r_old)) w1).
  simpl.
  set (w2 := mk_world _ _ _).
  assert (Dnew : deref w2 r = set_id i (deref w r)).
  { unfold deref, w2. simpl. now apply nth_set_nth_same. }
  rewrite Dnew.
  rewrite (update_opt_world (t_account (set_id i (deref w r)))
                            (delta (set_id i (deref w r))) w2).
  reflexivity.
Qed.

Lemma consistent_update (today : string) (i : pyid) (d : tdict) (w : world) :
  consistent w -> consistent (exec today w (Update i d)).
Proof.
  intro H. unfold exec.
  assert (H0 := consistent_alloc d w H).
  destruct (alloc d w) as [w0 r] eqn:A. cbn [fst] in H0.
  assert (Hr : r = List.length (heap w)) by (unfold alloc in A; now inversion A).
  assert (Htx : transactions w0 = transactions w) by (unfold alloc in A; now inversion A).
  assert (Hlen : (r < List.length (heap w0))%nat).
  { unfold alloc in A. inversion A; subst. simpl. rewrite length_app. simpl. lia. }
  assert (Hd : deref w0 r = d).
  { replace w0 with (fst (alloc d w)) by now rewrite A.
    replace r with (snd (alloc d w)) by now rewrite A. apply deref_alloc_new. }
  assert (Hfresh : Forall (fun r' => r' <> r) (transactions w0)).
  { destruct H as [Hwf _]. unfold wf in Hwf. rewrite Htx.
    eapply Forall_impl; [| exact Hwf]. intros r' L. simpl in L. lia. }
  rewrite (ledger_update_transaction_world i r w0 Hlen Hfresh).
  destruct (find_index _ (transactions w0)) as [k |] eqn:Ek; [| exact H0].
  cbv zeta. rewrite Hd.
  set (old := deref w0 (nth k (transactions w0) 0%nat)).
  destruct (truthy old); [| exact H0].
  destruct H0 as [Hwf0 Hb0].
  assert (Lk : (k < List.length (transactions w0))%nat).
  { clear - Ek. revert k Ek. induction (transactions w0) as [| a tl IH]; intros k Ek;
      simpl in *; [discriminate |].
    destruct (pyid_eqb _ _); [injection Ek as <-; lia |].
    destruct (find_index _ tl) as [j |]; [| discriminate].
    injection Ek as <-. specialize (IH j eq_refl). lia. }
  assert (Hlog : log (mk_world (set_nth r (set_id i d) (heap w0))
                               (set_nth k r (transactions w0))
                               (apply_opt (t_account (set_id i d)) (delta (set_id i d))
                                  (apply_opt (t_account old) (- delta old)
                                     (chart_of_accounts w0))))
                 = set_nth k (set_id i d) (log w0)).
  { unfold log. simpl. rewrite map_set_nth. f_equal.
    - unfold deref. simpl. now apply nth_set_nth_same.
    - apply map_ext_in. intros r' Hin. unfold deref. simpl.
      apply nth_set_nth_other. rewrite Forall_forall in Hfresh.
      specialize (Hfresh r' Hin). congruence. }
  split.
  - unfold wf. simpl. rewrite set_nth_length.
    apply Forall_set_nth; [exact Hlen | exact Hwf0].
  - intro c. cbn [chart_of_accounts]. rewrite Hlog.
    apply (consistent_step_plus _ (set_id i d) (sum_delta c (log w0) - contrib c old)).
    + apply (consistent_step_minus _ old (sum_delta c (log w0))); [apply Hb0 | lra].
    + rewrite (sum_delta_set_nth c k (set_id i d) (log w0) empty_tdict)
        by (unfold log; now rewrite length_map).
      assert (E : nth k (log w0) empty_tdict = old).
      { unfold log, old. rewrite <- (map_nth (deref w0) (transactions w0) 0%nat k).
        apply nth_indep. now rewrite length_map. }
      rewrite E. lra.
Qed.

Lemma ledger_delete_transaction_world (i : pyid) (w : world) :
  fst (Ledger.delete_transaction i w)
  = match find_index (fun r' => pyid_eqb (get_id (deref w r')) i) (transactions w) with
    | Some k =>
        let old := deref w (nth k (transactions w) 0%nat) in
        if truthy old then
          mk_world (heap w) (del_nth k (transactions w))
            (apply_opt (t_account old) (- delta old) (chart_of_accounts w))
        else w
    | None => w
    end.
Proof.
  unfold Ledger.delete_transaction, Ledger.find_transaction,
    Database.get_all_transactions.
  set (p := fun r' => pyid_eqb (get_id (deref w r')) i).
  assert (F := find_find_index p (transactions w) 0%nat).
  destruct (find p (transactions w)) as [r_old |] eqn:Ef.
  2:{ now rewrite F. }
  destruct F as [k [Ek [Lk Nk]]]. rewrite Ek. rewrite Nk.
  destruct (truthy (deref w r_old)) eqn:T; simpl; [| reflexivity].
  unfold Database.delete_transaction. fold p. rewrite Ek.
  set (w1 := mk_world (heap w) (del_nth k (transactions w)) (chart_of_accounts w)).
  assert (Dold : deref w1 r_old = deref w r_old) by reflexivity.
  rewrite Dold. simpl.
  destruct (t_account (deref w r_old)) as [code |] eqn:Ha; simpl; [| reflexivity].
  unfold get_account. rewrite Ha.
  now rewrite update_account_balance_world.
Qed.

Lemma consistent_delete (today : string) (i : pyid) (w : world) :
  consistent w -> consistent (exec today w (Delete i)).
Proof.
  intros [Hwf Hb]. unfold exec. rewrite ledger_delete_transaction_world.
  destruct (find_index _ (transactions w)) as [k |] eqn:Ek; [| now split].
  cbv zeta. set (old := deref w (nth k (transactions w) 0%nat)).
  destruct (truthy old); [| now split].
  assert (Lk : (k < List.length (transactions w))%nat).
  { clear - Ek. revert k Ek. induction (transactions w) as [| a tl IH]; intros k Ek;
      simpl in *; [discriminate |].
    destruct (pyid_eqb _ _); [injection Ek as <-; lia |].
    destruct (find_index _ tl) as [j |]; [| discriminate].
    injection Ek as <-. specialize (IH j eq_refl). lia. }
  split.
  - unfold wf. simpl. now apply Forall_del_nth.
  - intro c. cbn [chart_of_accounts].
    assert (Hlog : log (mk_world (heap w) (del_nth k (transactions w))
                          (apply_opt (t_account old) (- delta old) (chart_of_accounts w)))
                   = del_nth k (log w)).
    { unfold log. simpl. now rewrite map_del_nth. }
    rewrite Hlog.
    apply (consistent_step_minus _ old (sum_delta c (log w))); [apply Hb |].
    rewrite (sum_delta_del_nth c k (log w) empty_tdict)
      by (unfold log; now rewrite length_map).
    assert (E : nth k (log w) empty_tdict = old).
    { unfold log, old. rewrite <- (map_nth (deref w) (transactions w) 0%nat k).
      apply nth_indep. now rewrite length_map. }
    rewrite E. lra.
Qed.

(** Balance equivalence for calls on dicts that are not shared: after any
    sequence of additions, updates and deletions started from zero
    balances and an empty log, every account shows the balance that
    [refresh] computes from the stored transactions. *)
Theorem incremental_balances_match_refresh
        (today : string) (accounts : list adict) (ops : list operation) (c : string) :
  Forall (fun a => get_balance a == 0) accounts ->
  let w := fold_left (exec today) ops (mk_world [] [] accounts) in
  Ledger.balance c w == Ledger.balance c (fst (Ledger.refresh w)).
Proof.
  intros Hz w.
  assert (C : consistent w).
  { unfold w. clear w.
    assert (C0 : consistent (mk_world [] [] accounts)).
    { split; [constructor |]. intro c'. simpl. unfold log. simpl.
      unfold bal, has, lookup. destruct (find _ accounts) as [a |] eqn:F; simpl; [| lra].
      apply find_some in F. destruct F as [F _].
      rewrite Forall_forall in Hz. now apply Hz. }
    revert C0. generalize (mk_world [] [] accounts).
    induction ops as [| o tl IH]; intros w0 C0; simpl; [exact C0 |].
    apply IH. destruct o; [apply consistent_add | apply consistent_update
                           | apply consistent_delete]; exact C0. }
  destruct C as [_ Hb].
  destruct (refresh_balances w c) as [_ [_ [_ R]]].
  rewrite R, balance_bal. apply Hb.
Qed.

(** A credit of 20 on the VAT account 2100 of a new company. *)
Definition vat_credit : tdict :=
  mk_tdict None (Some "2024-01-15"%string) (Some "2100"%string) (Some 0) (Some 20)
    (Some 20) (Some "INV-1"%string) (Some "VAT"%string) (Some "invoice"%string)
    (Some "unreconciled"%string) None None.

Lemma add_transaction_changes_balance_witness :
  let w := fst (alloc vat_credit Ledger.fresh_ledger) in
  let w' := fst (Ledger.add_transaction "2024-01-15" 0 w) in
  Ledger.balance "2100" w' == 0 + 0 - 20
  /\ Ledger.balance "1200" w' == Ledger.balance "1200" w.
Proof.
  cbv zeta.
  destruct (add_transaction_changes_balance_by_debit_minus_credit
              "2024-01-15" 0 (fst (alloc vat_credit Ledger.fresh_ledger)) "2100"
              (mk_adict "2100" "Ödenecek KDV" "liability" "current_liability" 0
                        (Some 0) None)
              eq_refl eq_refl) as [H1 [H2 _]].
  split; [exact H1 | apply H2; discriminate].
Defined.

(** C2 as stated fails on a liability account: after a credit of 20 the
    ledger shows -20 on account 2100, where the sign convention of
    [Account] gives +20. *)
Lemma sign_convention_counterexample :
  let w := fst (alloc vat_credit Ledger.fresh_ledger) in
  let w' := fst (Ledger.add_transaction "2024-01-15" 0 w) in
  exists acc,
    Ledger.get_account_by_code "2100" w = Some acc
    /\ a_type acc = "liability"%string
    /\ Account.balance (Account.credit 20 (Account.debit 0 (Account.from_dict acc))) == 20
    /\ Ledger.balance "2100" w' == -20
    /\ ~ Ledger.balance "2100" w'
         == Account.balance (Account.credit 20 (Account.debit 0 (Account.from_dict acc))).
Proof.
  cbv zeta. eexists. split; [reflexivity |].
  split; [reflexivity |]. split; [vm_compute; reflexivity |].
  split; [vm_compute; reflexivity |]. vm_compute. discriminate.
Qed.

(** ** Invoice posting *)

(** An amount that is a whole number of hundredths. *)
Definition whole_pence (x : Q) : Prop := exists c : Z, x == of_cents c.

Lemma quantize_proper : Proper (Qeq ==> eq) quantize.
Proof.
  intros x y H. unfold quantize.
  assert (E : x * 100 == y * 100) by (rewrite H; reflexivity).
  now rewrite (round_half_up_proper _ _ E).
Qed.

Lemma quantize2_whole_pence (x : Q) : whole_pence x -> Transaction.quantize2 x == x.
Proof.
  intros [c Hc]. unfold Transaction.quantize2.
  rewrite (quantize_proper _ _ Hc), quantize_of_cents. now rewrite Hc.
Qed.

Lemma whole_pence_quantize2 (x : Q) : whole_pence (Transaction.quantize2 x).
Proof. exists (quantize x). reflexivity. Qed.

Lemma whole_pence_0 : whole_pence 0.
Proof. exists 0%Z. reflexivity. Qed.

Lemma whole_pence_plus (x y : Q) : whole_pence x -> whole_pence y -> whole_pence (x + y).
Proof.
  intros [a Ha] [b Hb]. exists (a + b)%Z. rewrite Ha, Hb. unfold of_cents.
  rewrite inject_Z_plus. field.
Qed.

Lemma whole_pence_Qsum (l : list Q) : Forall whole_pence l -> whole_pence (Qsum l).
Proof.
  unfold Qsum. intro H.
  assert (G : forall acc, whole_pence acc -> whole_pence (fold_left Qplus l acc)).
  { induction H as [| x tl Hx _ IH]; intros acc Ha; simpl; [exact Ha |].
    apply IH. now apply whole_pence_plus. }
  apply G, whole_pence_0.
Qed.

(** The amounts of an invoice whose items all come from
    [InvoiceItem.init] are whole numbers of hundredths. *)
Definition item_whole_pence (i : InvoiceItem.t) : Prop :=
  whole_pence (InvoiceItem.net_amount i) /\ whole_pence (InvoiceItem.vat_amount i)
  /\ whole_pence (InvoiceItem.total i).

Lemma item_init_whole_pence description quantity unit_price vat_rate vat_amount total :
  item_whole_pence
    (InvoiceItem.init description quantity unit_price vat_rate vat_amount total).
Proof.
  unfold item_whole_pence, InvoiceItem.init. simpl.
  repeat split; try apply whole_pence_quantize2.
  - destruct vat_amount; apply whole_pence_quantize2.
  - destruct total; apply whole_pence_quantize2.
Qed.

Lemma invoice_init_whole_pence id number type date due entity notes status auto_post items :
  Forall item_whole_pence items ->
  let inv := Invoice.init id number type date due entity notes status auto_post items in
  whole_pence (Invoice.net_amount inv) /\ whole_pence (Invoice.vat_amount inv)
  /\ whole_pence (Invoice.total_amount inv).
Proof.
  intro H. simpl. repeat split; apply whole_pence_Qsum; rewrite Forall_map;
    (eapply Forall_impl; [| exact H]); intros i [H1 [H2 H3]]; assumption.
Qed.

(** The recipe of the specification: account, debit and credit of each
    leg, in posting order. *)
Record posting : Type := mk_posting {
  p_account : string;
  p_debit : Q;
  p_credit : Q
}.

Definition recipe (inv : Invoice.t) : list posting :=
  if String.eqb (Invoice.type inv) "sales" then
    [mk_posting "1200" (Invoice.total_amount inv) 0;
     mk_posting "4000" 0 (Invoice.net_amount inv)]
    ++ (if Qpos_b (Invoice.vat_amount inv)
        then [mk_posting "2100" 0 (Invoice.vat_amount inv)] else [])
  else if String.eqb (Invoice.type inv) "purchase" then
    [mk_posting "5000" (Invoice.net_amount inv) 0]
    ++ (if Qpos_b (Invoice.vat_amount inv)
        then [mk_posting "2200" (Invoice.vat_amount inv) 0] else [])
    ++ [mk_posting "2000" 0 (Invoice.total_amount inv)]
  else [].

(** A leg whose amount is zero. *)
Definition zero_leg (p : posting) : bool := Qzero_b (p_debit p) && Qzero_b (p_credit p).

(** A stored dict is the leg [p] of the posting of [inv]. *)
Definition is_leg (inv : Invoice.t) (p : posting) (d : tdict) : Prop :=
  t_account d = Some (p_account p)
  /\ get_debit d == p_debit p
  /\ get_credit d == p_credit p
  /\ t_document_number d = Some (Invoice.invoice_number inv)
  /\ t_date d = Some (Invoice.date inv)
  /\ t_transaction_type d = Some "invoice"%string.

Section Posting.

Variable today : string.

Lemma quantize2_0 : Transaction.quantize2 0 == 0.
Proof. reflexivity. Qed.

(** One call of [add_transaction] on a leg with one side at zero. *)
Lemma post_one_leg (u : string) (inv : Invoice.t) (prefix account : string)
      (debit credit vat : Q) (w : world) :
  wf w -> Invoice.date inv <> EmptyString -> account <> EmptyString ->
  whole_pence debit -> whole_pence credit ->
  debit == 0 \/ credit == 0 ->
  let p := mk_posting account debit credit in
  let w' := fst (TransactionManager.add_transaction today
                   (InvoiceManager.leg today u inv prefix account debit credit vat) w) in
  wf w'
  /\ exists new, log w' = log w ++ new
                 /\ Forall2 (is_leg inv) (filter (fun q => negb (zero_leg q)) [p]) new.
Proof.
  intros Hwf Hdate Hacc Hd Hc Hz p w'.
  set (x := InvoiceManager.leg today u inv prefix account debit credit vat) in *.
  assert (Dx : Transaction.debit x == debit) by (apply quantize2_whole_pence, Hd).
  assert (Cx : Transaction.credit x == credit) by (apply quantize2_whole_pence, Hc).
  assert (V : fst (Transaction.validate x) = negb (zero_leg p)).
  { unfold Transaction.validate.
    replace (Transaction.date x) with (Invoice.date inv) by reflexivity.
    replace (Transaction.account x) with account by reflexivity.
    destruct (Invoice.date inv) eqn:E1; [contradiction |].
    destruct account eqn:E2; [contradiction |]. simpl Transaction.is_empty. cbv iota.
    unfold zero_leg, Qzero_b. simpl p_debit. simpl p_credit.
    rewrite (Qeqb_comp _ _ Dx _ _ (Qeq_refl 0)), (Qeqb_comp _ _ Cx _ _ (Qeq_refl 0)).
    destruct (Qeq_bool debit 0 && Qeq_bool credit 0) eqn:Z; [reflexivity |].
    assert (P : Qpos_b (Transaction.debit x) && Qpos_b (Transaction.credit x) = false).
    { rewrite (Qpos_b_proper _ _ Dx), (Qpos_b_proper _ _ Cx).
      destruct Hz as [Hz | Hz]; rewrite (Qpos_b_proper _ _ Hz).
      - reflexivity.
      - now rewrite andb_false_r. }
    rewrite P. reflexivity. }
  unfold w'. simpl filter. destruct (negb (zero_leg p)) eqn:N.
  - destruct (add_transaction_accepts today x w Hwf V) as [L [_ [W _]]].
    split; [exact W |]. exists [Transaction.to_dict x]. split; [exact L |].
    constructor; [| constructor]. unfold is_leg. simpl. repeat split; assumption.
  - rewrite (add_transaction_rejects today x w V). simpl.
    split; [exact Hwf |]. exists []. split; [now rewrite app_nil_r | constructor].
Qed.


(** From [w] to [w'] the log grows by the non-zero legs among [ps]. *)
Definition emits (inv : Invoice.t) (w w' : world) (ps : list posting) : Prop :=
  wf w'
  /\ exists new, log w' = log w ++ new
                 /\ Forall2 (is_leg inv) (filter (fun q => negb (zero_leg q)) ps) new.

Lemma emits_nil (inv : Invoice.t) (w : world) : wf w -> emits inv w w [].
Proof.
  intro H. split; [exact H |]. exists []. split; [now rewrite app_nil_r | constructor].
Qed.

Lemma emits_app (inv : Invoice.t) (w w1 w2 : world) (ps qs : list posting) :
  emits inv w w1 ps -> emits inv w1 w2 qs -> emits inv w w2 (ps ++ qs).
Proof.
  intros [_ [n1 [L1 F1]]] [W2 [n2 [L2 F2]]]. split; [exact W2 |].
  exists (n1 ++ n2). split.
  - now rewrite L2, L1, app_assoc.
  - rewrite filter_app. now apply Forall2_app.
Qed.

Lemma emits_leg (u : string) (inv : Invoice.t) (prefix account : string)
      (debit credit vat : Q) (w : world) :
  wf w -> Invoice.date inv <> EmptyString -> account <> EmptyString ->
  whole_pence debit -> whole_pence credit -> debit == 0 \/ credit == 0 ->
  emits inv w
    (fst (TransactionManager.add_transaction today
            (InvoiceManager.leg today u inv prefix account debit credit vat) w))
    [mk_posting account debit credit].
Proof. intros. now apply post_one_leg. Qed.

(** C3 (as amended).  [InvoiceManager._create_invoice_transactions]
    appends to the stored transactions, in the order of the recipe, one
    dict for every leg of the recipe whose amount is not zero: for a sales
    invoice a debit of [total_amount] on 1200, a credit of [net_amount] on
    4000 and, if [vat_amount > 0], a credit of [vat_amount] on 2100; for a
    purchase invoice a debit of [net_amount] on 5000, if [vat_amount > 0] a
    debit of [vat_amount] on 2200, and a credit of [total_amount] on 2000.
    Every stored leg carries the invoice number as document number, the
    date of the invoice and the type ["invoice"].  A leg whose amount is
    zero is refused by [Transaction.validate] and is not stored. *)
Theorem invoice_posting_emits_nonzero_legs
        (u1 u2 u3 : string) (inv : Invoice.t) (w : world) :
  wf w ->
  Invoice.date inv <> EmptyString ->
  whole_pence (Invoice.net_amount inv) ->
  whole_pence (Invoice.vat_amount inv) ->
  whole_pence (Invoice.total_amount inv) ->
  let w' := fst (InvoiceManager._create_invoice_transactions today u1 u2 u3 inv w) in
  exists new,
    log w' = log w ++ new
    /\ Forall2 (is_leg inv) (filter (fun q => negb (zero_leg q)) (recipe inv)) new.
Proof.
  intros Hwf Hdate Hn Hv Ht w'.
  assert (Z0 : whole_pence 0) by apply whole_pence_0.
  assert (E : emits inv w w' (recipe inv)); [| exact (proj2 E)].
  unfold w', InvoiceManager._create_invoice_transactions, recipe.
  destruct (String.eqb (Invoice.type inv) "sales").
  - set (l1 := InvoiceManager.leg today u1 inv _ "1200" _ _ _).
    destruct (TransactionManager.add_transaction today l1 w) as [w1 r1] eqn:A1.
    assert (E1 : emits inv w w1 [mk_posting "1200" (Invoice.total_amount inv) 0]).
    { replace w1 with (fst (TransactionManager.add_transaction today l1 w))
        by now rewrite A1.
      apply emits_leg; auto; [discriminate | right; reflexivity]. }
    set (l2 := InvoiceManager.leg today u2 inv _ "4000" _ _ _).
    destruct (TransactionManager.add_transaction today l2 w1) as [w2 r2] eqn:A2.
    assert (E2 : emits inv w1 w2 [mk_posting "4000" 0 (Invoice.net_amount inv)]).
    { replace w2 with (fst (TransactionManager.add_transaction today l2 w1))
        by now rewrite A2.
      apply emits_leg; auto; [apply E1 | discriminate | left; reflexivity]. }
    change [mk_posting "1200" (Invoice.total_amount inv) 0;
            mk_posting "4000" 0 (Invoice.net_amount inv)]
      with ([mk_posting "1200" (Invoice.total_amount inv) 0]
            ++ [mk_posting "4000" 0 (Invoice.net_amount inv)]).
    apply emits_app with (w1 := w2); [apply emits_app with (w1 := w1); assumption |].
    destruct (Qpos_b (Invoice.vat_amount inv)).
    + set (l3 := InvoiceManager.leg today u3 inv _ "2100" _ _ _).
      destruct (TransactionManager.add_transaction today l3 w2) as [w3 r3] eqn:A3.
      replace (fst (w3, true)) with (fst (TransactionManager.add_transaction today l3 w2))
        by now rewrite A3.
      apply emits_leg; auto; [apply E2 | discriminate | left; reflexivity].
    + apply emits_nil, E2.
  - destruct (String.eqb (Invoice.type inv) "purchase"); [| now apply emits_nil].
    set (l1 := InvoiceManager.leg today u1 inv _ "5000" _ _ _).
    destruct (TransactionManager.add_transaction today l1 w) as [w1 r1] eqn:A1.
    assert (E1 : emits inv w w1 [mk_posting "5000" (Invoice.net_amount inv) 0]).
    { replace w1 with (fst (TransactionManager.add_transaction today l1 w))
        by now rewrite A1.
      apply emits_leg; auto; [discriminate | right; reflexivity]. }
    set (w2 := if Qpos_b (Invoice.vat_amount inv) then _ else w1).
    assert (E2 : emits inv w1 w2
                   (if Qpos_b (Invoice.vat_amount inv)
                    then [mk_posting "2200" (Invoice.vat_amount inv) 0] else [])).
    { unfold w2. destruct (Qpos_b (Invoice.vat_amount inv)).
      - apply emits_leg; auto; [apply E1 | discriminate | right; reflexivity].
      - apply emits_nil, E1. }
    set (l3 := InvoiceManager.leg today u3 inv _ "2000" _ _ _).
    destruct (TransactionManager.add_transaction today l3 w2) as [w3 r3] eqn:A3.
    apply emits_app with (w1 := w1); [exact E1 |].
    apply emits_app with (w1 := w2); [exact E2 |].
    replace (fst (w3, true)) with (fst (TransactionManager.add_transaction today l3 w2))
      by now rewrite A3.
    apply emits_leg; auto; [apply E2 | discriminate | left; reflexivity].
Qed.

End Posting.

(** A sales invoice of one item, net 100.00 at 20% VAT, and an invoice
    whose only item has a unit price of zero. *)
Definition sample_invoice : Invoice.t :=
  Invoice.init (IdStr "inv-1") "INV-20240115-0001" "sales" "2024-01-15" "2024-02-14"
    "ACME Ltd" "" "unpaid" true
    [InvoiceItem.init "Widget" 1 100 20 None None].

Definition free_sample_invoice : Invoice.t :=
  Invoice.init (IdStr "inv-2") "INV-20240115-0002" "sales" "2024-01-15" "2024-02-14"
    "ACME Ltd" "" "unpaid" true
    [InvoiceItem.init "Free sample" 1 0 20 None None].

Lemma invoice_posting_emits_nonzero_legs_witness :
  let w' := fst (InvoiceManager._create_invoice_transactions "2024-01-15"
                   "u-1" "u-2" "u-3" sample_invoice Ledger.fresh_ledger) in
  exists new,
    log w' = log Ledger.fresh_ledger ++ new
    /\ Forall2 (is_leg sample_invoice)
               (filter (fun q => negb (zero_leg q)) (recipe sample_invoice)) new.
Proof.
  apply (invoice_posting_emits_nonzero_legs "2024-01-15" "u-1" "u-2" "u-3"
           sample_invoice Ledger.fresh_ledger).
  - constructor.
  - discriminate.
  - exists 10000%Z. vm_compute. reflexivity.
  - exists 2000%Z. vm_compute. reflexivity.
  - exists 12000%Z. vm_compute. reflexivity.
Defined.

(** The scenario of the specification: net 100.00 at 20% gives VAT 20.00
    and total 120.00, and the posting stores three transactions. *)
Lemma sample_invoice_posting :
  let w' := fst (InvoiceManager._create_invoice_transactions "2024-01-15"
                   "u-1" "u-2" "u-3" sample_invoice Ledger.fresh_ledger) in
  Invoice.net_amount sample_invoice == 100
  /\ Invoice.vat_amount sample_invoice == 20
  /\ Invoice.total_amount sample_invoice == 120
  /\ map (fun d => (get_account d, Qred (get_debit d), Qred (get_credit d))) (log w')
     = [("1200"%string, 120, 0); ("4000"%string, 0, 100); ("2100"%string, 0, 20)].
Proof.
  cbv zeta. repeat match goal with |- _ /\ _ => split end; vm_compute; reflexivity.
Qed.

(** C3 as stated fails on an invoice whose amounts are zero: the invoice
    is valid, [add_invoice] accepts it with automatic posting, and no
    transaction is stored, where the recipe has two legs. *)
Lemma zero_amount_invoice_posts_nothing :
  let r := InvoiceManager.add_invoice "2024-01-15" "u-1" "u-2" "u-3"
             free_sample_invoice true Ledger.fresh_ledger in
  Invoice.validate free_sample_invoice = (true, None)
  /\ Invoice.auto_post free_sample_invoice = true
  /\ snd r = TransactionManager.Success (IdStr "inv-2")
  /\ log (fst r) = []
  /\ List.length (recipe free_sample_invoice) = 2%nat
  /\ ~ (exists new,
          log (fst r) = log Ledger.fresh_ledger ++ new
          /\ Forall2 (is_leg free_sample_invoice) (recipe free_sample_invoice) new).
Proof.
  cbv zeta. repeat match goal with |- _ /\ _ => split end;
    try (vm_compute; reflexivity).
  intros [new [L F]].
  assert (E : new = []).
  { vm_compute in L. now destruct new. }
  subst new. apply Forall2_length in F. vm_compute in F. discriminate.
Qed.

(** ** Shared dicts: the log after the ledger's own invoice posting *)

(** A sales invoice dict, net 100 and VAT 20, as [Ledger.add_invoice]
    hands it to [_create_invoice_transaction]. *)
Definition sample_invoice_dict : Ledger.idict :=
  Ledger.mk_idict (Some "sales"%string) (Some "ACME Ltd"%string) (Some 100) (Some 20)
    (Some "2024-01-15"%string) (Some "INV-20240115-0001"%string) None.

(** C1 at the failing input.  [Ledger._create_invoice_transaction] makes
    three calls of [Ledger.add_transaction] on one dict that it rewrites
    between the calls.  Started from the default chart with zero balances
    and no transaction, the calls leave the balances 120 on 1200, -100 on
    4000 and -20 on 2100; the list of the store holds the same dict three
    times, which now reads "credit 20 on 2100", and [refresh] over that
    list gives 0 on 1200, 0 on 4000 and -60 on 2100. *)
Theorem shared_dict_breaks_balance_equivalence :
  let today := "2024-01-15"%string in
  let w0 := fst (alloc (mk_tdict None (Some today) None None None None
                          (Some "INV-20240115-0001"%string)
                          (Some "Satış Faturası - ACME Ltd"%string)
                          (Some "invoice"%string) (Some "unreconciled"%string)
                          (Some EmptyString) None) Ledger.fresh_ledger) in
  let w1 := fst (Ledger.add_transaction today 0
                   (store 0 (set_vat 0 (set_credit 0 (set_debit 120
                               (set_account "1200" (deref w0 0%nat)))))
                          w0)) in
  let w2 := fst (Ledger.add_transaction today 0
                   (store 0 (set_vat 0 (set_credit 100 (set_debit 0
                               (set_account "4000" (deref w1 0%nat)))))
                          w1)) in
  let w3 := fst (Ledger.add_transaction today 0
                   (store 0 (set_vat 20 (set_credit 20 (set_debit 0
                               (set_account "2100" (deref w2 0%nat)))))
                          w2)) in
  fst (Ledger._create_invoice_transaction today sample_invoice_dict Ledger.fresh_ledger)
  = w3
  /\ Ledger.balance "1200" w3 == 120
  /\ Ledger.balance "4000" w3 == -100
  /\ Ledger.balance "2100" w3 == -20
  /\ transactions w3 = [0; 0; 0]%nat
  /\ map (fun d => (get_account d, Qred (get_debit d), Qred (get_credit d))) (log w3)
     = [("2100"%string, 0, 20); ("2100"%string, 0, 20); ("2100"%string, 0, 20)]
  /\ Ledger.balance "1200" (fst (Ledger.refresh w3)) == 0
  /\ Ledger.balance "4000" (fst (Ledger.refresh w3)) == 0
  /\ Ledger.balance "2100" (fst (Ledger.refresh w3)) == -60
  /\ ~ Ledger.balance "1200" w3 == Ledger.balance "1200" (fst (Ledger.refresh w3)).
Proof.
  cbv zeta. repeat match goal with |- _ /\ _ => split end;
    try (vm_compute; reflexivity).
  vm_compute. discriminate.
Qed.
(** ** The VAT return of the ledger *)

(** The sum, over the transactions of [l] on an account selected by [sel],
    of the amounts [amount t] that are strictly positive: the credits (or
    the debits) posted to these accounts. *)
Fixpoint total_of (amount : tdict -> Q) (sel : string -> bool) (l : list tdict) : Q :=
  match l with
  | [] => 0
  | t :: tl =>
      (if sel (get_account t) && Qpos_b (amount t) then amount t else 0)
      + total_of amount sel tl
  end.

(** The plain sum of the field over the selected accounts. *)
Fixpoint plain_total (amount : tdict -> Q) (sel : string -> bool) (l : list tdict) : Q :=
  match l with
  | [] => 0
  | t :: tl => (if sel (get_account t) then amount t else 0) + plain_total amount sel tl
  end.

(** When no amount is negative the guard [> 0] of the loop only skips
    zeros, and the box is the plain sum. *)
Lemma total_of_plain_total (amount : tdict -> Q) (sel : string -> bool) (l : list tdict) :
  Forall (fun t => 0 <= amount t) l ->
  total_of amount sel l == plain_total amount sel l.
Proof.
  induction 1 as [| t tl Ht _ IH]; simpl; [reflexivity |].
  rewrite IH. destruct (sel (get_account t)); simpl; [| reflexivity].
  destruct (Qpos_b (amount t)) eqn:P; [reflexivity |].
  apply Qpos_b_false in P. assert (amount t == 0) by lra. lra.
Qed.

Definition is_2100 (a : string) : bool := String.eqb a "2100".
Definition is_2200 (a : string) : bool := String.eqb a "2200".
Definition is_income (a : string) : bool := startswith "4" a.
Definition is_expense (a : string) : bool := startswith "5" a.

Ltac vat_step_cases t :=
  unfold Ledger.vat_step;
  destruct (String.eqb (get_account t) "2100" && Qpos_b (get_credit t));
  destruct (String.eqb (get_account t) "2200" && Qpos_b (get_debit t));
  destruct (startswith "4" (get_account t) && Qpos_b (get_credit t));
  destruct (startswith "5" (get_account t) && Qpos_b (get_debit t));
  reflexivity.

Lemma vat_step_sales (v : Ledger.vat_return) (t : tdict) :
  Ledger.vat_due_sales (Ledger.vat_step v t)
  = if is_2100 (get_account t) && Qpos_b (get_credit t)
    then Ledger.vat_due_sales v + get_credit t else Ledger.vat_due_sales v.
Proof. unfold is_2100. vat_step_cases t. Qed.

Lemma vat_step_reclaimed (v : Ledger.vat_return) (t : tdict) :
  Ledger.vat_reclaimed (Ledger.vat_step v t)
  = if is_2200 (get_account t) && Qpos_b (get_debit t)
    then Ledger.vat_reclaimed v + get_debit t else Ledger.vat_reclaimed v.
Proof. unfold is_2200. vat_step_cases t. Qed.

Lemma vat_step_income (v : Ledger.vat_return) (t : tdict) :
  Ledger.total_sales_ex_vat (Ledger.vat_step v t)
  = if is_income (get_account t) && Qpos_b (get_credit t)
    then Ledger.total_sales_ex_vat v + get_credit t else Ledger.total_sales_ex_vat v.
Proof. unfold is_income. vat_step_cases t. Qed.

Lemma vat_step_expense (v : Ledger.vat_return) (t : tdict) :
  Ledger.total_purchases_ex_vat (Ledger.vat_step v t)
  = if is_expense (get_account t) && Qpos_b (get_debit t)
    then Ledger.total_purchases_ex_vat v + get_debit t
    else Ledger.total_purchases_ex_vat v.
Proof. unfold is_expense. vat_step_cases t. Qed.

(** The fields that the loop never writes. *)
Lemma vat_step_untouched (v : Ledger.vat_return) (t : tdict) :
  Ledger.period_start (Ledger.vat_step v t) = Ledger.period_start v
  /\ Ledger.period_end (Ledger.vat_step v t) = Ledger.period_end v
  /\ Ledger.vat_due_acquisitions (Ledger.vat_step v t) = Ledger.vat_due_acquisitions v
  /\ Ledger.total_supplies_ex_vat (Ledger.vat_step v t) = Ledger.total_supplies_ex_vat v
  /\ Ledger.total_acquisitions_ex_vat (Ledger.vat_step v t)
     = Ledger.total_acquisitions_ex_vat v.
Proof. repeat match goal with |- _ /\ _ => split end; vat_step_cases t. Qed.

Lemma vat_loop_untouched (l : list tdict) : forall (v : Ledger.vat_return),
  let v' := fold_left Ledger.vat_step l v in
  Ledger.period_start v' = Ledger.period_start v
  /\ Ledger.period_end v' = Ledger.period_end v
  /\ Ledger.vat_due_acquisitions v' = Ledger.vat_due_acquisitions v
  /\ Ledger.total_supplies_ex_vat v' = Ledger.total_supplies_ex_vat v
  /\ Ledger.total_acquisitions_ex_vat v' = Ledger.total_acquisitions_ex_vat v.
Proof.
  induction l as [| t tl IH]; intro v; simpl; [repeat split |].
  destruct (IH (Ledger.vat_step v t)) as (H1 & H2 & H3 & H4 & H5).
  destruct (vat_step_untouched v t) as (G1 & G2 & G3 & G4 & G5).
  repeat match goal with |- _ /\ _ => split end; congruence.
Qed.

Lemma vat_loop_sums (l : list tdict) : forall (v : Ledger.vat_return),
  let v' := fold_left Ledger.vat_step l v in
  Ledger.vat_due_sales v' == Ledger.vat_due_sales v + total_of get_credit is_2100 l
  /\ Ledger.vat_reclaimed v' == Ledger.vat_reclaimed v + total_of get_debit is_2200 l
  /\ Ledger.total_sales_ex_vat v'
     == Ledger.total_sales_ex_vat v + total_of get_credit is_income l
  /\ Ledger.total_purchases_ex_vat v'
     == Ledger.total_purchases_ex_vat v + total_of get_debit is_expense l.
Proof.
  induction l as [| t tl IH]; intro v; simpl.
  - repeat match goal with |- _ /\ _ => split end; lra.
  - destruct (IH (Ledger.vat_step v t)) as (H1 & H2 & H3 & H4).
    rewrite vat_step_sales in H1. rewrite vat_step_reclaimed in H2.
    rewrite vat_step_income in H3. rewrite vat_step_expense in H4.
    repeat match goal with |- _ /\ _ => split end.
    + rewrite H1. destruct (is_2100 (get_account t) && Qpos_b (get_credit t)); lra.
    + rewrite H2. destruct (is_2200 (get_account t) && Qpos_b (get_debit t)); lra.
    + rewrite H3. destruct (is_income (get_account t) && Qpos_b (get_credit t)); lra.
    + rewrite H4. destruct (is_expense (get_account t) && Qpos_b (get_debit t)); lra.
Qed.

Lemma py_round2_0 : py_round2 0 == 0.
Proof. reflexivity. Qed.

Lemma py_round2_whole_pence (x : Q) : whole_pence x -> py_round2 x == x.
Proof. intros [c Hc]. rewrite Hc. apply py_round2_cents. Qed.

Lemma whole_pence_minus (x y : Q) : whole_pence x -> whole_pence y -> whole_pence (x - y).
Proof.
  intros [a Ha] [b Hb]. exists (a - b)%Z. rewrite Ha, Hb. unfold of_cents.
  unfold Z.sub. rewrite inject_Z_plus, inject_Z_opp. field.
Qed.

Section VatReturn.

Variable strptime : string -> option Z.

(** C4.  For a period whose two dates parse, [Ledger.calculate_vat_return]
    returns a report in which, writing "the credits (debits) to" for the
    sum of the strictly positive credits (debits) of the transactions
    dated in the period: Box 1 is the credits to 2100, Box 4 the debits to
    2200, Box 6 the credits to the accounts whose code starts with "4",
    Box 7 the debits to the accounts whose code starts with "5"; Box 3 is
    Box 1 + Box 2 and Box 5 is Box 1 + Box 2 - Box 4 (no sign condition);
    Box 2, Box 8 and Box 9 are zero.  Each box is the [round(., 2)] of the
    corresponding sum, taken once, after the loop.  On the rounded boxes
    Box 3 = Box 1 + Box 2 always, and Box 5 = Box 3 - Box 4 as soon as the
    two sums are whole numbers of pence.  When no transaction of the
    period has a negative debit or credit, the four sums are the plain
    sums of the credit (debit) fields. *)
Theorem vat_return_boxes (start_date end_date : string) (s e : Z) (w : world) :
  strptime start_date = Some s ->
  strptime end_date = Some e ->
  let period := Ledger.get_transactions_by_date_range strptime s e w in
  let credits_2100 := total_of get_credit is_2100 period in
  let debits_2200 := total_of get_debit is_2200 period in
  exists v,
    Ledger.calculate_vat_return strptime start_date end_date w = Return v
    /\ Ledger.vat_due_sales v == py_round2 credits_2100
    /\ Ledger.vat_due_acquisitions v == 0
    /\ Ledger.total_vat_due v == py_round2 (credits_2100 + 0)
    /\ Ledger.vat_reclaimed v == py_round2 debits_2200
    /\ Ledger.net_vat_due v == py_round2 (credits_2100 + 0 - debits_2200)
    /\ Ledger.total_sales_ex_vat v == py_round2 (total_of get_credit is_income period)
    /\ Ledger.total_purchases_ex_vat v == py_round2 (total_of get_debit is_expense period)
    /\ Ledger.total_supplies_ex_vat v == 0
    /\ Ledger.total_acquisitions_ex_vat v == 0
    /\ Ledger.total_vat_due v == Ledger.vat_due_sales v + Ledger.vat_due_acquisitions v
    /\ (whole_pence credits_2100 -> whole_pence debits_2200 ->
        Ledger.net_vat_due v == Ledger.total_vat_due v - Ledger.vat_reclaimed v)
    /\ (Forall (fun t => 0 <= get_credit t /\ 0 <= get_debit t) period ->
        Ledger.vat_due_sales v == py_round2 (plain_total get_credit is_2100 period)
        /\ Ledger.vat_reclaimed v == py_round2 (plain_total get_debit is_2200 period)
        /\ Ledger.total_sales_ex_vat v
           == py_round2 (plain_total get_credit is_income period)
        /\ Ledger.total_purchases_ex_vat v
           == py_round2 (plain_total get_debit is_expense period)).
Proof.
  intros Hs He period c1 d4.
  unfold Ledger.calculate_vat_return. rewrite Hs, He. fold period.
  set (v0 := Ledger.mk_vat_return start_date end_date 0 0 0 0 0 0 0 0 0).
  destruct (vat_loop_sums period v0) as (S1 & S4 & S6 & S7).
  destruct (vat_loop_untouched period v0) as (_ & _ & U2 & U8 & U9).
  set (v1 := fold_left Ledger.vat_step period v0) in *.
  fold c1 in S1. fold d4 in S4. simpl in S1, S4, S6, S7, U2, U8, U9.
  eexists. split; [reflexivity |].
  unfold Ledger.vat_round, Ledger.vat_totals. simpl.
  assert (R1 : py_round2 (Ledger.vat_due_sales v1) == py_round2 c1).
  { apply py_round2_proper. rewrite S1. lra. }
  assert (R3 : py_round2 (Ledger.vat_due_sales v1 + Ledger.vat_due_acquisitions v1)
               == py_round2 (c1 + 0)).
  { apply py_round2_proper. rewrite S1, U2. lra. }
  assert (R4 : py_round2 (Ledger.vat_reclaimed v1) == py_round2 d4).
  { apply py_round2_proper. rewrite S4. lra. }
  assert (R5 : py_round2 (Ledger.vat_due_sales v1 + Ledger.vat_due_acquisitions v1
                          - Ledger.vat_reclaimed v1)
               == py_round2 (c1 + 0 - d4)).
  { apply py_round2_proper. rewrite S1, S4, U2. lra. }
  rewrite U2, U8, U9.
  repeat match goal with |- _ /\ _ => split end.
  - exact R1.
  - apply py_round2_0.
  - rewrite <- R3, U2. reflexivity.
  - exact R4.
  - rewrite <- R5, U2. reflexivity.
  - apply py_round2_proper. rewrite S6. lra.
  - apply py_round2_proper. rewrite S7. lra.
  - apply py_round2_0.
  - apply py_round2_0.
  - rewrite py_round2_0.
    assert (E : Ledger.vat_due_sales v1 + 0 == Ledger.vat_due_sales v1) by lra.
    rewrite (py_round2_proper _ _ E). lra.
  - intros W1 W4.
    assert (E5 : Ledger.vat_due_sales v1 + 0 - Ledger.vat_reclaimed v1 == c1 - d4)
      by (rewrite S1, S4; lra).
    assert (E3 : Ledger.vat_due_sales v1 + 0 == c1) by (rewrite S1; lra).
    rewrite (py_round2_proper _ _ E5), (py_round2_proper _ _ E3), R4.
    rewrite (py_round2_whole_pence c1 W1), (py_round2_whole_pence d4 W4).
    apply py_round2_whole_pence. now apply whole_pence_minus.
  - intro N.
    assert (Nc : Forall (fun t => 0 <= get_credit t) period).
    { eapply Forall_impl; [| exact N]. intros t [H _]. exact H. }
    assert (Nd : Forall (fun t => 0 <= get_debit t) period).
    { eapply Forall_impl; [| exact N]. intros t [_ H]. exact H. }
    repeat match goal with |- _ /\ _ => split end; apply py_round2_proper.
    + rewrite S1, <- (total_of_plain_total get_credit is_2100 period Nc).
      unfold c1. lra.
    + rewrite S4, <- (total_of_plain_total get_debit is_2200 period Nd).
      unfold d4. lra.
    + rewrite S6, <- (total_of_plain_total get_credit is_income period Nc). lra.
    + rewrite S7, <- (total_of_plain_total get_debit is_expense period Nd). lra.
Qed.

End VatReturn.

(** ** Corporation tax *)

Section CorporationTaxFacts.

Import CorporateTaxCalculator.

Lemma taxable_profit_of_spec (total_income total_expenses : Q) :
  0 <= taxable_profit_of total_income total_expenses
  /\ (total_expenses <= total_income ->
      taxable_profit_of total_income total_expenses == total_income - total_expenses)
  /\ (total_income <= total_expenses ->
      taxable_profit_of total_income total_expenses == 0).
Proof.
  unfold taxable_profit_of.
  destruct (py_max_spec 0 (total_income - total_expenses)) as [[L ->] | [L ->]];
    repeat split; intros; lra.
Qed.

Lemma tax_due_of_spec (r : rates) (p : Q) :
  (p <= lower_limit r -> tax_due_of r p == p * small_profits_rate r)
  /\ (lower_limit r < p -> upper_limit r <= p -> tax_due_of r p == p * main_rate r)
  /\ (lower_limit r < p -> p < upper_limit r ->
      tax_due_of r p
      == p * main_rate r
         - (main_rate r - small_profits_rate r)
           * (2 * (upper_limit r - p) / (upper_limit r - lower_limit r)) * p).
Proof.
  unfold tax_due_of, marginal_relief_tax.
  destruct (Qle_bool p (lower_limit r)) eqn:E1.
  - apply Qle_bool_iff in E1. repeat split; intros; try reflexivity; lra.
  - apply Qle_bool_false in E1.
    destruct (Qle_bool (upper_limit r) p) eqn:E2.
    + apply Qle_bool_iff in E2. repeat split; intros; try reflexivity; lra.
    + apply Qle_bool_false in E2. repeat split; intros; try reflexivity; lra.
Qed.

Lemma effective_rate_of_spec (tax_due taxable_profit : Q) :
  (0 < taxable_profit ->
   effective_rate_of tax_due taxable_profit == tax_due / taxable_profit * 100)
  /\ (taxable_profit <= 0 -> effective_rate_of tax_due taxable_profit == 0).
Proof.
  unfold effective_rate_of. destruct (Qpos_b taxable_profit) eqn:E.
  - apply Qpos_b_true in E. split; intros; [reflexivity | lra].
  - apply Qpos_b_false in E. split; intros; [lra | reflexivity].
Qed.

Section CorporationTax.

Variable strptime : string -> option Z.
Variables year_of month_of day_of : Z -> Z.

(** C5.  When [calculate_corporation_tax] returns a report, then, with
    [total_income] and [total_expenses] the totals aggregated over the
    entries of the period: [taxable_profit = max(0, total_income -
    total_expenses)]; [tax_due] is [taxable_profit * small_rate] up to
    [lower_limit], [taxable_profit * main_rate] from [upper_limit], and
    [taxable_profit * main_rate - (main_rate - small_rate) * (2 *
    (upper_limit - taxable_profit) / (upper_limit - lower_limit)) *
    taxable_profit] strictly in between; [effective_rate] is [tax_due /
    taxable_profit * 100], and 0 when [taxable_profit] is 0.  The report
    holds these values rounded to two decimals, with the rates of
    2023-24, for which a profit of 50000 gives a tax of 9500.00 and a
    profit of 250000 a tax of 62500.00. *)
Theorem corporation_tax_formula
        (accounting_period_start accounting_period_end : string)
        (tax_year : option string) (w : world) (res : result) :
  calculate_corporation_tax strptime year_of month_of day_of
    accounting_period_start accounting_period_end tax_year w = Return res ->
  let t := aggregate w (Database.filter_transactions accounting_period_start
                          accounting_period_end w) in
  let total_income := trading_income t + non_trading_income t in
  let total_expenses := trading_expenses t + non_trading_expenses t in
  let taxable_profit := taxable_profit_of total_income total_expenses in
  let r := res_tax_rates res in
  let tax_due := tax_due_of r taxable_profit in
  let effective_rate := effective_rate_of tax_due taxable_profit in
  r = mk_rates (19 # 100) (25 # 100) 50000 250000
  /\ 0 <= taxable_profit
  /\ (total_expenses <= total_income -> taxable_profit == total_income - total_expenses)
  /\ (total_income <= total_expenses -> taxable_profit == 0)
  /\ (taxable_profit <= lower_limit r ->
      tax_due == taxable_profit * small_profits_rate r)
  /\ (upper_limit r <= taxable_profit -> tax_due == taxable_profit * main_rate r)
  /\ (lower_limit r < taxable_profit -> taxable_profit < upper_limit r ->
      tax_due == taxable_profit * main_rate r
                 - (main_rate r - small_profits_rate r)
                   * (2 * (upper_limit r - taxable_profit)
                      / (upper_limit r - lower_limit r)) * taxable_profit)
  /\ (0 < taxable_profit -> effective_rate == tax_due / taxable_profit * 100)
  /\ (taxable_profit == 0 -> effective_rate == 0)
  /\ res_taxable_profit res = py_round2 taxable_profit
  /\ res_tax_due res = py_round2 tax_due
  /\ res_effective_rate res = py_round2 effective_rate
  /\ (taxable_profit == 50000 -> res_tax_due res == 9500)
  /\ (taxable_profit == 250000 -> res_tax_due res == 62500).
Proof.
  intros H.
  unfold calculate_corporation_tax in H.
  destruct (strptime accounting_period_start) as [sd |]; [| discriminate].
  destruct (strptime accounting_period_end) as [ed |]; [| discriminate].
  set (ty := match tax_year with
             | Some y => if str_is_empty y
                         then default_tax_year year_of month_of day_of sd ed else y
             | None => default_tax_year year_of month_of day_of sd ed
             end) in H.
  destruct (tax_rates ty) as [rt |] eqn:Ert; [| discriminate].
  assert (Hrt : rt = rates_2023_24).
  { unfold tax_rates in Ert. destruct (String.eqb ty "2023-24"); congruence. }
  injection H as H. subst res rt. cbv zeta.
  cbn [res_tax_rates res_taxable_profit res_tax_due res_effective_rate].
  set (t := aggregate w _).
  set (ti := trading_income t + non_trading_income t).
  set (te := trading_expenses t + non_trading_expenses t).
  set (tp := taxable_profit_of ti te).
  destruct (taxable_profit_of_spec ti te) as (P0 & P1 & P2). fold tp in P0, P1, P2.
  destruct (tax_due_of_spec rates_2023_24 tp) as (T1 & T2 & T3).
  destruct (effective_rate_of_spec (tax_due_of rates_2023_24 tp) tp) as (E1 & E2).
  repeat match goal with |- _ /\ _ => split end; auto.
  - intro U. apply T2; [| exact U]. simpl in *. lra.
  - intro Z. apply E2. lra.
  - intro Z.
    assert (E : tax_due_of rates_2023_24 tp == 9500).
    { rewrite T1 by (simpl; lra). rewrite Z. reflexivity. }
    rewrite (py_round2_proper _ _ E). reflexivity.
  - intro Z.
    assert (E : tax_due_of rates_2023_24 tp == 62500).
    { rewrite T2 by (simpl; lra). rewrite Z. reflexivity. }
    rewrite (py_round2_proper _ _ E). reflexivity.
Qed.

End CorporationTax.

(** C6 at the lower limit.  With the rates of 2023-24 the marginal-relief
    branch taken at [profit = lower_limit] is 6500, not [lower_limit *
    small_rate = 9500]: the tax falls from 9500 at a profit of 50000 to
    less than 6501 for every profit above 50000 and up to 50001.  At the
    upper limit the branch does meet the main rate: 62500. *)
Theorem marginal_relief_jump_at_lower_limit :
  let r := rates_2023_24 in
  marginal_relief_tax r (lower_limit r) == 6500
  /\ lower_limit r * small_profits_rate r == 9500
  /\ ~ marginal_relief_tax r (lower_limit r) == lower_limit r * small_profits_rate r
  /\ tax_due_of r 50000 == 9500
  /\ (forall p, 50000 < p -> p <= 50001 -> tax_due_of r p < 6501)
  /\ marginal_relief_tax r (upper_limit r) == upper_limit r * main_rate r
  /\ tax_due_of r 250000 == 62500.
Proof.
  cbv zeta. repeat match goal with |- _ /\ _ => split end;
    try (vm_compute; reflexivity).
  - vm_compute. discriminate.
  - intros p L U.
    destruct (tax_due_of_spec rates_2023_24 p) as (_ & _ & T3).
    rewrite T3 by (simpl; lra). simpl.
    assert (E : p * (25 # 100) - ((25 # 100) - (19 # 100)) * (2 * (250000 - p) / (250000 - 50000)) * p
                == p * ((10 # 100) + (6 # 10000000) * p)) by field.
    rewrite E. nra.
Qed.

(** A store with one journal dict: 50000 credited to the income account
    4000 on 2024-01-15. *)
Definition profit_50000 : world :=
  mk_world
    [mk_tdict (Some (IdInt 1)) (Some "2024-01-15"%string) None None None None None
       (Some "Sales"%string) None None None
       (Some [mk_entry (Some "4000"%string) (Some "credit"%string) (Some 50000)])]
    [0%nat] Ledger.default_accounts.

Lemma corporation_tax_formula_witness :
  exists res,
    calculate_corporation_tax sample_strptime (fun _ => 0%Z) (fun _ => 0%Z) (fun _ => 0%Z)
      "2024-01-01" "2024-03-31" (Some "2023-24"%string) profit_50000 = Return res
    /\ res_taxable_profit res == 50000
    /\ res_tax_due res == 9500
    /\ res_effective_rate res == 19.
Proof.
  eexists. split; [reflexivity |].
  destruct (corporation_tax_formula sample_strptime
              (fun _ => 0%Z) (fun _ => 0%Z) (fun _ => 0%Z)
              "2024-01-01" "2024-03-31" (Some "2023-24"%string) profit_50000 _ eq_refl)
    as (_ & _ & _ & _ & _ & _ & _ & _ & _ & _ & _ & _ & H & _).
  split; [vm_compute; reflexivity |]. split; [| vm_compute; reflexivity].
  apply H. vm_compute. reflexivity.
Defined.

End CorporationTaxFacts.

(** ** Income tax: the dividend bands *)

Section DividendFacts.

Import IncomeTaxCalculator.

(** The room left in the higher-rate band once the non-dividend taxable
    income has filled the bands from the bottom: the width of the band
    less the part of that income lying above the basic-rate band. *)
Definition higher_band_headroom (b : bands) (other_taxable_income : Q) : Q :=
  py_max 0 ((higher_threshold b - basic_threshold b)
            - py_max 0 (other_taxable_income
                        - (basic_threshold b - personal_allowance b))).

(** The basic-rate dividend slice never exceeds the room that the other
    income leaves in the basic-rate band, and the three slices are those
    of the dividend income above the dividend allowance. *)
Lemma dividend_basic_slice_bounded (b : bands) (d : dividend) (dividend_income other : Q) :
  let s := split_dividend b d dividend_income other in
  div_basic_band s <= py_max 0 ((basic_threshold b - personal_allowance b) - other)
  /\ 0 <= div_basic_band s /\ 0 <= div_higher_band s /\ 0 <= div_additional_band s
  /\ div_basic_band s + div_higher_band s + div_additional_band s
     == py_max 0 (dividend_income - allowance d).
Proof.
  unfold split_dividend. cbn [div_basic_band div_higher_band div_additional_band].
  set (rb := py_max 0 (basic_threshold b - personal_allowance b - other)).
  set (rh := py_max 0 (higher_threshold b - personal_allowance b
                       - py_max 0 (other - (basic_threshold b - personal_allowance b)))).
  set (td := py_max 0 (dividend_income - allowance d)).
  assert (R0 : 0 <= rb) by apply py_max_0_nonneg.
  assert (H0 : 0 <= rh) by apply py_max_0_nonneg.
  assert (T0 : 0 <= td) by apply py_max_0_nonneg.
  set (db := py_min rb td).
  assert (B : db <= rb /\ db <= td /\ 0 <= db).
  { unfold db. destruct (py_min_spec rb td) as [[L ->] | [L ->]]; lra. }
  set (m := py_max 0 (td - db)).
  assert (M : m == td - db).
  { unfold m. destruct (py_max_spec 0 (td - db)) as [[L ->] | [L ->]]; lra. }
  set (dh := py_min rh m).
  assert (Hh : dh <= m /\ 0 <= dh).
  { unfold dh. destruct (py_min_spec rh m) as [[L ->] | [L ->]]; lra. }
  destruct (py_max_spec 0 (td - db - dh)) as [[L ->] | [L ->]];
    repeat match goal with |- _ /\ _ => split end; lra.
Qed.

(** C7 at the failing input: employment income 140000 and dividends
    11000 in 2023-24.  The personal allowance is fully tapered, the other
    taxable income is 140000 and lies 102300 above the basic-rate band,
    more than the 74870 that the higher-rate band is wide: no room is left
    in the basic and higher bands.  [_calculate_dividend_tax] still puts
    the 10000 of taxable dividends in the higher band and nothing in the
    additional band, and charges 3375 instead of 3935. *)
Theorem dividends_taxed_in_a_band_already_filled :
  let data := mk_income_data (Some 140000) None None (Some 11000) None None None in
  exists b d,
    tax_bands "2023-24" = Some b /\ dividend_rates "2023-24" = Some d
    /\ let other := taxable_after_allowance_of b data - 11000 in
       let s := split_dividend b d 11000 other in
       other == 140000
       /\ higher_threshold b - basic_threshold b == 74870
       /\ higher_band_headroom b other == 0
       /\ div_basic_band s == 0
       /\ div_higher_band s == 10000
       /\ div_additional_band s == 0
       /\ ~ div_higher_band s <= higher_band_headroom b other
       /\ (exists t, _calculate_dividend_tax "2023-24" 11000 other = Return t
                     /\ t == 3375)
       /\ (exists res, calculate_income_tax "2023-24" data = Return res
                       /\ res_dividend_tax res == 3375)
       /\ 10000 * div_additional_rate d == 3935.
Proof.
  cbv zeta. eexists. eexists. split; [reflexivity |]. split; [reflexivity |].
  repeat match goal with |- _ /\ _ => split end; try (vm_compute; reflexivity).
  - vm_compute. intro H. apply H. reflexivity.
  - eexists. split; [reflexivity |]. vm_compute. reflexivity.
  - eexists. split; [vm_compute; reflexivity |]. vm_compute. reflexivity.
Qed.

End DividendFacts.

(** ** Tax-year strings *)

Section TaxYear.

Variable py_int : string -> option Z.
Variable strftime : pydate -> string.

(** C9 at the failing inputs.  When [int()] rejects the text before the
    first dash of the tax-year string, [IncomeTaxReturn._set_tax_year_dates]
    swallows the error, and [TaxManager.calculate_income_tax_return]
    returns, without raising, a draft return with no period and every
    amount at zero, whatever income and expenses the ledger holds. *)
Theorem invalid_tax_year_gives_zero_return
        (tax_year : string) (income_expenses : list TaxManager.ie_item) :
  py_int (hd EmptyString (split_on "-"%char tax_year)) = None ->
  TaxManager.calculate_income_tax_return py_int strftime (Some tax_year) income_expenses
  = Return (IncomeTaxReturn.mk (Some tax_year) None None 0 0 0 0 0 0 None "draft").
Proof.
  intro H. unfold TaxManager.calculate_income_tax_return, IncomeTaxReturn.init.
  destruct (str_is_empty tax_year); [reflexivity |].
  unfold IncomeTaxReturn._set_tax_year_dates. rewrite H. reflexivity.
Qed.

End TaxYear.

Lemma invalid_tax_year_gives_zero_return_witness :
  TaxManager.calculate_income_tax_return digits_int (fun _ => EmptyString)
    (Some "abc"%string)
    [TaxManager.mk_ie_item (Some "2023-06-01"%string) (Some 90000) (Some 0)]
  = Return (IncomeTaxReturn.mk (Some "abc"%string) None None 0 0 0 0 0 0 None "draft").
Proof.
  apply (invalid_tax_year_gives_zero_return digits_int (fun _ => EmptyString) "abc").
  reflexivity.
Defined.

(** On the same string the two HMRC calculators raise [ValueError]. *)
Lemma calculators_raise_on_unknown_tax_year :
  (exists msg,
     IncomeTaxCalculator.calculate_income_tax "abc"
       (IncomeTaxCalculator.mk_income_data (Some 90000) None None None None None None)
     = Raise (ValueError msg))
  /\ (exists msg,
        CorporateTaxCalculator.calculate_corporation_tax sample_strptime
          (fun _ => 0%Z) (fun _ => 0%Z) (fun _ => 0%Z)
          "2024-01-01" "2024-03-31" (Some "abc"%string) profit_50000
        = Raise (ValueError msg)).
Proof. split; eexists; reflexivity. Qed.

(** ** The VAT scenario of the specification *)

(** A purchase invoice of one item, net 50.00 at 20% VAT. *)
Definition sample_purchase : Invoice.t :=
  Invoice.init (IdStr "inv-3") "PUR-20240120-0001" "purchase" "2024-01-15" "2024-02-14"
    "Supplies Ltd" "" "unpaid" true
    [InvoiceItem.init "Paper" 1 50 20 None None].

(** The store after the posting of one sale (net 100, VAT 20) and one
    purchase (net 50, VAT 10). *)
Definition one_sale_one_purchase : world :=
  fst (InvoiceManager._create_invoice_transactions "2024-01-15" "u-4" "u-5" "u-6"
         sample_purchase
         (fst (InvoiceManager._create_invoice_transactions "2024-01-15"
                 "u-1" "u-2" "u-3" sample_invoice Ledger.fresh_ledger))).

Lemma vat_return_boxes_witness :
  exists v,
    Ledger.calculate_vat_return sample_strptime "2024-01-01" "2024-03-31"
      one_sale_one_purchase = Return v
    /\ Ledger.vat_due_sales v == 20
    /\ Ledger.vat_due_acquisitions v == 0
    /\ Ledger.total_vat_due v == 20
    /\ Ledger.vat_reclaimed v == 10
    /\ Ledger.net_vat_due v == 10
    /\ Ledger.total_sales_ex_vat v == 100
    /\ Ledger.total_purchases_ex_vat v == 50
    /\ Ledger.total_supplies_ex_vat v == 0
    /\ Ledger.total_acquisitions_ex_vat v == 0.
Proof.
  destruct (vat_return_boxes sample_strptime "2024-01-01" "2024-03-31"
              738886%Z 738976%Z one_sale_one_purchase eq_refl eq_refl)
    as (v & E & H1 & H2 & H3 & H4 & H5 & H6 & H7 & H8 & H9 & _).
  exists v. split; [exact E |].
  repeat match goal with |- _ /\ _ => split end;
    first [ exact H2 | exact H8 | exact H9
          | rewrite H1; vm_compute; reflexivity
          | rewrite H3; vm_compute; reflexivity
          | rewrite H4; vm_compute; reflexivity
          | rewrite H5; vm_compute; reflexivity
          | rewrite H6; vm_compute; reflexivity
          | rewrite H7; vm_compute; reflexivity ].
Defined.

(** A refund: with the purchase alone Box 5 is negative. *)
Lemma vat_return_refund :
  exists v,
    Ledger.calculate_vat_return sample_strptime "2024-01-01" "2024-03-31"
      (fst (InvoiceManager._create_invoice_transactions "2024-01-15" "u-4" "u-5" "u-6"
              sample_purchase Ledger.fresh_ledger)) = Return v
    /\ Ledger.net_vat_due v == -10.
Proof. eexists. split; [reflexivity | vm_compute; reflexivity]. Qed.

(** Dates that do not parse are refused. *)
Lemma vat_return_bad_date (w : world) :
  exists msg,
    Ledger.calculate_vat_return sample_strptime "2024-13-01" "2024-03-31" w
    = Raise (ValueError msg).
Proof. eexists. reflexivity. Qed.

(** ** Unshared dicts: a run of the three operations *)

Lemma incremental_balances_match_refresh_witness :
  let d1 := mk_tdict None (Some "2024-01-15"%string) (Some "1200"%string)
              (Some 120) (Some 0) (Some 0) None None None None None None in
  let d2 := mk_tdict None (Some "2024-01-16"%string) (Some "2100"%string)
              (Some 0) (Some 20) (Some 20) None None None None None None in
  let d3 := mk_tdict None (Some "2024-01-17"%string) (Some "4000"%string)
              (Some 0) (Some 100) (Some 0) None None None None None None in
  let w := fold_left (exec "2024-01-15")
             [Add d1; Add d2; Update (IdInt 1) d3; Delete (IdInt 2)]
             (mk_world [] [] Ledger.default_accounts) in
  Ledger.balance "4000" w == Ledger.balance "4000" (fst (Ledger.refresh w)).
Proof.
  apply (incremental_balances_match_refresh "2024-01-15" Ledger.default_accounts).
  repeat constructor.
Defined.

(** ** The [Account] scenario of the specification *)

(** Account 1200 of type asset: a debit of 100 gives a balance of 100, a
    credit of 40 then gives 60; on a liability account the same two calls
    give -60. *)
Lemma account_sign_convention :
  let asset := Account.mk "1200" "Accounts Receivable" "asset"
                 (Some "current_asset"%string) 0 0 in
  let liability := Account.mk "2000" "Accounts Payable" "liability"
                     (Some "current_liability"%string) 0 0 in
  Account.balance (Account.debit 100 asset) == 100
  /\ Account.balance (Account.credit 40 (Account.debit 100 asset)) == 60
  /\ Account.balance (Account.credit 40 (Account.debit 100 liability)) == -60.
Proof.
  cbv zeta. repeat match goal with |- _ /\ _ => split end; vm_compute; reflexivity.
Qed.

(** ** Posting recipes of the ledger *)

Lemma store_deref_same (r : nat) (t : tdict) (w : world) :
  (r < List.length (heap w))%nat -> deref (store r t w) r = t.
Proof. intro H. unfold deref, store. simpl. now apply nth_set_nth_same. Qed.

(** One leg on an account that exists: the dict at [r] is appended once
    more and the balance of the account moves by [debit - credit]. *)
Lemma post_leg_posts (today : string) (r : nat) (account : string)
      (debit credit vat : Q) (w : world) :
  (r < List.length (heap w))%nat ->
  has account (chart_of_accounts w) = true ->
  exists h i,
    Ledger.post_leg today r account debit credit vat w
    = (mk_world h (transactions w ++ [r])
                (apply_delta account (debit - credit) (chart_of_accounts w)),
       Return i)
    /\ List.length h = List.length (heap w).
Proof.
  intros Hr Ha. unfold Ledger.post_leg.
  set (t := set_vat vat (set_credit credit (set_debit debit
               (set_account account (deref w r))))).
  unfold has in Ha. destruct (lookup account (chart_of_accounts w)) as [acc |] eqn:L;
    [| discriminate].
  assert (D : deref (store r t w) r = t) by now apply store_deref_same.
  assert (A : t_account (deref (store r t w) r) = Some account) by now rewrite D.
  rewrite (ledger_add_transaction_world today r (store r t w) account acc A L).
  rewrite D. do 2 eexists. split; [reflexivity |].
  simpl. now rewrite !set_nth_length.
Qed.

(** One leg on an account that the chart does not have: the call raises,
    no transaction is stored and no balance moves. *)
Lemma post_leg_refused (today : string) (r : nat) (account : string)
      (debit credit vat : Q) (w : world) :
  (r < List.length (heap w))%nat ->
  has account (chart_of_accounts w) = false ->
  exists h,
    Ledger.post_leg today r account debit credit vat w
    = (mk_world h (transactions w) (chart_of_accounts w),
       Raise (ValueError ("Hesap bulunamadı: " ++ account)))
    /\ List.length h = List.length (heap w).
Proof.
  intros Hr Ha. unfold Ledger.post_leg.
  set (t := set_vat vat (set_credit credit (set_debit debit
               (set_account account (deref w r))))).
  assert (D : deref (store r t w) r = t) by now apply store_deref_same.
  unfold Ledger.add_transaction. rewrite D.
  replace (t_account t) with (Some account) by reflexivity.
  unfold has in Ha. rewrite lookup_get_account_by_code. simpl chart_of_accounts.
  destruct (lookup account (chart_of_accounts w)); [discriminate |].
  eexists. split; [reflexivity |]. simpl. now rewrite set_nth_length.
Qed.

Lemma bal_leg (c account : string) (amount : Q) (accs : list adict) :
  has account accs = true ->
  bal c (apply_delta account amount accs)
  == bal c accs + (if String.eqb c account then amount else 0).
Proof.
  intro H. rewrite bal_apply_delta. unfold has in H. rewrite H.
  now rewrite andb_true_r.
Qed.

Lemma has_apply_delta (c code : string) (amount : Q) (accs : list adict) :
  has c (apply_delta code amount accs) = has c accs.
Proof. apply is_some_lookup_apply_delta. Qed.

(** The chart after a list of balance changes, applied in order. *)
Fixpoint post_all (legs : list (string * Q)) (accs : list adict) : list adict :=
  match legs with
  | [] => accs
  | (account, amount) :: tl => post_all tl (apply_delta account amount accs)
  end.

(** What a list of balance changes adds up to for account [c]. *)
Fixpoint effect (c : string) (legs : list (string * Q)) : Q :=
  match legs with
  | [] => 0
  | (account, amount) :: tl =>
      (if String.eqb c account then amount else 0) + effect c tl
  end.

Lemma has_post_all (c : string) (legs : list (string * Q)) : forall accs,
  has c (post_all legs accs) = has c accs.
Proof.
  induction legs as [| [a x] tl IH]; intro accs; simpl; [reflexivity |].
  now rewrite IH, has_apply_delta.
Qed.

Lemma bal_post_all (c : string) (legs : list (string * Q)) : forall accs,
  Forall (fun l => has (fst l) accs = true) legs ->
  bal c (post_all legs accs) == bal c accs + effect c legs.
Proof.
  induction legs as [| [a x] tl IH]; intros accs H; simpl; [lra |].
  inversion H as [| ? ? Ha Htl]; subst. simpl in Ha.
  rewrite IH.
  - rewrite bal_leg by exact Ha. lra.
  - eapply Forall_impl; [| exact Htl]. intros l Hl. now rewrite has_apply_delta.
Qed.

Lemma effect_app (c : string) (l1 l2 : list (string * Q)) :
  effect c (l1 ++ l2) == effect c l1 + effect c l2.
Proof. induction l1 as [| [a x] tl IH]; simpl; [lra | rewrite IH; lra]. Qed.

Lemma post_all_app (l1 l2 : list (string * Q)) (accs : list adict) :
  post_all (l1 ++ l2) accs = post_all l2 (post_all l1 accs).
Proof. revert accs. induction l1 as [| [a x] tl IH]; intro accs; simpl; auto. Qed.

(** A run of a posting recipe from [w]: it returns normally, the dict at
    the fresh address has been appended [n] times and the chart has gone
    through [legs]. *)
Definition posts (run : world * outcome unit) (w : world) (n : nat)
           (legs : list (string * Q)) : Prop :=
  snd run = Return tt
  /\ List.length (heap (fst run)) = S (List.length (heap w))
  /\ transactions (fst run) = transactions w ++ repeat (List.length (heap w)) n
  /\ chart_of_accounts (fst run) = post_all legs (chart_of_accounts w).

(** One step of a recipe, for the goal left by unfolding it. *)
Ltac post_step H :=
  match goal with
  | |- context [Ledger.post_leg ?today ?r ?a ?d ?c ?v ?w0] =>
      let h := fresh "h" in
      let i := fresh "i" in
      let E := fresh "E" in
      let L := fresh "L" in
      destruct (post_leg_posts today r a d c v w0) as [h [i [E L]]];
      [ cbn [heap]; rewrite ?length_app; simpl; lia
      | cbn [chart_of_accounts]; rewrite ?has_apply_delta; exact H
      | rewrite E; cbn [Ledger.and_then]; clear E;
        cbn [heap chart_of_accounts transactions] in L;
        rewrite ?length_app in L; cbn [List.length] in L ]
  end.

Ltac posts_done :=
  unfold posts; cbn [fst snd heap transactions chart_of_accounts];
  repeat match goal with |- _ /\ _ => split end;
  [ reflexivity
  | rewrite ?length_app in *; simpl in *; lia
  | rewrite <- ?app_assoc; reflexivity
  | simpl; rewrite ?Qplus_0_l; reflexivity ].

Section LedgerRecipes.

Variable today : string.

Definition vat_of (invoice : Ledger.idict) : Q :=
  match Ledger.i_vat invoice with Some v => v | None => 0 end.

(** The balance changes of a sales invoice and of a purchase invoice. *)
Definition sales_legs (amount vat : Q) : list (string * Q) :=
  [("1200"%string, amount + vat - 0); ("4000"%string, 0 - amount)]
  ++ (if Qpos_b vat then [("2100"%string, 0 - vat)] else []).

Definition purchase_legs (amount vat : Q) : list (string * Q) :=
  [("5000"%string, amount - 0)]
  ++ (if Qpos_b vat then [("2200"%string, vat - 0)] else [])
  ++ [("2000"%string, 0 - (amount + vat))].

Lemma sales_invoice_posts (invoice_data : Ledger.idict) (w : world)
      (amount : Q) (date number entity : string) :
  Ledger.i_type invoice_data = Some "sales"%string ->
  Ledger.i_amount invoice_data = Some amount ->
  Ledger.i_date invoice_data = Some date ->
  Ledger.i_invoice_number invoice_data = Some number ->
  Ledger.i_entity_name invoice_data = Some entity ->
  has "1200" (chart_of_accounts w) = true ->
  has "4000" (chart_of_accounts w) = true ->
  (0 < vat_of invoice_data -> has "2100" (chart_of_accounts w) = true) ->
  posts (Ledger._create_invoice_transaction today invoice_data w) w
        (if Qpos_b (vat_of invoice_data) then 3 else 2)
        (sales_legs amount (vat_of invoice_data)).
Proof.
  intros Ht Ha Hd Hn He H12 H40 H21.
  unfold Ledger._create_invoice_transaction, sales_legs.
  rewrite Ht, Ha, Hd, Hn, He. fold (vat_of invoice_data).
  unfold alloc. cbn [String.eqb Ascii.eqb Bool.eqb].
  post_step H12. post_step H40.
  destruct (Qpos_b (vat_of invoice_data)) eqn:V.
  - apply Qpos_b_true in V. specialize (H21 V).
    post_step H21. posts_done.
  - posts_done.
Qed.

Lemma purchase_invoice_posts (invoice_data : Ledger.idict) (w : world)
      (amount : Q) (date number entity : string) :
  Ledger.i_type invoice_data = Some "purchase"%string ->
  Ledger.i_amount invoice_data = Some amount ->
  Ledger.i_date invoice_data = Some date ->
  Ledger.i_invoice_number invoice_data = Some number ->
  Ledger.i_entity_name invoice_data = Some entity ->
  has "5000" (chart_of_accounts w) = true ->
  (0 < vat_of invoice_data -> has "2200" (chart_of_accounts w) = true) ->
  has "2000" (chart_of_accounts w) = true ->
  posts (Ledger._create_invoice_transaction today invoice_data w) w
        (if Qpos_b (vat_of invoice_data) then 3 else 2)
        (purchase_legs amount (vat_of invoice_data)).
Proof.
  intros Ht Ha Hd Hn He H50 H22 H20.
  unfold Ledger._create_invoice_transaction, purchase_legs.
  rewrite Ht, Ha, Hd, Hn, He. fold (vat_of invoice_data).
  unfold alloc. cbn [String.eqb Ascii.eqb Bool.eqb].
  post_step H50.
  destruct (Qpos_b (vat_of invoice_data)) eqn:V.
  - apply Qpos_b_true in V. specialize (H22 V).
    post_step H22. post_step H20. posts_done.
  - cbn [Ledger.and_then]. post_step H20. posts_done.
Qed.

Definition payment_legs (type : string) (total : Q) : list (string * Q) :=
  if String.eqb type "sales"
  then [("1100"%string, total - 0); ("1200"%string, 0 - total)]
  else [("2000"%string, total - 0); ("1100"%string, 0 - total)].

Lemma payment_posts (payment_date : option string) (invoice : Ledger.idict)
      (w : world) (type : string) (amount : Q) (number entity : string) :
  Ledger.i_type invoice = Some type ->
  type = "sales"%string \/ type = "purchase"%string ->
  Ledger.i_amount invoice = Some amount ->
  Ledger.i_invoice_number invoice = Some number ->
  Ledger.i_entity_name invoice = Some entity ->
  has "1100" (chart_of_accounts w) = true ->
  has (if String.eqb type "sales" then "1200" else "2000") (chart_of_accounts w) = true ->
  posts (Ledger._create_payment_transaction today payment_date invoice w) w 2
        (payment_legs type (amount + vat_of invoice)).
Proof.
  intros Ht Hty Ha Hn He H11 Hs.
  unfold Ledger._create_payment_transaction, payment_legs.
  rewrite Ht, Ha, Hn, He. fold (vat_of invoice). unfold alloc.
  destruct Hty; subst type; cbn [String.eqb Ascii.eqb Bool.eqb] in *.
  - post_step H11. post_step Hs. posts_done.
  - post_step Hs. post_step H11. posts_done.
Qed.

Definition expense_legs (account payment_account : string) (amount vat : Q)
  : list (string * Q) :=
  [(account, amount - 0)]
  ++ (if Qpos_b vat then [("2200"%string, vat - 0)] else [])
  ++ [(payment_account, 0 - (amount + vat))].

Definition x_vat_of (expense_data : Ledger.edict) : Q :=
  match Ledger.x_vat expense_data with Some v => v | None => 0 end.

Definition payment_account_of (expense_data : Ledger.edict) : string :=
  match Ledger.x_payment_method expense_data with
  | Some m => if String.eqb m "cash" then "1000" else "1100"
  | None => "1000"
  end.

Lemma expense_posts (expense_data : Ledger.edict) (w : world)
      (amount : Q) (category date receipt description : string) :
  Ledger.x_amount expense_data = Some amount ->
  Ledger.x_category expense_data = Some category ->
  Ledger.x_date expense_data = Some date ->
  Ledger.x_receipt_number expense_data = Some receipt ->
  Ledger.x_description expense_data = Some description ->
  has (Ledger.category_account category) (chart_of_accounts w) = true ->
  (0 < x_vat_of expense_data -> has "2200" (chart_of_accounts w) = true) ->
  has (payment_account_of expense_data) (chart_of_accounts w) = true ->
  posts (Ledger._create_expense_transaction today expense_data w) w
        (if Qpos_b (x_vat_of expense_data) then 3 else 2)
        (expense_legs (Ledger.category_account category)
                      (payment_account_of expense_data) amount (x_vat_of expense_data)).
Proof.
  intros Ha Hc Hd Hr He H5 H22 Hp.
  unfold Ledger._create_expense_transaction, expense_legs.
  rewrite Ha, Hc, Hd, Hr, He. fold (x_vat_of expense_data).
  assert (P : (if String.eqb match Ledger.x_payment_method expense_data with
                             | Some m => m | None => "cash"%string end "cash"
               then "1000"%string else "1100"%string)
              = payment_account_of expense_data).
  { unfold payment_account_of. now destruct (Ledger.x_payment_method expense_data). }
  rewrite P. clear P. unfold alloc.
  post_step H5.
  destruct (Qpos_b (x_vat_of expense_data)) eqn:V.
  - apply Qpos_b_true in V. specialize (H22 V).
    post_step H22. post_step Hp. posts_done.
  - cbn [Ledger.and_then]. post_step Hp. posts_done.
Qed.

Lemma posts_balance (run : world * outcome unit) (w : world) (n : nat)
      (legs : list (string * Q)) (c : string) :
  posts run w n legs ->
  Forall (fun l => has (fst l) (chart_of_accounts w) = true) legs ->
  Ledger.balance c (fst run) == Ledger.balance c w + effect c legs.
Proof.
  intros [_ [_ [_ C]]] H. rewrite !balance_bal, C. now apply bal_post_all.
Qed.

Lemma posts_has (run : world * outcome unit) (w : world) (n : nat)
      (legs : list (string * Q)) (c : string) :
  posts run w n legs ->
  has c (chart_of_accounts (fst run)) = has c (chart_of_accounts w).
Proof. intros [_ [_ [_ C]]]. rewrite C. apply has_post_all. Qed.

(** A sales invoice posted by [Ledger._create_invoice_transaction]
    returns normally when the accounts 1200 and 4000 (and 2100 if there is
    VAT) exist; it adds [amount + vat] to the balance of 1200, takes
    [amount] off 4000 and, if [vat > 0], [vat] off 2100; no other balance
    moves, and two or three transactions are stored. *)
Theorem sales_invoice_balances
        (invoice_data : Ledger.idict) (w : world)
        (amount : Q) (date number entity : string) :
  Ledger.i_type invoice_data = Some "sales"%string ->
  Ledger.i_amount invoice_data = Some amount ->
  Ledger.i_date invoice_data = Some date ->
  Ledger.i_invoice_number invoice_data = Some number ->
  Ledger.i_entity_name invoice_data = Some entity ->
  has "1200" (chart_of_accounts w) = true ->
  has "4000" (chart_of_accounts w) = true ->
  (0 < vat_of invoice_data -> has "2100" (chart_of_accounts w) = true) ->
  let vat := vat_of invoice_data in
  let run := Ledger._create_invoice_transaction today invoice_data w in
  snd run = Return tt
  /\ List.length (transactions (fst run))
     = (List.length (transactions w) + if Qpos_b vat then 3 else 2)%nat
  /\ forall c,
       Ledger.balance c (fst run)
       == Ledger.balance c w
          + (if String.eqb c "1200" then amount + vat else 0)
          - (if String.eqb c "4000" then amount else 0)
          - (if String.eqb c "2100" && Qpos_b vat then vat else 0).
Proof.
  intros Ht Ha Hd Hn He H12 H40 H21 vat run.
  assert (P := sales_invoice_posts invoice_data w amount date number entity
                 Ht Ha Hd Hn He H12 H40 H21).
  fold vat in P. fold run in P.
  split; [apply P |]. split.
  - destruct P as [_ [_ [T _]]]. rewrite T, length_app, repeat_length. reflexivity.
  - intro c. rewrite (posts_balance _ _ _ _ c P).
    + unfold sales_legs. destruct (Qpos_b vat); simpl;
        destruct (String.eqb c "1200"), (String.eqb c "4000"), (String.eqb c "2100");
        simpl; lra.
    + unfold sales_legs. destruct (Qpos_b vat) eqn:V; simpl;
        repeat constructor; simpl; try assumption.
      apply H21. now apply Qpos_b_true.
Qed.

(** A purchase invoice posted by [Ledger._create_invoice_transaction]:
    [amount] is added to 5000, [vat] to 2200 if [vat > 0], and
    [amount + vat] is taken off 2000. *)
Theorem purchase_invoice_balances
        (invoice_data : Ledger.idict) (w : world)
        (amount : Q) (date number entity : string) :
  Ledger.i_type invoice_data = Some "purchase"%string ->
  Ledger.i_amount invoice_data = Some amount ->
  Ledger.i_date invoice_data = Some date ->
  Ledger.i_invoice_number invoice_data = Some number ->
  Ledger.i_entity_name invoice_data = Some entity ->
  has "5000" (chart_of_accounts w) = true ->
  (0 < vat_of invoice_data -> has "2200" (chart_of_accounts w) = true) ->
  has "2000" (chart_of_accounts w) = true ->
  let vat := vat_of invoice_data in
  let run := Ledger._create_invoice_transaction today invoice_data w in
  snd run = Return tt
  /\ List.length (transactions (fst run))
     = (List.length (transactions w) + if Qpos_b vat then 3 else 2)%nat
  /\ forall c,
       Ledger.balance c (fst run)
       == Ledger.balance c w
          + (if String.eqb c "5000" then amount else 0)
          + (if String.eqb c "2200" && Qpos_b vat then vat else 0)
          - (if String.eqb c "2000" then amount + vat else 0).
Proof.
  intros Ht Ha Hd Hn He H50 H22 H20 vat run.
  assert (P := purchase_invoice_posts invoice_data w amount date number entity
                 Ht Ha Hd Hn He H50 H22 H20).
  fold vat in P. fold run in P.
  split; [apply P |]. split.
  - destruct P as [_ [_ [T _]]]. rewrite T, length_app, repeat_length. reflexivity.
  - intro c. rewrite (posts_balance _ _ _ _ c P).
    + unfold purchase_legs. destruct (Qpos_b vat); simpl;
        destruct (String.eqb c "5000"), (String.eqb c "2200"), (String.eqb c "2000");
        simpl; lra.
    + unfold purchase_legs. destruct (Qpos_b vat) eqn:V; simpl;
        repeat constructor; simpl; try assumption.
      apply H22. now apply Qpos_b_true.
Qed.

(** An expense posted by [Ledger._create_expense_transaction]: [amount]
    is added to the expense account of the category, [vat] to 2200 if
    [vat > 0], and [amount + vat] is taken off the cash account 1000 or,
    for any payment method other than cash, off the bank account 1100. *)
Theorem expense_balances
        (expense_data : Ledger.edict) (w : world)
        (amount : Q) (category date receipt description : string) :
  Ledger.x_amount expense_data = Some amount ->
  Ledger.x_category expense_data = Some category ->
  Ledger.x_date expense_data = Some date ->
  Ledger.x_receipt_number expense_data = Some receipt ->
  Ledger.x_description expense_data = Some description ->
  has (Ledger.category_account category) (chart_of_accounts w) = true ->
  (0 < x_vat_of expense_data -> has "2200" (chart_of_accounts w) = true) ->
  has (payment_account_of expense_data) (chart_of_accounts w) = true ->
  let vat := x_vat_of expense_data in
  let run := Ledger._create_expense_transaction today expense_data w in
  snd run = Return tt
  /\ List.length (transactions (fst run))
     = (List.length (transactions w) + if Qpos_b vat then 3 else 2)%nat
  /\ forall c,
       Ledger.balance c (fst run)
       == Ledger.balance c w
          + (if String.eqb c (Ledger.category_account category) then amount else 0)
          + (if String.eqb c "2200" && Qpos_b vat then vat else 0)
          - (if String.eqb c (payment_account_of expense_data) then amount + vat else 0).
Proof.
  intros Ha Hc Hd Hr He H5 H22 Hp vat run.
  assert (P := expense_posts expense_data w amount category date receipt description
                 Ha Hc Hd Hr He H5 H22 Hp).
  fold vat in P. fold run in P.
  split; [apply P |]. split.
  - destruct P as [_ [_ [T _]]]. rewrite T, length_app, repeat_length. reflexivity.
  - intro c. rewrite (posts_balance _ _ _ _ c P).
    + unfold expense_legs. destruct (Qpos_b vat); simpl;
        destruct (String.eqb c (Ledger.category_account category)),
                 (String.eqb c "2200"),
                 (String.eqb c (payment_account_of expense_data));
        simpl; lra.
    + unfold expense_legs. destruct (Qpos_b vat) eqn:V; simpl;
        repeat constructor; simpl; try assumption.
      apply H22. now apply Qpos_b_true.
Qed.

(** The accounts that the invoice and payment recipes post to. *)
Definition invoice_accounts : list string :=
  ["1100"; "1200"; "2000"; "2100"; "2200"; "4000"; "5000"]%string.

(** Posting an invoice and then its payment, as [add_invoice] followed by
    [mark_invoice_as_paid] do: both calls return normally; the receivable
    account 1200 (sales) or the payable account 2000 (purchase) is back at
    the balance it had before the invoice, and the bank account 1100 has
    received (sales) or paid (purchase) [amount + vat]. *)
Theorem payment_settles_invoice
        (payment_date : option string) (invoice : Ledger.idict) (w : world)
        (type : string) (amount : Q) (date number entity : string) :
  Ledger.i_type invoice = Some type ->
  type = "sales"%string \/ type = "purchase"%string ->
  Ledger.i_amount invoice = Some amount ->
  Ledger.i_date invoice = Some date ->
  Ledger.i_invoice_number invoice = Some number ->
  Ledger.i_entity_name invoice = Some entity ->
  Forall (fun c => has c (chart_of_accounts w) = true) invoice_accounts ->
  let total := amount + vat_of invoice in
  let invoiced := Ledger._create_invoice_transaction today invoice w in
  let paid := Ledger._create_payment_transaction today payment_date invoice
                (fst invoiced) in
  let settled := if String.eqb type "sales" then "1200"%string else "2000"%string in
  snd invoiced = Return tt /\ snd paid = Return tt
  /\ Ledger.balance settled (fst paid) == Ledger.balance settled w
  /\ Ledger.balance "1100" (fst paid)
     == Ledger.balance "1100" w + (if String.eqb type "sales" then total else - total)
  /\ forall c, c <> "1100"%string -> c <> settled ->
               Ledger.balance c (fst paid) == Ledger.balance c (fst invoiced).
Proof.
  intros Ht Hty Ha Hd Hn He Hacc total invoiced paid settled.
  unfold invoice_accounts in Hacc.
  repeat match goal with
         | H : Forall _ (_ :: _) |- _ =>
             let H1 := fresh "A" in
             let H2 := fresh "F" in
             inversion H as [| ? ? H1 H2]; subst; clear H
         end.
  assert (P1 : exists n legs, posts invoiced w n legs
               /\ Forall (fun l => has (fst l) (chart_of_accounts w) = true) legs
               /\ effect "1100" legs == 0
               /\ effect settled legs
                  == if String.eqb type "sales" then total else - total).
  { destruct Hty; subst type.
    - do 2 eexists. split;
        [apply (sales_invoice_posts invoice w amount date number entity); auto |].
      unfold sales_legs. fold total.
      destruct (Qpos_b (vat_of invoice)); simpl;
        (split; [repeat constructor; assumption |]); unfold total; split; lra.
    - do 2 eexists. split;
        [apply (purchase_invoice_posts invoice w amount date number entity); auto |].
      unfold purchase_legs. fold total.
      destruct (Qpos_b (vat_of invoice)); simpl;
        (split; [repeat constructor; assumption |]); unfold total; split; lra. }
  destruct P1 as [n [legs [P1 [F1 [E11 E1s]]]]].
  assert (S1 : has settled (chart_of_accounts w) = true).
  { unfold settled. destruct (String.eqb type "sales"); assumption. }
  assert (P2 : posts paid (fst invoiced) 2 (payment_legs type total)).
  { apply (payment_posts payment_date invoice (fst invoiced) type amount number entity);
      auto; rewrite (posts_has _ _ _ _ _ P1); assumption. }
  assert (F2 : Forall (fun l => has (fst l) (chart_of_accounts (fst invoiced)) = true)
                      (payment_legs type total)).
  { unfold payment_legs. fold settled in S1.
    destruct Hty; subst type; simpl; repeat constructor; simpl;
      rewrite (posts_has _ _ _ _ _ P1); assumption. }
  split; [apply P1 |]. split; [apply P2 |].
  split; [| split].
  - rewrite (posts_balance _ _ _ _ settled P2 F2), (posts_balance _ _ _ _ settled P1 F1).
    rewrite E1s. unfold payment_legs, settled.
    destruct Hty; subst type; simpl; lra.
  - rewrite (posts_balance _ _ _ _ "1100" P2 F2), (posts_balance _ _ _ _ "1100" P1 F1).
    rewrite E11. unfold payment_legs.
    destruct Hty; subst type; simpl; lra.
  - intros c N1 N2. rewrite (posts_balance _ _ _ _ c P2 F2).
    apply String.eqb_neq in N1, N2. unfold payment_legs, settled in *.
    destruct Hty; subst type; simpl in *; rewrite N1, N2; lra.
Qed.

(** A recipe is not undone when a later leg is refused.  For a sales
    invoice: if the chart has no account 1200 the call raises and the
    books are untouched; if it has 1200 but no 4000 the call raises after
    the first leg, which stays in the store with its effect on 1200. *)
Theorem sales_invoice_missing_account
        (invoice_data : Ledger.idict) (w : world)
        (amount : Q) (date number entity : string) :
  Ledger.i_type invoice_data = Some "sales"%string ->
  Ledger.i_amount invoice_data = Some amount ->
  Ledger.i_date invoice_data = Some date ->
  Ledger.i_invoice_number invoice_data = Some number ->
  Ledger.i_entity_name invoice_data = Some entity ->
  let run := Ledger._create_invoice_transaction today invoice_data w in
  (has "1200" (chart_of_accounts w) = false ->
   snd run = Raise (ValueError "Hesap bulunamadı: 1200")
   /\ transactions (fst run) = transactions w
   /\ chart_of_accounts (fst run) = chart_of_accounts w)
  /\ (has "1200" (chart_of_accounts w) = true ->
      has "4000" (chart_of_accounts w) = false ->
      snd run = Raise (ValueError "Hesap bulunamadı: 4000")
      /\ transactions (fst run) = transactions w ++ [List.length (heap w)]
      /\ forall c, Ledger.balance c (fst run)
                   == Ledger.balance c w
                      + if String.eqb c "1200" then amount + vat_of invoice_data else 0).
Proof.
  intros Ht Ha Hd Hn He run. unfold run, Ledger._create_invoice_transaction.
  rewrite Ht, Ha, Hd, Hn, He. fold (vat_of invoice_data).
  unfold alloc. cbn [String.eqb Ascii.eqb Bool.eqb].
  split.
  - intro H12.
    match goal with
    | |- context [Ledger.post_leg ?today ?r ?a ?d ?c ?v ?w0] =>
        destruct (post_leg_refused today r a d c v w0) as [h [E L]];
          [cbn [heap]; rewrite length_app; simpl; lia | exact H12 |]
    end.
    rewrite E. cbn [Ledger.and_then fst snd transactions chart_of_accounts].
    repeat split.
  - intros H12 H40. post_step H12.
    match goal with
    | |- context [Ledger.post_leg ?today ?r ?a ?d ?c ?v ?w0] =>
        destruct (post_leg_refused today r a d c v w0) as [h' [E L']];
          [cbn [heap]; lia
          | cbn [chart_of_accounts]; rewrite has_apply_delta; exact H40 |]
    end.
    rewrite E. cbn [Ledger.and_then fst snd transactions chart_of_accounts].
    split; [reflexivity |]. split; [reflexivity |].
    intro c. rewrite !balance_bal. cbn [chart_of_accounts].
    rewrite bal_leg by exact H12. destruct (String.eqb c "1200"); lra.
Qed.

End LedgerRecipes.

(** A purchase invoice dict, net 200 and VAT 40. *)
Definition sample_purchase_dict : Ledger.idict :=
  Ledger.mk_idict (Some "purchase"%string) (Some "Supplies Ltd"%string) (Some 200)
    (Some 40) (Some "2024-02-01"%string) (Some "PUR-20240201-0001"%string) None.

(** An expense dict: 50 of travel with 10 of VAT, paid by card. *)
Definition sample_expense : Ledger.edict :=
  Ledger.mk_edict (Some 50) (Some 10) (Some "travel"%string) (Some "2024-02-03"%string)
    (Some "EXP-20240203-0001"%string) (Some "Train"%string) None (Some "card"%string).

Lemma sales_invoice_balances_witness :
  let run := Ledger._create_invoice_transaction "2024-01-15" sample_invoice_dict
               Ledger.fresh_ledger in
  snd run = Return tt
  /\ Ledger.balance "1200" (fst run) == 120
  /\ Ledger.balance "4000" (fst run) == -100
  /\ Ledger.balance "2100" (fst run) == -20
  /\ Ledger.balance "1100" (fst run) == 0.
Proof.
  destruct (sales_invoice_balances "2024-01-15" sample_invoice_dict Ledger.fresh_ledger
              100 "2024-01-15" "INV-20240115-0001" "ACME Ltd"
              eq_refl eq_refl eq_refl eq_refl eq_refl eq_refl eq_refl (fun _ => eq_refl))
    as [R [_ B]].
  split; [exact R |].
  repeat match goal with |- _ /\ _ => split end;
    (eapply Qeq_trans; [apply B | vm_compute; reflexivity]).
Defined.

Lemma purchase_invoice_balances_witness :
  let run := Ledger._create_invoice_transaction "2024-02-01" sample_purchase_dict
               Ledger.fresh_ledger in
  snd run = Return tt
  /\ Ledger.balance "5000" (fst run) == 200
  /\ Ledger.balance "2200" (fst run) == 40
  /\ Ledger.balance "2000" (fst run) == -240
  /\ Ledger.balance "1100" (fst run) == 0.
Proof.
  destruct (purchase_invoice_balances "2024-02-01" sample_purchase_dict
              Ledger.fresh_ledger 200 "2024-02-01" "PUR-20240201-0001" "Supplies Ltd"
              eq_refl eq_refl eq_refl eq_refl eq_refl eq_refl (fun _ => eq_refl) eq_refl)
    as [R [_ B]].
  split; [exact R |].
  repeat match goal with |- _ /\ _ => split end;
    (eapply Qeq_trans; [apply B | vm_compute; reflexivity]).
Defined.

Lemma expense_balances_witness :
  let run := Ledger._create_expense_transaction "2024-02-03" sample_expense
               Ledger.fresh_ledger in
  snd run = Return tt
  /\ Ledger.balance "5700" (fst run) == 50
  /\ Ledger.balance "2200" (fst run) == 10
  /\ Ledger.balance "1100" (fst run) == -60
  /\ Ledger.balance "1000" (fst run) == 0.
Proof.
  destruct (expense_balances "2024-02-03" sample_expense Ledger.fresh_ledger
              50 "travel" "2024-02-03" "EXP-20240203-0001" "Train"
              eq_refl eq_refl eq_refl eq_refl eq_refl eq_refl (fun _ => eq_refl) eq_refl)
    as [R [_ B]].
  split; [exact R |].
  repeat match goal with |- _ /\ _ => split end;
    (eapply Qeq_trans; [apply B | vm_compute; reflexivity]).
Defined.

Lemma payment_settles_invoice_witness :
  let invoiced := Ledger._create_invoice_transaction "2024-01-15" sample_invoice_dict
                    Ledger.fresh_ledger in
  let paid := Ledger._create_payment_transaction "2024-01-15" (Some "2024-02-14"%string)
                sample_invoice_dict (fst invoiced) in
  snd paid = Return tt
  /\ Ledger.balance "1200" (fst paid) == 0
  /\ Ledger.balance "1100" (fst paid) == 120.
Proof.
  destruct (payment_settles_invoice "2024-01-15" (Some "2024-02-14"%string)
              sample_invoice_dict Ledger.fresh_ledger "sales" 100
              "2024-01-15" "INV-20240115-0001" "ACME Ltd"
              eq_refl (or_introl eq_refl) eq_refl eq_refl eq_refl eq_refl
              ltac:(repeat constructor))
    as [_ [R [S [B _]]]].
  split; [exact R |]. split.
  - eapply Qeq_trans; [apply S | vm_compute; reflexivity].
  - eapply Qeq_trans; [apply B | vm_compute; reflexivity].
Defined.

(** A chart that has the receivable account but no income account. *)
Definition receivable_only : world :=
  mk_world [] [] [mk_adict "1200" "Alacak Hesapları" "asset" "current_asset" 0
                           (Some 0) None].

Lemma sales_invoice_missing_account_witness :
  let run := Ledger._create_invoice_transaction "2024-01-15" sample_invoice_dict
               receivable_only in
  snd run = Raise (ValueError "Hesap bulunamadı: 4000")
  /\ transactions (fst run) = [0%nat]
  /\ Ledger.balance "1200" (fst run) == 120.
Proof.
  destruct (sales_invoice_missing_account "2024-01-15" sample_invoice_dict
              receivable_only 100 "2024-01-15" "INV-20240115-0001" "ACME Ltd"
              eq_refl eq_refl eq_refl eq_refl eq_refl) as [_ H].
  destruct (H eq_refl eq_refl) as [R [T B]].
  split; [exact R |]. split; [exact T |].
  eapply Qeq_trans; [apply B | vm_compute; reflexivity].
Defined.

(** ** Ids given by the store *)

Lemma pyid_eqb_eq (a b : pyid) : pyid_eqb a b = true <-> a = b.
Proof.
  destruct a, b; simpl; split; intro H; try discriminate; try reflexivity.
  - apply Z.eqb_eq in H. now subst.
  - injection H as ->. apply Z.eqb_refl.
  - apply String.eqb_eq in H. now subst.
  - injection H as ->. apply String.eqb_refl.
Qed.

(** The loop of [max_id] from a starting value. *)
Definition max_id_from (w : world) (l : list nat) (m : Z) : Z :=
  fold_left
    (fun m r =>
       match t_id (deref w r) with
       | Some (IdInt n) => if (n >? m)%Z then n else m
       | _ => m
       end) l m.

Lemma max_id_from_bounds (w : world) (l : list nat) : forall m,
  (m <= max_id_from w l m)%Z
  /\ forall r n, In r l -> get_id (deref w r) = IdInt n -> (n <= max_id_from w l m)%Z.
Proof.
  induction l as [| a tl IH]; intro m; simpl.
  - split; [lia | intros ? ? []].
  - set (m' := match t_id (deref w a) with
               | Some (IdInt n) => if (n >? m)%Z then n else m
               | _ => m
               end).
    destruct (IH m') as [B1 B2]. fold (max_id_from w tl m').
    assert (M : (m <= m')%Z).
    { unfold m'. destruct (t_id (deref w a)) as [[| n |] |]; try lia.
      destruct (n >? m)%Z eqn:G; lia. }
    split; [lia |]. intros r n [-> | Hin] Hn.
    + assert (n <= m')%Z; [| lia]. unfold m'. unfold get_id in Hn.
      destruct (t_id (deref w r)) as [[| k |] |]; try discriminate.
      injection Hn as ->. destruct (n >? m)%Z eqn:G; lia.
    + now apply (B2 r).
Qed.

Lemma max_id_bounds (w : world) (r : nat) (n : Z) :
  In r (transactions w) -> get_id (deref w r) = IdInt n -> (n <= Database.max_id w)%Z.
Proof. apply (max_id_from_bounds w (transactions w) 0%Z). Qed.

Lemma completed_id (today : string) (next : Z) (t : tdict) :
  get_id (completed today next t)
  = match t_id t with Some i => i | None => IdInt next end.
Proof. destruct t as [i d ? ? ? ? ? ? ? ? ? ?]. destruct i, d; reflexivity. Qed.

Lemma find_index_lt {A : Type} (p : A -> bool) (l : list A) (k : nat) :
  find_index p l = Some k -> (k < List.length l)%nat.
Proof.
  revert k. induction l as [| a tl IH]; intros k Ek; simpl in *; [discriminate |].
  destruct (p a); [injection Ek as <-; lia |].
  destruct (find_index p tl) as [j |]; [| discriminate].
  injection Ek as <-. specialize (IH j eq_refl). lia.
Qed.

Lemma find_index_true {A : Type} (p : A -> bool) (l : list A) (k : nat) (d : A) :
  find_index p l = Some k -> p (nth k l d) = true.
Proof.
  revert k. induction l as [| a tl IH]; intros k Ek; simpl in *; [discriminate |].
  destruct (p a) eqn:Pa; [injection Ek as <-; exact Pa |].
  destruct (find_index p tl) as [j |]; [| discriminate].
  injection Ek as <-. now apply IH.
Qed.

Lemma find_index_app_last {A : Type} (p : A -> bool) (l : list A) (x : A) :
  (forall y, In y l -> p y = false) -> p x = true ->
  find_index p (l ++ [x]) = Some (List.length l).
Proof.
  intros Hl Hx. induction l as [| a tl IH]; simpl.
  - now rewrite Hx.
  - rewrite (Hl a) by now left. rewrite IH; [reflexivity |].
    intros y Hy. apply Hl. now right.
Qed.

Lemma del_nth_app_last {A : Type} (l : list A) (x : A) :
  del_nth (List.length l) (l ++ [x]) = l.
Proof. induction l as [| a tl IH]; simpl; [reflexivity | now rewrite IH]. Qed.

Lemma NoDup_del_nth {A : Type} (k : nat) (l : list A) :
  NoDup l -> NoDup (del_nth k l).
Proof.
  revert k. induction l as [| a tl IH]; intros [| k] H; simpl; try exact H.
  - now inversion H.
  - inversion H as [| ? ? Hn Ht]; subst. constructor; [| now apply IH].
    intro Hin. apply Hn. clear - Hin. revert k Hin.
    induction tl as [| b tl IH]; intros [| k] Hin; simpl in *; try contradiction.
    + now right.
    + destruct Hin as [-> | Hin]; [now left | right; now apply (IH k)].
Qed.

(** The log after one operation of [exec]. *)
Lemma exec_log (today : string) (w : world) (o : operation) :
  wf w ->
  wf (exec today w o)
  /\ match o with
     | Add d =>
         log (exec today w o) = log w
         \/ log (exec today w o) = log w ++ [completed today (Database.max_id w + 1) d]
     | Update i d =>
         log (exec today w o) = log w
         \/ exists k, find_index (fun t => pyid_eqb (get_id t) i) (log w) = Some k
                      /\ log (exec today w o) = set_nth k (set_id i d) (log w)
     | Delete i =>
         log (exec today w o) = log w
         \/ exists k, log (exec today w o) = del_nth k (log w)
     end.
Proof.
  intro Hwf. destruct o as [d | i d | i]; unfold exec.
  - assert (Hwf0 := wf_alloc d w Hwf). assert (Hl0 := log_alloc d w Hwf).
    destruct (alloc d w) as [w0 r] eqn:A. cbn [fst] in *.
    assert (Hr : r = List.length (heap w)) by (unfold alloc in A; now inversion A).
    assert (Htx : transactions w0 = transactions w) by (unfold alloc in A; now inversion A).
    assert (Hd : deref w0 r = d).
    { replace w0 with (fst (alloc d w)) by now rewrite A.
      replace r with (snd (alloc d w)) by now rewrite A. apply deref_alloc_new. }
    destruct (t_account d) as [code |] eqn:Ha.
    2:{ unfold Ledger.add_transaction. rewrite Hd, Ha. split; [exact Hwf0 | now left]. }
    destruct (Ledger.get_account_by_code code w0) as [acc |] eqn:Hc.
    2:{ unfold Ledger.add_transaction. rewrite Hd, Ha, Hc.
        split; [exact Hwf0 | now left]. }
    rewrite (ledger_add_transaction_world today r w0 code acc); [| now rewrite Hd | exact Hc].
    rewrite Hd. cbn [fst].
    assert (Hlen : (r < List.length (heap w0))%nat).
    { apply deref_valid. rewrite Hd. intro E. rewrite E in Ha. discriminate. }
    assert (Hold : forall r', In r' (transactions w0) -> (r' < r)%nat).
    { intros r' Hin. unfold wf in Hwf. rewrite Forall_forall in Hwf.
      rewrite Htx in Hin. rewrite Hr. now apply Hwf. }
    assert (M : Database.max_id w0 = Database.max_id w).
    { unfold Database.max_id. rewrite Htx.
      assert (E : forall l m, Forall (fun r' => (r' < List.length (heap w))%nat) l ->
                  fold_left (fun m r' => match t_id (deref w0 r') with
                                         | Some (IdInt n) => if (n >? m)%Z then n else m
                                         | _ => m end) l m
                  = fold_left (fun m r' => match t_id (deref w r') with
                                         | Some (IdInt n) => if (n >? m)%Z then n else m
                                         | _ => m end) l m).
      { induction l as [| a tl IH]; intros m F; simpl; [reflexivity |].
        apply Forall_cons_iff in F. destruct F as [Fa Ft].
        replace (deref w0 a) with (deref w a).
        - now apply IH.
        - replace w0 with (fst (alloc d w)) by now rewrite A.
          symmetry. now apply deref_alloc_old. }
      apply E. exact Hwf. }
    split.
    + unfold wf. simpl. rewrite set_nth_length. apply Forall_app. split.
      * exact Hwf0.
      * constructor; [exact Hlen | constructor].
    + right. rewrite <- Hl0, <- M. unfold log, deref. simpl. rewrite map_app. simpl.
      rewrite nth_set_nth_same by exact Hlen. f_equal.
      apply map_ext_in. intros r' Hin. apply nth_set_nth_other.
      specialize (Hold r' Hin). lia.
  - assert (Hwf0 := wf_alloc d w Hwf). assert (Hl0 := log_alloc d w Hwf).
    destruct (alloc d w) as [w0 r] eqn:A. cbn [fst] in *.
    assert (Hr : r = List.length (heap w)) by (unfold alloc in A; now inversion A).
    assert (Htx : transactions w0 = transactions w) by (unfold alloc in A; now inversion A).
    assert (Hlen : (r < List.length (heap w0))%nat).
    { unfold alloc in A. inversion A; subst. simpl. rewrite length_app. simpl. lia. }
    assert (Hd : deref w0 r = d).
    { replace w0 with (fst (alloc d w)) by now rewrite A.
      replace r with (snd (alloc d w)) by now rewrite A. apply deref_alloc_new. }
    assert (Hfresh : Forall (fun r' => r' <> r) (transactions w0)).
    { unfold wf in Hwf. rewrite Htx.
      eapply Forall_impl; [| exact Hwf]. intros r' L. simpl in L. lia. }
    rewrite (ledger_update_transaction_world i r w0 Hlen Hfresh).
    destruct (find_index _ (transactions w0)) as [k |] eqn:Ek;
      [| split; [exact Hwf0 | now left]].
    cbv zeta. rewrite Hd.
    destruct (truthy _); [| split; [exact Hwf0 | now left]].
    split.
    + unfold wf. simpl. rewrite set_nth_length.
      apply Forall_set_nth; [exact Hlen | exact Hwf0].
    + right. exists k. rewrite <- Hl0. split.
      * unfold log. clear - Ek. revert k Ek.
        induction (transactions w0) as [| a tl IH]; intros k Ek; simpl in *;
          [discriminate |].
        destruct (pyid_eqb (get_id (deref w0 a)) i); [exact Ek |].
        destruct (find_index _ tl) as [j |]; [| discriminate].
        now rewrite (IH j eq_refl).
      * unfold log. simpl. rewrite map_set_nth. f_equal.
        -- unfold deref. simpl. now apply nth_set_nth_same.
        -- apply map_ext_in. intros r' Hin. unfold deref. simpl.
           apply nth_set_nth_other. rewrite Forall_forall in Hfresh.
           specialize (Hfresh r' Hin). congruence.
  - rewrite ledger_delete_transaction_world.
    destruct (find_index _ (transactions w)) as [k |] eqn:Ek;
      [| split; [exact Hwf | now left]].
    cbv zeta. destruct (truthy _); [| split; [exact Hwf | now left]].
    split.
    + unfold wf. simpl. now apply Forall_del_nth.
    + right. exists k. unfold log. simpl. now rewrite map_del_nth.
Qed.

Lemma In_log (w : world) (t : tdict) :
  In t (log w) -> exists r, In r (transactions w) /\ deref w r = t.
Proof.
  unfold log. intro H. apply in_map_iff in H. destruct H as [r [E Hin]]. now exists r.
Qed.

Lemma map_set_nth_same {A B : Type} (f : A -> B) (k : nat) (x d : A) (l : list A) :
  f x = f (nth k l d) -> map f (set_nth k x l) = map f l.
Proof.
  revert k. induction l as [| a tl IH]; intros [| k] H; simpl in *; try reflexivity.
  - now rewrite H.
  - now rewrite IH.
Qed.

(** The operations of a run in which the caller never chooses an id. *)
Definition no_own_id (o : operation) : Prop :=
  match o with Add d => t_id d = None | _ => True end.

Lemma distinct_ids_step (today : string) (w : world) (o : operation) :
  no_own_id o ->
  wf w /\ NoDup (map get_id (log w)) ->
  wf (exec today w o) /\ NoDup (map get_id (log (exec today w o))).
Proof.
  intros Ho [Hwf Hn]. destruct (exec_log today w o Hwf) as [Hwf' Hl].
  split; [exact Hwf' |].
  destruct o as [d | i d | i]; simpl in Ho.
  - destruct Hl as [-> | ->]; [exact Hn |].
    rewrite map_app. simpl. rewrite completed_id, Ho.
    apply NoDup_app; [exact Hn | repeat constructor; intros [] |].
    intros x Hx [<- | []].
    apply in_map_iff in Hx. destruct Hx as [t [Et Hin]].
    apply In_log in Hin. destruct Hin as [r [Hr Hd]]. subst t.
    assert (B := max_id_bounds w r _ Hr Et). lia.
  - destruct Hl as [-> | [k [Ek ->]]]; [exact Hn |].
    rewrite (map_set_nth_same get_id k (set_id i d) empty_tdict); [exact Hn |].
    apply (find_index_true _ _ _ empty_tdict) in Ek. apply pyid_eqb_eq in Ek.
    now rewrite Ek.
  - destruct Hl as [-> | [k ->]]; [exact Hn |].
    rewrite map_del_nth. now apply NoDup_del_nth.
Qed.

(** The ids of the stored transactions are pairwise distinct after any
    sequence of additions, updates and deletions through the ledger, as
    long as the added dicts leave the choice of the id to the store. *)
Theorem stored_ids_are_distinct
        (today : string) (accounts : list adict) (ops : list operation) :
  Forall no_own_id ops ->
  let w := fold_left (exec today) ops (mk_world [] [] accounts) in
  NoDup (map get_id (log w)).
Proof.
  intros Hops w.
  assert (I : wf w /\ NoDup (map get_id (log w))); [| apply I].
  unfold w. clear w.
  assert (I0 : wf (mk_world [] [] accounts)
               /\ NoDup (map get_id (log (mk_world [] [] accounts)))).
  { split; constructor. }
  revert I0. generalize (mk_world [] [] accounts).
  induction ops as [| o tl IH]; intros w0 I0; simpl; [exact I0 |].
  inversion Hops as [| ? ? Ho Htl]; subst.
  apply IH; [exact Htl |]. now apply distinct_ids_step.
Qed.

Lemma stored_ids_are_distinct_witness :
  let d1 := mk_tdict None (Some "2024-01-15"%string) (Some "1200"%string)
              (Some 120) (Some 0) (Some 0) None None None None None None in
  let d2 := mk_tdict None (Some "2024-01-16"%string) (Some "2100"%string)
              (Some 0) (Some 20) (Some 20) None None None None None None in
  let w := fold_left (exec "2024-01-15")
             [Add d1; Add d2; Delete (IdInt 2); Add d2; Update (IdInt 1) d2; Add d1]
             (mk_world [] [] Ledger.default_accounts) in
  NoDup (map get_id (log w)).
Proof.
  apply (stored_ids_are_distinct "2024-01-15" Ledger.default_accounts).
  repeat constructor.
Defined.

(** ** Adding and then deleting a transaction *)

Lemma apply_delta_back (c code : string) (amount : Q) (accs : list adict) :
  bal c (apply_delta code (- amount) (apply_delta code amount accs)) == bal c accs.
Proof.
  rewrite !bal_apply_delta, is_some_lookup_apply_delta.
  destruct (String.eqb c code && is_some (lookup code accs)); lra.
Qed.

(** [Ledger.add_transaction] on a dict without id that the store does not
    hold yet, followed by [Ledger.delete_transaction] of the id that was
    returned: the second call succeeds and the books are as before, with
    the same transactions in the list and the same balance on every
    account.  The id that the store gave is [max + 1], and
    [get_transaction_by_id] finds the dict under it in between. *)
Theorem add_then_delete_restores_books
        (today : string) (r : nat) (w : world) (code : string) (acc : adict) :
  wf w ->
  ~ In r (transactions w) ->
  t_id (deref w r) = None ->
  t_account (deref w r) = Some code ->
  Ledger.get_account_by_code code w = Some acc ->
  let added := Ledger.add_transaction today r w in
  let id := IdInt (Database.max_id w + 1) in
  let deleted := Ledger.delete_transaction id (fst added) in
  snd added = Return id
  /\ Database.get_transaction_by_id id (fst added) = Some (deref (fst added) r)
  /\ snd deleted = Return true
  /\ transactions (fst deleted) = transactions w
  /\ log (fst deleted) = log w
  /\ forall c, Ledger.balance c (fst deleted) == Ledger.balance c w.
Proof.
  intros Hwf Hnew Hid Ha Hc added id deleted.
  assert (Hr : (r < List.length (heap w))%nat).
  { apply deref_valid. intro E. rewrite E in Ha. discriminate. }
  set (t := completed today (Database.max_id w + 1) (deref w r)).
  assert (Eadd : added
                 = (mk_world (set_nth r t (heap w)) (transactions w ++ [r])
                      (apply_delta code (delta (deref w r)) (chart_of_accounts w)),
                    Return (get_id t))).
  { unfold added. now rewrite (ledger_add_transaction_world today r w code acc Ha Hc). }
  assert (Eid : get_id t = id).
  { unfold t. now rewrite completed_id, Hid. }
  rewrite Eid in Eadd.
  set (w1 := mk_world (set_nth r t (heap w)) (transactions w ++ [r])
               (apply_delta code (delta (deref w r)) (chart_of_accounts w))) in *.
  assert (Dnew : deref w1 r = t).
  { unfold deref, w1. simpl. now apply nth_set_nth_same. }
  assert (Dold : forall r', In r' (transactions w) -> deref w1 r' = deref w r').
  { intros r' Hin. unfold deref, w1. simpl. apply nth_set_nth_other.
    intro E. subst r'. contradiction. }
  assert (Pold : forall r', In r' (transactions w) ->
                 pyid_eqb (get_id (deref w1 r')) id = false).
  { intros r' Hin. rewrite (Dold r' Hin).
    destruct (pyid_eqb (get_id (deref w r')) id) eqn:E; [| reflexivity].
    apply pyid_eqb_eq in E. assert (B := max_id_bounds w r' _ Hin E). lia. }
  assert (Pnew : pyid_eqb (get_id (deref w1 r)) id = true).
  { rewrite Dnew, Eid. now apply pyid_eqb_eq. }
  assert (Ek : find_index (fun r' => pyid_eqb (get_id (deref w1 r')) id)
                          (transactions w1)
               = Some (List.length (transactions w))).
  { unfold w1 at 2. simpl. now apply find_index_app_last. }
  assert (Edel : fst deleted
                 = mk_world (heap w1) (transactions w)
                     (apply_delta code (- delta (deref w r))
                        (apply_delta code (delta (deref w r)) (chart_of_accounts w)))).
  { unfold deleted. rewrite Eadd. cbn [fst].
    rewrite ledger_delete_transaction_world, Ek. cbv zeta.
    replace (nth (List.length (transactions w)) (transactions w1) 0%nat) with r
      by (unfold w1; simpl; now rewrite app_nth2, Nat.sub_diag by lia).
    rewrite Dnew.
    assert (T : truthy t = true).
    { unfold truthy, t. rewrite completed_account, Ha. simpl.
      now rewrite !orb_true_r. }
    rewrite T.
    assert (At : t_account t = Some code) by (unfold t; now rewrite completed_account).
    assert (Dt : delta t = delta (deref w r)) by apply completed_delta.
    rewrite At, Dt. unfold w1 at 2 3. simpl. now rewrite del_nth_app_last. }
  split; [now rewrite Eadd |]. split; [| split; [| split; [| split]]].
  - rewrite Eadd. cbn [fst]. unfold Database.get_transaction_by_id.
    unfold w1 at 2. simpl. rewrite map_app. simpl.
    assert (F : forall l, (forall r', In r' l -> pyid_eqb (get_id (deref w1 r')) id = false) ->
                find (fun t0 => pyid_eqb (get_id t0) id) (map (deref w1) l ++ [deref w1 r])
                = Some (deref w1 r)).
    { induction l as [| a tl IH]; intro H; simpl.
      - now rewrite Pnew.
      - rewrite (H a) by now left. apply IH. intros r' Hin. apply H. now right. }
    now apply F.
  - unfold deleted. rewrite Eadd. cbn [fst].
    unfold Ledger.delete_transaction, Ledger.find_transaction,
      Database.get_all_transactions.
    assert (F := find_find_index (fun r' => pyid_eqb (get_id (deref w1 r')) id)
                   (transactions w1) 0%nat).
    destruct (find _ (transactions w1)) as [r_old |] eqn:Ef.
    2:{ rewrite Ek in F. discriminate. }
    destruct F as [k [Ek' [Lk Nk]]]. rewrite Ek in Ek'. injection Ek' as <-.
    assert (r_old = r).
    { rewrite <- Nk. unfold w1. simpl. now rewrite app_nth2, Nat.sub_diag by lia. }
    clear Nk Ef. subst r_old. rewrite Dnew.
    assert (T : truthy t = true).
    { unfold truthy, t. rewrite completed_account, Ha. simpl.
      now rewrite !orb_true_r. }
    rewrite T. simpl negb. cbv iota.
    unfold Database.delete_transaction. rewrite Ek.
    cbn [fst snd andb]. 
    match goal with
    | |- snd (if is_some (t_account ?x) then _ else _) = _ =>
        destruct (is_some (t_account x)); reflexivity
    end.
  - now rewrite Edel.
  - rewrite Edel. unfold log. simpl. apply map_ext_in. intros r' Hin.
    change (deref w1 r' = deref w r'). now apply Dold.
  - intro c. rewrite Edel, !balance_bal. simpl. apply apply_delta_back.
Qed.

Lemma add_then_delete_restores_books_witness :
  let w := fst (alloc vat_credit Ledger.fresh_ledger) in
  let added := Ledger.add_transaction "2024-01-15" 0 w in
  let deleted := Ledger.delete_transaction (IdInt 1) (fst added) in
  snd added = Return (IdInt 1)
  /\ snd deleted = Return true
  /\ transactions (fst deleted) = []
  /\ Ledger.balance "2100" (fst deleted) == 0.
Proof.
  destruct (add_then_delete_restores_books "2024-01-15" 0
              (fst (alloc vat_credit Ledger.fresh_ledger)) "2100"
              (mk_adict "2100" "Ödenecek KDV" "liability" "current_liability" 0
                        (Some 0) None)
              ltac:(constructor) (fun H => H) eq_refl eq_refl eq_refl)
    as [A [_ [D [T [_ B]]]]].
  split; [exact A |]. split; [exact D |]. split; [exact T |].
  eapply Qeq_trans; [apply B | vm_compute; reflexivity].
Defined.

(** ** The chart of accounts *)



Definition codes (w : world) : list string := map a_code (chart_of_accounts w).




Lemma default_codes_unique : NoDup (codes Ledger.fresh_ledger).
Proof.
  unfold codes. simpl.
  repeat (constructor; [simpl; intuition discriminate |]). constructor.
Qed.


Lemma lookup_del_nth (c c' : string) (l : list adict) (i : nat) :
  NoDup (map a_code l) ->
  find_index (fun a => String.eqb (a_code a) c) l = Some i ->
  lookup c' (del_nth i l) = if String.eqb c' c then None else lookup c' l.
Proof.
  revert i. induction l as [| a tl IH]; intros i Hn Hi; simpl in *; [discriminate |].
  inversion Hn as [| ? ? Hnotin Htl]; subst.
  destruct (String.eqb (a_code a) c) eqn:E.
  - injection Hi as <-. simpl. apply String.eqb_eq in E. subst c.
    unfold lookup. simpl. destruct (String.eqb c' (a_code a)) eqn:F.
    + apply String.eqb_eq in F. subst c'.
      destruct (find _ tl) as [b |] eqn:Fb; [| reflexivity].
      apply find_some in Fb. destruct Fb as [Hin Eb]. apply String.eqb_eq in Eb.
      exfalso. apply Hnotin. rewrite <- Eb. now apply in_map.
    + rewrite String.eqb_sym, F. reflexivity.
  - destruct (find_index _ tl) as [j |] eqn:Ej; [| discriminate].
    injection Hi as <-. simpl. unfold lookup in *. simpl.
    destruct (String.eqb (a_code a) c') eqn:F.
    + apply String.eqb_eq in F. subst c'. now rewrite E.
    + now apply IH.
Qed.

Lemma has_find_index (c : string) (l : list adict) :
  has c l = true -> exists i, find_index (fun a => String.eqb (a_code a) c) l = Some i.
Proof.
  unfold has, lookup. intro H.
  assert (F := find_find_index (fun a => String.eqb (a_code a) c) l
                 (mk_adict "" "" "" "" 0 None None)).
  destruct (find _ l); [| discriminate]. destruct F as [i [E _]]. now exists i.
Qed.

(** When codes are unique, [delete_account] of an existing code removes
    the account for good: [get_account_by_code] no longer finds the code,
    finds every other code as before, and [Ledger.add_transaction] on the
    deleted code is refused without touching the store. *)
Theorem deleted_account_is_gone
        (today : string) (code : string) (w : world) (r : nat) :
  NoDup (codes w) ->
  has code (chart_of_accounts w) = true ->
  t_account (deref w r) = Some code ->
  let w' := fst (Database.delete_account code w) in
  snd (Database.delete_account code w) = true
  /\ Ledger.get_account_by_code code w' = None
  /\ (forall other, other <> code ->
        Ledger.get_account_by_code other w' = Ledger.get_account_by_code other w)
  /\ Ledger.add_transaction today r w'
     = (w', Raise (ValueError ("Hesap bulunamadı: " ++ code))).
Proof.
  intros Hn Hh Ha w'. destruct (has_find_index code _ Hh) as [i Ei].
  unfold w', Database.delete_account. rewrite Ei. cbn [fst snd].
  assert (L : forall c', lookup c' (del_nth i (chart_of_accounts w))
                         = if String.eqb c' code then None
                           else lookup c' (chart_of_accounts w)).
  { intro c'. now apply lookup_del_nth. }
  split; [reflexivity |]. split; [| split].
  - rewrite lookup_get_account_by_code. simpl. now rewrite L, String.eqb_refl.
  - intros other Hne. rewrite !lookup_get_account_by_code. simpl. rewrite L.
    apply String.eqb_neq in Hne. now rewrite Hne.
  - unfold Ledger.add_transaction.
    replace (deref (mk_world (heap w) (transactions w)
                             (del_nth i (chart_of_accounts w))) r)
      with (deref w r) by reflexivity.
    rewrite Ha, lookup_get_account_by_code. simpl. now rewrite L, String.eqb_refl.
Qed.

Lemma deleted_account_is_gone_witness :
  let w := fst (alloc vat_credit Ledger.fresh_ledger) in
  let w' := fst (Database.delete_account "2100" w) in
  Ledger.get_account_by_code "2100" w' = None
  /\ Ledger.add_transaction "2024-01-15" 0 w'
     = (w', Raise (ValueError "Hesap bulunamadı: 2100")).
Proof.
  destruct (deleted_account_is_gone "2024-01-15" "2100"
              (fst (alloc vat_credit Ledger.fresh_ledger)) 0
              default_codes_unique eq_refl eq_refl) as [_ [G [_ R]]].
  split; [exact G | exact R].
Defined.

(** ** [Ledger.refresh] again *)

(** [refresh] leaves the stored transactions as they are and sets the
    balance of every account to the sum of [debit - credit] over the
    stored transactions on its code, whatever the balances were; done
    twice it gives the same balances as done once. *)
Theorem refresh_recomputes_balances_from_log (w : world) :
  let w' := fst (Ledger.refresh w) in
  log w' = log w
  /\ (forall c, has c (chart_of_accounts w) = true ->
                Ledger.balance c w' == sum_delta c (log w))
  /\ (forall c, Ledger.balance c (fst (Ledger.refresh w')) == Ledger.balance c w').
Proof.
  intro w'.
  assert (L : log w' = log w).
  { destruct (refresh_balances w EmptyString) as [Hh [Ht _]]. fold w' in Hh, Ht.
    unfold log, deref. now rewrite Hh, Ht. }
  split; [exact L |]. split.
  - intros c Hc. destruct (refresh_balances w c) as [_ [_ [_ B]]].
    fold w' in B. now rewrite B, Hc.
  - intro c. destruct (refresh_balances w c) as [_ [_ [H1 B1]]].
    destruct (refresh_balances w' c) as [_ [_ [_ B2]]].
    fold w' in H1, B1. rewrite B2, B1, H1, L. reflexivity.
Qed.

(** ** [Transaction] objects and their dicts *)

(** A [Transaction] written with [to_dict] and read back with
    [from_dict] is the same object: the amounts, rounded to two decimals
    by [__init__], are not rounded again to something else, and neither
    an id nor a date is made up. *)
Theorem transaction_dict_round_trip
        (uuid today uuid' today' : string)
        (transaction_id : option pyid) (date : option string)
        (description account : string) (debit credit vat : Q)
        (document_number status transaction_type notes : string) :
  let x := Transaction.init uuid today transaction_id date description account
             debit credit vat document_number status transaction_type notes in
  Transaction.from_dict uuid' today' (Transaction.to_dict x) = x
  /\ Transaction.to_dict (Transaction.from_dict uuid' today' (Transaction.to_dict x))
     = Transaction.to_dict x.
Proof.
  intro x.
  assert (E : Transaction.from_dict uuid' today' (Transaction.to_dict x) = x).
  { unfold x, Transaction.from_dict, Transaction.to_dict, Transaction.init.
    cbn [t_id t_date t_description t_account t_debit t_credit t_vat t_document_number
         t_status t_transaction_type t_notes Transaction.or_default
         Transaction.id Transaction.date Transaction.description Transaction.account
         Transaction.debit Transaction.credit Transaction.vat
         Transaction.document_number Transaction.status Transaction.transaction_type
         Transaction.notes].
    rewrite !quantize2_idem.
    destruct transaction_id as [[| n | s] |]; reflexivity. }
  split; [exact E | now rewrite E].
Qed.

(** ** The balance of an account, computed two ways *)

(** The amount that [get_account_balance] takes from one stored dict. *)
Definition counted (account_code : string) (today : string) (d : tdict) : Q :=
  let x := Transaction.from_dict EmptyString today d in
  if String.eqb (Transaction.account x) account_code
  then Transaction.debit x - Transaction.credit x else 0.

Lemma fold_balance (l : list Transaction.t) : forall (b : Q),
  fold_left (fun balance trans =>
               balance + (Transaction.debit trans - Transaction.credit trans)) l b
  == b + fold_left (fun balance trans =>
               balance + (Transaction.debit trans - Transaction.credit trans)) l 0.
Proof.
  induction l as [| x tl IH]; intro b; simpl; [lra |].
  rewrite IH, (IH (0 + _)). lra.
Qed.

Lemma get_account_balance_counted (today account_code : string) (w : world) :
  TransactionManager.get_account_balance today account_code w
  == fold_right (fun d s => counted account_code today d + s) 0 (log w).
Proof.
  unfold TransactionManager.get_account_balance, TransactionManager.get_all_transactions.
  induction (log w) as [| d tl IH]; [reflexivity |].
  cbn [map filter fold_right]. unfold counted at 1. cbv zeta.
  destruct (String.eqb (Transaction.account (Transaction.from_dict "" today d))
                       account_code).
  - cbn [fold_left]. rewrite fold_balance. rewrite IH. lra.
  - rewrite IH. lra.
Qed.

Lemma counted_contrib (today account_code : string) (d : tdict) :
  account_code <> EmptyString ->
  whole_pence (get_debit d) -> whole_pence (get_credit d) ->
  counted account_code today d == contrib account_code d.
Proof.
  intros Hne Hd Hc. unfold counted, contrib, delta.
  unfold Transaction.from_dict, Transaction.init.
  cbn [Transaction.account Transaction.debit Transaction.credit].
  unfold Transaction.or_default. fold (get_debit d). fold (get_credit d).
  destruct (t_account d) as [a |].
  - destruct (String.eqb a account_code); [| reflexivity].
    rewrite (quantize2_whole_pence _ Hd), (quantize2_whole_pence _ Hc). reflexivity.
  - destruct (String.eqb "" account_code) eqn:E; [| reflexivity].
    apply String.eqb_eq in E. now subst.
Qed.

(** The balance that [TransactionManager.get_account_balance] computes
    from the stored transactions is the balance that [Ledger.refresh]
    leaves on the account, for every account of the chart, when the
    stored amounts are whole numbers of pence. *)
Theorem manager_balance_is_ledger_balance
        (today account_code : string) (w : world) :
  account_code <> EmptyString ->
  has account_code (chart_of_accounts w) = true ->
  Forall (fun d => whole_pence (get_debit d) /\ whole_pence (get_credit d)) (log w) ->
  TransactionManager.get_account_balance today account_code w
  == Ledger.balance account_code (fst (Ledger.refresh w)).
Proof.
  intros Hne Hh Hp.
  destruct (refresh_balances w account_code) as [_ [_ [_ B]]].
  rewrite B, Hh, get_account_balance_counted. clear B.
  induction Hp as [| d tl [Hd Hc] _ IH]; simpl; [reflexivity |].
  rewrite IH, (counted_contrib today account_code d Hne Hd Hc). reflexivity.
Qed.

Lemma manager_balance_is_ledger_balance_witness :
  let w := fst (Ledger.add_transaction "2024-01-15" 0
                  (fst (alloc vat_credit Ledger.fresh_ledger))) in
  TransactionManager.get_account_balance "2024-01-15" "2100" w
  == Ledger.balance "2100" (fst (Ledger.refresh w)).
Proof.
  apply manager_balance_is_ledger_balance.
  - discriminate.
  - reflexivity.
  - constructor; [| constructor]. split.
    + exists 0%Z. vm_compute. reflexivity.
    + exists 2000%Z. vm_compute. reflexivity.
Defined.

(** ** Journal entries *)

Lemma Qsum_from (l : list Q) : forall (b : Q), fold_left Qplus l b == b + Qsum l.
Proof.
  unfold Qsum. induction l as [| x tl IH]; intro b; simpl; [lra |].
  rewrite IH, (IH (0 + x)). lra.
Qed.

Lemma Qsum_cons (x : Q) (l : list Q) : Qsum (x :: l) == x + Qsum l.
Proof. unfold Qsum at 1. simpl. rewrite Qsum_from. lra. Qed.

Lemma Qsum_app (l1 l2 : list Q) : Qsum (l1 ++ l2) == Qsum l1 + Qsum l2.
Proof.
  induction l1 as [| x tl IH]; simpl.
  - unfold Qsum at 2. simpl. lra.
  - rewrite !Qsum_cons, IH. lra.
Qed.

Section Journal.

Variable today : string.

(** The [Transaction] objects that [create_journal_entry] builds, one for
    each entry. *)
Fixpoint journal_legs (uuids : list string)
         (date description document_number notes : string)
         (entries : list TransactionManager.jentry) : list Transaction.t :=
  match entries with
  | [] => []
  | entry :: rest =>
      Transaction.init (hd EmptyString uuids) today None (Some date) description
        (Transaction.or_default (TransactionManager.j_account entry) EmptyString)
        (Transaction.or_default (TransactionManager.j_debit entry) 0)
        (Transaction.or_default (TransactionManager.j_credit entry) 0)
        (Transaction.or_default (TransactionManager.j_vat entry) 0)
        document_number "unreconciled" "journal" notes
      :: journal_legs (List.tl uuids) date description document_number notes rest
  end.

Definition valid (x : Transaction.t) : bool := fst (Transaction.validate x).

Lemma add_transaction_log (x : Transaction.t) (w : world) :
  wf w ->
  let w' := fst (TransactionManager.add_transaction today x w) in
  wf w'
  /\ chart_of_accounts w' = chart_of_accounts w
  /\ log w' = log w ++ map Transaction.to_dict (filter valid [x]).
Proof.
  intros Hwf w'. unfold w'. simpl filter. unfold valid.
  destruct (fst (Transaction.validate x)) eqn:V.
  - destruct (add_transaction_accepts today x w Hwf V) as [L [C [W _]]].
    repeat split; assumption.
  - rewrite (add_transaction_rejects today x w V). simpl.
    repeat split; [exact Hwf | now rewrite app_nil_r].
Qed.

Lemma post_entries_log (entries : list TransactionManager.jentry) :
  forall (uuids : list string) (date description document_number notes : string)
         (w : world),
  wf w ->
  Forall (fun e => TransactionManager.j_account e <> None) entries ->
  let run := TransactionManager.post_entries today uuids date description
               document_number notes entries w in
  snd run = Return tt
  /\ wf (fst run)
  /\ chart_of_accounts (fst run) = chart_of_accounts w
  /\ log (fst run)
     = log w ++ map Transaction.to_dict
                    (filter valid (journal_legs uuids date description
                                                document_number notes entries)).
Proof.
  induction entries as [| e rest IH]; intros uuids date description document_number
    notes w Hwf Hacc; simpl.
  - repeat split; [exact Hwf | now rewrite app_nil_r].
  - apply Forall_cons_iff in Hacc. destruct Hacc as [Ha Hrest].
    destruct (TransactionManager.j_account e) as [account |] eqn:Ea; [| contradiction].
    cbn [Transaction.or_default].
    set (x := Transaction.init _ _ _ _ _ _ _ _ _ _ _ _ _).
    destruct (add_transaction_log x w Hwf) as [W1 [C1 L1]].
    destruct (TransactionManager.add_transaction today x w) as [w1 res]. cbn [fst] in *.
    destruct (IH (List.tl uuids) date description document_number notes w1 W1 Hrest)
      as [R [W2 [C2 L2]]].
    split; [exact R |]. split; [exact W2 |]. split; [now rewrite C2 |].
    rewrite L2, L1. simpl filter.
    destruct (valid x); simpl; now rewrite <- app_assoc.
Qed.

Definition debit_of (e : TransactionManager.jentry) : Q :=
  Transaction.or_default (TransactionManager.j_debit e) 0.
Definition credit_of (e : TransactionManager.jentry) : Q :=
  Transaction.or_default (TransactionManager.j_credit e) 0.

(** [create_journal_entry] with a document number, on entries that all
    name an account.  If the debits and credits given do not add up to the
    same total, nothing is stored and the answer is [False].  If they do,
    the answer is [True] whatever [add_transaction] said of each leg: the
    legs that [Transaction.validate] accepts are stored in order, the
    others are dropped without notice. *)
Theorem journal_entry_outcome
        (uuids : list string) (date description document_number notes : string)
        (entries : list TransactionManager.jentry) (w : world) :
  wf w ->
  Forall (fun e => TransactionManager.j_account e <> None) entries ->
  let run := TransactionManager.create_journal_entry today uuids date description
               entries document_number notes w in
  let legs := journal_legs uuids date description document_number notes entries in
  (~ Qsum (map debit_of entries) == Qsum (map credit_of entries) ->
   run = (w, (false, "Borç ve alacak toplamları eşit olmalıdır"%string)))
  /\ (Qsum (map debit_of entries) == Qsum (map credit_of entries) ->
      fst (snd run) = true
      /\ chart_of_accounts (fst run) = chart_of_accounts w
      /\ log (fst run) = log w ++ map Transaction.to_dict (filter valid legs)).
Proof.
  intros Hwf Hacc run legs. unfold run, TransactionManager.create_journal_entry.
  fold debit_of credit_of.
  change (map (fun e => Transaction.or_default (TransactionManager.j_debit e) 0) entries)
    with (map debit_of entries).
  change (map (fun e => Transaction.or_default (TransactionManager.j_credit e) 0) entries)
    with (map credit_of entries).
  destruct (Qeq_bool (Qsum (map debit_of entries)) (Qsum (map credit_of entries))) eqn:B.
  - apply Qeq_bool_iff in B. split; [intro N; contradiction |]. intros _. simpl negb.
    cbv iota.
    destruct (post_entries_log entries uuids date description document_number notes
                w Hwf Hacc) as [R [_ [C L]]].
    destruct (TransactionManager.post_entries _ _ _ _ _ _ _ _) as [w1 out].
    cbn [fst snd] in *. subst out. cbn [fst snd]. repeat split; assumption.
  - split; [intros _; reflexivity |]. intro E. apply Qeq_bool_iff in E.
    rewrite E in B. discriminate.
Qed.

(** An entry that [Transaction.validate] will accept for a non-empty
    date: an account, amounts in whole pence, not both zero and not both
    strictly positive. *)
Definition proper (e : TransactionManager.jentry) : Prop :=
  (exists account, TransactionManager.j_account e = Some account
                   /\ account <> EmptyString)
  /\ whole_pence (debit_of e) /\ whole_pence (credit_of e)
  /\ ~ (debit_of e == 0 /\ credit_of e == 0)
  /\ ~ (0 < debit_of e /\ 0 < credit_of e).

Lemma proper_leg_valid (u date description document_number notes : string)
      (e : TransactionManager.jentry) :
  date <> EmptyString -> proper e ->
  let x := Transaction.init u today None (Some date) description
             (Transaction.or_default (TransactionManager.j_account e) EmptyString)
             (debit_of e) (credit_of e)
             (Transaction.or_default (TransactionManager.j_vat e) 0)
             document_number "unreconciled" "journal" notes in
  valid x = true
  /\ Transaction.debit x == debit_of e /\ Transaction.credit x == credit_of e.
Proof.
  intros Hd [[account [Ea Hne]] [Wd [Wc [Nz Np]]]] x.
  assert (Dx : Transaction.debit x == debit_of e) by (apply quantize2_whole_pence, Wd).
  assert (Cx : Transaction.credit x == credit_of e) by (apply quantize2_whole_pence, Wc).
  split; [| split; assumption].
  unfold valid, Transaction.validate.
  replace (Transaction.date x) with date by reflexivity.
  replace (Transaction.account x) with account by (unfold x; now rewrite Ea).
  destruct date; [contradiction |]. destruct account; [contradiction |].
  simpl Transaction.is_empty. cbv iota.
  unfold Qzero_b.
  rewrite (Qeqb_comp _ _ Dx _ _ (Qeq_refl 0)), (Qeqb_comp _ _ Cx _ _ (Qeq_refl 0)).
  rewrite (Qpos_b_proper _ _ Dx), (Qpos_b_proper _ _ Cx).
  destruct (Qeq_bool (debit_of e) 0 && Qeq_bool (credit_of e) 0) eqn:Z.
  - exfalso. apply Nz. apply andb_true_iff in Z. destruct Z as [Z1 Z2].
    split; now apply Qeq_bool_iff.
  - destruct (Qpos_b (debit_of e) && Qpos_b (credit_of e)) eqn:P; [| reflexivity].
    exfalso. apply Np. apply andb_true_iff in P. destruct P as [P1 P2].
    split; now apply Qpos_b_true.
Qed.

(** A journal entry whose debits and credits are given in whole pence
    and add up to the same total, each leg with an account and one side
    at zero, is stored leg by leg under the document number, and the
    stored debits and credits add up to the same total. *)
Theorem balanced_journal_entry_is_stored_balanced
        (uuids : list string) (date description document_number notes : string)
        (entries : list TransactionManager.jentry) (w : world) :
  wf w ->
  date <> EmptyString ->
  Forall proper entries ->
  Qsum (map debit_of entries) == Qsum (map credit_of entries) ->
  let run := TransactionManager.create_journal_entry today uuids date description
               entries document_number notes w in
  fst (snd run) = true
  /\ exists new,
       log (fst run) = log w ++ new
       /\ List.length new = List.length entries
       /\ Forall (fun d => t_document_number d = Some document_number
                           /\ t_transaction_type d = Some "journal"%string
                           /\ t_date d = Some date) new
       /\ Qsum (map get_debit new) == Qsum (map get_credit new).
Proof.
  intros Hwf Hd Hp Hb run.
  assert (Hacc : Forall (fun e => TransactionManager.j_account e <> None) entries).
  { eapply Forall_impl; [| exact Hp]. intros e [[a [Ea _]] _]. now rewrite Ea. }
  destruct (journal_entry_outcome uuids date description document_number notes
              entries w Hwf Hacc) as [_ H].
  destruct (H Hb) as [S [_ L]]. fold run in S, L.
  split; [exact S |].
  set (legs := journal_legs uuids date description document_number notes entries) in *.
  exists (map Transaction.to_dict (filter valid legs)). split; [exact L |].
  assert (K : filter valid legs = legs
              /\ List.length legs = List.length entries
              /\ Forall (fun x => Transaction.document_number x = document_number
                                  /\ Transaction.transaction_type x = "journal"%string
                                  /\ Transaction.date x = date) legs
              /\ Qsum (map Transaction.debit legs) == Qsum (map debit_of entries)
              /\ Qsum (map Transaction.credit legs) == Qsum (map credit_of entries)).
  { unfold legs. clear L S H run legs Hb Hacc. revert uuids.
    induction Hp as [| e rest He _ IH]; intro uuids; simpl.
    - repeat split; constructor.
    - destruct (IH (List.tl uuids)) as [F [Ln [Fa [Sd Sc]]]].
      destruct (proper_leg_valid (hd EmptyString uuids) date description
                  document_number notes e Hd He) as [V [Dx Cx]].
      unfold debit_of, credit_of in V, Dx, Cx. rewrite V, F.
      split; [reflexivity |]. split; [now rewrite Ln |].
      split; [constructor; [repeat split | exact Fa] |].
      rewrite !Qsum_cons, Sd, Sc.
      split; [rewrite Dx | rewrite Cx]; reflexivity. }
  destruct K as [F [Ln [Fa [Sd Sc]]]]. rewrite F.
  split; [now rewrite length_map |]. split.
  - apply Forall_map. eapply Forall_impl; [| exact Fa].
    intros x [E1 [E2 E3]]. simpl. now rewrite E1, E2, E3.
  - rewrite !map_map.
    change (map (fun x => get_debit (Transaction.to_dict x)) legs)
      with (map Transaction.debit legs).
    change (map (fun x => get_credit (Transaction.to_dict x)) legs)
      with (map Transaction.credit legs).
    now rewrite Sd, Sc.
Qed.

End Journal.

Definition sample_entries : list TransactionManager.jentry :=
  [ TransactionManager.mk_jentry (Some "1200"%string) (Some 120) None None;
    TransactionManager.mk_jentry (Some "4000"%string) None (Some 100) None;
    TransactionManager.mk_jentry (Some "2100"%string) None (Some 20) (Some 20) ].

Lemma journal_entry_outcome_witness :
  let run := TransactionManager.create_journal_entry "2024-03-01" ["a"; "b"; "c"]%string
               "2024-03-01" "Sale" sample_entries "JRN-1" "" Ledger.fresh_ledger in
  fst (snd run) = true
  /\ map get_account (log (fst run)) = ["1200"; "4000"; "2100"]%string.
Proof.
  destruct (journal_entry_outcome "2024-03-01" ["a"; "b"; "c"]%string "2024-03-01"
              "Sale" "JRN-1" "" sample_entries Ledger.fresh_ledger
              ltac:(constructor) ltac:(repeat constructor; discriminate)) as [_ H].
  destruct (H ltac:(vm_compute; reflexivity)) as [S [_ L]].
  split; [exact S |]. rewrite L. reflexivity.
Defined.

Lemma sample_entries_proper : Forall (proper) sample_entries.
Proof.
  unfold sample_entries.
  repeat constructor; try (eexists; split; [reflexivity | discriminate]);
    try (exists 12000%Z; vm_compute; reflexivity);
    try (exists 10000%Z; vm_compute; reflexivity);
    try (exists 2000%Z; vm_compute; reflexivity);
    try (exists 0%Z; vm_compute; reflexivity);
    try (intros [H1 H2]; vm_compute in H1, H2; discriminate).
Qed.

Lemma balanced_journal_entry_is_stored_balanced_witness :
  let run := TransactionManager.create_journal_entry "2024-03-01" ["a"; "b"; "c"]%string
               "2024-03-01" "Sale" sample_entries "JRN-1" "" Ledger.fresh_ledger in
  fst (snd run) = true
  /\ exists new,
       log (fst run) = log Ledger.fresh_ledger ++ new
       /\ List.length new = 3%nat
       /\ Forall (fun d => t_document_number d = Some "JRN-1"%string
                           /\ t_transaction_type d = Some "journal"%string
                           /\ t_date d = Some "2024-03-01"%string) new
       /\ Qsum (map get_debit new) == Qsum (map get_credit new).
Proof.
  apply (balanced_journal_entry_is_stored_balanced "2024-03-01" ["a"; "b"; "c"]%string
           "2024-03-01" "Sale" "JRN-1" "" sample_entries Ledger.fresh_ledger).
  - constructor.
  - discriminate.
  - exact sample_entries_proper.
  - vm_compute. reflexivity.
Defined.

(** ** Updating a stored transaction through the manager *)

(** A stored dict whose id is a value the store or a [Transaction] gave. *)
Definition identified (d : tdict) : Prop :=
  exists i, t_id d = Some i /\ i <> IdNone.

Lemma from_dict_id (uuid today : string) (d : tdict) :
  identified d -> Transaction.id (Transaction.from_dict uuid today d) = get_id d.
Proof.
  intros [i [E N]]. unfold Transaction.from_dict, Transaction.init, get_id.
  rewrite E. simpl. destruct i; [contradiction | reflexivity | reflexivity].
Qed.

Lemma find_map {A B : Type} (f : A -> B) (p : B -> bool) (l : list A) :
  find p (map f l) = option_map f (find (fun a => p (f a)) l).
Proof.
  induction l as [| a tl IH]; simpl; [reflexivity |].
  destruct (p (f a)); [reflexivity | exact IH].
Qed.

Lemma find_index_set_nth {A : Type} (p : A -> bool) (k : nat) (x : A) (l : list A) :
  find_index p l = Some k -> p x = true -> find_index p (set_nth k x l) = Some k.
Proof.
  revert k. induction l as [| a tl IH]; intros k E Hx; simpl in *; [discriminate |].
  destruct (p a) eqn:Pa.
  - injection E as <-. simpl. now rewrite Hx.
  - destruct (find_index p tl) as [j |] eqn:Ej; [| discriminate].
    injection E as <-. simpl. rewrite Pa. now rewrite (IH j eq_refl Hx).
Qed.

Lemma find_index_find {A : Type} (p : A -> bool) (l : list A) (k : nat) (d : A) :
  find_index p l = Some k -> find p l = Some (nth k l d).
Proof.
  revert k. induction l as [| a tl IH]; intros k E; simpl in *; [discriminate |].
  destruct (p a); [now injection E as <- |].
  destruct (find_index p tl) as [j |]; [| discriminate].
  injection E as <-. now apply IH.
Qed.

Lemma fold_right_set_nth {A : Type} (f : A -> Q) (k : nat) (x d : A) (l : list A) :
  (k < List.length l)%nat -> f x = f (nth k l d) ->
  fold_right (fun a s => f a + s) 0 (set_nth k x l)
  = fold_right (fun a s => f a + s) 0 l.
Proof.
  revert k. induction l as [| a tl IH]; intros [| k] L E; simpl in *; try lia.
  - now rewrite E.
  - rewrite IH; [reflexivity | lia | exact E].
Qed.

(** [Database.update_transaction] on a dict that the caller has just
    built: the first stored dict with the id is replaced. *)
Lemma database_update_log (today : string) (i : pyid) (d : tdict) (w : world) :
  wf w ->
  let w1 := fst (Database.update_transaction i (snd (alloc d w)) (fst (alloc d w))) in
  wf w1
  /\ chart_of_accounts w1 = chart_of_accounts w
  /\ log w1 = match find_index (fun t => pyid_eqb (get_id t) i) (log w) with
              | Some k => set_nth k (set_id i d) (log w)
              | None => log w
              end.
Proof.
  intros Hwf w1.
  assert (Hwf0 := wf_alloc d w Hwf). assert (Hl0 := log_alloc d w Hwf).
  assert (Hd := deref_alloc_new d w).
  unfold w1. clear w1.
  set (w0 := fst (alloc d w)) in *. set (r := snd (alloc d w)) in *.
  assert (Hr : r = List.length (heap w)) by reflexivity.
  assert (Htx : transactions w0 = transactions w) by reflexivity.
  assert (Hlen : (r < List.length (heap w0))%nat).
  { unfold w0, alloc. simpl. rewrite length_app. simpl. lia. }
  assert (Hfresh : Forall (fun r' => r' <> r) (transactions w0)).
  { unfold wf in Hwf. rewrite Htx.
    eapply Forall_impl; [| exact Hwf]. intros r' L. simpl in L. lia. }
  assert (Ek : find_index (fun r' => pyid_eqb (get_id (deref w0 r')) i) (transactions w0)
               = find_index (fun t => pyid_eqb (get_id t) i) (log w)).
  { rewrite <- Hl0. unfold log. clear.
    induction (transactions w0) as [| a tl IH]; simpl; [reflexivity |].
    destruct (pyid_eqb (get_id (deref w0 a)) i); [reflexivity |]. now rewrite IH. }
  unfold Database.update_transaction. rewrite Ek.
  destruct (find_index _ (log w)) as [k |] eqn:Fk; cbn [fst].
  - split; [| split; [reflexivity |]].
    + unfold wf. simpl. rewrite set_nth_length.
      apply Forall_set_nth; [exact Hlen | exact Hwf0].
    + rewrite <- Hl0. unfold log. simpl. rewrite map_set_nth. f_equal.
      * unfold deref at 1. simpl. rewrite nth_set_nth_same by exact Hlen.
        now rewrite Hd.
      * apply map_ext_in. intros r' Hin. unfold deref. simpl.
        apply nth_set_nth_other. rewrite Forall_forall in Hfresh.
        specialize (Hfresh r' Hin). congruence.
  - split; [exact Hwf0 |]. split; [reflexivity | exact Hl0].
Qed.

Section Reconcile.

Variable today : string.

(** The object with its status changed. *)
Definition with_status (status : string) (x : Transaction.t) : Transaction.t :=
  Transaction.mk (Transaction.id x) (Transaction.date x) (Transaction.description x)
    (Transaction.account x) (Transaction.debit x) (Transaction.credit x)
    (Transaction.vat x) (Transaction.document_number x) status
    (Transaction.transaction_type x) (Transaction.notes x).

Lemma from_dict_with_status (u : string) (status : string) (d : tdict) :
  identified d ->
  let x := Transaction.from_dict EmptyString today d in
  Transaction.from_dict u today
    (set_id (Transaction.id x) (Transaction.to_dict (with_status status x)))
  = with_status status x.
Proof.
  intros [i [E N]] x. unfold x, Transaction.from_dict, Transaction.init, with_status,
    Transaction.to_dict, set_id.
  cbn [t_id t_date t_description t_account t_debit t_credit t_vat t_document_number
       t_status t_transaction_type t_notes Transaction.or_default
       Transaction.id Transaction.date Transaction.description Transaction.account
       Transaction.debit Transaction.credit Transaction.vat
       Transaction.document_number Transaction.status Transaction.transaction_type
       Transaction.notes].
  rewrite !quantize2_idem, E.
  destruct i; [contradiction | reflexivity | reflexivity].
Qed.

(** [reconcile_transaction] on the id of a stored transaction that
    [validate] accepts: the answer is [True]; the transaction that
    [get_transaction_by_id] then returns for the id is the former one
    with status ["reconciled"] and nothing else changed; the number of
    stored transactions, the chart and the balance that
    [get_account_balance] computes for any account are unchanged. *)
Theorem reconcile_changes_only_the_status
        (transaction_id : pyid) (w : world) (x : Transaction.t) :
  wf w ->
  Forall identified (log w) ->
  TransactionManager.get_transaction_by_id today transaction_id w = Some x ->
  fst (Transaction.validate x) = true ->
  let run := TransactionManager.reconcile_transaction today transaction_id w in
  snd run = (true, "İşlem başarıyla güncellendi"%string)
  /\ TransactionManager.get_transaction_by_id today transaction_id (fst run)
     = Some (with_status "reconciled" x)
  /\ List.length (log (fst run)) = List.length (log w)
  /\ chart_of_accounts (fst run) = chart_of_accounts w
  /\ forall account_code,
       TransactionManager.get_account_balance today account_code (fst run)
       == TransactionManager.get_account_balance today account_code w.
Proof.
  intros Hwf Hid Hx Hv run.
  set (f := Transaction.from_dict EmptyString today).
  set (p := fun t => pyid_eqb (get_id t) transaction_id).
  assert (Hp : forall d, In d (log w) ->
                 pyid_eqb (Transaction.id (f d)) transaction_id = p d).
  { intros d Hin. rewrite Forall_forall in Hid. unfold f, p.
    now rewrite (from_dict_id _ _ d (Hid d Hin)). }
  assert (Hfind : find p (log w) <> None /\ option_map f (find p (log w)) = Some x).
  { unfold TransactionManager.get_transaction_by_id,
      TransactionManager.get_all_transactions in Hx.
    rewrite find_map in Hx. fold f in Hx.
    rewrite (find_ext_in _ p (log w) Hp) in Hx.
    split; [| exact Hx]. intro E. rewrite E in Hx. discriminate. }
  destruct Hfind as [Hsome Hfx].
  assert (F := find_find_index p (log w) empty_tdict).
  destruct (find p (log w)) as [d0 |] eqn:Ef; [| contradiction].
  destruct F as [k [Ek [Lk Nk]]]. simpl in Hfx. injection Hfx as Hfx.
  assert (Hin0 : In d0 (log w)) by (rewrite <- Nk; now apply nth_In).
  assert (Hid0 : identified d0) by (rewrite Forall_forall in Hid; now apply Hid).
  assert (Hpd0 : p d0 = true) by (apply (find_some _ _ Ef)).
  assert (Eid : Transaction.id x = transaction_id).
  { rewrite <- Hfx. unfold f. rewrite (from_dict_id _ _ d0 Hid0).
    now apply pyid_eqb_eq. }
  set (x' := with_status "reconciled" x).
  assert (Hv' : Transaction.validate x' = Transaction.validate x) by reflexivity.
  assert (Erun : run = (fst (Database.update_transaction transaction_id
                               (snd (alloc (Transaction.to_dict x') w))
                               (fst (alloc (Transaction.to_dict x') w))),
                        (true, "İşlem başarıyla güncellendi"%string))).
  { unfold run, TransactionManager.reconcile_transaction,
      TransactionManager.update_transaction. rewrite Hx.
    change (TransactionManager.set_attributes _ x) with x'.
    rewrite Hv'. destruct (Transaction.validate x) as [[|] err]; [| discriminate].
    destruct (alloc (Transaction.to_dict x') w) as [w0 r]. cbn [fst snd].
    now destruct (Database.update_transaction transaction_id r w0). }
  destruct (database_update_log today transaction_id (Transaction.to_dict x') w Hwf)
    as [_ [C L]].
  fold p in L. rewrite Ek in L.
  rewrite Erun. cbn [fst snd].
  set (w1 := fst (Database.update_transaction _ _ _)) in *.
  set (d1 := set_id transaction_id (Transaction.to_dict x')) in *.
  assert (Fd1 : f d1 = x').
  { unfold d1, x'. rewrite <- Eid, <- Hfx. unfold f.
    apply (from_dict_with_status EmptyString "reconciled" d0 Hid0). }
  split; [reflexivity |]. split; [| split; [| split]].
  - unfold TransactionManager.get_transaction_by_id,
      TransactionManager.get_all_transactions.
    rewrite find_map. fold f. rewrite L.
    assert (Pd1 : pyid_eqb (Transaction.id (f d1)) transaction_id = true).
    { rewrite Fd1. unfold x'. simpl. now apply pyid_eqb_eq. }
    assert (Ek' : find_index (fun a => pyid_eqb (Transaction.id (f a)) transaction_id)
                             (log w) = Some k).
    { rewrite (find_index_ext_in _ p (log w) Hp). exact Ek. }
    rewrite (find_index_find _ _ k empty_tdict
               (find_index_set_nth _ k d1 (log w) Ek' Pd1)).
    simpl. rewrite nth_set_nth_same by exact Lk. now rewrite Fd1.
  - now rewrite L, set_nth_length.
  - exact C.
  - intro c. rewrite !get_account_balance_counted, L.
    rewrite (fold_right_set_nth (counted c today) k d1 empty_tdict (log w) Lk);
      [reflexivity |].
    unfold counted. fold f. cbv zeta. rewrite Fd1, Nk, Hfx. reflexivity.
Qed.

End Reconcile.

Lemma reconcile_changes_only_the_status_witness :
  let w := fst (TransactionManager.create_journal_entry "2024-03-01"
                  ["a"; "b"; "c"]%string "2024-03-01" "Sale" sample_entries "JRN-1" ""
                  Ledger.fresh_ledger) in
  let run := TransactionManager.reconcile_transaction "2024-03-01" (IdStr "b") w in
  snd run = (true, "İşlem başarıyla güncellendi"%string)
  /\ option_map Transaction.status
       (TransactionManager.get_transaction_by_id "2024-03-01" (IdStr "b") (fst run))
     = Some "reconciled"%string
  /\ TransactionManager.get_account_balance "2024-03-01" "4000" (fst run) == -100.
Proof.
  cbv zeta.
  set (w := fst (TransactionManager.create_journal_entry "2024-03-01"
                   ["a"; "b"; "c"]%string "2024-03-01" "Sale" sample_entries "JRN-1" ""
                   Ledger.fresh_ledger)).
  assert (Hwf : wf w) by (vm_compute; repeat constructor).
  assert (Hid : Forall identified (log w)).
  { vm_compute.
    repeat (constructor; [eexists; split; [reflexivity | discriminate] |]).
    constructor. }
  destruct (reconcile_changes_only_the_status "2024-03-01" (IdStr "b") w
              (Transaction.from_dict "" "2024-03-01" (nth 1 (log w) empty_tdict))
              Hwf Hid ltac:(vm_compute; reflexivity) ltac:(vm_compute; reflexivity))
    as [R [G [_ [_ B]]]].
  split; [exact R |]. split; [now rewrite G |].
  eapply Qeq_trans; [apply B | vm_compute; reflexivity].
Defined.

(** ** Invoice items and totals *)

(** An [InvoiceItem] written with [to_dict] and read back with
    [from_dict] is the same item: the net amount, which the dict does not
    hold, is computed again from the quantity and the rounded unit price,
    and the VAT amount and the total are taken as written. *)
Theorem invoice_item_dict_round_trip
        (description : string) (quantity unit_price vat_rate : Q)
        (vat_amount total : option Q) :
  let x := InvoiceItem.init description quantity unit_price vat_rate vat_amount total in
  InvoiceItem.from_dict (InvoiceItem.to_dict x) = x.
Proof.
  intro x. unfold x, InvoiceItem.from_dict, InvoiceItem.to_dict, InvoiceItem.init.
  cbn [InvoiceItem.d_description InvoiceItem.d_quantity InvoiceItem.d_unit_price
       InvoiceItem.d_vat_rate InvoiceItem.d_vat_amount InvoiceItem.d_total
       Transaction.or_default InvoiceItem.description InvoiceItem.quantity
       InvoiceItem.unit_price InvoiceItem.vat_rate InvoiceItem.vat_amount
       InvoiceItem.total].
  rewrite !quantize2_idem.
  destruct vat_amount, total; rewrite ?quantize2_idem; reflexivity.
Qed.

(** An item whose total is the sum of its net and VAT amounts. *)
Definition computed_total (i : InvoiceItem.t) : Prop :=
  InvoiceItem.total i == InvoiceItem.net_amount i + InvoiceItem.vat_amount i.

(** An item built without an explicit total has it. *)
Lemma item_init_computed_total (description : string)
      (quantity unit_price vat_rate : Q) (vat_amount : option Q) :
  computed_total (InvoiceItem.init description quantity unit_price vat_rate vat_amount None).
Proof.
  destruct (item_init_whole_pence description quantity unit_price vat_rate vat_amount None)
    as [Hn [Hv _]].
  unfold computed_total, InvoiceItem.init in *.
  cbn [InvoiceItem.total InvoiceItem.net_amount InvoiceItem.vat_amount] in *.
  apply quantize2_whole_pence. now apply whole_pence_plus.
Qed.

Lemma Qsum_items (l : list InvoiceItem.t) :
  Forall computed_total l ->
  Qsum (map InvoiceItem.total l)
  == Qsum (map InvoiceItem.net_amount l) + Qsum (map InvoiceItem.vat_amount l).
Proof.
  induction 1 as [| i tl Hi _ IH]; [reflexivity |].
  cbn [map]. rewrite !Qsum_cons, IH.
  unfold computed_total in Hi. rewrite Hi. lra.
Qed.

(** The changes that the methods of [Invoice] make to the items. *)
Inductive item_operation : Type :=
| AddItem (description : string) (quantity unit_price vat_rate : Q)
          (vat_amount : option Q)
| RemoveItem (index : Z).

Definition exec_item (x : Invoice.t) (o : item_operation) : Invoice.t :=
  match o with
  | AddItem description quantity unit_price vat_rate vat_amount =>
      Invoice.add_item
        (InvoiceItem.init description quantity unit_price vat_rate vat_amount None) x
  | RemoveItem index => fst (Invoice.remove_item index x)
  end.

(** The three totals are those of the items, which all have a computed
    total. *)
Definition in_step (x : Invoice.t) : Prop :=
  Forall computed_total (Invoice.items x)
  /\ Invoice.net_amount x = Qsum (map InvoiceItem.net_amount (Invoice.items x))
  /\ Invoice.vat_amount x = Qsum (map InvoiceItem.vat_amount (Invoice.items x))
  /\ Invoice.total_amount x = Qsum (map InvoiceItem.total (Invoice.items x)).

Lemma in_step_exec (x : Invoice.t) (o : item_operation) :
  in_step x -> in_step (exec_item x o).
Proof.
  intros [Hc [Hn [Hv Ht]]]. destruct o as [d q p r va | index]; simpl.
  - unfold in_step, Invoice.add_item, Invoice._calculate_totals, Invoice.with_items.
    cbn [Invoice.items Invoice.net_amount Invoice.vat_amount Invoice.total_amount].
    repeat split. apply Forall_app. split; [exact Hc |].
    constructor; [apply item_init_computed_total | constructor].
  - unfold Invoice.remove_item.
    destruct ((0 <=? index)%Z && (index <? Z.of_nat (List.length (Invoice.items x)))%Z);
      cbn [fst].
    + unfold in_step, Invoice._calculate_totals, Invoice.with_items.
      cbn [Invoice.items Invoice.net_amount Invoice.vat_amount Invoice.total_amount].
      repeat split. now apply Forall_del_nth.
    + repeat split; assumption.
Qed.

(** An invoice made by [__init__] from items with computed totals, and
    then changed by any sequence of [add_item] (of items without an
    explicit total) and [remove_item], has a total amount equal to its net
    amount plus its VAT amount. *)
Theorem invoice_total_is_net_plus_vat
        (id : pyid) (invoice_number type date due_date entity_name notes
         payment_status : string) (auto_post : bool)
        (items : list InvoiceItem.t) (ops : list item_operation) :
  Forall computed_total items ->
  let x := fold_left exec_item ops
             (Invoice.init id invoice_number type date due_date entity_name notes
                           payment_status auto_post items) in
  Invoice.total_amount x == Invoice.net_amount x + Invoice.vat_amount x.
Proof.
  intros Hc x.
  assert (I : in_step x).
  { unfold x. clear x.
    assert (I0 : in_step (Invoice.init id invoice_number type date due_date entity_name
                            notes payment_status auto_post items)).
    { repeat split. exact Hc. }
    revert I0. generalize (Invoice.init id invoice_number type date due_date entity_name
                             notes payment_status auto_post items).
    induction ops as [| o tl IH]; intros x0 I0; simpl; [exact I0 |].
    apply IH. now apply in_step_exec. }
  destruct I as [H [Hn [Hv Ht]]]. rewrite Hn, Hv, Ht. now apply Qsum_items.
Qed.

Lemma invoice_total_is_net_plus_vat_witness :
  let x := fold_left exec_item
             [AddItem "Gadget" 3 (1999 # 100) 20 None; RemoveItem 0;
              AddItem "Manual" 2 (5 # 2) 0 (Some 0); RemoveItem 7]
             (Invoice.init (IdStr "inv-1") "INV-20240115-0001" "sales" "2024-01-15"
                "2024-02-14" "ACME Ltd" "" "unpaid" true
                [InvoiceItem.init "Widget" 1 100 20 None None]) in
  Invoice.total_amount x == Invoice.net_amount x + Invoice.vat_amount x.
Proof.
  apply invoice_total_is_net_plus_vat.
  constructor; [apply item_init_computed_total | constructor].
Defined.

(** ** The postings of an invoice are balanced *)

(** Debits minus credits over a list of stored dicts. *)
Definition net_of (l : list tdict) : Q :=
  Qsum (map get_debit l) - Qsum (map get_credit l).

Lemma net_of_app (l1 l2 : list tdict) : net_of (l1 ++ l2) == net_of l1 + net_of l2.
Proof. unfold net_of. rewrite !map_app, !Qsum_app. lra. Qed.

(** From [w] to [w'] the log grows by dicts whose debits exceed their
    credits by [n]. *)
Definition grows (w w' : world) (n : Q) : Prop :=
  wf w' /\ exists new, log w' = log w ++ new /\ net_of new == n.

Lemma grows_refl (w : world) : wf w -> grows w w 0.
Proof.
  intro H. split; [exact H |]. exists []. split; [now rewrite app_nil_r | reflexivity].
Qed.

Lemma grows_trans (w w1 w2 : world) (a b : Q) :
  grows w w1 a -> grows w1 w2 b -> grows w w2 (a + b).
Proof.
  intros [_ [n1 [L1 N1]]] [W2 [n2 [L2 N2]]]. split; [exact W2 |].
  exists (n1 ++ n2). split; [now rewrite L2, L1, app_assoc |].
  now rewrite net_of_app, N1, N2.
Qed.

Section InvoicePostings.

Variable today : string.

(** [1] when a transaction dated [date] can be stored, [0] when it is
    refused for its empty date. *)
Definition dated (date : string) : Q := if str_is_empty date then 0 else 1.

(** One call of [add_transaction] on a [Transaction] with one side at
    zero: what is stored carries [debit - credit], or nothing is stored
    and [debit - credit] is zero, or the date is empty. *)
Lemma add_one_sided (x : Transaction.t) (debit credit : Q) (w : world) :
  wf w ->
  Transaction.account x <> EmptyString ->
  Transaction.debit x == debit -> Transaction.credit x == credit ->
  debit == 0 \/ credit == 0 ->
  grows w (fst (TransactionManager.add_transaction today x w))
        (dated (Transaction.date x) * (debit - credit)).
Proof.
  intros Hwf Ha Dx Cx Hz.
  destruct (add_transaction_log today x w Hwf) as [W [_ L]].
  split; [exact W |].
  exists (map Transaction.to_dict (filter valid [x])). split; [exact L |].
  simpl filter. unfold valid, Transaction.validate, dated, Transaction.is_empty.
  destruct (str_is_empty (Transaction.date x)); [simpl; unfold net_of; simpl; lra |].
  destruct (Transaction.account x) eqn:Ea; [contradiction |].
  simpl str_is_empty. cbv iota.
  unfold Qzero_b.
  rewrite (Qeqb_comp _ _ Dx _ _ (Qeq_refl 0)), (Qeqb_comp _ _ Cx _ _ (Qeq_refl 0)).
  rewrite (Qpos_b_proper _ _ Dx), (Qpos_b_proper _ _ Cx).
  destruct (Qeq_bool debit 0 && Qeq_bool credit 0) eqn:Z.
  - apply andb_true_iff in Z. destruct Z as [Z1 Z2].
    apply Qeq_bool_iff in Z1, Z2. simpl. unfold net_of. simpl. rewrite Z1, Z2.
    unfold Qsum. simpl. lra.
  - assert (P : Qpos_b debit && Qpos_b credit = false).
    { destruct Hz as [Hz | Hz]; rewrite (Qpos_b_proper _ _ Hz).
      - reflexivity.
      - now rewrite andb_false_r. }
    rewrite P. simpl. unfold net_of. simpl. unfold Qsum. simpl.
    rewrite Dx, Cx. lra.
Qed.

Lemma add_leg (u : string) (invoice : Invoice.t) (prefix account : string)
      (debit credit vat : Q) (w : world) :
  wf w -> account <> EmptyString ->
  whole_pence debit -> whole_pence credit -> debit == 0 \/ credit == 0 ->
  grows w (fst (TransactionManager.add_transaction today
                  (InvoiceManager.leg today u invoice prefix account debit credit vat) w))
        (dated (Invoice.date invoice) * (debit - credit)).
Proof.
  intros Hwf Ha Hd Hc Hz.
  apply (add_one_sided
           (InvoiceManager.leg today u invoice prefix account debit credit vat)
           debit credit w Hwf Ha).
  - apply quantize2_whole_pence, Hd.
  - apply quantize2_whole_pence, Hc.
  - exact Hz.
Qed.

(** [InvoiceManager._create_invoice_transactions] keeps the books
    balanced: for an invoice whose amounts are whole pence, with
    [total_amount = net_amount + vat_amount] and a VAT amount that is not
    negative, the debits of the transactions that it stores add up to
    their credits, whatever the type of the invoice and whichever legs
    were dropped. *)
Theorem invoice_postings_balance
        (u1 u2 u3 : string) (invoice : Invoice.t) (w : world) :
  wf w ->
  whole_pence (Invoice.net_amount invoice) ->
  whole_pence (Invoice.vat_amount invoice) ->
  whole_pence (Invoice.total_amount invoice) ->
  Invoice.total_amount invoice == Invoice.net_amount invoice + Invoice.vat_amount invoice ->
  0 <= Invoice.vat_amount invoice ->
  let w' := fst (InvoiceManager._create_invoice_transactions today u1 u2 u3 invoice w) in
  exists new,
    log w' = log w ++ new
    /\ Qsum (map get_debit new) == Qsum (map get_credit new).
Proof.
  intros Hwf Wn Wv Wt Ht Hv w'.
  assert (G : grows w w' 0).
  { unfold w', InvoiceManager._create_invoice_transactions.
    set (k := dated (Invoice.date invoice)).
    destruct (String.eqb (Invoice.type invoice) "sales").
    - assert (G1 := add_leg u1 invoice "Satış Faturası" "1200"
                      (Invoice.total_amount invoice) 0 0 w Hwf ltac:(discriminate)
                      Wt whole_pence_0 (or_intror (Qeq_refl 0))).
      destruct (TransactionManager.add_transaction today _ w) as [w1 r1]. cbn [fst] in G1.
      assert (G2 := add_leg u2 invoice "Satış Faturası" "4000"
                      0 (Invoice.net_amount invoice) 0 w1 (proj1 G1) ltac:(discriminate)
                      whole_pence_0 Wn (or_introl (Qeq_refl 0))).
      destruct (TransactionManager.add_transaction today _ w1) as [w2 r2]. cbn [fst] in G2.
      assert (G12 := grows_trans _ _ _ _ _ G1 G2). fold k in G12.
      destruct (Qpos_b (Invoice.vat_amount invoice)) eqn:V.
      + assert (G3 := add_leg u3 invoice "Satış Faturası" "2100"
                        0 (Invoice.vat_amount invoice) (Invoice.vat_amount invoice)
                        w2 (proj1 G2) ltac:(discriminate)
                        whole_pence_0 Wv (or_introl (Qeq_refl 0))).
        destruct (TransactionManager.add_transaction today _ w2) as [w3 r3].
        cbn [fst] in *. fold k in G3.
        destruct (grows_trans _ _ _ _ _ G12 G3) as [W [new [L N]]].
        split; [exact W |]. exists new. split; [exact L |]. rewrite N, Ht. lra.
      + cbn [fst]. apply Qpos_b_false in V.
        destruct G12 as [W [new [L N]]].
        split; [exact W |]. exists new. split; [exact L |]. rewrite N, Ht.
        assert (Invoice.vat_amount invoice == 0) by lra. nra.
    - destruct (String.eqb (Invoice.type invoice) "purchase").
      + assert (G1 := add_leg u1 invoice "Alış Faturası" "5000"
                        (Invoice.net_amount invoice) 0 0 w Hwf ltac:(discriminate)
                        Wn whole_pence_0 (or_intror (Qeq_refl 0))).
        destruct (TransactionManager.add_transaction today _ w) as [w1 r1].
        cbn [fst] in G1. fold k in G1.
        assert (G2 : grows w1
                       (if Qpos_b (Invoice.vat_amount invoice)
                        then fst (TransactionManager.add_transaction today
                                    (InvoiceManager.leg today u2 invoice "Alış Faturası"
                                       "2200" (Invoice.vat_amount invoice) 0
                                       (Invoice.vat_amount invoice)) w1)
                        else w1)
                       (k * Invoice.vat_amount invoice)).
        { destruct (Qpos_b (Invoice.vat_amount invoice)) eqn:V.
          - destruct (add_leg u2 invoice "Alış Faturası" "2200"
                        (Invoice.vat_amount invoice) 0 (Invoice.vat_amount invoice)
                        w1 (proj1 G1) ltac:(discriminate)
                        Wv whole_pence_0 (or_intror (Qeq_refl 0))) as [W [new [L N]]].
            split; [exact W |]. exists new. split; [exact L |]. rewrite N. fold k. lra.
          - apply Qpos_b_false in V. destruct (grows_refl w1 (proj1 G1)) as [W [new [L N]]].
            split; [exact W |]. exists new. split; [exact L |]. rewrite N.
            assert (Invoice.vat_amount invoice == 0) by lra. nra. }
        set (w2 := if Qpos_b (Invoice.vat_amount invoice) then _ else w1) in *.
        assert (G3 := add_leg u3 invoice "Alış Faturası" "2000"
                        0 (Invoice.total_amount invoice) 0 w2 (proj1 G2)
                        ltac:(discriminate)
                        whole_pence_0 Wt (or_introl (Qeq_refl 0))).
        destruct (TransactionManager.add_transaction today _ w2) as [w3 r3].
        cbn [fst] in *. fold k in G3.
        destruct (grows_trans _ _ _ _ _ (grows_trans _ _ _ _ _ G1 G2) G3)
          as [W [new [L N]]].
        split; [exact W |]. exists new. split; [exact L |]. rewrite N, Ht. lra.
      + cbn [fst]. now apply grows_refl. }
  destruct G as [_ [new [L N]]]. exists new. split; [exact L |].
  unfold net_of in N. lra.
Qed.

End InvoicePostings.

Lemma invoice_postings_balance_witness :
  let w' := fst (InvoiceManager._create_invoice_transactions "2024-01-15"
                   "u-1" "u-2" "u-3" sample_invoice Ledger.fresh_ledger) in
  exists new,
    log w' = log Ledger.fresh_ledger ++ new
    /\ Qsum (map get_debit new) == Qsum (map get_credit new).
Proof.
  apply (invoice_postings_balance "2024-01-15" "u-1" "u-2" "u-3" sample_invoice
           Ledger.fresh_ledger).
  - constructor.
  - exists 10000%Z. vm_compute. reflexivity.
  - exists 2000%Z. vm_compute. reflexivity.
  - exists 12000%Z. vm_compute. reflexivity.
  - vm_compute. reflexivity.
  - vm_compute. discriminate.
Defined.

(** ** Deleting the transactions of an invoice *)

Lemma database_delete_log (i : pyid) (w : world) :
  wf w ->
  let w' := fst (Database.delete_transaction i w) in
  wf w'
  /\ chart_of_accounts w' = chart_of_accounts w
  /\ log w' = match find_index (fun t => pyid_eqb (get_id t) i) (log w) with
              | Some k => del_nth k (log w)
              | None => log w
              end.
Proof.
  intros Hwf w'. unfold w', Database.delete_transaction.
  assert (Ek : find_index (fun r' => pyid_eqb (get_id (deref w r')) i) (transactions w)
               = find_index (fun t => pyid_eqb (get_id t) i) (log w)).
  { unfold log. induction (transactions w) as [| a tl IH]; simpl; [reflexivity |].
    destruct (pyid_eqb (get_id (deref w a)) i); [reflexivity |]. now rewrite IH. }
  rewrite Ek. destruct (find_index _ (log w)) as [k |]; cbn [fst].
  - split; [| split; [reflexivity |]].
    + unfold wf. simpl. now apply Forall_del_nth.
    + unfold log. simpl. now rewrite map_del_nth.
  - repeat split. exact Hwf.
Qed.

(** With distinct keys, deleting the first element that has a key is
    deleting every element that has it. *)
Lemma del_first_is_filter {A : Type} (key : A -> pyid) (i : pyid) (l : list A) :
  NoDup (map key l) ->
  match find_index (fun t => pyid_eqb (key t) i) l with
  | Some k => del_nth k l
  | None => l
  end = filter (fun t => negb (pyid_eqb (key t) i)) l.
Proof.
  induction l as [| a tl IH]; intro Hn; simpl; [reflexivity |].
  inversion Hn as [| ? ? Hnot Htl]; subst.
  destruct (pyid_eqb (key a) i) eqn:E; simpl.
  - apply pyid_eqb_eq in E.
    assert (F : forall t, In t tl -> negb (pyid_eqb (key t) i) = true).
    { intros t Hin. destruct (pyid_eqb (key t) i) eqn:Et; [| reflexivity].
      apply pyid_eqb_eq in Et. exfalso. apply Hnot. rewrite E, <- Et. now apply in_map. }
    clear - F. induction tl as [| b tl IH]; simpl; [reflexivity |].
    rewrite (F b) by now left. f_equal. apply IH. intros t Hin. apply F. now right.
  - specialize (IH Htl). destruct (find_index _ tl) as [k |]; simpl; f_equal; exact IH.
Qed.

(** Dropping stored dicts keeps their ids distinct. *)
Lemma distinct_ids_filter (keep : tdict -> bool) (stored : list tdict) :
  NoDup (map get_id stored) -> NoDup (map get_id (filter keep stored)).
Proof.
  induction stored as [| d rest IH]; intro Hn; simpl; [constructor |].
  apply NoDup_cons_iff in Hn. destruct Hn as [Hnot Hrest].
  destruct (keep d); simpl; [| now apply IH].
  apply NoDup_cons_iff. split; [| now apply IH].
  intro Hin. apply Hnot. apply in_map_iff in Hin. destruct Hin as [x [E Hx]].
  apply filter_In in Hx. rewrite <- E. apply in_map. apply Hx.
Qed.

Lemma NoDup_map_inj {A B : Type} (f : A -> B) (l : list A) (a b : A) :
  NoDup (map f l) -> In a l -> In b l -> f a = f b -> a = b.
Proof.
  induction l as [| x tl IH]; intros Hn Ha Hb E; [contradiction |].
  simpl in Hn. inversion Hn as [| ? ? Hnot Htl]; subst.
  destruct Ha as [-> | Ha], Hb as [-> | Hb].
  - reflexivity.
  - exfalso. apply Hnot. rewrite E. now apply in_map.
  - exfalso. apply Hnot. rewrite <- E. now apply in_map.
  - now apply IH.
Qed.

Lemma filter_filter {A : Type} (p q : A -> bool) (l : list A) :
  filter p (filter q l) = filter (fun x => q x && p x) l.
Proof.
  induction l as [| a tl IH]; simpl; [reflexivity |].
  destruct (q a); simpl; [destruct (p a); now rewrite IH | exact IH].
Qed.

Lemma fold_left_map {A B C : Type} (g : A -> B) (f : C -> B -> C) (l : list A) :
  forall c, fold_left (fun c0 x => f c0 (g x)) l c = fold_left f (map g l) c.
Proof. induction l as [| x tl IH]; intro c; simpl; [reflexivity | apply IH]. Qed.

Section DeleteInvoice.

Variable today : string.

(** The ids deleted one after the other from the store. *)
Lemma delete_ids (ids : list pyid) : forall (w : world),
  wf w -> NoDup (map get_id (log w)) ->
  let w' := fold_left
              (fun w0 i => fst (TransactionManager.delete_transaction i w0)) ids w in
  wf w'
  /\ chart_of_accounts w' = chart_of_accounts w
  /\ log w' = filter (fun t => negb (existsb (pyid_eqb (get_id t)) ids)) (log w).
Proof.
  induction ids as [| i tl IH]; intros w Hwf Hn; simpl.
  - repeat split; [exact Hwf |]. clear.
    induction (log w) as [| a l IHl]; simpl; [reflexivity | now f_equal].
  - assert (E : fst (TransactionManager.delete_transaction i w)
                = fst (Database.delete_transaction i w)).
    { unfold TransactionManager.delete_transaction.
      destruct (Database.delete_transaction i w) as [w1 [|]]; reflexivity. }
    rewrite E. destruct (database_delete_log i w Hwf) as [W1 [C1 L1]].
    rewrite (del_first_is_filter get_id i (log w) Hn) in L1.
    set (w1 := fst (Database.delete_transaction i w)) in *.
    assert (N1 : NoDup (map get_id (log w1))).
    { rewrite L1. now apply distinct_ids_filter. }
    destruct (IH w1 W1 N1) as [W [C L]].
    split; [exact W |]. split; [now rewrite C |].
    rewrite L, L1, filter_filter. apply filter_ext. intro t.
    now rewrite negb_orb.
Qed.

(** The document number that [from_dict] reads in a stored dict. *)
Definition document_of (d : tdict) : string :=
  Transaction.or_default (t_document_number d) EmptyString.

(** [_delete_invoice_transactions] removes from the store every
    transaction that carries the number of the invoice as document number,
    and no other, when the stored transactions have pairwise distinct
    ids; the order of those that stay and the chart are unchanged. *)
Theorem delete_invoice_transactions_removes_the_document
        (invoice : Invoice.t) (w : world) :
  wf w ->
  Forall identified (log w) ->
  NoDup (map get_id (log w)) ->
  let w' := fst (InvoiceManager._delete_invoice_transactions today invoice w) in
  log w' = filter (fun d => negb (String.eqb (document_of d)
                                             (Invoice.invoice_number invoice)))
                  (log w)
  /\ chart_of_accounts w' = chart_of_accounts w.
Proof.
  intros Hwf Hid Hn w'.
  set (number := Invoice.invoice_number invoice).
  set (f := Transaction.from_dict EmptyString today).
  set (ids := map Transaction.id
                  (TransactionManager.get_transactions_by_document today number w)).
  assert (E : w' = fold_left
                     (fun w0 i => fst (TransactionManager.delete_transaction i w0))
                     ids w).
  { unfold w', InvoiceManager._delete_invoice_transactions, ids. cbn [fst].
    fold number.
    apply (fold_left_map Transaction.id
             (fun w0 i => fst (TransactionManager.delete_transaction i w0))). }
  destruct (delete_ids ids w Hwf Hn) as [_ [C L]]. rewrite <- E in C, L.
  split; [| exact C]. rewrite L. apply filter_ext_in. intros t Ht. f_equal.
  assert (Hids : forall i, In i ids <->
                   exists d, In d (log w) /\ String.eqb (document_of d) number = true
                             /\ get_id d = i).
  { intro i. unfold ids, TransactionManager.get_transactions_by_document,
      TransactionManager.get_all_transactions. fold f. split.
    - intro Hin. apply in_map_iff in Hin. destruct Hin as [x [Ex Hx]].
      apply filter_In in Hx. destruct Hx as [Hx Hdoc].
      apply in_map_iff in Hx. destruct Hx as [d [Ed Hd]].
      exists d. split; [exact Hd |]. subst x. split; [exact Hdoc |].
      rewrite <- Ex. unfold f. symmetry. apply from_dict_id.
      rewrite Forall_forall in Hid. now apply Hid.
    - intros [d [Hd [Hdoc Ei]]]. apply in_map_iff. exists (f d). split.
      + rewrite <- Ei. unfold f. apply from_dict_id.
        rewrite Forall_forall in Hid. now apply Hid.
      + apply filter_In. split; [now apply in_map | exact Hdoc]. }
  destruct (String.eqb (document_of t) number) eqn:Et.
  - apply existsb_exists. exists (get_id t). split.
    + apply Hids. now exists t.
    + now apply pyid_eqb_eq.
  - destruct (existsb (pyid_eqb (get_id t)) ids) eqn:Ex; [| reflexivity].
    apply existsb_exists in Ex. destruct Ex as [i [Hi Ei]].
    apply pyid_eqb_eq in Ei. apply Hids in Hi. destruct Hi as [d [Hd [Hdoc Eid]]].
    assert (d = t).
    { apply (NoDup_map_inj get_id (log w)); try assumption. now rewrite Eid. }
    subst d. rewrite Hdoc in Et. discriminate.
Qed.

End DeleteInvoice.

Lemma delete_invoice_transactions_removes_the_document_witness :
  let w' := fst (InvoiceManager._delete_invoice_transactions "2024-01-15"
                   sample_invoice one_sale_one_purchase) in
  map get_account (log w') = ["5000"; "2200"; "2000"]%string
  /\ chart_of_accounts w' = chart_of_accounts one_sale_one_purchase.
Proof.
  destruct (delete_invoice_transactions_removes_the_document "2024-01-15"
              sample_invoice one_sale_one_purchase) as [L C].
  - vm_compute. repeat constructor.
  - vm_compute.
    repeat (constructor; [eexists; split; [reflexivity | discriminate] |]).
    constructor.
  - vm_compute.
    repeat (constructor; [simpl; intuition discriminate |]). constructor.
  - split; [rewrite L; reflexivity | exact C].
Defined.

(** ** The sign convention of [Account] over a run of calls *)

(** A call of [debit] or of [credit] on an account. *)
Inductive account_call : Type :=
| Debit (amount : Q)
| Credit (amount : Q).

Definition call (a : Account.t) (c : account_call) : Account.t :=
  match c with
  | Debit amount => Account.debit amount a
  | Credit amount => Account.credit amount a
  end.

(** The debits minus the credits of a run of calls. *)
Fixpoint debits_less_credits (calls : list account_call) : Q :=
  match calls with
  | [] => 0
  | Debit amount :: tl => amount + debits_less_credits tl
  | Credit amount :: tl => - amount + debits_less_credits tl
  end.

Lemma call_keeps_identity (a : Account.t) (c : account_call) :
  Account.code (call a c) = Account.code a
  /\ Account.name (call a c) = Account.name a
  /\ Account.account_type (call a c) = Account.account_type a
  /\ Account.category (call a c) = Account.category a
  /\ Account.debit_normal (call a c) = Account.debit_normal a.
Proof.
  destruct c; unfold call, Account.debit, Account.credit;
    destruct (Account.debit_normal a) eqn:N; repeat split; exact N.
Qed.

(** After any run of [debit] and [credit] calls the balance of an asset
    or expense account is its first balance plus the debits less the
    credits, and the balance of a liability, equity or income account is
    its first balance less the debits plus the credits; the code, the
    name, the type and the category never change.  In particular a debit
    followed by a credit of the same amount gives back the balance. *)
Theorem account_balance_after_calls (a : Account.t) (calls : list account_call) :
  let a' := fold_left call calls a in
  Account.balance a'
  == Account.balance a
     + (if Account.debit_normal a then 1 else -1) * debits_less_credits calls
  /\ Account.code a' = Account.code a
  /\ Account.account_type a' = Account.account_type a
  /\ (forall amount,
        Account.balance (Account.credit amount (Account.debit amount a'))
        == Account.balance a').
Proof.
  intro a'. unfold a'. clear a'. revert a.
  induction calls as [| c tl IH]; intro a; cbn [fold_left].
  - split; [simpl; lra |]. split; [reflexivity |]. split; [reflexivity |].
    intro amount.
    assert (N : Account.debit_normal (Account.debit amount a) = Account.debit_normal a)
      by apply (call_keeps_identity a (Debit amount)).
    unfold Account.credit. rewrite N. unfold Account.debit.
    destruct (Account.debit_normal a); simpl; lra.
  - destruct (IH (call a c)) as [B [C [T R]]].
    destruct (call_keeps_identity a c) as [Ec [_ [Et [_ En]]]].
    split; [| split; [congruence | split; [congruence | exact R]]].
    rewrite B, En.
    destruct c as [amount | amount]; unfold call, Account.debit, Account.credit;
      destruct (Account.debit_normal a); simpl; lra.
Qed.

(** ** The VAT return of [TaxManager] *)

(** The positive credits, and the positive debits, of the transactions
    whose account satisfies [p]. *)
Definition credited_to (p : string -> bool) (l : list Transaction.t) : Q :=
  Qsum (map Transaction.credit
            (filter (fun t => p (Transaction.account t)
                              && Qpos_b (Transaction.credit t)) l)).

Definition debited_to (p : string -> bool) (l : list Transaction.t) : Q :=
  Qsum (map Transaction.debit
            (filter (fun t => p (Transaction.account t)
                              && Qpos_b (Transaction.debit t)) l)).

Lemma credited_to_cons (p : string -> bool) (t : Transaction.t) (l : list Transaction.t) :
  credited_to p (t :: l)
  == (if p (Transaction.account t) && Qpos_b (Transaction.credit t)
      then Transaction.credit t else 0) + credited_to p l.
Proof.
  unfold credited_to. cbn [filter].
  destruct (p (Transaction.account t) && Qpos_b (Transaction.credit t));
    cbn [map]; [apply Qsum_cons | lra].
Qed.

Lemma debited_to_cons (p : string -> bool) (t : Transaction.t) (l : list Transaction.t) :
  debited_to p (t :: l)
  == (if p (Transaction.account t) && Qpos_b (Transaction.debit t)
      then Transaction.debit t else 0) + debited_to p l.
Proof.
  unfold debited_to. cbn [filter].
  destruct (p (Transaction.account t) && Qpos_b (Transaction.debit t));
    cbn [map]; [apply Qsum_cons | lra].
Qed.

Lemma credited_to_nonneg (p : string -> bool) (l : list Transaction.t) :
  0 <= credited_to p l.
Proof.
  induction l as [| t tl IH]; [unfold credited_to, Qsum; simpl; lra |].
  rewrite credited_to_cons.
  destruct (p (Transaction.account t)); cbn [andb]; [| lra].
  destruct (Qpos_b (Transaction.credit t)) eqn:P; [| lra].
  apply Qpos_b_true in P. lra.
Qed.

Lemma debited_to_nonneg (p : string -> bool) (l : list Transaction.t) :
  0 <= debited_to p l.
Proof.
  induction l as [| t tl IH]; [unfold debited_to, Qsum; simpl; lra |].
  rewrite debited_to_cons.
  destruct (p (Transaction.account t)); cbn [andb]; [| lra].
  destruct (Qpos_b (Transaction.debit t)) eqn:P; [| lra].
  apply Qpos_b_true in P. lra.
Qed.

Definition is_code (code : string) (account_code : string) : bool :=
  String.eqb account_code code.

(** The loop of [calculate_vat_return] adds to boxes 1, 4, 6 and 7 and
    leaves everything else as it was. *)
Lemma tax_manager_vat_loop (l : list Transaction.t) :
  forall v : VATReturn.t,
    let v' := fold_left TaxManager.vat_step l v in
    VATReturn.period v' = VATReturn.period v
    /\ VATReturn.vat_due_sales v'
       == VATReturn.vat_due_sales v + credited_to (is_code "2100") l
    /\ VATReturn.vat_due_acquisitions v' = VATReturn.vat_due_acquisitions v
    /\ VATReturn.vat_reclaimed v'
       == VATReturn.vat_reclaimed v + debited_to (is_code "2200") l
    /\ VATReturn.total_sales_ex_vat v'
       == VATReturn.total_sales_ex_vat v + credited_to (startswith "4") l
    /\ VATReturn.total_purchases_ex_vat v'
       == VATReturn.total_purchases_ex_vat v + debited_to (startswith "5") l
    /\ VATReturn.total_supplies_ex_vat v' = VATReturn.total_supplies_ex_vat v
    /\ VATReturn.total_acquisitions_ex_vat v' = VATReturn.total_acquisitions_ex_vat v
    /\ VATReturn.status v' = VATReturn.status v
    /\ VATReturn.finalised v' = VATReturn.finalised v
    /\ VATReturn.submission_date v' = VATReturn.submission_date v.
Proof.
  induction l as [| t tl IH]; intro v; cbv zeta; cbn [fold_left].
  - unfold credited_to, debited_to, Qsum. simpl.
    repeat match goal with |- _ /\ _ => split end; try reflexivity; lra.
  - destruct (IH (TaxManager.vat_step v t))
      as (P & B1 & B2 & B4 & B6 & B7 & B8 & B9 & S & F & D).
    rewrite P, B1, B2, B4, B6, B7, B8, B9, S, F, D.
    rewrite !credited_to_cons, !debited_to_cons.
    unfold TaxManager.vat_step, is_code. cbn.
    repeat match goal with |- _ /\ _ => split end; try reflexivity;
      match goal with
      | |- context [if ?c then _ else _] => destruct c; lra
      end.
Qed.

Section TaxManagerVat.

Variable strftime : pydate -> string.
Variable strptime : string -> option pydate.
Variable ledger : string -> string -> list Transaction.t.

(** For two dates that can be read, [calculate_vat_return]
    returns a return for that period that [VATReturn.validate] accepts;
    boxes 1, 4, 6 and 7 are the positive credits of account 2100, the
    positive debits of account 2200, the positive credits of the accounts
    in 4 and the positive debits of the accounts in 5 among the
    transactions that the ledger gives for the period, none of them is
    negative, boxes 2, 8 and 9 are zero, box 3 is box 1 and box 5 is
    box 1 less box 4. *)
Theorem calculated_vat_return_is_valid
        (start_date end_date : TaxManager.date_arg) (s e : pydate)
        (Hs : TaxManager.as_date strptime start_date = Some s)
        (He : TaxManager.as_date strptime end_date = Some e) :
  let transactions := ledger (strftime s) (strftime e) in
  exists v,
    TaxManager.calculate_vat_return strftime strptime ledger start_date end_date
    = Some v
    /\ VATReturn.validate v = (true, None)
    /\ VATReturn.period v = Some (TaxPeriod.init s e)
    /\ VATReturn.vat_due_sales v == credited_to (is_code "2100") transactions
    /\ VATReturn.vat_reclaimed v == debited_to (is_code "2200") transactions
    /\ VATReturn.total_sales_ex_vat v == credited_to (startswith "4") transactions
    /\ VATReturn.total_purchases_ex_vat v == debited_to (startswith "5") transactions
    /\ 0 <= VATReturn.vat_due_sales v
    /\ 0 <= VATReturn.vat_reclaimed v
    /\ 0 <= VATReturn.total_sales_ex_vat v
    /\ 0 <= VATReturn.total_purchases_ex_vat v
    /\ VATReturn.vat_due_acquisitions v == 0
    /\ VATReturn.total_supplies_ex_vat v == 0
    /\ VATReturn.total_acquisitions_ex_vat v == 0
    /\ VATReturn.total_vat_due v == VATReturn.vat_due_sales v
    /\ VATReturn.net_vat_due v
       == VATReturn.vat_due_sales v - VATReturn.vat_reclaimed v.
Proof.
  intro transactions.
  unfold TaxManager.calculate_vat_return. rewrite Hs, He.
  fold transactions.
  destruct (tax_manager_vat_loop transactions
              (VATReturn.init (Some (TaxPeriod.init s e))))
    as (P & B1 & B2 & B4 & B6 & B7 & B8 & B9 & _).
  set (v := fold_left TaxManager.vat_step transactions _) in *.
  cbn [VATReturn.init VATReturn.period VATReturn.vat_due_sales
       VATReturn.vat_due_acquisitions VATReturn.vat_reclaimed
       VATReturn.total_sales_ex_vat VATReturn.total_purchases_ex_vat
       VATReturn.total_supplies_ex_vat VATReturn.total_acquisitions_ex_vat]
    in P, B1, B2, B4, B6, B7, B8, B9.
  assert (N1 := credited_to_nonneg (is_code "2100") transactions).
  assert (N4 := debited_to_nonneg (is_code "2200") transactions).
  assert (N6 := credited_to_nonneg (startswith "4") transactions).
  assert (N7 := debited_to_nonneg (startswith "5") transactions).
  exists (VATReturn.calculate_totals v).
  split; [reflexivity |].
  split.
  { unfold VATReturn.validate, VATReturn.calculate_totals.
    cbn [VATReturn.period VATReturn.vat_due_sales
         VATReturn.vat_due_acquisitions VATReturn.vat_reclaimed
         VATReturn.total_sales_ex_vat VATReturn.total_purchases_ex_vat
         VATReturn.total_supplies_ex_vat VATReturn.total_acquisitions_ex_vat
         VATReturn.total_vat_due VATReturn.net_vat_due].
    rewrite P, B2, B8, B9.
    replace (Qlt_b (VATReturn.vat_due_sales v) 0) with false
      by (symmetry; apply Qlt_b_false; lra).
    replace (Qlt_b 0 0) with false by reflexivity.
    replace (Qlt_b (VATReturn.vat_reclaimed v) 0) with false
      by (symmetry; apply Qlt_b_false; lra).
    replace (Qlt_b (VATReturn.total_sales_ex_vat v) 0) with false
      by (symmetry; apply Qlt_b_false; lra).
    replace (Qlt_b (VATReturn.total_purchases_ex_vat v) 0) with false
      by (symmetry; apply Qlt_b_false; lra).
    cbv zeta.
    match goal with
    | |- context [Qlt_b (1 # 100) (Qabs ?d)] =>
        replace (Qlt_b (1 # 100) (Qabs d)) with false
          by (symmetry; apply Qlt_b_false;
              assert (Z0 : d == 0) by lra; rewrite Z0; vm_compute; discriminate)
    end.
    match goal with
    | |- context [Qlt_b (1 # 100) (Qabs ?d)] =>
        replace (Qlt_b (1 # 100) (Qabs d)) with false
          by (symmetry; apply Qlt_b_false;
              assert (Z0 : d == 0) by lra; rewrite Z0; vm_compute; discriminate)
    end.
    reflexivity. }
  unfold VATReturn.calculate_totals.
  cbn [VATReturn.period VATReturn.vat_due_sales
       VATReturn.vat_due_acquisitions VATReturn.vat_reclaimed
       VATReturn.total_sales_ex_vat VATReturn.total_purchases_ex_vat
       VATReturn.total_supplies_ex_vat VATReturn.total_acquisitions_ex_vat
       VATReturn.total_vat_due VATReturn.net_vat_due].
  rewrite B2, B8, B9.
  repeat match goal with |- _ /\ _ => split end; try exact P; lra.
Qed.

End TaxManagerVat.

(** [d.strftime("%Y-%m-%d")] for a date whose year has four digits. *)
Definition two_digits (n : Z) : string :=
  if (n <? 10)%Z then ("0" ++ CorporateTaxCalculator.py_str n)%string
  else CorporateTaxCalculator.py_str n.

Definition isoformat (d : pydate) : string :=
  (CorporateTaxCalculator.py_str (d_year d) ++ "-" ++ two_digits (d_month d)
   ++ "-" ++ two_digits (d_day d))%string.

Lemma calculated_vat_return_is_valid_witness :
  let w := fst (Ledger.add_transaction "2024-01-15" 0
                  (fst (alloc vat_credit Ledger.fresh_ledger))) in
  let ledger := fun s e =>
                  TransactionManager.get_transactions_by_date_range
                    "2024-01-15" s e w in
  exists v,
    TaxManager.calculate_vat_return isoformat (fun _ => None) ledger
      (TaxManager.DateObj (mk_date 2024 1 1))
      (TaxManager.DateObj (mk_date 2024 3 31)) = Some v
    /\ VATReturn.validate v = (true, None)
    /\ VATReturn.vat_due_sales v == 20
    /\ VATReturn.net_vat_due v == 20.
Proof.
  cbv zeta.
  destruct (calculated_vat_return_is_valid isoformat (fun _ => None)
              (fun s e =>
                 TransactionManager.get_transactions_by_date_range
                   "2024-01-15" s e
                   (fst (Ledger.add_transaction "2024-01-15" 0
                           (fst (alloc vat_credit Ledger.fresh_ledger)))))
              (TaxManager.DateObj (mk_date 2024 1 1))
              (TaxManager.DateObj (mk_date 2024 3 31))
              (mk_date 2024 1 1) (mk_date 2024 3 31) eq_refl eq_refl)
    as (v & E & V & _ & B1 & B4 & _ & _ & _ & _ & _ & _ & _ & _ & _ & _ & B5).
  exists v. split; [exact E |]. split; [exact V |].
  assert (S1 : VATReturn.vat_due_sales v == 20)
    by (eapply Qeq_trans; [apply B1 | vm_compute; reflexivity]).
  assert (S4 : VATReturn.vat_reclaimed v == 0)
    by (eapply Qeq_trans; [apply B4 | vm_compute; reflexivity]).
  split; [exact S1 |]. rewrite B5, S1, S4. reflexivity.
Defined.

(** ** The income tax return *)

(** Rounding to pence of an amount that is not negative. *)
Lemma quantize2_floor (y : Q) :
  0 <= y ->
  Transaction.quantize2 y = inject_Z (Qfloor (y * 100 + (1 # 2))) / 100.
Proof.
  intro H. unfold Transaction.quantize2, of_cents, quantize, round_half_up.
  assert (L : Qle_bool 0 (y * 100) = true) by (apply Qle_bool_iff; lra).
  now rewrite L.
Qed.

Lemma quantize2_monotone (y z : Q) :
  0 <= y -> y <= z -> Transaction.quantize2 y <= Transaction.quantize2 z.
Proof.
  intros H0 H. rewrite (quantize2_floor y), (quantize2_floor z) by lra.
  assert (F : (Qfloor (y * 100 + (1 # 2)) <= Qfloor (z * 100 + (1 # 2)))%Z)
    by (apply Qfloor_resp_le; lra).
  rewrite Zle_Qle in F.
  apply Qmult_le_compat_r; [exact F | discriminate].
Qed.

Lemma quantize2_near (y : Q) :
  0 <= y ->
  y - (1 # 200) < Transaction.quantize2 y /\ Transaction.quantize2 y <= y + (1 # 200).
Proof.
  intro H. rewrite (quantize2_floor y H).
  assert (A := Qfloor_le (y * 100 + (1 # 2))).
  assert (B := Qlt_floor (y * 100 + (1 # 2))).
  rewrite inject_Z_plus in B. change (inject_Z 1) with 1 in B.
  set (f := inject_Z (Qfloor (y * 100 + (1 # 2)))) in *.
  assert (E : f / 100 == f * (1 # 100)) by (field).
  rewrite E. split; lra.
Qed.

(** The tax before rounding, on a taxable income above zero. *)
Definition banded (taxable_income : Q) : Q :=
  if Qle_bool taxable_income 37700
  then taxable_income * (20 # 100)
  else
    37700 * (20 # 100)
    + (if Qle_bool taxable_income 150000
       then (taxable_income - 37700) * (40 # 100)
       else (150000 - 37700) * (40 # 100)
            + (taxable_income - 150000) * (45 # 100)).

Lemma _calculate_tax_banded (x : Q) :
  IncomeTaxReturn._calculate_tax x
  = if Qle_bool x 0 then 0 else Transaction.quantize2 (banded x).
Proof. reflexivity. Qed.

Ltac band_cases :=
  repeat match goal with
         | |- context [Qle_bool ?a ?b] =>
             let E := fresh "E" in
             destruct (Qle_bool a b) eqn:E;
             [apply Qle_bool_iff in E | apply Qle_bool_false in E]
         end.

Lemma banded_grows (a b : Q) :
  0 <= a -> a <= b ->
  0 <= banded a /\ banded a <= banded b
  /\ banded b - banded a <= (45 # 100) * (b - a).
Proof.
  intros H0 H. unfold banded. band_cases; repeat split; lra.
Qed.

(** The income tax of [IncomeTaxReturn._calculate_tax] has no
    cliff: it is zero up to a taxable income of zero, never negative,
    never goes down when the taxable income goes up, and going from one
    taxable income to a higher one adds at most 45% of the difference
    plus one penny of rounding, also across the limits of 37,700 and
    150,000. *)
Theorem income_tax_return_has_no_cliff (a b : Q) (H : a <= b) :
  (a <= 0 -> IncomeTaxReturn._calculate_tax a == 0)
  /\ 0 <= IncomeTaxReturn._calculate_tax a
  /\ IncomeTaxReturn._calculate_tax a <= IncomeTaxReturn._calculate_tax b
  /\ IncomeTaxReturn._calculate_tax b - IncomeTaxReturn._calculate_tax a
     <= (45 # 100) * (b - a) + (1 # 100).
Proof.
  rewrite !_calculate_tax_banded.
  destruct (Qle_bool a 0) eqn:Ea; [apply Qle_bool_iff in Ea | apply Qle_bool_false in Ea];
    (destruct (Qle_bool b 0) eqn:Eb;
     [apply Qle_bool_iff in Eb | apply Qle_bool_false in Eb]);
    try lra.
  - destruct (banded_grows b b) as (P & _); [lra | lra |].
    destruct (quantize2_near (banded b) P) as [L U].
    assert (M := quantize2_monotone 0 (banded b) (Qle_refl 0) P).
    rewrite quantize2_0 in M.
    assert (B : banded b <= (45 # 100) * b).
    { unfold banded. band_cases; lra. }
    repeat split; try lra.
  - destruct (banded_grows a b) as (P & G & S); [lra | lra |].
    destruct (quantize2_near (banded a) P) as [La Ua].
    destruct (quantize2_near (banded b)) as [Lb Ub]; [lra |].
    assert (M := quantize2_monotone (banded a) (banded b) P G).
    assert (M0 := quantize2_monotone 0 (banded a) (Qle_refl 0) P).
    rewrite quantize2_0 in M0.
    repeat split; try lra.
Qed.

Lemma income_tax_return_has_no_cliff_witness :
  37700 <= 37701
  /\ IncomeTaxReturn._calculate_tax 37700 == 7540
  /\ IncomeTaxReturn._calculate_tax 37701 == 7540 + (40 # 100)
  /\ IncomeTaxReturn._calculate_tax 37701 - IncomeTaxReturn._calculate_tax 37700
     <= (45 # 100) * (37701 - 37700) + (1 # 100).
Proof.
  assert (H : 37700 <= 37701) by (vm_compute; discriminate).
  split; [exact H |].
  split; [vm_compute; reflexivity |].
  split; [vm_compute; reflexivity |].
  apply (income_tax_return_has_no_cliff 37700 37701 H).
Defined.

(** After [calculate_totals] the two consistency checks of
    [IncomeTaxReturn.validate] never fail: the return is accepted exactly
    when it has a non-empty tax year and both dates and none of the total
    income, the total expenses and the allowance is negative.  The
    taxable income and the tax due are never negative, and no tax is due
    when the net profit does not exceed the allowance. *)
Theorem income_tax_return_validates_after_totals (x : IncomeTaxReturn.t) :
  let r := IncomeTaxReturn.calculate_totals x in
  (IncomeTaxReturn.validate r = (true, None)
   <-> ((exists y, IncomeTaxReturn.tax_year x = Some y /\ y <> EmptyString)
        /\ IncomeTaxReturn.period_start x <> None
        /\ IncomeTaxReturn.period_end x <> None
        /\ 0 <= IncomeTaxReturn.total_income x
        /\ 0 <= IncomeTaxReturn.total_expenses x
        /\ 0 <= IncomeTaxReturn.tax_allowance x))
  /\ IncomeTaxReturn.net_profit r
     == IncomeTaxReturn.total_income x - IncomeTaxReturn.total_expenses x
  /\ 0 <= IncomeTaxReturn.taxable_income r
  /\ 0 <= IncomeTaxReturn.tax_due r
  /\ (IncomeTaxReturn.net_profit r <= IncomeTaxReturn.tax_allowance x
      -> IncomeTaxReturn.tax_due r == 0).
Proof.
  cbv zeta. unfold IncomeTaxReturn.calculate_totals.
  cbn [IncomeTaxReturn.net_profit IncomeTaxReturn.taxable_income
       IncomeTaxReturn.tax_due].
  set (net := IncomeTaxReturn.total_income x - IncomeTaxReturn.total_expenses x).
  set (taxable := py_max 0 (net - IncomeTaxReturn.tax_allowance x)).
  assert (T0 : 0 <= taxable) by apply py_max_0_nonneg.
  split; [| split; [reflexivity | split; [exact T0 | split]]].
  - unfold IncomeTaxReturn.validate.
    cbn [IncomeTaxReturn.tax_year IncomeTaxReturn.period_start
         IncomeTaxReturn.period_end IncomeTaxReturn.total_income
         IncomeTaxReturn.total_expenses IncomeTaxReturn.tax_allowance
         IncomeTaxReturn.net_profit IncomeTaxReturn.taxable_income].
    cbv zeta. fold net. fold taxable.
    replace (Qlt_b (1 # 100) (Qabs (net - net))) with false
      by (symmetry; apply Qlt_b_false;
          assert (Z0 : net - net == 0) by lra; rewrite Z0; vm_compute; discriminate).
    replace (Qlt_b (1 # 100) (Qabs (taxable - taxable))) with false
      by (symmetry; apply Qlt_b_false;
          assert (Z0 : taxable - taxable == 0) by lra; rewrite Z0;
          vm_compute; discriminate).
    destruct (IncomeTaxReturn.tax_year x) as [y |];
      [destruct y as [| c y'] |]; cbn [str_is_empty orb];
      try (split; [discriminate | intros [[y [E N]] _]; congruence]).
    destruct (IncomeTaxReturn.period_start x) as [ps |]; cbn [orb];
      [| split; [discriminate | intros (_ & N & _); congruence]].
    destruct (IncomeTaxReturn.period_end x) as [pe |]; cbn [orb];
      [| split; [discriminate | intros (_ & _ & N & _); congruence]].
    destruct (Qlt_b (IncomeTaxReturn.total_income x) 0) eqn:Ei;
      [apply Qlt_b_true in Ei; split; [discriminate | intros (_ & _ & _ & N & _); lra]
      | apply Qlt_b_false in Ei].
    destruct (Qlt_b (IncomeTaxReturn.total_expenses x) 0) eqn:Ee;
      [apply Qlt_b_true in Ee; split;
       [discriminate | intros (_ & _ & _ & _ & N & _); lra]
      | apply Qlt_b_false in Ee].
    destruct (Qlt_b (IncomeTaxReturn.tax_allowance x) 0) eqn:Ea;
      [apply Qlt_b_true in Ea; split;
       [discriminate | intros (_ & _ & _ & _ & _ & N); lra]
      | apply Qlt_b_false in Ea].
    split; [intros _ | reflexivity].
    split; [exists (String c y'); split; [reflexivity | discriminate] |].
    repeat split; try discriminate; assumption.
  - rewrite _calculate_tax_banded.
    destruct (Qle_bool taxable 0) eqn:E; [lra |].
    apply Qle_bool_false in E.
    destruct (banded_grows taxable taxable) as (P & _); [lra | lra |].
    assert (M := quantize2_monotone 0 (banded taxable) (Qle_refl 0) P).
    rewrite quantize2_0 in M. exact M.
  - intro L. rewrite _calculate_tax_banded.
    assert (Z0 : taxable <= 0).
    { unfold taxable. destruct (py_max_spec 0 (net - IncomeTaxReturn.tax_allowance x))
        as [[A ->] | [A ->]]; lra. }
    apply Qle_bool_iff in Z0. rewrite Z0. reflexivity.
Qed.

(** ** The income tax calculator never reports a negative amount *)

(** [round(x)] is one of the two integers around [x]. *)
Lemma round_half_even_range (x : Q) :
  (Qfloor x <= round_half_even x <= Qfloor x + 1)%Z.
Proof.
  unfold round_half_even.
  destruct (Qcompare (x - inject_Z (Qfloor x)) (1 # 2));
    [destruct (Z.even (Qfloor x)) | |]; lia.
Qed.

(** [round] keeps the order of its arguments. *)
Lemma round_half_even_monotone (x y : Q) :
  x <= y -> (round_half_even x <= round_half_even y)%Z.
Proof.
  intro H.
  assert (F : (Qfloor x <= Qfloor y)%Z) by now apply Qfloor_resp_le.
  destruct (Z.eq_dec (Qfloor x) (Qfloor y)) as [E | N].
  - unfold round_half_even. rewrite <- E.
    set (f := Qfloor x) in *.
    destruct (Qcompare_spec (x - inject_Z f) (1 # 2)) as [Cx | Cx | Cx];
      destruct (Qcompare_spec (y - inject_Z f) (1 # 2)) as [Cy | Cy | Cy];
      try (exfalso; lra); try lia; destruct (Z.even f); lia.
  - assert (A := round_half_even_range x). assert (B := round_half_even_range y). lia.
Qed.

Lemma py_round2_monotone (x y : Q) : x <= y -> py_round2 x <= py_round2 y.
Proof.
  intro H. unfold py_round2.
  assert (M : (round_half_even (x * 100) <= round_half_even (y * 100))%Z)
    by (apply round_half_even_monotone; lra).
  rewrite Zle_Qle in M.
  apply Qmult_le_compat_r; [exact M | discriminate].
Qed.

Lemma py_round2_nonneg (x : Q) : 0 <= x -> 0 <= py_round2 x.
Proof.
  intro H. apply py_round2_monotone in H. now rewrite py_round2_0 in H.
Qed.

Section IncomeTaxAmounts.

Import IncomeTaxCalculator.

(** The bands of 2023-24, the only tax year that the calculator knows. *)
Definition bands_2023_24 : bands :=
  mk_bands 12570 50270 (20 # 100) 125140 (40 # 100) (45 # 100).

(** The tapered personal allowance stays between nothing and the whole
    allowance; it is whole up to 100,000 and gone from 125,140. *)
Lemma personal_allowance_taper (total_income : Q) :
  let pa := personal_allowance_of bands_2023_24 total_income in
  0 <= pa /\ pa <= 12570
  /\ (total_income <= 100000 -> pa == 12570)
  /\ (125140 <= total_income -> pa == 0).
Proof.
  cbv zeta. unfold personal_allowance_of.
  cbn [bands_2023_24 personal_allowance].
  destruct (Qlt_b 100000 total_income) eqn:E;
    [apply Qlt_b_true in E | apply Qlt_b_false in E].
  - assert (D : (total_income - 100000) / 2 == (total_income - 100000) * (1 # 2))
      by field.
    destruct (py_min_spec 12570 ((total_income - 100000) / 2)) as [[L ->] | [L ->]];
      rewrite ?D in *; repeat split; intros; lra.
  - repeat split; intros; lra.
Qed.

(** The three slices of the taxable income: none is negative, the first
    two fit their bands, a higher slice is only opened when the one below
    is full, and together they are the taxable income. *)
Lemma split_bands_partition (t : Q) :
  0 <= t ->
  let s := split_bands bands_2023_24 t in
  0 <= basic_rate_band s /\ basic_rate_band s <= 37700
  /\ 0 <= higher_rate_band s /\ higher_rate_band s <= 74870
  /\ 0 <= additional_rate_band s
  /\ basic_rate_band s + higher_rate_band s + additional_rate_band s == t
  /\ (0 < higher_rate_band s -> basic_rate_band s == 37700)
  /\ (0 < additional_rate_band s -> higher_rate_band s == 74870).
Proof.
  intro H. cbv zeta. unfold split_bands.
  cbn [bands_2023_24 personal_allowance basic_threshold higher_threshold
       basic_rate_band higher_rate_band additional_rate_band].
  set (basic := py_min (50270 - 12570) t).
  assert (B : 0 <= basic /\ basic <= 37700 /\ basic <= t
              /\ (basic < t -> basic == 37700)).
  { unfold basic. destruct (py_min_spec (50270 - 12570) t) as [[L ->] | [L ->]];
      repeat split; intros; lra. }
  set (rest := py_max 0 (t - basic)).
  assert (R : rest == t - basic).
  { unfold rest. destruct (py_max_spec 0 (t - basic)) as [[L ->] | [L ->]]; lra. }
  set (higher := py_min (125140 - 50270) rest).
  assert (Hh : 0 <= higher /\ higher <= 74870 /\ higher <= rest
               /\ (higher < rest -> higher == 74870)).
  { unfold higher. destruct (py_min_spec (125140 - 50270) rest) as [[L ->] | [L ->]];
      repeat split; intros; lra. }
  destruct B as (B1 & B2 & B3 & B4). destruct Hh as (H1 & H2 & H3 & H4).
  destruct (py_max_spec 0 (t - basic - higher)) as [[L ->] | [L ->]].
  - repeat split; intros; try lra; first [apply B4; lra | apply H4; lra].
  - repeat split; intros; try lra; first [apply B4; lra | apply H4; lra].
Qed.

Lemma dividend_tax_nonneg (dividend_income other : Q) :
  exists t, _calculate_dividend_tax "2023-24" dividend_income other = Return t
            /\ 0 <= t.
Proof.
  unfold _calculate_dividend_tax.
  change (dividend_rates "2023-24")
    with (Some (mk_dividend 1000 (85 # 1000) (3375 # 10000) (3935 # 10000))).
  change (tax_bands "2023-24") with (Some bands_2023_24).
  cbv iota beta.
  destruct (Qle_bool dividend_income 0); [exists 0; split; [reflexivity | lra] |].
  eexists. split; [reflexivity |].
  unfold split_dividend.
  cbn [div_basic_band div_higher_band div_additional_band
       div_basic_rate div_higher_rate div_additional_rate allowance].
  set (rb := py_max 0 _). set (td := py_max 0 (dividend_income - 1000)).
  assert (R0 : 0 <= rb) by apply py_max_0_nonneg.
  assert (T0 : 0 <= td) by apply py_max_0_nonneg.
  set (db := py_min rb td).
  assert (D0 : 0 <= db).
  { unfold db. destruct (py_min_spec rb td) as [[L ->] | [L ->]]; lra. }
  set (rh := py_max 0 _).
  assert (H0 : 0 <= rh) by apply py_max_0_nonneg.
  set (m := py_max 0 (td - db)).
  assert (M0 : 0 <= m) by apply py_max_0_nonneg.
  set (dh := py_min rh m).
  assert (Dh : 0 <= dh).
  { unfold dh. destruct (py_min_spec rh m) as [[L ->] | [L ->]]; lra. }
  assert (A0 := py_max_0_nonneg (td - db - dh)).
  set (da := py_max 0 (td - db - dh)) in *.
  nra.
Qed.

Lemma national_insurance_nonneg (self_employment_income : Q) :
  exists r,
    _calculate_national_insurance "2023-24" self_employment_income = Return r
    /\ 0 <= ni_class2 r /\ 0 <= ni_class4 r /\ 0 <= ni_total r
    /\ (self_employment_income <= 12570 -> ni_total r == 0).
Proof.
  unfold _calculate_national_insurance.
  change (ni_rates "2023-24")
    with (Some (mk_ni (345 # 100) 12570 12570 50270 (9 # 100) (2 # 100))).
  cbv iota beta.
  cbn [class2_rate class2_threshold class4_lower_threshold class4_upper_threshold
       class4_lower_rate class4_upper_rate].
  eexists. split; [reflexivity |].
  cbn [ni_class2 ni_class4 ni_total].
  destruct (Qlt_b 12570 self_employment_income) eqn:E;
    [apply Qlt_b_true in E | apply Qlt_b_false in E].
  - assert (L0 : 0 <= py_min (self_employment_income - 12570) (50270 - 12570) * (9 # 100)).
    { destruct (py_min_spec (self_employment_income - 12570) (50270 - 12570))
        as [[L ->] | [L ->]]; lra. }
    set (lower := py_min (self_employment_income - 12570) (50270 - 12570) * (9 # 100)) in *.
    assert (U0 : 0 <= (if true && Qlt_b 50270 self_employment_income
                       then (self_employment_income - 50270) * (2 # 100) else 0)).
    { cbn [andb]. destruct (Qlt_b 50270 self_employment_income) eqn:E2;
        [apply Qlt_b_true in E2 |]; lra. }
    set (upper := if true && Qlt_b 50270 self_employment_income
                  then (self_employment_income - 50270) * (2 # 100) else 0) in *.
    repeat split; try (apply py_round2_nonneg; lra); intro; lra.
  - cbn [andb]. repeat split; apply py_round2_nonneg; lra.
Qed.

(** For the tax year 2023-24 [calculate_income_tax] returns a report for
    every income dict, whatever the signs of the amounts in it, and no
    amount of the report is negative: the personal allowance lies between
    0 and 12,570, the basic-rate amount between 0 and 37,700, the
    higher-rate amount between 0 and 74,870, and the income tax, the
    dividend tax, the National Insurance and their total are at least
    zero.  Before rounding the three band amounts add up to the taxable
    income after allowance, and a band is only used when the one below it
    is full. *)
Theorem income_tax_report_is_never_negative (d : income_data) :
  exists res,
    calculate_income_tax "2023-24" d = Return res
    /\ (let s := split_bands bands_2023_24
                   (taxable_after_allowance_of bands_2023_24 d) in
        basic_rate_band s + higher_rate_band s + additional_rate_band s
        == taxable_after_allowance_of bands_2023_24 d
        /\ (0 < higher_rate_band s -> basic_rate_band s == 37700)
        /\ (0 < additional_rate_band s -> higher_rate_band s == 74870)
        /\ res_basic_amount res = py_round2 (basic_rate_band s)
        /\ res_higher_amount res = py_round2 (higher_rate_band s)
        /\ res_additional_amount res = py_round2 (additional_rate_band s))
    /\ 0 <= res_personal_allowance res /\ res_personal_allowance res <= 12570
    /\ 0 <= res_taxable_after_allowance res
    /\ 0 <= res_basic_amount res /\ res_basic_amount res <= 37700
    /\ 0 <= res_higher_amount res /\ res_higher_amount res <= 74870
    /\ 0 <= res_additional_amount res
    /\ 0 <= res_income_tax res
    /\ 0 <= res_dividend_tax res
    /\ 0 <= res_total_income_tax res
    /\ 0 <= ni_total (res_national_insurance res)
    /\ 0 <= res_total_tax_and_ni res.
Proof.
  unfold calculate_income_tax, taxable_after_allowance_of.
  change (tax_bands "2023-24") with (Some bands_2023_24). cbv iota beta zeta.
  set (t := py_max 0 (py_max 0 (total_income_of d - total_deductions_of d)
                      - personal_allowance_of bands_2023_24 (total_income_of d))).
  assert (T0 : 0 <= t) by apply py_max_0_nonneg.
  destruct (dividend_tax_nonneg (get0 (dividends d)) (t - get0 (dividends d)))
    as (dt & -> & D0).
  destruct (national_insurance_nonneg (get0 (self_employment_income d)))
    as (nr & -> & _ & _ & N0 & _).
  destruct (personal_allowance_taper (total_income_of d)) as (P0 & P1 & _).
  destruct (split_bands_partition t T0) as (B0 & B1 & H0 & H1 & A0 & S & F1 & F2).
  set (s := split_bands bands_2023_24 t) in *.
  eexists. split; [reflexivity |].
  cbn [res_personal_allowance res_taxable_after_allowance res_basic_amount
       res_higher_amount res_additional_amount res_income_tax res_dividend_tax
       res_total_income_tax res_national_insurance res_total_tax_and_ni
       bands_2023_24 basic_rate higher_rate additional_rate].
  assert (R1 : py_round2 12570 == 12570) by reflexivity.
  assert (R2 : py_round2 37700 == 37700) by reflexivity.
  assert (R3 : py_round2 74870 == 74870) by reflexivity.
  split.
  { split; [exact S |]. split; [exact F1 |]. split; [exact F2 |].
    split; [reflexivity |]. split; reflexivity. }
  split; [apply py_round2_nonneg; exact P0 |].
  split; [rewrite <- R1; apply py_round2_monotone; exact P1 |].
  split; [apply py_round2_nonneg; exact T0 |].
  split; [apply py_round2_nonneg; exact B0 |].
  split; [rewrite <- R2; apply py_round2_monotone; exact B1 |].
  split; [apply py_round2_nonneg; exact H0 |].
  split; [rewrite <- R3; apply py_round2_monotone; exact H1 |].
  split; [apply py_round2_nonneg; exact A0 |].
  split; [apply py_round2_nonneg; lra |].
  split; [apply py_round2_nonneg; exact D0 |].
  split; [apply py_round2_nonneg; lra |].
  split; [exact N0 |].
  apply py_round2_nonneg; lra.
Qed.

End IncomeTaxAmounts.

(** ** Corporation tax on the transactions of the manager *)

(** The dicts without the key ["entries"] add nothing to the totals of
    [calculate_corporation_tax]. *)
Lemma aggregate_without_entries (w : world) (l : list tdict) :
  Forall (fun d => t_entries d = None) l ->
  CorporateTaxCalculator.aggregate w l = CorporateTaxCalculator.mk_totals 0 0 0 0.
Proof.
  unfold CorporateTaxCalculator.aggregate.
  generalize (CorporateTaxCalculator.mk_totals 0 0 0 0).
  induction l as [| d tl IH]; intros acc F; [reflexivity |].
  apply Forall_cons_iff in F. destruct F as [Fd Ft].
  cbn [fold_left]. rewrite Fd. cbn [fold_left]. now apply IH.
Qed.

Lemma filter_transactions_stored (start_date end_date : string) (w : world)
      (P : tdict -> Prop) :
  Forall P (log w) -> Forall P (Database.filter_transactions start_date end_date w).
Proof.
  intro F. unfold Database.filter_transactions. fold (log w). cbv zeta.
  assert (G : forall (p : tdict -> bool) (l : list tdict),
             Forall P l -> Forall P (filter p l)).
  { intros p l Fl. apply Forall_forall. intros x Hx. apply filter_In in Hx.
    destruct Hx as [Hx _]. revert x Hx. now apply Forall_forall. }
  destruct (str_is_empty start_date), (str_is_empty end_date); auto.
Qed.

Section FlatBooks.

Variable today : string.
Variable strptime : string -> option Z.
Variables year_of month_of day_of : Z -> Z.

(** The store after [add_transaction] has been called on each object of
    a list, in order. *)
Definition add_each (posted : list Transaction.t) (w : world) : world :=
  fold_left (fun w x => fst (TransactionManager.add_transaction today x w)) posted w.

Lemma add_each_log (posted : list Transaction.t) :
  forall w : world,
    wf w ->
    log (add_each posted w) = log w ++ map Transaction.to_dict (filter valid posted)
    /\ chart_of_accounts (add_each posted w) = chart_of_accounts w.
Proof.
  induction posted as [| x tl IH]; intros w Hwf.
  - cbn. now rewrite app_nil_r.
  - destruct (add_transaction_log today x w Hwf) as (W & C & L).
    change (add_each (x :: tl) w)
      with (add_each tl (fst (TransactionManager.add_transaction today x w))).
    destruct (IH _ W) as [L' C']. rewrite L', C', L, C. split; [| reflexivity].
    rewrite <- app_assoc, <- map_app. f_equal. f_equal.
    cbn [filter]. destruct (valid x); reflexivity.
Qed.

(** Whatever has been stored through [TransactionManager.add_transaction]
    in a store that was empty, [calculate_corporation_tax] reports no
    income, no expense, no profit and no tax for any period of 2023-24:
    the calculator adds up the ["entries"] of the stored dicts, and the
    dicts that [Transaction.to_dict] writes have none.  The objects that
    [Transaction.validate] accepts are all in the store. *)
Theorem manager_transactions_carry_no_corporation_tax
        (posted : list Transaction.t) (chart : list adict)
        (accounting_period_start accounting_period_end : string) (s e : Z)
        (Hs : strptime accounting_period_start = Some s)
        (He : strptime accounting_period_end = Some e) :
  let w := add_each posted (mk_world [] [] chart) in
  log w = map Transaction.to_dict (filter valid posted)
  /\ exists res,
       CorporateTaxCalculator.calculate_corporation_tax
         strptime year_of month_of day_of
         accounting_period_start accounting_period_end (Some "2023-24"%string) w
       = Return res
       /\ CorporateTaxCalculator.res_total_income res == 0
       /\ CorporateTaxCalculator.res_total_expenses res == 0
       /\ CorporateTaxCalculator.res_taxable_profit res == 0
       /\ CorporateTaxCalculator.res_tax_due res == 0
       /\ CorporateTaxCalculator.res_effective_rate res == 0.
Proof.
  intro w.
  assert (W0 : wf (mk_world [] [] chart)) by constructor.
  destruct (add_each_log posted _ W0) as [L _]. fold w in L.
  change (log (mk_world [] [] chart)) with (@nil tdict) in L. cbn [app] in L.
  split; [exact L |].
  assert (F : Forall (fun d => t_entries d = None) (log w)).
  { rewrite L. apply Forall_forall. intros d Hd. apply in_map_iff in Hd.
    destruct Hd as (x & <- & _). reflexivity. }
  apply (filter_transactions_stored accounting_period_start accounting_period_end) in F.
  apply (aggregate_without_entries w) in F.
  unfold CorporateTaxCalculator.calculate_corporation_tax.
  rewrite Hs, He. cbn [str_is_empty].
  change (CorporateTaxCalculator.tax_rates "2023-24")
    with (Some CorporateTaxCalculator.rates_2023_24).
  cbv iota beta zeta. rewrite F.
  eexists. split; [reflexivity |].
  cbn [CorporateTaxCalculator.res_total_income CorporateTaxCalculator.res_total_expenses
       CorporateTaxCalculator.res_taxable_profit CorporateTaxCalculator.res_tax_due
       CorporateTaxCalculator.res_effective_rate
       CorporateTaxCalculator.trading_income CorporateTaxCalculator.trading_expenses
       CorporateTaxCalculator.non_trading_income
       CorporateTaxCalculator.non_trading_expenses].
  repeat split; vm_compute; reflexivity.
Qed.

End FlatBooks.

(** A sale of 50000 credited to the income account 4000. *)
Definition sale_50000 : Transaction.t :=
  Transaction.mk (IdInt 1) "2024-01-15" "Sales" "4000" 0 50000 0
    "INV-1" "unreconciled" "invoice" "".

Lemma manager_transactions_carry_no_corporation_tax_witness :
  let w := add_each "2024-01-15" [sale_50000] (mk_world [] [] Ledger.default_accounts) in
  List.length (log w) = 1%nat
  /\ exists res,
       CorporateTaxCalculator.calculate_corporation_tax
         sample_strptime (fun _ => 0%Z) (fun _ => 0%Z) (fun _ => 0%Z)
         "2024-01-01" "2024-03-31" (Some "2023-24"%string) w
       = Return res
       /\ CorporateTaxCalculator.res_taxable_profit res == 0
       /\ CorporateTaxCalculator.res_tax_due res == 0.
Proof.
  cbv zeta.
  destruct (manager_transactions_carry_no_corporation_tax
              "2024-01-15" sample_strptime (fun _ => 0%Z) (fun _ => 0%Z) (fun _ => 0%Z)
              [sale_50000] Ledger.default_accounts "2024-01-01" "2024-03-31"
              738886%Z 738976%Z eq_refl eq_refl)
    as (L & res & E & _ & _ & P & T & _).
  split; [rewrite L; reflexivity |].
  exists res. split; [exact E |]. split; [exact P | exact T].
Defined.

(** ** An invoice and its payment, through the invoice manager *)

Lemma counted_app (account_code today : string) (l1 l2 : list tdict) :
  fold_right (fun d s => counted account_code today d + s) 0 (l1 ++ l2)
  == fold_right (fun d s => counted account_code today d + s) 0 l1
     + fold_right (fun d s => counted account_code today d + s) 0 l2.
Proof.
  induction l1 as [| d tl IH]; cbn [app fold_right]; [lra | rewrite IH; lra].
Qed.

(** What a transaction moves on an account. *)
Definition moves (account_code : string) (x : Transaction.t) : Q :=
  if String.eqb (Transaction.account x) account_code
  then Transaction.debit x - Transaction.credit x else 0.

Section InvoicePayment.

Variable today : string.

(** One call of [add_transaction] on a dated transaction with an account,
    amounts in whole pence and one side at zero: the balance that the
    manager computes for an account moves by the debit less the credit
    when the transaction is on that account, and not otherwise. *)
Lemma balance_after_add (account_code : string) (x : Transaction.t) (w : world) :
  wf w ->
  Transaction.date x <> EmptyString ->
  Transaction.account x <> EmptyString ->
  whole_pence (Transaction.debit x) -> whole_pence (Transaction.credit x) ->
  Transaction.debit x == 0 \/ Transaction.credit x == 0 ->
  let w' := fst (TransactionManager.add_transaction today x w) in
  wf w'
  /\ TransactionManager.get_account_balance today account_code w'
     == TransactionManager.get_account_balance today account_code w
        + moves account_code x.
Proof.
  intros Hwf Hd Ha Wd Wc Hz w'.
  destruct (add_transaction_log today x w Hwf) as (W & _ & L). fold w' in W, L.
  split; [exact W |].
  rewrite !get_account_balance_counted, L, counted_app.
  apply Qplus_inj_l. cbn [filter]. unfold valid, Transaction.validate, Transaction.is_empty.
  destruct (Transaction.date x) eqn:Ed; [contradiction |].
  destruct (Transaction.account x) eqn:Ea; [contradiction |].
  cbn [str_is_empty].
  assert (P : Qpos_b (Transaction.debit x) && Qpos_b (Transaction.credit x) = false).
  { destruct Hz as [Hz | Hz]; rewrite (Qpos_b_proper _ _ Hz);
      [reflexivity | now rewrite andb_false_r]. }
  rewrite P.
  destruct (Qzero_b (Transaction.debit x) && Qzero_b (Transaction.credit x)) eqn:Z.
  - apply andb_true_iff in Z. destruct Z as [Z1 Z2].
    apply Qzero_b_true in Z1, Z2. cbn [fst map fold_right].
    unfold moves. rewrite Ea. destruct (String.eqb _ account_code); lra.
  - cbn [fst map fold_right]. unfold counted, moves.
    unfold Transaction.from_dict, Transaction.to_dict, Transaction.init,
      Transaction.or_default.
    cbn [t_account t_debit t_credit Transaction.account Transaction.debit
         Transaction.credit].
    rewrite Ea. destruct (String.eqb _ account_code); [| lra].
    rewrite (quantize2_whole_pence _ Wd), (quantize2_whole_pence _ Wc). lra.
Qed.

(** The same for a [Transaction] that has just been built. *)
Lemma balance_after_new (account_code uuid : string) (date : option string)
      (description account : string) (debit credit vat : Q)
      (document_number status transaction_type notes : string) (w : world) :
  wf w ->
  match date with Some d => d | None => today end <> EmptyString ->
  account <> EmptyString ->
  whole_pence debit -> whole_pence credit -> debit == 0 \/ credit == 0 ->
  let x := Transaction.init uuid today None date description account debit credit vat
             document_number status transaction_type notes in
  let w' := fst (TransactionManager.add_transaction today x w) in
  wf w'
  /\ TransactionManager.get_account_balance today account_code w'
     == TransactionManager.get_account_balance today account_code w
        + (if String.eqb account account_code then debit - credit else 0).
Proof.
  intros Hwf Hd Ha Wd Wc Hz x w'.
  assert (Dx : Transaction.debit x == debit) by apply (quantize2_whole_pence _ Wd).
  assert (Cx : Transaction.credit x == credit) by apply (quantize2_whole_pence _ Wc).
  destruct (balance_after_add account_code x w Hwf) as [W B]; try assumption.
  - apply whole_pence_quantize2.
  - apply whole_pence_quantize2.
  - destruct Hz as [Hz | Hz]; [left; now rewrite Dx | right; now rewrite Cx].
  - split; [exact W |]. unfold w'. rewrite B. unfold moves.
    change (Transaction.account x) with account.
    destruct (String.eqb account account_code); [rewrite Dx, Cx |]; reflexivity.
Qed.

(** [x] when the posting is on the account looked at, [0] otherwise. *)
Definition on (account account_code : string) (x : Q) : Q :=
  if String.eqb account account_code then x else 0.

Local Abbreviation balance := (TransactionManager.get_account_balance today).

Ltac post_new G a u d w Hwf Hd Wd Wc Hz :=
  match goal with
  | |- context [TransactionManager.add_transaction today
                  (Transaction.init u today None d ?desc ?acc ?deb ?cre ?vat
                     ?doc ?st ?ty ?notes) w] =>
      assert (G := balance_after_new a u d desc acc deb cre vat doc st ty notes
                     w Hwf Hd ltac:(discriminate) Wd Wc Hz);
      cbv zeta in G
  end.

(** The postings of a sales invoice, account by account. *)
Lemma sales_postings (a u1 u2 u3 : string) (invoice : Invoice.t) (w : world) :
  wf w ->
  Invoice.type invoice = "sales"%string ->
  Invoice.date invoice <> EmptyString ->
  whole_pence (Invoice.net_amount invoice) ->
  whole_pence (Invoice.vat_amount invoice) ->
  whole_pence (Invoice.total_amount invoice) ->
  0 <= Invoice.vat_amount invoice ->
  let w' := fst (InvoiceManager._create_invoice_transactions today u1 u2 u3 invoice w) in
  wf w'
  /\ balance a w'
     == balance a w + on "1200" a (Invoice.total_amount invoice)
        - on "4000" a (Invoice.net_amount invoice)
        - on "2100" a (Invoice.vat_amount invoice).
Proof.
  intros Hwf Ty Hd Wn Wv Wt Hv. cbv zeta.
  unfold InvoiceManager._create_invoice_transactions, InvoiceManager.leg, on.
  rewrite Ty. change (String.eqb "sales" "sales") with true. cbv iota.
  post_new G1 a u1 (Some (Invoice.date invoice)) w Hwf Hd Wt whole_pence_0
           (@or_intror (Invoice.total_amount invoice == 0) _ (Qeq_refl 0)).
  destruct (TransactionManager.add_transaction today _ w) as [w1 r1].
  cbn [fst] in G1. destruct G1 as [W1 B1].
  post_new G2 a u2 (Some (Invoice.date invoice)) w1 W1 Hd whole_pence_0 Wn
           (@or_introl _ (Invoice.net_amount invoice == 0) (Qeq_refl 0)).
  destruct (TransactionManager.add_transaction today _ w1) as [w2 r2].
  cbn [fst] in G2. destruct G2 as [W2 B2].
  destruct (Qpos_b (Invoice.vat_amount invoice)) eqn:V.
  - post_new G3 a u3 (Some (Invoice.date invoice)) w2 W2 Hd whole_pence_0 Wv
             (@or_introl _ (Invoice.vat_amount invoice == 0) (Qeq_refl 0)).
    destruct (TransactionManager.add_transaction today _ w2) as [w3 r3].
    cbn [fst] in *. destruct G3 as [W3 B3].
    split; [exact W3 |]. rewrite B3, B2, B1.
    destruct (String.eqb "1200" a), (String.eqb "4000" a), (String.eqb "2100" a); lra.
  - cbn [fst]. apply Qpos_b_false in V.
    split; [exact W2 |]. rewrite B2, B1.
    destruct (String.eqb "1200" a), (String.eqb "4000" a), (String.eqb "2100" a); lra.
Qed.

(** The postings of a purchase invoice, account by account. *)
Lemma purchase_postings (a u1 u2 u3 : string) (invoice : Invoice.t) (w : world) :
  wf w ->
  Invoice.type invoice = "purchase"%string ->
  Invoice.date invoice <> EmptyString ->
  whole_pence (Invoice.net_amount invoice) ->
  whole_pence (Invoice.vat_amount invoice) ->
  whole_pence (Invoice.total_amount invoice) ->
  0 <= Invoice.vat_amount invoice ->
  let w' := fst (InvoiceManager._create_invoice_transactions today u1 u2 u3 invoice w) in
  wf w'
  /\ balance a w'
     == balance a w + on "5000" a (Invoice.net_amount invoice)
        + on "2200" a (Invoice.vat_amount invoice)
        - on "2000" a (Invoice.total_amount invoice).
Proof.
  intros Hwf Ty Hd Wn Wv Wt Hv. cbv zeta.
  unfold InvoiceManager._create_invoice_transactions, InvoiceManager.leg, on.
  rewrite Ty. change (String.eqb "purchase" "sales") with false.
  change (String.eqb "purchase" "purchase") with true. cbv iota.
  post_new G1 a u1 (Some (Invoice.date invoice)) w Hwf Hd Wn whole_pence_0
           (@or_intror (Invoice.net_amount invoice == 0) _ (Qeq_refl 0)).
  destruct (TransactionManager.add_transaction today _ w) as [w1 r1].
  cbn [fst] in G1. destruct G1 as [W1 B1].
  assert (G2 : wf (if Qpos_b (Invoice.vat_amount invoice)
                   then fst (TransactionManager.add_transaction today
                               (Transaction.init u2 today None
                                  (Some (Invoice.date invoice))
                                  ("Alış Faturası" ++ " - " ++ Invoice.entity_name invoice)
                                  "2200" (Invoice.vat_amount invoice) 0
                                  (Invoice.vat_amount invoice)
                                  (Invoice.invoice_number invoice) "unreconciled"
                                  "invoice" (Invoice.notes invoice)) w1)
                   else w1)
               /\ TransactionManager.get_account_balance today a
                    (if Qpos_b (Invoice.vat_amount invoice)
                     then fst (TransactionManager.add_transaction today
                                 (Transaction.init u2 today None
                                    (Some (Invoice.date invoice))
                                    ("Alış Faturası" ++ " - " ++ Invoice.entity_name invoice)
                                    "2200" (Invoice.vat_amount invoice) 0
                                    (Invoice.vat_amount invoice)
                                    (Invoice.invoice_number invoice) "unreconciled"
                                    "invoice" (Invoice.notes invoice)) w1)
                     else w1)
                  == TransactionManager.get_account_balance today a w1
                     + (if String.eqb "2200" a then Invoice.vat_amount invoice else 0)).
  { destruct (Qpos_b (Invoice.vat_amount invoice)) eqn:V.
    - destruct (balance_after_new a u2 (Some (Invoice.date invoice))
                  ("Alış Faturası" ++ " - " ++ Invoice.entity_name invoice) "2200"
                  (Invoice.vat_amount invoice) 0 (Invoice.vat_amount invoice)
                  (Invoice.invoice_number invoice) "unreconciled" "invoice"
                  (Invoice.notes invoice) w1 W1 Hd ltac:(discriminate) Wv whole_pence_0
                  (@or_intror (Invoice.vat_amount invoice == 0) _ (Qeq_refl 0)))
        as [W B].
      split; [exact W |]. rewrite B. destruct (String.eqb "2200" a); lra.
    - apply Qpos_b_false in V. split; [exact W1 |].
      destruct (String.eqb "2200" a); lra. }
  set (w2 := if Qpos_b (Invoice.vat_amount invoice) then _ else w1) in *.
  destruct G2 as [W2 B2].
  post_new G3 a u3 (Some (Invoice.date invoice)) w2 W2 Hd whole_pence_0 Wt
           (@or_introl _ (Invoice.total_amount invoice == 0) (Qeq_refl 0)).
  destruct (TransactionManager.add_transaction today _ w2) as [w3 r3].
  cbn [fst] in *. destruct G3 as [W3 B3].
  split; [exact W3 |]. rewrite B3, B2, B1.
  destruct (String.eqb "5000" a), (String.eqb "2200" a), (String.eqb "2000" a); lra.
Qed.

(** The postings of a payment, account by account. *)
Lemma payment_postings (a u1 u2 : string) (payment_date : option string)
      (invoice : Invoice.t) (w : world) :
  wf w ->
  match payment_date with Some d => d | None => today end <> EmptyString ->
  whole_pence (Invoice.total_amount invoice) ->
  let w' := fst (InvoiceManager._create_payment_transactions today u1 u2 payment_date
                   invoice w) in
  wf w'
  /\ (Invoice.type invoice = "sales"%string ->
      balance a w'
      == balance a w + on "1100" a (Invoice.total_amount invoice)
         - on "1200" a (Invoice.total_amount invoice))
  /\ (Invoice.type invoice = "purchase"%string ->
      balance a w'
      == balance a w + on "2000" a (Invoice.total_amount invoice)
         - on "1100" a (Invoice.total_amount invoice)).
Proof.
  intros Hwf Hd Wt. cbv zeta.
  unfold InvoiceManager._create_payment_transactions, InvoiceManager.payment_leg, on.
  destruct (String.eqb (Invoice.type invoice) "sales") eqn:Es;
    [| destruct (String.eqb (Invoice.type invoice) "purchase") eqn:Ep].
  - post_new G1 a u1 payment_date w Hwf Hd Wt whole_pence_0
             (@or_intror (Invoice.total_amount invoice == 0) _ (Qeq_refl 0)).
    destruct (TransactionManager.add_transaction today _ w) as [w1 r1].
    cbn [fst] in G1. destruct G1 as [W1 B1].
    post_new G2 a u2 payment_date w1 W1 Hd whole_pence_0 Wt
             (@or_introl _ (Invoice.total_amount invoice == 0) (Qeq_refl 0)).
    destruct (TransactionManager.add_transaction today _ w1) as [w2 r2].
    cbn [fst] in *. destruct G2 as [W2 B2].
    apply String.eqb_eq in Es.
    split; [exact W2 |]. split; intro Ty; [| rewrite Ty in Es; discriminate].
    rewrite B2, B1. destruct (String.eqb "1100" a), (String.eqb "1200" a); lra.
  - post_new G1 a u1 payment_date w Hwf Hd Wt whole_pence_0
             (@or_intror (Invoice.total_amount invoice == 0) _ (Qeq_refl 0)).
    destruct (TransactionManager.add_transaction today _ w) as [w1 r1].
    cbn [fst] in G1. destruct G1 as [W1 B1].
    post_new G2 a u2 payment_date w1 W1 Hd whole_pence_0 Wt
             (@or_introl _ (Invoice.total_amount invoice == 0) (Qeq_refl 0)).
    destruct (TransactionManager.add_transaction today _ w1) as [w2 r2].
    cbn [fst] in *. destruct G2 as [W2 B2].
    apply String.eqb_eq in Ep.
    split; [exact W2 |]. split; intro Ty; [rewrite Ty in Es; discriminate |].
    rewrite B2, B1. destruct (String.eqb "2000" a), (String.eqb "1100" a); lra.
  - cbn [fst]. split; [exact Hwf |].
    split; intro Ty; rewrite Ty in *; discriminate.
Qed.

(** An invoice posted by [_create_invoice_transactions] and then paid by
    [_create_payment_transactions], with dates that are not empty,
    amounts in whole pence and a VAT amount that is not negative.  For a
    sales invoice the balance that the manager computes for the
    receivable account 1200 first goes up by the total and is then back
    where it was, the bank account 1100 is up by the total, and the
    income account 4000 and the VAT account 2100 are down by the net and
    the VAT amounts.  For a purchase invoice the payable account 2000
    first goes down by the total and is then back where it was, the bank
    account is down by the total, and the accounts 5000 and 2200 are up
    by the net and the VAT amounts. *)
Theorem payment_clears_the_invoice
        (u1 u2 u3 p1 p2 : string) (payment_date : option string)
        (invoice : Invoice.t) (w : world)
        (Hwf : wf w)
        (Hd : Invoice.date invoice <> EmptyString)
        (Hp : match payment_date with Some d => d | None => today end <> EmptyString)
        (Wn : whole_pence (Invoice.net_amount invoice))
        (Wv : whole_pence (Invoice.vat_amount invoice))
        (Wt : whole_pence (Invoice.total_amount invoice))
        (Hv : 0 <= Invoice.vat_amount invoice) :
  let w1 := fst (InvoiceManager._create_invoice_transactions today u1 u2 u3 invoice w) in
  let w2 := fst (InvoiceManager._create_payment_transactions today p1 p2 payment_date
                   invoice w1) in
  (Invoice.type invoice = "sales"%string ->
   balance "1200" w1 == balance "1200" w + Invoice.total_amount invoice
   /\ balance "1200" w2 == balance "1200" w
   /\ balance "1100" w2 == balance "1100" w + Invoice.total_amount invoice
   /\ balance "4000" w2 == balance "4000" w - Invoice.net_amount invoice
   /\ balance "2100" w2 == balance "2100" w - Invoice.vat_amount invoice)
  /\ (Invoice.type invoice = "purchase"%string ->
      balance "2000" w1 == balance "2000" w - Invoice.total_amount invoice
      /\ balance "2000" w2 == balance "2000" w
      /\ balance "1100" w2 == balance "1100" w - Invoice.total_amount invoice
      /\ balance "5000" w2 == balance "5000" w + Invoice.net_amount invoice
      /\ balance "2200" w2 == balance "2200" w + Invoice.vat_amount invoice).
Proof.
  intros w1 w2. split; intro Ty.
  - assert (S := fun a => sales_postings a u1 u2 u3 invoice w Hwf Ty Hd Wn Wv Wt Hv).
    cbv zeta in S. fold w1 in S.
    assert (P := fun a => payment_postings a p1 p2 payment_date invoice w1
                            (proj1 (S a)) Hp Wt).
    cbv zeta in P. fold w2 in P.
    assert (B1 := fun a => proj2 (S a)).
    assert (B2 := fun a => proj1 (proj2 (P a)) Ty).
    split; [rewrite (B1 "1200"%string); unfold on; cbn; lra |].
    repeat split.
    + rewrite (B2 "1200"%string), (B1 "1200"%string). unfold on. cbn. lra.
    + rewrite (B2 "1100"%string), (B1 "1100"%string). unfold on. cbn. lra.
    + rewrite (B2 "4000"%string), (B1 "4000"%string). unfold on. cbn. lra.
    + rewrite (B2 "2100"%string), (B1 "2100"%string). unfold on. cbn. lra.
  - assert (S := fun a => purchase_postings a u1 u2 u3 invoice w Hwf Ty Hd Wn Wv Wt Hv).
    cbv zeta in S. fold w1 in S.
    assert (P := fun a => payment_postings a p1 p2 payment_date invoice w1
                            (proj1 (S a)) Hp Wt).
    cbv zeta in P. fold w2 in P.
    assert (B1 := fun a => proj2 (S a)).
    assert (B2 := fun a => proj2 (proj2 (P a)) Ty).
    split; [rewrite (B1 "2000"%string); unfold on; cbn; lra |].
    repeat split.
    + rewrite (B2 "2000"%string), (B1 "2000"%string). unfold on. cbn. lra.
    + rewrite (B2 "1100"%string), (B1 "1100"%string). unfold on. cbn. lra.
    + rewrite (B2 "5000"%string), (B1 "5000"%string). unfold on. cbn. lra.
    + rewrite (B2 "2200"%string), (B1 "2200"%string). unfold on. cbn. lra.
Qed.

End InvoicePayment.

Lemma payment_clears_the_invoice_witness :
  let w1 := fst (InvoiceManager._create_invoice_transactions "2024-01-15"
                   "u-1" "u-2" "u-3" sample_invoice Ledger.fresh_ledger) in
  let w2 := fst (InvoiceManager._create_payment_transactions "2024-01-15"
                   "p-1" "p-2" (Some "2024-02-01"%string) sample_invoice w1) in
  TransactionManager.get_account_balance "2024-01-15" "1200" w1 == 120
  /\ TransactionManager.get_account_balance "2024-01-15" "1200" w2 == 0
  /\ TransactionManager.get_account_balance "2024-01-15" "1100" w2 == 120.
Proof.
  cbv zeta.
  destruct (payment_clears_the_invoice "2024-01-15" "u-1" "u-2" "u-3" "p-1" "p-2"
              (Some "2024-02-01"%string) sample_invoice Ledger.fresh_ledger
              ltac:(constructor) ltac:(discriminate) ltac:(discriminate)
              ltac:(exists 10000%Z; vm_compute; reflexivity)
              ltac:(exists 2000%Z; vm_compute; reflexivity)
              ltac:(exists 12000%Z; vm_compute; reflexivity)
              ltac:(vm_compute; discriminate)) as [S _].
  destruct (S eq_refl) as (A & B & C & _).
  split; [eapply Qeq_trans; [apply A | vm_compute; reflexivity] |].
  split; [eapply Qeq_trans; [apply B | vm_compute; reflexivity] |].
  eapply Qeq_trans; [apply C | vm_compute; reflexivity].
Defined.

(** ** The trial balance of the store *)

Section TrialBalance.

Import Database.

(** The debit entries, and the other entries, on one account code. *)
Definition debit_on (code : string) (es : list entry) : Q :=
  Qsum (map amount_of
            (filter (fun e => match e_account_code e with
                              | Some c => String.eqb c code && is_debit e
                              | None => false
                              end) es)).

Definition credit_on (code : string) (es : list entry) : Q :=
  Qsum (map amount_of
            (filter (fun e => match e_account_code e with
                              | Some c => String.eqb c code && negb (is_debit e)
                              | None => false
                              end) es)).

Definition keys (d : list (string * tb_row)) : list string := map fst d.

Lemma dict_has_keys (k : string) (d : list (string * tb_row)) :
  dict_has k d = true <-> In k (keys d).
Proof.
  unfold dict_has, keys. rewrite existsb_exists. split.
  - intros [[k' v] [H E]]. apply String.eqb_eq in E. cbn in E. subst k'.
    apply in_map_iff. now exists (k, v).
  - intro H. apply in_map_iff in H. destruct H as [[k' v] [E H]]. cbn in E. subst k'.
    exists (k, v). split; [exact H | apply String.eqb_refl].
Qed.

Lemma dict_set_keys (k : string) (r : tb_row) (d : list (string * tb_row)) :
  NoDup (keys d) ->
  NoDup (keys (dict_set k r d))
  /\ (forall c, In c (keys (dict_set k r d)) <-> c = k \/ In c (keys d)).
Proof.
  unfold keys. induction d as [| [k' v] tl IH]; intro N; cbn [dict_set map fst].
  - split; [repeat constructor; intros [] |]. intro c. cbn. intuition.
  - apply NoDup_cons_iff in N. destruct N as [Nk Nt].
    destruct (String.eqb k' k) eqn:E.
    + apply String.eqb_eq in E. subst k'. cbn [map fst].
      split; [now constructor |]. intro c. cbn. intuition.
    + apply String.eqb_neq in E. destruct (IH Nt) as [N' I']. cbn [map fst].
      split.
      * constructor; [| exact N']. rewrite I'. intros [H | H]; [congruence | contradiction].
      * intro c. cbn. rewrite I'. intuition.
Qed.

Lemma dict_update_keys (k : string) (f : tb_row -> tb_row) (d : list (string * tb_row)) :
  keys (dict_update k f d) = keys d.
Proof.
  unfold keys. induction d as [| [k' v] tl IH]; [reflexivity |].
  cbn [dict_update]. destruct (String.eqb k' k); cbn [map fst]; [reflexivity |].
  now rewrite IH.
Qed.

(** A row of the dict is right for the entries seen so far. *)
Definition row_ok (es : list entry) (kv : string * tb_row) : Prop :=
  tb_code (snd kv) = fst kv
  /\ tb_debit_total (snd kv) == debit_on (fst kv) es
  /\ tb_credit_total (snd kv) == credit_on (fst kv) es.

Lemma debit_on_snoc (code : string) (es : list entry) (e : entry) :
  debit_on code (es ++ [e])
  == debit_on code es
     + (match e_account_code e with
        | Some c => if String.eqb c code && is_debit e then amount_of e else 0
        | None => 0
        end).
Proof.
  unfold debit_on. rewrite filter_app, map_app, Qsum_app. apply Qplus_inj_l.
  cbn [filter]. destruct (e_account_code e) as [c |]; [| reflexivity].
  destruct (String.eqb c code && is_debit e); [| reflexivity].
  cbn [map]. rewrite Qsum_cons. unfold Qsum. cbn. lra.
Qed.

Lemma credit_on_snoc (code : string) (es : list entry) (e : entry) :
  credit_on code (es ++ [e])
  == credit_on code es
     + (match e_account_code e with
        | Some c => if String.eqb c code && negb (is_debit e) then amount_of e else 0
        | None => 0
        end).
Proof.
  unfold credit_on. rewrite filter_app, map_app, Qsum_app. apply Qplus_inj_l.
  cbn [filter]. destruct (e_account_code e) as [c |]; [| reflexivity].
  destruct (String.eqb c code && negb (is_debit e)); [| reflexivity].
  cbn [map]. rewrite Qsum_cons. unfold Qsum. cbn. lra.
Qed.

(** An entry on another account leaves a row right. *)
Lemma row_ok_other (es : list entry) (e : entry) (kv : string * tb_row) :
  e_account_code e <> Some (fst kv) -> row_ok es kv -> row_ok (es ++ [e]) kv.
Proof.
  intros Hne (C & D & K). unfold row_ok.
  rewrite debit_on_snoc, credit_on_snoc.
  destruct (e_account_code e) as [c |].
  - assert (E : String.eqb c (fst kv) = false)
      by (apply String.eqb_neq; congruence).
    rewrite E. cbn [andb]. repeat split; [exact C | lra | lra].
  - repeat split; [exact C | lra | lra].
Qed.

Lemma rows_ok_other (es : list entry) (e : entry) (d : list (string * tb_row)) :
  (forall c, e_account_code e = Some c -> ~ In c (keys d)) ->
  Forall (row_ok es) d -> Forall (row_ok (es ++ [e])) d.
Proof.
  intros Hn F. apply Forall_forall. intros kv Hkv.
  apply row_ok_other; [| revert kv Hkv; now apply Forall_forall].
  intro E. apply (Hn _ E). unfold keys. now apply in_map.
Qed.

(** One step of the inner loop keeps every row right. *)
Lemma trial_balance_step_ok (es : list entry) (e : entry) (d : list (string * tb_row)) :
  NoDup (keys d) -> Forall (row_ok es) d ->
  keys (trial_balance_step d e) = keys d
  /\ Forall (row_ok (es ++ [e])) (trial_balance_step d e).
Proof.
  intros N F. unfold trial_balance_step.
  destruct (e_account_code e) as [c |] eqn:Ec;
    [| split; [reflexivity | apply rows_ok_other; [intros c' H; congruence | exact F]]].
  destruct (dict_has c d) eqn:Hc.
  - assert (U : forall f : tb_row -> tb_row,
               (forall r, tb_code (f r) = tb_code r) ->
               (forall r, tb_debit_total (f r)
                          == tb_debit_total r + (if is_debit e then amount_of e else 0)) ->
               (forall r, tb_credit_total (f r)
                          == tb_credit_total r + (if is_debit e then 0 else amount_of e)) ->
               Forall (row_ok (es ++ [e])) (dict_update c f d)).
    { intros f Fc Fd Fk. clear Hc.
      induction d as [| [k v] tl IH]; [constructor |].
      apply Forall_cons_iff in F. destruct F as [Fh Ft].
      unfold keys in N. cbn [map fst] in N.
      apply NoDup_cons_iff in N. destruct N as [Nk Nt].
      cbn [dict_update]. destruct (String.eqb k c) eqn:E.
      - apply String.eqb_eq in E. subst k. constructor.
        + destruct Fh as (C & D & K). cbn [fst snd] in *. unfold row_ok. cbn [fst snd].
          rewrite Fc, Fd, Fk, debit_on_snoc, credit_on_snoc, Ec, String.eqb_refl, D, K.
          cbn [andb]. split; [exact C |]. destruct (is_debit e); cbn [negb]; split; lra.
        + apply rows_ok_other; [| exact Ft].
          intros c' H. rewrite Ec in H. injection H as <-. exact Nk.
      - constructor; [| now apply IH].
        apply row_ok_other; [| exact Fh]. cbn [fst]. rewrite Ec.
        apply String.eqb_neq in E. congruence. }
    destruct (is_debit e) eqn:Db.
    + split; [apply dict_update_keys |].
      apply U; intro r; cbn; [reflexivity | reflexivity | lra].
    + split; [apply dict_update_keys |].
      apply U; intro r; cbn; [reflexivity | lra | reflexivity].
  - split; [reflexivity |]. apply rows_ok_other; [| exact F].
    intros c' H. rewrite Ec in H. injection H as <-. intro I.
    apply dict_has_keys in I. congruence.
Qed.

Lemma trial_balance_entries_ok (new : list entry) :
  forall (es : list entry) (d : list (string * tb_row)),
    NoDup (keys d) -> Forall (row_ok es) d ->
    keys (fold_left trial_balance_step new d) = keys d
    /\ Forall (row_ok (es ++ new)) (fold_left trial_balance_step new d).
Proof.
  induction new as [| e tl IH]; intros es d N F; cbn [fold_left].
  - rewrite app_nil_r. now split.
  - destruct (trial_balance_step_ok es e d N F) as [K F'].
    destruct (IH (es ++ [e]) (trial_balance_step d e)) as [K' F''];
      [now rewrite K | exact F' |].
    rewrite <- app_assoc in F''. split; [now rewrite K', K | exact F''].
Qed.

Lemma trial_balance_transactions_ok (ts : list tdict) :
  forall (es : list entry) (d : list (string * tb_row)),
    NoDup (keys d) -> Forall (row_ok es) d ->
    let d' := fold_left
                (fun d0 transaction =>
                   fold_left trial_balance_step (entries_of transaction) d0) ts d in
    keys d' = keys d /\ Forall (row_ok (es ++ flat_map entries_of ts)) d'.
Proof.
  induction ts as [| t tl IH]; intros es d N F; cbn [fold_left flat_map].
  - rewrite app_nil_r. now split.
  - destruct (trial_balance_entries_ok (entries_of t) es d N F) as [K F'].
    destruct (IH (es ++ entries_of t) (fold_left trial_balance_step (entries_of t) d))
      as [K' F'']; [now rewrite K | exact F' |].
    rewrite <- app_assoc in F''. split; [now rewrite K', K | exact F''].
Qed.

(** The dict built from the chart: one row of zeros for each code. *)
Lemma trial_balance_rows_of_chart (accounts : list adict) :
  forall d : list (string * tb_row),
    NoDup (keys d) -> Forall (row_ok []) d ->
    let d' := fold_left
                (fun d0 account =>
                   dict_set (a_code account)
                     (mk_tb_row (a_code account) (a_name account) (a_type account) 0 0 0)
                     d0)
                accounts d in
    NoDup (keys d') /\ Forall (row_ok []) d'
    /\ (forall c, In c (keys d') <-> In c (map a_code accounts) \/ In c (keys d)).
Proof.
  induction accounts as [| a tl IH]; intros d N F; cbn [fold_left map].
  - split; [exact N |]. split; [exact F |]. intro c. cbn. intuition.
  - set (row := mk_tb_row (a_code a) (a_name a) (a_type a) 0 0 0).
    destruct (dict_set_keys (a_code a) row d N) as [N1 I1].
    assert (F1 : Forall (row_ok []) (dict_set (a_code a) row d)).
    { clear N N1 I1. induction d as [| [k v] tl' IHd]; cbn [dict_set].
      - constructor; [| constructor]. repeat split; reflexivity.
      - apply Forall_cons_iff in F. destruct F as [Fh Ft].
        destruct (String.eqb k (a_code a)) eqn:E.
        + apply String.eqb_eq in E. subst k. constructor; [| exact Ft].
          repeat split; reflexivity.
        + constructor; [exact Fh | now apply IHd]. }
    destruct (IH _ N1 F1) as (N2 & F2 & I2).
    split; [exact N2 |]. split; [exact F2 |].
    intro c. rewrite I2, I1. cbn. intuition.
Qed.

(** [generate_trial_balance] returns one row for each account code of the
    chart, and no code twice.  The debit total
    of a row is the sum of the amounts of the entries of type debit on its
    code among the transactions looked at, the credit total that of the
    entries of any other type, and the balance is the debit total less
    the credit total.  Entries on a code that is not in the chart are
    left out. *)
Theorem trial_balance_rows (as_of_date : option string) (w : world) :
  let rows := generate_trial_balance as_of_date w in
  let es := flat_map entries_of (as_of as_of_date w) in
  NoDup (map tb_code rows)
  /\ (forall c, In c (map tb_code rows) <-> In c (map a_code (chart_of_accounts w)))
  /\ Forall (fun r =>
               tb_debit_total r == debit_on (tb_code r) es
               /\ tb_credit_total r == credit_on (tb_code r) es
               /\ tb_balance r == tb_debit_total r - tb_credit_total r) rows.
Proof.
  cbv zeta. unfold generate_trial_balance.
  destruct (trial_balance_rows_of_chart (chart_of_accounts w) [])
    as (N0 & F0 & I0); [constructor | constructor |].
  set (d0 := fold_left _ (chart_of_accounts w) []) in *.
  destruct (trial_balance_transactions_ok (as_of as_of_date w) [] d0 N0 F0) as [K F].
  set (d := fold_left _ (as_of as_of_date w) d0) in *.
  cbn [app] in F.
  assert (C : map tb_code
                (map (fun kv : string * tb_row =>
                        mk_tb_row (tb_code (snd kv)) (tb_name (snd kv)) (tb_type (snd kv))
                          (tb_debit_total (snd kv)) (tb_credit_total (snd kv))
                          (tb_debit_total (snd kv) - tb_credit_total (snd kv))) d)
              = keys d).
  { unfold keys. rewrite map_map. apply map_ext_in. intros kv Hkv. cbn.
    rewrite Forall_forall in F. apply (F kv Hkv). }
  rewrite C, K. split; [exact N0 |]. split.
  - intro c. rewrite I0. cbn. intuition.
  - apply Forall_map. apply Forall_forall. intros kv Hkv.
    rewrite Forall_forall in F. destruct (F kv Hkv) as (E & D & Cr).
    cbn [tb_debit_total tb_credit_total tb_balance tb_code]. rewrite E.
    repeat split; [exact D | exact Cr].
Qed.

(** The sum of one column of the dict. *)
Definition total (column : tb_row -> Q) (d : list (string * tb_row)) : Q :=
  Qsum (map (fun kv => column (snd kv)) d).

Lemma total_update (column : tb_row -> Q) (k : string) (f : tb_row -> tb_row)
      (delta : Q) (d : list (string * tb_row)) :
  (forall r, column (f r) == column r + delta) ->
  total column (dict_update k f d)
  == total column d + (if dict_has k d then delta else 0).
Proof.
  intro Hf. unfold total, dict_has.
  induction d as [| [k' v] tl IH]; [cbn; lra |].
  cbn [dict_update existsb fst]. destruct (String.eqb k' k); cbn [orb map snd].
  - rewrite !Qsum_cons, Hf. lra.
  - rewrite !Qsum_cons, IH. lra.
Qed.

Lemma trial_balance_step_keys (d : list (string * tb_row)) (e : entry) :
  keys (trial_balance_step d e) = keys d.
Proof.
  unfold trial_balance_step. destruct (e_account_code e); [| reflexivity].
  destruct (dict_has s d); [| reflexivity].
  destruct (is_debit e); apply dict_update_keys.
Qed.

(** The debit amounts and the other amounts of a list of entries. *)
Definition debits (es : list entry) : Q := Qsum (map amount_of (filter is_debit es)).
Definition credits (es : list entry) : Q :=
  Qsum (map amount_of (filter (fun e => negb (is_debit e)) es)).

(** An entry that names an account of the dict. *)
Definition names_key (d : list (string * tb_row)) (e : entry) : Prop :=
  exists c, e_account_code e = Some c /\ In c (keys d).

Lemma trial_balance_entries_totals (es : list entry) :
  forall d : list (string * tb_row),
    Forall (names_key d) es ->
    let d' := fold_left trial_balance_step es d in
    keys d' = keys d
    /\ total tb_debit_total d' == total tb_debit_total d + debits es
    /\ total tb_credit_total d' == total tb_credit_total d + credits es.
Proof.
  induction es as [| e tl IH]; intros d F; cbn [fold_left].
  - unfold debits, credits, Qsum. cbn. repeat split; lra.
  - apply Forall_cons_iff in F. destruct F as [(c & Ec & Hc) Ft].
    assert (K := trial_balance_step_keys d e).
    destruct (IH (trial_balance_step d e)) as (K' & D & C).
    { apply Forall_forall. intros e' He'. rewrite Forall_forall in Ft.
      destruct (Ft e' He') as (c' & Ec' & Hc'). exists c'. now rewrite K. }
    split; [now rewrite K', K |].
    rewrite D, C. unfold debits, credits. cbn [filter].
    unfold trial_balance_step. rewrite Ec.
    apply dict_has_keys in Hc. rewrite Hc.
    destruct (is_debit e); cbn [negb map]; rewrite ?Qsum_cons.
    + rewrite (total_update tb_debit_total c _ (amount_of e)) by (intro r; cbn; lra).
      rewrite (total_update tb_credit_total c _ 0) by (intro r; cbn; lra).
      rewrite Hc. split; lra.
    + rewrite (total_update tb_debit_total c _ 0) by (intro r; cbn; lra).
      rewrite (total_update tb_credit_total c _ (amount_of e)) by (intro r; cbn; lra).
      rewrite Hc. split; lra.
Qed.

Lemma trial_balance_transactions_totals (ts : list tdict) :
  forall d : list (string * tb_row),
    Forall (fun t => Forall (names_key d) (entries_of t)
                     /\ debits (entries_of t) == credits (entries_of t)) ts ->
    let d' := fold_left
                (fun d0 transaction =>
                   fold_left trial_balance_step (entries_of transaction) d0) ts d in
    total tb_debit_total d' - total tb_credit_total d'
    == total tb_debit_total d - total tb_credit_total d.
Proof.
  induction ts as [| t tl IH]; intros d F; cbn [fold_left]; [reflexivity |].
  apply Forall_cons_iff in F. destruct F as [[Ft Bt] Ftl].
  destruct (trial_balance_entries_totals (entries_of t) d Ft) as (K & D & C).
  rewrite IH.
  - rewrite D, C, Bt. lra.
  - apply Forall_forall. intros t' Ht'. rewrite Forall_forall in Ftl.
    destruct (Ftl t' Ht') as [Fn Bn]. split; [| exact Bn].
    apply Forall_forall. intros e He. rewrite Forall_forall in Fn.
    destruct (Fn e He) as (c & Ec & Hc). exists c. now rewrite K.
Qed.

(** When every entry of the transactions looked at names an account of
    the chart and, in each transaction, the amounts of the debit entries
    add up to the amounts of the other entries, the debit totals of the
    trial balance add up to its credit totals and its balances add up to
    zero. *)
Theorem balanced_entries_give_a_balanced_trial_balance
        (as_of_date : option string) (w : world)
        (Hknown : Forall (fun t =>
                            Forall (fun e => exists c,
                                        e_account_code e = Some c
                                        /\ In c (map a_code (chart_of_accounts w)))
                                   (entries_of t))
                         (as_of as_of_date w))
        (Hbalanced : Forall (fun t => debits (entries_of t) == credits (entries_of t))
                            (as_of as_of_date w)) :
  let rows := generate_trial_balance as_of_date w in
  Qsum (map tb_debit_total rows) == Qsum (map tb_credit_total rows)
  /\ Qsum (map tb_balance rows) == 0.
Proof.
  cbv zeta. unfold generate_trial_balance.
  destruct (trial_balance_rows_of_chart (chart_of_accounts w) [])
    as (N0 & F0 & I0); [constructor | constructor |].
  set (d0 := fold_left _ (chart_of_accounts w) []) in *.
  assert (T := trial_balance_transactions_totals (as_of as_of_date w) d0).
  cbv zeta in T.
  set (d := fold_left _ (as_of as_of_date w) d0) in *.
  assert (Z : total tb_debit_total d0 == 0 /\ total tb_credit_total d0 == 0).
  { clear -F0. unfold total. induction F0 as [| kv tl (_ & D & C) _ [IHd IHc]].
    - split; reflexivity.
    - cbn [map]. rewrite !Qsum_cons, D, C, IHd, IHc. split; reflexivity. }
  destruct Z as [Zd Zc].
  assert (E : total tb_debit_total d - total tb_credit_total d == 0).
  { rewrite T; [rewrite Zd, Zc; reflexivity |].
    apply Forall_forall. intros t Ht.
    rewrite Forall_forall in Hknown, Hbalanced.
    split; [| now apply Hbalanced].
    apply Forall_forall. intros e He. specialize (Hknown t Ht).
    rewrite Forall_forall in Hknown. destruct (Hknown e He) as (c & Ec & Hc).
    exists c. split; [exact Ec |]. apply I0. now left. }
  rewrite !map_map. cbn [tb_debit_total tb_credit_total tb_balance].
  fold (total tb_debit_total d). fold (total tb_credit_total d).
  split; [lra |].
  assert (S : Qsum (map (fun kv : string * tb_row =>
                           tb_debit_total (snd kv) - tb_credit_total (snd kv)) d)
              == total tb_debit_total d - total tb_credit_total d).
  { unfold total. clear. induction d as [| kv tl IH]; [reflexivity |].
    cbn [map]. rewrite !Qsum_cons, IH. lra. }
  rewrite S. exact E.
Qed.

End TrialBalance.

(** A store with one journal dict: 120 debited to the receivable account
    1200, 100 credited to the income account 4000 and 20 to the VAT
    account 2100. *)
Definition journal_120 : world :=
  mk_world
    [mk_tdict (Some (IdInt 1)) (Some "2024-01-15"%string) None None None None None
       (Some "Sales"%string) None None None
       (Some [mk_entry (Some "1200"%string) (Some "debit"%string) (Some 120);
              mk_entry (Some "4000"%string) (Some "credit"%string) (Some 100);
              mk_entry (Some "2100"%string) (Some "credit"%string) (Some 20)])]
    [0%nat] Ledger.default_accounts.

Lemma balanced_entries_give_a_balanced_trial_balance_witness :
  let rows := Database.generate_trial_balance (Some "2024-03-31"%string) journal_120 in
  Qsum (map Database.tb_debit_total rows) == 120
  /\ Qsum (map Database.tb_debit_total rows) == Qsum (map Database.tb_credit_total rows)
  /\ Qsum (map Database.tb_balance rows) == 0.
Proof.
  cbv zeta. split; [vm_compute; reflexivity |].
  apply (balanced_entries_give_a_balanced_trial_balance
           (Some "2024-03-31"%string) journal_120).
  - repeat constructor; eexists; (split; [reflexivity |]); vm_compute; tauto.
  - repeat constructor.
Defined.
